(* ===== verification/_CoqProject ===== *)
-Q . S2P
Prelude.v
Registry.v
Proto.v
IR.v
Attrs.v
Ops.v
Rules.v
Conv.v
Tensor.v
Activations.v
Scaled.v
Index.v
Resize.v
Quant.v
Training.v
Vision.v
Aten.v
CumSum.v
Random.v
Rnn.v
Scope.v
ControlFlow.v
Importer.v
Scenarios.v
