(* ===== verification/Prelude.v ===== *)
(** * A verification development of the ONNX importer of TVM's Relay

    The program is [python/tvm/relay/frontend/onnx.py] (the ONNX frontend
    of TVM's Relay compiler).  Its parts, and how they interact:
    - the versioned registry [OnnxOpConverter.get_converter] (lines
      217-241) picks, for the requested opset, one [_impl_v<k>] rule of an
      operator class;
    - [_get_convert_map] (lines 4307-4497) maps each ONNX operator to a
      class resolved by the registry, a [Renamer] or an [AttrCvt];
    - the conversion scope [GraphProto] (lines 4500-4812) imports one graph:
      it registers initializers and inputs, checks the user's shapes and,
      once, the operators the map lacks, parses each node's attributes
      ([_parse_attr]), converts the nodes in order through
      [_convert_operator], reconciles the number of outputs, and assembles
      the Relay function;
    - the control-flow rules [If] and [Loop] (lines 2972-3198) import their
      embedded graphs in child scopes, through [GraphProto.from_onnx]
      again, and merge what they produced into the enclosing scope;
    - the module-level [from_onnx] (lines 4815-4907) picks the opset and
      runs the outermost scope.

    Files, in dependency order, and what they model:
    - [Prelude] (this file): Python exceptions ([py_error]), the result
      monad in which fallible code is written ([let*] in [onnx_scope]),
      Python's insertion-ordered [dict] as [odict] (assignment appends or
      updates in place), and the shared lemmas, hints and tactics.
    - [Registry] (MathComp): [get_converter] over the list of implemented
      versions, with Python's [versions[j - 1]] wrap-around at [j = 0],
      and the spec's contract [resolve_spec] (section 4.1).
    - [Proto]: the ONNX protobuf messages (spec section 6) as inductive
      types, [get_type], [get_info], and the nesting depth of subgraphs.
    - [IR]: the part of Relay the importer builds (outside the sources,
      modelled from the spec): expressions, [free_vars], an evaluator
      [eval] with fuel and a type inference [infer].
    - [Attrs]: [_parse_attr] and the attribute helpers ([get_pad_pair],
      [dimension_picker], the layout helpers, ...).
    - [Ops]: [_get_convert_map] transcribed in full, [Renamer] and [AttrCvt]
      (in frontend/common.py, modelled from spec section 4.2), the rules of
      the operator classes the development models, and the typeclass
      [OpOracle] for rules outside the model, whose semantics the spec
      leaves out of scope: every class of the convert map now has a rule
      in the model, and every theorem on the importer holds for any
      oracle.
    - [Rules]: further operator rules: [Shape], the reductions, [ArgMax],
      [ArgMin], [Softmax], [LogSoftmax], [Hardmax] (opsets 1 and 13), [Cast],
      [Unsqueeze], [Squeeze], [Split], [Gather], [Where],
      [ConstantOfShape], [Flatten], [Reshape] and [Clip].
    - [Conv]: [AveragePool] and [MaxPool] ([Pool._impl_v1]), [autopad],
      [Conv._impl_v1] and [ConvTranspose] (opsets 1 and 11), with
      [AttrCvt]'s callable operator name ([dimension_picker]) and its
      custom check.
    - [Tensor]: [Slice] (opsets 1 and 10), [Pad] (1, 2, 11), [Expand],
      [Gemm] and [MatMul], with Python's list indexing (negative indices, [IndexError])
      written out.
    - [Activations]: the rules written as Relay arithmetic on their input
      ([Elu], [Scale], [Softplus], [Celu], [Pow], [Mod], [Prelu], ...),
      the global pools, [DepthToSpace], [SpaceToDepth], [BatchNorm] and
      [InstanceNorm].
    - [Scaled]: the rules whose constants are floats that are not
      integers ([Selu], [Shrink], [HardSigmoid], [LRN], [LpPool],
      [GlobalLpPool]); such a constant is an exact ratio ([IR.VReal],
      [IR.real_const]).
    - [Index]: the indexing, search and sequence rules ([GatherElements],
      [GatherND], [Compress], [Scatter], [ScatterND], [EyeLike], [OneHot],
      [NonZero], [ReverseSequence], [TopK], [Range], [BitShift], [Unique],
      [Einsum]).
    - [Resize]: [Upsample] (opset 9) and [Resize] (opsets 10, 11, 13).
    - [Quant]: the quantized operators written with Relay's [qnn]
      dialect ([QuantizeLinear], [DequantizeLinear],
      [DynamicQuantizeLinear], [QLinearConv], [ConvInteger],
      [QLinearAdd], [QLinearMul], [QLinearMatMul], [QLinearLeakyRelu],
      [QLinearSigmoid], [QLinearConcat], [QLinearAveragePool],
      [QLinearGlobalAveragePool]) and the helper [get_scalar].
    - [Training]: the losses [NegativeLogLikelihoodLoss] and
      [SoftmaxCrossEntropyLoss] and the optimizers [Adagrad], [Adam] and
      [Momentum].
    - [Vision]: [MaxUnpool], [MaxRoiPool], [RoiAlign] and
      [NonMaxSuppression].
    - [Aten]: the PyTorch fallback [ATen] ([size], [arange],
      [index_put] with its unfolding of indices, [reshape],
      [embedding_bag]).
    - [CumSum]: [CumSum] with [infer_value] (frontend/common.py) as the
      evaluator on the parameters.
    - [Random]: [RandomUniform], [RandomNormal] and [RandomNormalLike],
      parameterised by the seed numpy draws ([Random.NpRandom]).
    - [Rnn]: [LSTM] and [GRU], parameterised by the cells of
      frontend/common.py ([RnnCells]).
    - [Scope]: the state of [GraphProto] as the record [gstate], the
      steps of [GraphProto.from_onnx] that do not recurse, the child
      scopes of [If] and [Loop] bodies, the well-formedness invariant
      [scope_wf] and the record [closed] of the properties every change
      of the scope keeps.
    - [ControlFlow]: [If._impl_v1] and [Loop._impl_v11], parameterised by
      the importer of subgraphs; [GraphProto.current] becomes an explicit
      scope argument (spec section 9).
    - [Importer]: [_convert_operator] (the convert map, then the rules of
      [Ops], [Rules], [Conv], [Tensor], [Activations], [Index],
      [Resize], [Quant], [Training], [Vision], [Aten], [CumSum], [Random],
      [Rnn] and [Scaled] through [modelled_rule], then the oracle), the recursive
      [GraphProto.from_onnx] with fuel, and the module-level [from_onnx].
    - [Scenarios]: whole models of spec section 8, imported and evaluated.

    The theorems, by group:
    - registry: [get_converter] refines [resolve_spec] whenever a rule not
      above the opset exists; below every version it returns the newest
      rule instead of failing (a divergence from the spec); a class with no
      rule always raises;
    - importer: output-arity reconciliation binds exactly the non-empty
      output names; unsupported operators are all reported, once each,
      before any node is converted; parameter freezing round-trips; fuel at
      least the nesting depth gives the result of any larger fuel;
    - the scope invariant: every import from a well-formed scope (unique
      keys in [_nodes], [_params], [_inputs]; parameters and inputs bound
      in [_nodes]; inputs bound to the variables of their names;
      [_input_names] distinct and counted by [_num_input]) leaves a
      well-formed scope, through nested [If] and [Loop] bodies
      ([Importer.convert_graph_wf], by induction on the fuel over the
      steps' preservation lemmas); hence every registered input is a
      parameter of the Relay function, used or not (against the spec's
      pruning of dead inputs);
    - control flow: [If] selects the right branch; free variables of a
      [Loop] body become parameters; a [Loop] with its trip count or condition omitted
      fails (a divergence from the spec); the [while_loop] of a [Loop]
      with a trip count, built from [cond_fn] and the body [body_fn]
      returns, exits within [max_count - i] passes whatever the loop
      body computes for the other loop variables
      ([ControlFlow.loop_trip_count_exits], a liveness property proved by
      induction on [max_count - i]);
    - operators and attributes: the convert map is total at every opset;
      [Or] below opset 7 raises; attribute parsing, its errors, and the
      acceptance of two scalar fields (a divergence); padding bounds;
    - operator rules: softmax axes stay in range; [Hardmax]'s axis;
      [Split]'s arity; [Unsqueeze] does not depend on the order of its
      axes; [Gather] normalises a constant negative index; the reductions
      from opset 12 reduce over the first listed axis only and [Clip]-11
      can drop a bound (two bugs); [Hardmax]-1 coerces a static input to
      the matrix of the extents before and from the axis, its shape
      folded to constants;
    - pooling and convolution: the SAME pads of an average pool; a 1-d
      convolution without [group] goes through [conv2d] (against the
      comment); an unknown [auto_pad] is rejected; [ConvTranspose]-11's
      SAME padding raises without [strides] (a bug) and puts the larger
      half first for SAME_UPPER;
    - tensors: [Slice._common] refines "last assignment wins"; static
      [Slice]-10 is one [strided_slice]; [Pad]-2 pairs the halves of
      [pads]; [Gemm] is a [dense]; [Expand] to a target of lower rank is
      ill typed, because its padding branch is dead (a bug); [Pad]-1 always
      raises (a bug, [Tensor.pad_v1_fails]); [MatMul] of a static batch
      folds its computed shapes into static [reshape]s and has the type
      [[B; M; N]] ([Tensor.matmul_batch_static]);
    - activations: the rules that mix a [float32] constant into their
      input type-check exactly on [float32] inputs (a bug for [float16]
      and [float64]), those that build constants in the input's type on
      every type; [Pow] of an integer base computes in [float32];
    - non-integral constants: [Shrink] on integers computes the ONNX
      function although its threshold [0.5] is truncated to [0]; [Selu]
      and [HardSigmoid] type-check on [float32] only; [LpPool] computes
      [(|avg_pool(x ^ p)| * prod k) ^ (1 / p)], which is not ONNX's
      [(sum |x| ^ p) ^ (1 / p)] for odd [p], raises on [p = 0], and its
      SAME padding raises without [strides] (bugs);
    - indexing: [EyeLike] scatters ones at [(i, i + k)] for all rows,
      inside the output exactly when [0 <= k] and [rows + k <= cols] (a
      bug otherwise); [BitShift] needs an explicit direction (its
      default cannot be decoded, a bug);
    - resizing: with a computed scales tensor a 4-d [Upsample] scales the
      height by the width's factor (a bug); [Resize] and [Upsample] fail
      without a [mode] attribute, whose ONNX default is [nearest] (a bug);
    - quantization: [QuantizeLinear] and [DequantizeLinear] require the
      zero point ONNX makes optional (a bug); [QLinearConv] with SAME
      padding converts only when its input zero point is a parameter,
      since it reads [.data] of the cast [get_scalar] returns otherwise
      (a bug);
    - training: [Adagrad] and [Momentum] return the updated tensors and
      then their accumulators, each the update ONNX defines; the two
      losses are well typed for every ONNX reduction; [ignore_index]
      fails on a target that is not a graph input (a bug); [Adam] returns
      the updated tensors, then the two accumulators, with the default
      [epsilon] of [1e-2] where ONNX's is [0];
      [SoftmaxCrossEntropyLoss] treats an unknown reduction as [none]
      where [NegativeLogLikelihoodLoss] rejects it;
    - vision: [MaxUnpool]'s output shape, computed by the evaluator,
      subtracts the ONNX pads paired across axes (a bug);
      [NonMaxSuppression] requires its optional
      [max_output_boxes_per_class] input;
    - [ATen]: the unfolded indices of [index_put] enumerate the cartesian
      product of the index vectors in row-major order, the order of the
      flattened values; a node without [operator] raises [AttributeError]
      before the assertion meant to report it;
    - [CumSum] of a vector evaluates to ONNX's running sums for every
      [exclusive] and [reverse];
    - [RandomNormal] accepts [float64] but is ill typed for it, its
      Box-Muller constants being [float32] (a bug);
    - recurrence: the activations receive [activation_alpha] and
      [activation_beta] in order; [LSTM] and [GRU] ignore [direction],
      [clip], [input_forget], [layout] and [sequence_lens], so a
      [reverse] network runs forward (a bug).

    Fuel and bounds.  [Importer.convert_graph] recurses through [If] and
    [Loop] bodies with a fuel that decreases at each nesting level; the
    theorem [convert_graph_fuel_enough] shows that any fuel at least
    [Proto.graph_depth] of the graph gives the same result: the fuel
    never cuts a real import short.  The scenarios use fuel 5 for graphs of
    depth 2.  [IR.eval] runs Relay loops with fuel; the scenarios use 100,
    above what the five iterations of their loop need, and their theorems state the
    value computed; [IR.eval_fuel_mono] shows that more fuel never changes
    a value the evaluator reached; [ControlFlow.loop_trip_count_exits]
    gives the fuel a counted [Loop] needs: [max_count - i] passes plus
    a constant for the test and the body.  Tensor elements are unbounded integers ([Z]): the
    importer never computes on tensor data, and the evaluator only serves
    the scenarios, whose values stay small.

    Floats.  A float attribute of a node is an integer of the model
    ([Attrs.AFloat]); a float literal of the code that is not an integer
    is its exact ratio ([Attrs.ARatio], [IR.VReal]), as the decimal
    literal reads ([2.0 * np.pi] as the exact binary64 value), and
    Python's rounding of [1 - 0.9] is not modelled.  The evaluator
    computes on integers and does not reduce a [VReal].

    Not modelled: the recurrent cells [lstm_cell] and [gru_cell] and [unbind] of
    frontend/common.py (the class [Rnn.RnnCells]);
    [fold_constant] beyond closed expressions the evaluator computes
    ([IR.fold_constant]); [onnx.checker.check_model],
    which only warns; Relay's type checker beyond the operators the
    importer's rules build; the helpers [_broadcast_constraint],
    [_fully_connected] and [GraphProto.freeze], which nothing in the file
    calls; and the Hexagon scheduling test under tests/, which the spec
    calls unrelated. *)

From Stdlib Require Import String List Bool Arith Lia.
Import ListNotations.

Declare Scope onnx_scope.
Delimit Scope onnx_scope with onnx.
Create HintDb onnx.
Create Rewrite HintDb onnx_rw.

(** ** Exceptions *)

(** The exceptions of the importer, by the class the code raises. *)
Inductive py_error : Type :=
| ValueError (msg : string)
| AssertionError (msg : string)
| KeyError (key : string)
| IndexError (msg : string)
| NotImplementedError (msg : string)
| OpNotImplemented (ops : list string)
| OpAttributeInvalid (msg : string)
| OpAttributeRequired (msg : string)
| TypeInferenceError (msg : string)
| TypeError (msg : string)
| ZeroDivisionError
| AttributeConflict (key : string)
| RuntimeError (msg : string)
| AttributeError (msg : string)
| OutOfFuel.

(** [NotImplementedError("opset version {} of {} not implemented")]. *)
Definition opset_not_implemented : py_error :=
  NotImplementedError "opset version not implemented".

Inductive result (A : Type) : Type :=
| Ok (a : A)
| Err (e : py_error).
Arguments Ok {A} a.
Arguments Err {A} e.

Definition bind {A B : Type} (r : result A) (k : A -> result B) : result B :=
  match r with
  | Ok a => k a
  | Err e => Err e
  end.

Notation "'let*' x ':=' c 'in' k" := (bind c (fun x => k))
  (at level 10, x name, c at level 100, k at level 200) : onnx_scope.
Notation "'let*' ' p ':=' c 'in' k" := (bind c (fun x => match x with p => k end))
  (at level 10, p pattern, c at level 100, k at level 200) : onnx_scope.

Open Scope onnx_scope.

(** [assert cond, msg]. *)
Definition py_assert (b : bool) (msg : string) : result unit :=
  if b then Ok tt else Err (AssertionError msg).

Definition of_option {A : Type} (e : py_error) (o : option A) : result A :=
  match o with
  | Some a => Ok a
  | None => Err e
  end.

(** [[f(x) for x in xs]] where [f] may raise: the first exception wins. *)
Fixpoint mapM {A B : Type} (f : A -> result B) (xs : list A) : result (list B) :=
  match xs with
  | [] => Ok []
  | x :: xs' => let* y := f x in let* ys := mapM f xs' in Ok (y :: ys)
  end.

(** A [for] loop over [xs] threading a state that a body may fail on. *)
Fixpoint foldM {A S : Type} (f : S -> A -> result S) (s : S) (xs : list A) : result S :=
  match xs with
  | [] => Ok s
  | x :: xs' => let* s' := f s x in foldM f s' xs'
  end.

Lemma bind_Ok {A B : Type} (c : result A) (k : A -> result B) (b : B) :
  bind c k = Ok b -> exists a, c = Ok a /\ k a = Ok b.
Proof. destruct c as [a|e]; simpl; [eauto | discriminate]. Qed.

Lemma bind_Err {A B : Type} (c : result A) (k : A -> result B) (e : py_error) :
  c = Err e -> bind c k = Err e.
Proof. intros ->. reflexivity. Qed.

(** The monad law the nested binds of the rules need. *)
Lemma bind_assoc {A B C : Type} (c : result A) (f : A -> result B) (g : B -> result C) :
  bind (bind c f) g = bind c (fun a => bind (f a) g).
Proof. now destruct c. Qed.

Lemma bind_of_Ok {A B : Type} (a : A) (k : A -> result B) : bind (Ok a) k = k a.
Proof. reflexivity. Qed.

Lemma mapM_length {A B : Type} (f : A -> result B) xs ys :
  mapM f xs = Ok ys -> length ys = length xs.
Proof.
  revert ys; induction xs as [|x xs IH]; simpl; intros ys H.
  - now inversion H.
  - apply bind_Ok in H as (y & _ & H). apply bind_Ok in H as (ys' & Hys & H).
    inversion H; subst. simpl. now rewrite (IH _ Hys).
Qed.

Lemma mapM_Ok_map {A B : Type} (f : A -> B) xs :
  mapM (fun x => Ok (f x)) xs = Ok (map f xs).
Proof. induction xs as [|x xs IH]; simpl; [reflexivity | now rewrite IH]. Qed.

Lemma foldM_app {A S : Type} (f : S -> A -> result S) s xs ys :
  foldM f s (xs ++ ys) = bind (foldM f s xs) (fun s' => foldM f s' ys).
Proof.
  revert s; induction xs as [|x xs IH]; intros s; simpl; [reflexivity|].
  destruct (f s x); simpl; [apply IH | reflexivity].
Qed.

#[export] Hint Rewrite @bind_of_Ok @mapM_Ok_map : onnx_rw.

(** Congruence of the monad in its continuation, pointwise. *)
Lemma bind_ext {A B : Type} (c : result A) (k1 k2 : A -> result B) :
  (forall a, c = Ok a -> k1 a = k2 a) -> bind c k1 = bind c k2.
Proof. destruct c as [a|e]; simpl; [auto | reflexivity]. Qed.

Lemma foldM_ext {A S : Type} (f g : S -> A -> result S) s xs :
  (forall s x, In x xs -> f s x = g s x) -> foldM f s xs = foldM g s xs.
Proof.
  revert s; induction xs as [|x xs IH]; intros s H; simpl; [reflexivity|].
  rewrite H by (left; reflexivity). apply bind_ext. intros a _.
  apply IH. intros; apply H; now right.
Qed.

Lemma le_fold_max {A : Type} (f : A -> nat) (x : A) (l : list A) :
  In x l -> f x <= fold_right Nat.max 0 (map f l).
Proof. induction l as [|y l IH]; simpl; [tauto | intros [->|H]; [lia | specialize (IH H); lia]]. Qed.

Lemma length_removelast {A : Type} (l : list A) : length (removelast l) = length l - 1.
Proof. rewrite removelast_firstn_len, length_firstn. lia. Qed.

(** A [mapM] whose body succeeds on every element is a [map]. *)
Lemma mapM_In_Ok {A B : Type} (f : A -> result B) (g : A -> B) xs :
  (forall x, In x xs -> f x = Ok (g x)) -> mapM f xs = Ok (map g xs).
Proof.
  induction xs as [|x xs IH]; intros H; simpl; [reflexivity|].
  rewrite H by (left; reflexivity). simpl. rewrite IH by (intros; apply H; now right).
  reflexivity.
Qed.

Lemma mapM_map_Ok {A B C : Type} (f : B -> result C) (h : A -> B) (g : A -> C) xs :
  (forall x, In x xs -> f (h x) = Ok (g x)) -> mapM f (map h xs) = Ok (map g xs).
Proof.
  induction xs as [|x xs IH]; intros H; simpl; [reflexivity|].
  rewrite H by (left; reflexivity). simpl. rewrite IH by (intros; apply H; now right).
  reflexivity.
Qed.

Lemma nth_map_seq {A : Type} (f : nat -> A) (k i : nat) (d : A) :
  i < k -> nth i (map f (seq 0 k)) d = f i.
Proof.
  intros Hi. rewrite (nth_indep _ d (f 0)) by (rewrite length_map, length_seq; lia).
  rewrite map_nth, seq_nth by lia. reflexivity.
Qed.

(** Split a hypothesis [bind c k = Ok b] into its two steps. *)
Ltac bind_ok H :=
  let a := fresh "a" in let Ha := fresh "Hc" in
  apply bind_Ok in H; destruct H as (a & Ha & H).

Ltac inv H := inversion H; subst; clear H.

(** Split every step of a computation that succeeded, pairs included. *)
Ltac ok_steps H :=
  repeat (bind_ok H; try match goal with p : (_ * _)%type |- _ => destruct p end).

(** Replay in the goal the steps that hypotheses say succeeded. *)
Ltac replay_ok :=
  repeat match goal with
         | H : ?c = Ok _ |- context [bind ?c _] => rewrite H; cbn [bind]
         end.

(** A property of the state kept by every step is kept by the loop. *)
Lemma foldM_invariant {A S : Type} (P : S -> Prop) (f : S -> A -> result S) :
  (forall s x s', P s -> f s x = Ok s' -> P s') ->
  forall xs s s', P s -> foldM f s xs = Ok s' -> P s'.
Proof.
  intros Hf xs. induction xs as [|x xs IH]; simpl; intros s s' Hs H; [now inv H|].
  bind_ok H. eauto.
Qed.

(** Case on a string comparison the way the code tests it. *)
Ltac case_str a b :=
  destruct (String.eqb_spec a b); subst.

(** ** Strings *)

(** [pat in s] for two Python strings. *)
Fixpoint str_contains (pat s : string) : bool :=
  String.prefix pat s ||
  match s with
  | EmptyString => false
  | String _ s' => str_contains pat s'
  end.

(** ** Python dictionaries *)

Section ODict.
Context {V : Type}.

Definition odict := list (string * V).

Fixpoint od_get (k : string) (d : odict) : option V :=
  match d with
  | [] => None
  | (k', v) :: d' => if String.eqb k k' then Some v else od_get k d'
  end.

(** [d[k] = v]: overwrite in place, or append a new key. *)
Fixpoint od_set (k : string) (v : V) (d : odict) : odict :=
  match d with
  | [] => [(k, v)]
  | (k', v') :: d' =>
      if String.eqb k k' then (k, v) :: d' else (k', v') :: od_set k v d'
  end.

(** [del d[k]] on a key that is present. *)
Fixpoint od_del (k : string) (d : odict) : odict :=
  match d with
  | [] => []
  | (k', v') :: d' => if String.eqb k k' then d' else (k', v') :: od_del k d'
  end.

Definition od_mem (k : string) (d : odict) : bool :=
  match od_get k d with Some _ => true | None => false end.

Definition od_keys (d : odict) : list string := map fst d.

(** [d[k]]: a missing key raises [KeyError]. *)
Definition od_find (k : string) (d : odict) : result V :=
  of_option (KeyError k) (od_get k d).

(** [d.pop(k)]. *)
Definition od_pop (k : string) (d : odict) : result (V * odict) :=
  let* v := od_find k d in Ok (v, od_del k d).

(** [d.update(e)]: assignments in [e]'s order. *)
Definition od_update (d e : odict) : odict :=
  fold_left (fun acc kv => od_set (fst kv) (snd kv) acc) e d.

Lemma od_get_set_eq k v d : od_get k (od_set k v d) = Some v.
Proof.
  induction d as [|[k' v'] d IH]; simpl; [now rewrite String.eqb_refl|].
  case_str k k'; simpl; [now rewrite String.eqb_refl|].
  apply String.eqb_neq in n. now rewrite n.
Qed.

Lemma od_get_set_ne k k' v d :
  k <> k' -> od_get k' (od_set k v d) = od_get k' d.
Proof.
  intros Hne. induction d as [|[k0 v0] d IH]; simpl.
  - destruct (String.eqb_spec k' k); congruence.
  - case_str k k0; simpl.
    + destruct (String.eqb_spec k' k0); congruence.
    + now rewrite IH.
Qed.

Lemma od_get_set k k' v d :
  od_get k' (od_set k v d) = if String.eqb k' k then Some v else od_get k' d.
Proof.
  case_str k' k; [apply od_get_set_eq|].
  apply od_get_set_ne. congruence.
Qed.

Lemma od_get_In k v d : od_get k d = Some v -> In (k, v) d.
Proof.
  induction d as [|[k' v'] d IH]; simpl; [discriminate|].
  case_str k k'; [intros H; inv H; now left | intros H; right; auto].
Qed.

Lemma od_set_In k v d kv : In kv (od_set k v d) -> kv = (k, v) \/ In kv d.
Proof.
  induction d as [|[k' v'] d IH]; simpl; [intros [<-|[]]; auto|].
  case_str k k'; simpl; [intuition | intros [<-|H]; [auto | destruct (IH H); auto]].
Qed.

Lemma od_get_None k d : od_get k d = None <-> ~ In k (od_keys d).
Proof.
  induction d as [|[k' v'] d IH]; simpl; [tauto|].
  case_str k k'; [split; [discriminate | intros H; exfalso; now apply H; left]|].
  rewrite IH. intuition.
Qed.

Lemma od_keys_get k d : In k (od_keys d) -> exists v, od_get k d = Some v.
Proof.
  intros Hk. destruct (od_get k d) eqn:Hg; [eauto|]. now apply od_get_None in Hg.
Qed.

Lemma od_keys_set_in k v d :
  In k (od_keys d) -> od_keys (od_set k v d) = od_keys d.
Proof.
  induction d as [|[k' v'] d IH]; simpl; [tauto|].
  case_str k k'; simpl; [reflexivity|].
  intros [H|H]; [congruence | now rewrite IH].
Qed.

Lemma od_keys_set_notin k v d :
  ~ In k (od_keys d) -> od_keys (od_set k v d) = od_keys d ++ [k].
Proof.
  induction d as [|[k' v'] d IH]; simpl; [reflexivity|].
  case_str k k'; simpl; [tauto|].
  intros H. rewrite IH; [reflexivity | tauto].
Qed.

Lemma od_set_notin_app k v d :
  ~ In k (od_keys d) -> od_set k v d = d ++ [(k, v)].
Proof.
  induction d as [|[k' v'] d IH]; simpl; [reflexivity|].
  case_str k k'; [tauto|]. intros H. rewrite IH; [reflexivity | tauto].
Qed.

Lemma od_mem_set_eq k v d : od_mem k (od_set k v d) = true.
Proof. unfold od_mem. now rewrite od_get_set_eq. Qed.

Lemma od_mem_set_ne k k' v d : k <> k' -> od_mem k' (od_set k v d) = od_mem k' d.
Proof. intros H. unfold od_mem. now rewrite od_get_set_ne. Qed.

Lemma od_get_del_ne k k' d : k <> k' -> od_get k' (od_del k d) = od_get k' d.
Proof.
  intros Hne. induction d as [|[k0 v0] d IH]; simpl; [reflexivity|].
  case_str k k0; simpl.
  - apply String.eqb_neq in Hne. rewrite String.eqb_sym, Hne. reflexivity.
  - destruct (String.eqb k' k0); [reflexivity | exact IH].
Qed.

Lemma od_mem_false k d : ~ In k (od_keys d) -> od_mem k d = false.
Proof. intros H. unfold od_mem. now rewrite (proj2 (od_get_None k d) H). Qed.

Lemma od_mem_notin k d : od_mem k d = false -> ~ In k (od_keys d).
Proof.
  unfold od_mem. destruct (od_get k d) eqn:Hg; [discriminate|]. intros _. now apply od_get_None.
Qed.

Lemma od_set_NoDup k v d :
  NoDup (od_keys d) -> NoDup (od_keys (od_set k v d)).
Proof.
  intros Hnd. destruct (in_dec String.string_dec k (od_keys d)) as [Hin|Hin].
  - now rewrite od_keys_set_in.
  - rewrite od_keys_set_notin by exact Hin.
    apply NoDup_app; auto using NoDup_cons, NoDup_nil.
    intros x Hx [Hy|[]]; subst; contradiction.
Qed.

Lemma od_mem_get k d : od_mem k d = true <-> exists v, od_get k d = Some v.
Proof.
  unfold od_mem; destruct (od_get k d); split; intros H;
    [eauto | reflexivity | discriminate | now destruct H].
Qed.

Lemma od_get_update_notin k d e :
  ~ In k (od_keys e) -> od_get k (od_update d e) = od_get k d.
Proof.
  revert d; induction e as [|[k' v'] e IH]; intros d Hk; simpl; [reflexivity|].
  simpl in Hk. rewrite IH by tauto. apply od_get_set_ne. intuition.
Qed.

Lemma od_get_update_in k d e v :
  NoDup (od_keys e) -> od_get k e = Some v -> od_get k (od_update d e) = Some v.
Proof.
  revert d; induction e as [|[k' v'] e IH]; intros d Hnd; simpl; [discriminate|].
  simpl in Hnd. inversion Hnd as [|? ? Hk' Hnd']; subst.
  case_str k k'.
  - intros H; inv H. rewrite od_get_update_notin by exact Hk'. apply od_get_set_eq.
  - intros H. now apply IH.
Qed.

Lemma od_keys_set k v d x :
  In x (od_keys (od_set k v d)) <-> k = x \/ In x (od_keys d).
Proof.
  induction d as [|[k' v'] d IH]; simpl; [tauto|].
  case_str k k'; simpl; [tauto|]. rewrite IH. tauto.
Qed.

(** A property of every entry survives an assignment that has it. *)
Lemma od_get_set_forall (P : string -> V -> Prop) k v d :
  (forall k' v', od_get k' d = Some v' -> P k' v') -> P k v ->
  forall k' v', od_get k' (od_set k v d) = Some v' -> P k' v'.
Proof.
  intros Hd Hkv k' v'. rewrite od_get_set. case_str k' k; [intros E; now inv E | apply Hd].
Qed.

Lemma od_del_keys k d x : In x (od_keys (od_del k d)) -> In x (od_keys d).
Proof.
  induction d as [|[k' v'] d IH]; simpl; [tauto|].
  case_str k k'; simpl; tauto.
Qed.

Lemma od_del_NoDup k d : NoDup (od_keys d) -> NoDup (od_keys (od_del k d)).
Proof.
  induction d as [|[k' v'] d IH]; simpl; intros Hnd; [exact Hnd|].
  inversion Hnd as [|? ? Hk Hnd']; subst.
  case_str k k'; simpl; [exact Hnd'|].
  constructor; [intros H; apply Hk, (od_del_keys k) , H | exact (IH Hnd')].
Qed.

Lemma od_pop_keys k d v d' :
  od_pop k d = Ok (v, d') ->
  (forall x, In x (od_keys d') -> In x (od_keys d)) /\
  (NoDup (od_keys d) -> NoDup (od_keys d')).
Proof.
  unfold od_pop, od_find. destruct (od_get k d); simpl; intros H; inv H.
  split; [apply od_del_keys | apply od_del_NoDup].
Qed.

(** A loop [for a in l: d[f(a)] = g(a)]: its keys and their uniqueness. *)
Lemma od_fold_set_keys {A : Type} (f : A -> string) (g : A -> V) l d x :
  In x (od_keys (fold_left (fun acc a => od_set (f a) (g a) acc) l d)) <->
  In x (od_keys d) \/ In x (map f l).
Proof.
  revert d; induction l as [|a l IH]; intros d; simpl; [tauto|].
  rewrite IH, od_keys_set. tauto.
Qed.

Lemma od_fold_set_NoDup {A : Type} (f : A -> string) (g : A -> V) l d :
  NoDup (od_keys d) -> NoDup (od_keys (fold_left (fun acc a => od_set (f a) (g a) acc) l d)).
Proof.
  revert d; induction l as [|a l IH]; intros d Hd; simpl; [exact Hd|].
  apply IH, od_set_NoDup, Hd.
Qed.

Lemma od_update_keys d e x :
  In x (od_keys (od_update d e)) <-> In x (od_keys d) \/ In x (od_keys e).
Proof. apply (od_fold_set_keys fst snd). Qed.

Lemma od_update_NoDup d e : NoDup (od_keys d) -> NoDup (od_keys (od_update d e)).
Proof. apply (od_fold_set_NoDup fst snd). Qed.

(** The keys of [dict(zip(names, values))] are a prefix of [names]. *)
Lemma NoDup_combine_keys (l : list string) (vs : list V) :
  NoDup l -> NoDup (od_keys (combine l vs)).
Proof.
  revert vs; induction l as [|k l IH]; intros [|v vs] Hnd; simpl; try now constructor.
  inv Hnd. constructor; [|now apply IH].
  intros Hin. apply in_map_iff in Hin as [[k' v'] [Hk Hkv]]. simpl in Hk; subst.
  apply in_combine_l in Hkv. contradiction.
Qed.

End ODict.

Arguments odict : clear implicits.

(** A dict comprehension [{k: g(v) for k, v in d.items()}] where [g]
    may raise. *)
Definition od_mapM {V W : Type} (g : V -> result W) (d : odict V) : result (odict W) :=
  mapM (fun kv => let* x := g (snd kv) in Ok (fst kv, x)) d.

Lemma od_mapM_get {V W : Type} (g : V -> result W) (d : odict V) (m : odict W) :
  od_mapM g d = Ok m ->
  od_keys m = od_keys d /\
  forall k v, od_get k d = Some v -> exists x, g v = Ok x /\ od_get k m = Some x.
Proof.
  unfold od_mapM. revert m; induction d as [|[k' v'] d IH]; intros m H; simpl in H.
  - inv H. split; [reflexivity | discriminate].
  - bind_ok H. bind_ok H. inv H. bind_ok Hc. inv Hc. simpl.
    destruct (IH _ Hc0) as [Hk Hg].
    split; [now rewrite Hk|]. intros k v. simpl.
    destruct (String.eqb_spec k k') as [->|Hne]; [intros E; inv E; eauto | apply Hg].
Qed.

Lemma od_mapM_total {V W : Type} (g : V -> result W) (d : odict V) :
  (forall kv, In kv d -> exists x, g (snd kv) = Ok x) ->
  exists m, od_mapM g d = Ok m.
Proof.
  unfold od_mapM. induction d as [|kv d IH]; intros H; simpl; [eauto|].
  destruct (H kv (or_introl eq_refl)) as [x Hx]. rewrite Hx; simpl.
  destruct (IH (fun kv' Hin => H kv' (or_intror Hin))) as [m Hm]. rewrite Hm. simpl. eauto.
Qed.

(** Membership only depends on the keys. *)
Lemma od_mem_keys {V W : Type} (d : odict V) (e : odict W) (k : string) :
  od_keys d = od_keys e -> od_mem k d = od_mem k e.
Proof.
  unfold od_mem, od_keys. revert e; induction d as [|[k1 v1] d IH]; intros [|[k2 v2] e] H;
    simpl in H; try discriminate; [reflexivity|].
  inv H. simpl. destruct (String.eqb k k2); [reflexivity | now apply IH].
Qed.

#[export] Hint Rewrite @od_get_set_eq @od_get_set @od_mem_set_eq : onnx_rw.
#[export] Hint Resolve od_set_NoDup od_del_NoDup od_update_NoDup od_fold_set_NoDup : onnx.
