(* ===== verification/Registry.v ===== *)
(** * Registry: the versioned operator registry

    Models [OnnxOpConverter.get_converter] (onnx.py, lines 217-241): an
    operator class holds conversion rules [_impl_v<k>], and for the opset
    requested by the model the registry picks one of them.  The code
    collects the versions [k] of the class (inherited ones included, as
    [dir(cls)] lists them), appends the requested opset, sorts, takes the
    LAST position at which the opset occurs, and reads the element just
    before it with Python indexing, so that position [0] reads index [-1],
    the last element.

    The theorems show that the rule chosen is the largest version not
    above the opset whenever there is one (the contract of the spec, as
    the abstract [resolve_spec]), that an opset below every version
    silently selects the NEWEST rule instead of failing, and that a class
    with no rule raises [NotImplementedError]. *)

From mathcomp Require Import ssreflect ssrfun ssrbool eqtype ssrnat seq path bigop.
From S2P Require Import Prelude.

Set Warnings "-rewrite-rw -notation-overridden".

Set Implicit Arguments.
Unset Strict Implicit.
Unset Printing Implicit Defensive.

Module Registry.

(** [max([i for i, v in enumerate(versions) if v == opset])]. *)
Definition last_index_of (x : nat) (s : seq nat) : nat :=
  foldr maxn 0 [seq i <- iota 0 (size s) | nth 0 s i == x].

Lemma last_index_of_max (x : nat) (s : seq nat) :
  last_index_of x s = \max_(i <- iota 0 (size s) | nth 0 s i == x) i.
Proof. by rewrite /last_index_of foldrE big_filter. Qed.

(** [s[j - 1]] in Python: [j = 0] reads [s[-1]], the last element. *)
Definition py_prev (s : seq nat) (j : nat) : nat :=
  if j is j'.+1 then nth 0 s j' else last 0 s.

(** [OnnxOpConverter.get_converter]: [impls] are the [k] of the class's
    [_impl_v<k>] methods; the result is the version whose method is
    returned. *)
Definition get_converter (impls : seq nat) (opset : nat) : result nat :=
  let versions := sort leq (impls ++ [:: opset]) in
  let version := py_prev versions (last_index_of opset versions) in
  if version \in impls then Ok version
  else Err opset_not_implemented.

(** The contract of the spec (section 4.1): the largest registered version
    not exceeding the request, and no rule when there is none. *)
Definition resolve_spec (impls : seq nat) (opset : nat) : option nat :=
  if has (fun v => v <= opset) impls
  then Some (\max_(v <- impls | v <= opset) v) else None.

(** ** The sorted version list, in closed form *)

Section Versions.
Variable impls : seq nat.
Variable x : nat.

Let u := [seq v <- impls | v <= x].
Let w := [seq v <- impls | ~~ (v <= x)].

Lemma sorted_last_max (a : nat) (s : seq nat) :
  sorted leq (a :: s) -> last a s = \max_(v <- a :: s) v.
Proof.
  elim: s a => [|b s IH] a /=; first by rewrite big_cons big_nil maxn0.
  move=> /andP [Hab Hs]. rewrite (IH b Hs) [in RHS]big_cons.
  apply/esym/maxn_idPr. apply: leq_trans Hab _.
  by rewrite big_cons leq_maxl.
Qed.

Lemma last_sort_max (s : seq nat) : last 0 (sort leq s) = \max_(v <- s) v.
Proof.
  rewrite -(perm_big _ (permEl (perm_sort leq s))).
  case E: (sort leq s) => [|a r] /=; first by rewrite big_nil.
  apply: sorted_last_max. rewrite -E. exact: (sort_sorted leq_total).
Qed.

Definition versions_closed : seq nat := rcons (sort leq u) x ++ sort leq w.

Lemma versions_closed_sorted : sorted leq versions_closed.
Proof.
  rewrite /versions_closed (sorted_pairwise leq_trans) pairwise_cat.
  rewrite -!(sorted_pairwise leq_trans) (sort_sorted leq_total) andbT.
  apply/andP; split.
  - apply/allrelP => a b. rewrite mem_rcons inE !mem_sort !mem_filter.
    move=> Ha /andP [Hb _]. rewrite -ltnNge in Hb. apply: ltnW.
    case/predU1P: Ha => [->|/andP [Ha _]] //. exact: leq_ltn_trans Ha Hb.
  - rewrite -cats1 (sorted_pairwise leq_trans) pairwise_cat /=.
    rewrite -(sorted_pairwise leq_trans) (sort_sorted leq_total) !andbT.
    apply/allrelP => a b. rewrite mem_sort mem_filter inE.
    by move=> /andP [Ha _] /eqP ->.
Qed.

Lemma versions_closed_perm : perm_eq versions_closed (impls ++ [:: x]).
Proof.
  rewrite /versions_closed -cats1. apply/permP => p.
  rewrite !count_cat !(permP (permEl (perm_sort leq _))).
  rewrite -(permP (permEl (perm_filterC (fun v => v <= x) impls))) count_cat.
  by rewrite addnAC.
Qed.

Lemma sort_versions : sort leq (impls ++ [:: x]) = versions_closed.
Proof.
  apply: (sorted_eq leq_trans anti_leq).
  - exact: (sort_sorted leq_total).
  - exact: versions_closed_sorted.
  - apply: perm_trans (permEl (perm_sort leq _)) _. by rewrite perm_sym versions_closed_perm.
Qed.

Lemma nth_versions_closed_gt i :
  size u < i -> i < size versions_closed -> x < nth 0 versions_closed i.
Proof.
  move=> Hi Hs. rewrite /versions_closed nth_cat size_rcons size_sort.
  rewrite ltnS [i <= _]leqNgt Hi /=.
  have Hin : nth 0 (sort leq w) (i - (size u).+1) \in sort leq w.
    apply: mem_nth. move: Hs. rewrite size_cat size_rcons size_sort.
    move=> Hs. rewrite -(ltn_add2l (size u).+1) subnKC //.
  move: Hin. rewrite mem_sort mem_filter ltnNge. by case/andP.
Qed.

Lemma last_index_versions : last_index_of x versions_closed = size u.
Proof.
  have Hsz : size u < size versions_closed.
    by rewrite /versions_closed size_cat size_rcons size_sort ltn_addr.
  have Hx : nth 0 versions_closed (size u) = x.
    by rewrite /versions_closed nth_cat size_rcons size_sort leqnn nth_rcons
               size_sort ltnn eqxx.
  rewrite last_index_of_max. apply/anti_leq/andP; split.
  - apply/bigmax_leqP_seq => i. rewrite mem_iota add0n => Hsi /eqP Hi.
    rewrite leqNgt. apply/negP => Hlt.
    by move: (nth_versions_closed_gt Hlt Hsi); rewrite Hi ltnn.
  - apply: (leq_bigmax_seq (size u)); first by rewrite mem_iota add0n.
    by rewrite Hx.
Qed.

Lemma get_converter_closed :
  get_converter impls x =
  let version := py_prev versions_closed (size u) in
  if version \in impls then Ok version
  else Err opset_not_implemented.
Proof. by rewrite /get_converter sort_versions last_index_versions. Qed.

Lemma py_prev_below (k : nat) :
  size u = k.+1 -> py_prev versions_closed (size u) = last 0 (sort leq u).
Proof.
  move=> Hk. have Hs : size (sort leq u) = k.+1 by rewrite size_sort.
  rewrite Hk /= /versions_closed nth_cat size_rcons Hs (_ : k < k.+2) //.
  by rewrite nth_rcons Hs ltnSn -[k]/(k.+1.-1) -Hs nth_last.
Qed.

Lemma last_sort_mem (s : seq nat) : s != [::] -> last 0 (sort leq s) \in s.
Proof.
  move=> Hs. rewrite -(mem_sort leq).
  case E: (sort leq s) => [|a r] /=; last exact: mem_last.
  by move: Hs; rewrite -size_eq0 -(size_sort leq s) E.
Qed.

End Versions.

(** ** Theorems *)

Lemma get_converter_max_below (impls : seq nat) (opset : nat) :
  has (fun v => v <= opset) impls ->
  get_converter impls opset = Ok (\max_(v <- impls | v <= opset) v).
Proof.
  move=> Hhas.
  have Hne : [seq v <- impls | v <= opset] != [::].
    by rewrite -size_eq0 size_filter -lt0n -has_count.
  have [k Hk] : exists k, size [seq v <- impls | v <= opset] = k.+1.
    by move: Hne; rewrite -size_eq0; case: (size _) => [|k] //; exists k.
  rewrite get_converter_closed /= (py_prev_below Hk).
  rewrite (mem_subseq (filter_subseq _ _) (last_sort_mem Hne)).
  by rewrite last_sort_max big_filter.
Qed.

Lemma get_converter_newest (impls : seq nat) (opset : nat) :
  impls != [::] -> ~~ has (fun v => v <= opset) impls ->
  get_converter impls opset = Ok (\max_(v <- impls) v).
Proof.
  move=> Hne Hnot.
  have Hu : [seq v <- impls | v <= opset] = [::].
    by apply/eqP; rewrite -size_eq0 size_filter -leqn0 leqNgt -has_count.
  have Hw : [seq v <- impls | ~~ (v <= opset)] = impls.
    by apply/all_filterP; rewrite all_predC.
  rewrite get_converter_closed /= /versions_closed Hu Hw /=.
  case E: (sort leq impls) => [|a r] /=.
    by move: Hne; rewrite -size_eq0 -(size_sort leq impls) E.
  have -> : last a r = last 0 (sort leq impls) by rewrite E.
  by rewrite (last_sort_mem Hne) last_sort_max.
Qed.

Lemma mem_In (v : nat) (s : seq nat) : v \in s -> List.In v s.
Proof.
  elim: s => [|a s IH] //=. rewrite in_cons => /orP [/eqP ->|/IH H]; [by left | by right].
Qed.

Lemma In_mem (v : nat) (s : seq nat) : List.In v s -> v \in s.
Proof.
  elim: s => [|a s IH] //= [->|H]; rewrite in_cons; [by rewrite eqxx | by rewrite IH ?orbT].
Qed.

(** The same choice in the vocabulary of the Standard Library: [v] is a
    version of the class, not above the opset, and every such version is
    at most [v]. *)
Lemma get_converter_pick (impls : seq nat) (opset v : nat) :
  List.In v impls -> Peano.le v opset ->
  (forall w, List.In w impls -> Peano.le w opset -> Peano.le w v) ->
  get_converter impls opset = Ok v.
Proof.
  move=> Hv /leP Hle Hmax.
  have Hhas : has (fun w => w <= opset) impls by apply/hasP; exists v => //; exact: In_mem.
  rewrite (get_converter_max_below Hhas). congr Ok. apply/anti_leq/andP; split.
  - apply/bigmax_leqP_seq => w /mem_In Hw /leP Hw'. apply/leP. exact: Hmax.
  - exact: (leq_bigmax_seq v (In_mem Hv)).
Qed.

(** Every operator class of the convert map has at least one rule, so
    building the map never raises. *)
Lemma get_converter_total (impls : seq nat) (opset : nat) :
  impls <> [::] -> exists v, get_converter impls opset = Ok v /\ List.In v impls.
Proof.
  move=> Hne.
  have Hin : forall v, get_converter impls opset = Ok v -> List.In v impls.
    move=> v. rewrite /get_converter. case: ifP => // /mem_In H [] <-. exact: H.
  case Hh: (has (fun v => v <= opset) impls).
  - eexists; split; [exact: get_converter_max_below | apply: Hin; exact: get_converter_max_below].
  - have Hne' : impls != [::] by apply/eqP.
    have Hn : ~~ has (fun v => v <= opset) impls by rewrite Hh.
    eexists; split; [exact: get_converter_newest | apply: Hin; exact: get_converter_newest].
Qed.

(** (C1) Whenever some rule has a version not above the requested opset,
    [get_converter] returns the largest such version: the registry refines
    the spec's [resolve]. *)
Theorem get_converter_refines (impls : seq nat) (opset : nat) :
  has (fun v => v <= opset) impls ->
  get_converter impls opset = Ok (\max_(v <- impls | v <= opset) v) /\
  resolve_spec impls opset = Some (\max_(v <- impls | v <= opset) v).
Proof.
  move=> Hhas. rewrite /resolve_spec Hhas. split => //.
  exact: get_converter_max_below.
Qed.

(** (C2) An opset below every implemented version does not fail, as the
    spec requires: the index [-1] wraps around and the NEWEST rule is
    returned. *)
Theorem get_converter_below_all (impls : seq nat) (opset : nat) :
  impls != [::] -> all (fun v => opset < v) impls ->
  get_converter impls opset = Ok (\max_(v <- impls) v) /\
  resolve_spec impls opset = None.
Proof.
  move=> Hne Hall.
  have Hn : ~~ has (fun v => v <= opset) impls.
    by rewrite -all_predC; apply: sub_all Hall => v /=; rewrite -ltnNge.
  split; first exact: get_converter_newest.
  by rewrite /resolve_spec (negbTE Hn).
Qed.

(** A class without any [_impl_v] method raises [NotImplementedError]
    for every opset. *)
Theorem get_converter_no_rule (opset : nat) :
  get_converter [::] opset = Err opset_not_implemented.
Proof. by rewrite get_converter_closed /= /versions_closed. Qed.

(** ** Witnesses *)

(** [Pow]-like class with rules 1, 7 and 13, queried at opset 11. *)
Lemma get_converter_refines_witness :
  get_converter [:: 1; 7; 13] 11 = Ok 7 /\ resolve_spec [:: 1; 7; 13] 11 = Some 7.
Proof.
  have [H1 H2] := get_converter_refines (impls := [:: 1; 7; 13]) (opset := 11) (erefl true).
  rewrite H1 H2 !big_cons big_nil. split; reflexivity.
Defined.

(** [Pow] itself has the single rule 13; a model of opset 7 gets it. *)
Lemma get_converter_below_all_witness :
  get_converter [:: 13] 7 = Ok 13 /\ resolve_spec [:: 13] 7 = None.
Proof.
  have [H1 H2] := get_converter_below_all (impls := [:: 13]) (opset := 7) (erefl true) (erefl true).
  rewrite H1 H2 !big_cons big_nil. split; reflexivity.
Defined.

End Registry.
