(* ===== verification/Proto.v ===== *)
(** * Proto: the serialized ONNX graph the importer reads

    The protobuf messages of the ONNX format as onnx.py reads them:
    [GraphProto] (nodes, initializers, inputs, outputs), [NodeProto]
    (operator type, input and output names, attributes), [AttributeProto]
    (a name and the protobuf fields [f], [i], [s], [t], [g] and their
    repeated forms), [TensorProto] and [ValueInfoProto].  A graph embeds
    graphs through the attributes of its nodes (the bodies of [Loop] and
    [If]), so the three message types are one mutual, nested inductive.

    Protobuf's optional scalar fields are [option]s ([HasField] is
    [Some]); repeated fields are lists ([list(getattr(a, f))] is non-empty).
    Floating-point attribute values are kept as opaque integers: no
    decision of the importer depends on their value.

    Also here: [get_info] and [get_type] (onnx.py, lines 95-124), and
    [graph_depth], the nesting depth of subgraphs that bounds the fuel of
    the importer. *)

From Stdlib Require Import String List Bool Arith Lia ZArith.
From S2P Require Import Prelude.
Import ListNotations.
Local Open Scope string_scope.
Local Open Scope list_scope.

Module Proto.

(** [TensorProto]: a named constant tensor, its dimensions, its element
    type code and its elements (row-major). *)
Record tensor_proto : Type := TensorProto {
  t_name : string;
  t_dims : list nat;
  t_data_type : nat;
  t_data : list Z
}.

(** [TensorShapeProto.Dimension]: protobuf defaults are [0] and [""]. *)
Record dim_proto : Type := Dim {
  dim_value : nat;
  dim_param : string
}.

(** [ValueInfoProto]: a name and a tensor type; element type 0 is unset. *)
Record value_info : Type := ValueInfo {
  vi_name : string;
  vi_dims : list dim_proto;
  vi_elem_type : nat
}.

Inductive graph_proto : Type :=
| GraphProto (nodes : list node_proto) (initializer : list tensor_proto)
             (input : list value_info) (output : list value_info)
with node_proto : Type :=
| NodeProto (name : string) (op_type : string) (input : list string)
            (output : list string) (attribute : list attribute_proto)
with attribute_proto : Type :=
| AttributeProto (name : string)
    (f : option Z) (i : option Z) (s : option string) (g : option graph_proto)
    (floats : list Z) (ints : list Z) (strings : list string)
    (t : option tensor_proto) (tensors : list tensor_proto)
    (graphs : list graph_proto).

Definition g_node (g : graph_proto) := let 'GraphProto n _ _ _ := g in n.
Definition g_initializer (g : graph_proto) := let 'GraphProto _ i _ _ := g in i.
Definition g_input (g : graph_proto) := let 'GraphProto _ _ i _ := g in i.
Definition g_output (g : graph_proto) := let 'GraphProto _ _ _ o := g in o.

Definition n_name (n : node_proto) := let 'NodeProto nm _ _ _ _ := n in nm.
Definition n_op_type (n : node_proto) := let 'NodeProto _ o _ _ _ := n in o.
Definition n_input (n : node_proto) := let 'NodeProto _ _ i _ _ := n in i.
Definition n_output (n : node_proto) := let 'NodeProto _ _ _ o _ := n in o.
Definition n_attribute (n : node_proto) := let 'NodeProto _ _ _ _ a := n in a.

Definition a_name (a : attribute_proto) :=
  let 'AttributeProto n _ _ _ _ _ _ _ _ _ _ := a in n.

(** [ModelProto]: the graph and the opset it declares
    ([model.opset_import[0].version], [None] when the list is empty). *)
Record model_proto : Type := ModelProto {
  m_graph : graph_proto;
  m_opset_import : option nat
}.

(** ** Shapes and element types *)

(** A dimension of a Relay type: a known extent or [relay.Any()]. *)
Inductive dimv : Type :=
| DAny
| DInt (n : nat).

(** [get_type]: ONNX element type code to numpy dtype name
    ([onnx.mapping.TENSOR_TYPE_TO_NP_TYPE]); an unknown code is a
    [KeyError]. *)
Definition get_type (elem_type : nat) : result string :=
  match elem_type with
  | 1 => Ok "float32" | 2 => Ok "uint8" | 3 => Ok "int8" | 4 => Ok "uint16"
  | 5 => Ok "int16" | 6 => Ok "int32" | 7 => Ok "int64" | 8 => Ok "object"
  | 9 => Ok "bool" | 10 => Ok "float16" | 11 => Ok "float64"
  | 12 => Ok "uint32" | 13 => Ok "uint64" | 14 => Ok "complex64"
  | 15 => Ok "complex128"
  | _ => Err (KeyError "elem_type")
  end.

(** A name of a dimension in the warning message: its [dim_param], or its
    value when it is known. *)
Inductive dim_name : Type :=
| DimNamed (s : string)
| DimKnown (n : nat).

Record info : Type := Info {
  info_name : string;
  info_shape : list dimv;
  info_dtype : option string;
  info_shape_name : list dim_name
}.

(** [get_info]: a dimension whose value is [0] (unset) is [Any]. *)
Definition get_info (vi : value_info) : result info :=
  let dims := vi_dims vi in
  let shape := map (fun d => match dim_value d with 0 => DAny | n => DInt n end) dims in
  let names := map (fun d => match dim_value d with
                             | 0 => DimNamed (dim_param d) | n => DimKnown n end) dims in
  match vi_elem_type vi with
  | 0 => Ok (Info (vi_name vi) shape None names)
  | e => let* dt := get_type e in Ok (Info (vi_name vi) shape (Some dt) names)
  end.

(** ["?" in str(shape)]: the printed shape shows [?] for [Any]. *)
Definition has_unknown_dim (shape : list dimv) : bool :=
  existsb (fun d => match d with DAny => true | DInt _ => false end) shape.

(** ** Nesting depth of subgraphs *)

Fixpoint graph_depth (g : graph_proto) : nat :=
  match g with
  | GraphProto nodes _ _ _ =>
      S (fold_right Nat.max 0 (map node_depth nodes))
  end
with node_depth (n : node_proto) : nat :=
  match n with
  | NodeProto _ _ _ _ attrs => fold_right Nat.max 0 (map attr_depth attrs)
  end
with attr_depth (a : attribute_proto) : nat :=
  match a with
  | AttributeProto _ _ _ _ g _ _ _ _ _ gs =>
      Nat.max (match g with Some g' => graph_depth g' | None => 0 end)
              (fold_right Nat.max 0 (map graph_depth gs))
  end.

Lemma node_depth_lt (g : graph_proto) (n : node_proto) :
  In n (g_node g) -> node_depth n < graph_depth g.
Proof. destruct g as [ns ? ? ?]; simpl. intros H. pose proof (le_fold_max node_depth n ns H). lia. Qed.

Lemma attr_depth_le (n : node_proto) (a : attribute_proto) :
  In a (n_attribute n) -> attr_depth a <= node_depth n.
Proof. destruct n as [? ? ? ? attrs]; simpl. apply le_fold_max. Qed.

Lemma graph_depth_pos (g : graph_proto) : 0 < graph_depth g.
Proof. destruct g; simpl; lia. Qed.

End Proto.
