(* ===== verification/IR.v ===== *)
(** * IR: the subset of Relay that the importer builds

    The importer produces Relay expressions ([tvm.relay.expr]): variables
    with a type annotation, constants, operator calls with keyword
    attributes, tuples and projections, [If], and the loop that
    [tvm.relay.loops.while_loop] builds (a recursive function whose body
    is [if cond(vars) then loop(body(vars)) else vars], applied to initial
    values).  Relay is a library that onnx.py calls; what the importer
    relies on of it is modelled here:
    - [free_vars] ([relay.analysis.free_vars]): variables used and not
      bound by an enclosing loop;
    - [eval]: the value of an expression in an environment, with fuel for
      the loop, over integer tensors (booleans are 0/1) for the operators
      [add], [subtract], [multiply], [less], [equal], [logical_and],
      [copy], [expand_dims], [concatenate], [reshape] and [take], and
      [shape_of] for its type only;
    - [infer]: the type inference the converters consult
      ([common.infer_type], [infer_shape]) for the same operators.
    Operators outside this list have no semantics here: the spec leaves
    the semantics of individual operators out of scope. *)

From Stdlib Require Import String List Bool Arith Lia ZArith.
From S2P Require Import Prelude Proto.
Import ListNotations.
Local Open Scope string_scope.
Local Open Scope list_scope.

Module IR.
Import Proto.
#[local] Set Warnings "-register-all".

(** ** Types and values *)

(** [TensorType(shape, dtype)]. *)
Record ttype : Type := TType {
  tt_shape : list dimv;
  tt_dtype : string
}.

Inductive rty : Type :=
| TyTensor (t : ttype)
| TyTuple (ts : list rty).

(** A tensor value: dtype, concrete shape and elements in row-major order.
    [VReal dt num den] is the scalar constant [num / den] of a floating
    [dt] that is not an integer, such as [_expr.const(0.5, dtype)]: the
    evaluator computes on integers only and does not reduce it. *)
Inductive value : Type :=
| VTensor (dtype : string) (shape : list nat) (data : list Z)
| VTuple (vs : list value)
| VReal (dtype : string) (num den : Z).

Definition scalar (dt : string) (z : Z) : value := VTensor dt [] [z].

(** [_expr.const(v, dtype)] of the Python float [v = num / den]
    ([den > 0]): an integral value is a scalar of [dtype]; a non-integral
    one is kept exactly in a floating type and truncated toward zero by
    numpy's conversion to an integer type. *)
Definition real_const (dt : string) (num den : Z) : value :=
  if (num mod den =? 0)%Z then scalar dt (num / den)
  else if String.prefix "float" dt then VReal dt num den
  else scalar dt (Z.quot num den).

(** Keyword attributes of an operator call; [KRatio num den] is a float
    literal of the code that is not an integer, [num / den] exactly. *)
Inductive kwarg : Type :=
| KInt (z : Z)
| KInts (zs : list Z)
| KStr (s : string)
| KFloat (z : Z)
| KFloatInf (neg : bool)
| KRatio (num den : Z)
| KPairs (l : list (Z * Z))
| KNone.

(** ** Expressions *)

Inductive expr : Type :=
| Var (name : string) (ty : ttype)
| Const (v : value)
| Call (op : string) (args : list expr) (attrs : list (string * kwarg))
| Tuple (fields : list expr)
| TupleGetItem (e : expr) (index : nat)
| IfE (cond then_ else_ : expr)
| WhileLoop (vars : list (string * ttype)) (cond : expr) (body : list expr)
            (init : list expr).

Definition var_name (e : expr) : option string :=
  match e with Var n _ => Some n | _ => None end.

(** ** Free variables *)

Fixpoint free_vars (e : expr) : list (string * ttype) :=
  match e with
  | Var n t => [(n, t)]
  | Const _ => []
  | Call _ args _ => flat_map free_vars args
  | Tuple fs => flat_map free_vars fs
  | TupleGetItem e _ => free_vars e
  | IfE c t f => free_vars c ++ free_vars t ++ free_vars f
  | WhileLoop vs c b i =>
      filter (fun nt => negb (existsb (fun v => String.eqb (fst v) (fst nt)) vs))
             (free_vars c ++ flat_map free_vars b)
      ++ flat_map free_vars i
  end.

(** The names of the free variables. *)
Definition free_names (e : expr) : list string := map fst (free_vars e).

(** The number of nodes of an expression, each argument position
    counted once more. *)
Fixpoint expr_size (e : expr) : nat :=
  match e with
  | Var _ _ | Const _ => 1
  | Call _ args _ => S (list_sum (map expr_size args) + length args)
  | Tuple fs => S (list_sum (map expr_size fs) + length fs)
  | TupleGetItem e _ => S (expr_size e)
  | IfE c t f => S (expr_size c + expr_size t + expr_size f)
  | WhileLoop _ c b i =>
      S (expr_size c + list_sum (map expr_size b) + length b + list_sum (map expr_size i) + length i)
  end.

(** ** Operator semantics *)

Definition zip_data (f : Z -> Z -> Z) (a b : list Z) : list Z :=
  map (fun p => f (fst p) (snd p)) (combine a b).

(** Elementwise binary operator with scalar broadcasting. *)
Definition binop (out_dt : option string) (f : Z -> Z -> Z) (a b : value) : option value :=
  match a, b with
  | VTensor da sa xa, VTensor db sb xb =>
      let dt := match out_dt with Some d => d | None => da end in
      if list_eq_dec Nat.eq_dec sa sb then Some (VTensor dt sa (zip_data f xa xb))
      else match sa, sb, xa, xb with
           | [], _, [x], _ => Some (VTensor dt sb (map (f x) xb))
           | _, [], _, [y] => Some (VTensor dt sa (map (fun x => f x y) xa))
           | _, _, _, _ => None
           end
  | _, _ => None
  end.

Definition b2z (b : bool) : Z := if b then 1 else 0.

Definition kw_int (k : string) (attrs : list (string * kwarg)) (dflt : Z) : Z :=
  match od_get k attrs with Some (KInt z) => z | _ => dflt end.

(** [concatenate] along axis 0 of a non-empty tuple of tensors with the
    same trailing shape. *)
Fixpoint concat0 (dt : string) (rest : list nat) (n : nat) (acc : list Z)
         (vs : list value) : option value :=
  match vs with
  | [] => Some (VTensor dt (n :: rest) acc)
  | VTensor _ (m :: rest') d :: vs' =>
      if list_eq_dec Nat.eq_dec rest rest'
      then concat0 dt rest (n + m) (acc ++ d) vs' else None
  | _ => None
  end.

(** [arange(start, stop, step)]: the values from [start] in steps of
    [step] strictly before [stop], [ceil((stop - start) / step)] of them. *)
Definition arange_data (start stop step : Z) : list Z :=
  let n := if (0 <? step)%Z then ((stop - start + step - 1) / step)%Z
           else ((stop - start + step + 1) / step)%Z in
  map (fun i => (start + Z.of_nat i * step)%Z) (seq 0 (Z.to_nat n)).

(** [stack] along axis 0 of one-dimensional tensors of one length. *)
Definition stack0 (vs : list value) : option value :=
  match vs with
  | VTensor dt [n] _ :: _ =>
      if forallb (fun v => match v with VTensor _ [m] _ => Nat.eqb m n | _ => false end) vs
      then Some (VTensor dt [length vs; n]
                         (flat_map (fun v => match v with VTensor _ _ d => d | _ => [] end) vs))
      else None
  | _ => None
  end.

(** [where(c, a, b)] of operands of one shape. *)
Definition where_val (c a b : value) : option value :=
  match c, a, b with
  | VTensor _ sc xc, VTensor dt sa xa, VTensor _ sb xb =>
      if list_eq_dec Nat.eq_dec sc sa then
        if list_eq_dec Nat.eq_dec sa sb then
          Some (VTensor dt sa (map (fun p => if (fst p =? 0)%Z then snd (snd p) else fst (snd p))
                                   (combine xc (combine xa xb))))
        else None
      else None
  | _, _, _ => None
  end.

(** The running sums of a vector, each including its own element or,
    [exclusive], only those before it. *)
Definition cumsum_data (exclusive : bool) (d : list Z) : list Z :=
  map (fun i => fold_right Z.add 0%Z (firstn (if exclusive then i else S i) d)) (seq 0 (length d)).

(** The sums of consecutive rows of [k] elements. *)
Definition row_sums (k : nat) (d : list Z) : list Z :=
  map (fun i => fold_right Z.add 0%Z (firstn k (skipn (i * k) d))) (seq 0 (length d / k)).

Definition apply_op (op : string) (attrs : list (string * kwarg)) (vs : list value)
  : option value :=
  let bin o f := match vs with [a; b] => binop o f a b | _ => None end in
  if op =? "add" then bin None Z.add
  else if op =? "subtract" then bin None Z.sub
  else if op =? "multiply" then bin None Z.mul
  else if op =? "maximum" then bin None Z.max
  else if op =? "minimum" then bin None Z.min
  else if op =? "less" then bin (Some "bool") (fun x y => b2z (x <? y)%Z)
  else if op =? "equal" then bin (Some "bool") (fun x y => b2z (x =? y)%Z)
  else if op =? "greater" then bin (Some "bool") (fun x y => b2z (y <? x)%Z)
  else if op =? "negative" then
    match vs with [VTensor dt sh d] => Some (VTensor dt sh (map Z.opp d)) | _ => None end
  else if op =? "zeros_like" then
    match vs with [VTensor dt sh d] => Some (VTensor dt sh (map (fun _ => 0%Z) d)) | _ => None end
  else if op =? "where" then
    match vs with [c; a; b] => where_val c a b | _ => None end
  else if op =? "logical_and" then
    bin (Some "bool") (fun x y => b2z (negb (x =? 0)%Z && negb (y =? 0)%Z))
  else if op =? "copy" then
    match vs with [a] => Some a | _ => None end
  else if op =? "expand_dims" then
    match vs with
    | [VTensor dt s d] =>
        if (kw_int "axis" attrs 0 =? 0)%Z then Some (VTensor dt (1 :: s) d) else None
    | _ => None
    end
  else if op =? "concatenate" then
    match vs with
    | [VTuple (VTensor dt (m :: rest) d :: vs')] =>
        if (kw_int "axis" attrs 0 =? 0)%Z then concat0 dt rest m d vs' else None
    | _ => None
    end
  else if op =? "reshape" then
    match vs, od_get "newshape" attrs with
    | [VTensor dt _ d], Some (KInts zs) =>
        (* at most one [-1], the extent that makes the sizes agree *)
        let known := fold_right Nat.mul 1 (map Z.to_nat (filter (fun z => negb (z =? -1)%Z) zs)) in
        let s := map (fun z => if (z =? -1)%Z then length d / known else Z.to_nat z) zs in
        if Nat.leb (count_occ Z.eq_dec zs (-1)%Z) 1 && Nat.eqb (fold_right Nat.mul 1 s) (length d)
        then Some (VTensor dt s d) else None
    | _, _ => None
    end
  else if op =? "shape_of" then
    match vs with
    | [VTensor _ s _] =>
        let dt := match od_get "dtype" attrs with Some (KStr d) => d | _ => "int32" end in
        Some (VTensor dt [length s] (map Z.of_nat s))
    | _ => None
    end
  else if op =? "sum" then
    (* [sum(x, axis=-1)]: the sums of the innermost rows *)
    match vs, od_get "axis" attrs with
    | [VTensor dt s d], Some (KInts [z]) =>
        match rev s with
        | S k' :: outer =>
            if (z =? -1)%Z && (length attrs =? 1)%nat
            then Some (VTensor dt (rev outer) (row_sums (S k') d))
            else None
        | _ => None
        end
    | _, _ => None
    end
  else if op =? "take" then
    match vs with
    | [VTensor dt (n :: rest) d; VTensor _ [] [i]] =>
        (* [mode="clip"], Relay's default: the index is clipped into [0, n) *)
        let k := fold_right Nat.mul 1 rest in
        let j := Z.to_nat (Z.min (Z.max i 0) (Z.of_nat n - 1)) in
        if Nat.eqb n 0 then None
        else Some (VTensor dt rest (firstn k (skipn (j * k) d)))
    | [VTensor dt [n] d; VTensor _ [m] idx] =>
        if Nat.eqb n 0 then None
        else Some (VTensor dt [m] (map (fun i => nth (Z.to_nat (Z.min (Z.max i 0) (Z.of_nat n - 1))) d 0%Z)
                                       idx))
    | _ => None
    end
  else if op =? "arange" then
    match vs, od_get "dtype" attrs with
    | [VTensor _ [] [a]; VTensor _ [] [b]; VTensor _ [] [st]], Some (KStr dt) =>
        if (st =? 0)%Z then None
        else let d := arange_data a b st in Some (VTensor dt [length d] d)
    | _, _ => None
    end
  else if op =? "cast" then
    match vs, od_get "dtype" attrs with
    | [VTensor _ sh d], Some (KStr dt) =>
        Some (VTensor dt sh (if String.eqb dt "bool" then map (fun z => b2z (negb (z =? 0)%Z)) d
                             else d))
    | _, _ => None
    end
  else if op =? "squeeze" then
    match vs, od_get "axis" attrs with
    | [VTensor dt sh d], Some (KInts axes) =>
        let drop := map Z.to_nat axes in
        if forallb (fun a => match nth_error sh a with Some 1 => true | _ => false end) drop
        then Some (VTensor dt (map snd (filter (fun id => negb (existsb (Nat.eqb (fst id)) drop))
                                               (combine (seq 0 (length sh)) sh))) d)
        else None
    | _, _ => None
    end
  else if op =? "stack" then
    match vs with
    | [VTuple ts] => if (kw_int "axis" attrs 0 =? 0)%Z then stack0 ts else None
    | _ => None
    end
  else if op =? "reverse" then
    match vs with
    | [VTensor dt [n] d] => if (kw_int "axis" attrs 0 =? 0)%Z then Some (VTensor dt [n] (rev d)) else None
    | _ => None
    end
  else if op =? "cumsum" then
    (* along axis 0 of a vector; [exclusive] drops the element itself *)
    match vs with
    | [VTensor dt [n] d] =>
        if (kw_int "axis" attrs 0 =? 0)%Z
        then Some (VTensor dt [n] (cumsum_data (negb (kw_int "exclusive" attrs 0 =? 0)%Z) d))
        else None
    | _ => None
    end
  else if op =? "strided_slice" then
    (* a vector, one axis, unit stride (the default); [end] clamped to
       the length *)
    match vs, od_get "begin" attrs, od_get "end" attrs, od_get "strides" attrs with
    | [VTensor dt [n] d], Some (KInts [b]), Some (KInts [e]), (None | Some (KInts [1%Z])) =>
        if (0 <=? b)%Z && (b <=? e)%Z then
          let b' := Z.to_nat (Z.min b (Z.of_nat n)) in
          let e' := Z.to_nat (Z.min e (Z.of_nat n)) in
          Some (VTensor dt [e' - b'] (firstn (e' - b') (skipn b' d)))
        else None
    | _, _, _, _ => None
    end
  else if op =? "prod" then
    (* of a vector along axis 0, keeping the axis *)
    match vs with
    | [VTensor dt [n] d] =>
        if (kw_int "axis" attrs 0 =? 0)%Z && (kw_int "keepdims" attrs 0 =? 1)%Z
        then Some (VTensor dt [1] [fold_right Z.mul 1%Z d]) else None
    | _ => None
    end
  else if op =? "tile" then
    (* a vector repeated [r] times end to end *)
    match vs, od_get "reps" attrs with
    | [VTensor dt [m] d], Some (KInts [r]) =>
        if (0 <=? r)%Z then Some (VTensor dt [m * Z.to_nat r] (concat (repeat d (Z.to_nat r))))
        else None
    | _, _ => None
    end
  else if op =? "repeat" then
    (* every element of a vector repeated [k] times in place *)
    match vs, od_get "repeats" attrs with
    | [VTensor dt [m] d], Some (KInt k) =>
        if (0 <=? k)%Z && (kw_int "axis" attrs 0 =? 0)%Z
        then Some (VTensor dt [m * Z.to_nat k] (flat_map (fun x => repeat x (Z.to_nat k)) d))
        else None
    | _, _ => None
    end
  else None.

(** ** Evaluation *)

Fixpoint eval (fuel : nat) (env : odict value) (e : expr) : option value :=
  match fuel with
  | 0 => None
  | S f =>
      match e with
      | Var n _ => od_get n env
      | Const v => Some v
      | Call op args attrs =>
          match eval_list f env args with
          | Some vs => apply_op op attrs vs
          | None => None
          end
      | Tuple fs =>
          match eval_list f env fs with Some vs => Some (VTuple vs) | None => None end
      | TupleGetItem e i =>
          match eval f env e with
          | Some (VTuple vs) => nth_error vs i
          | _ => None
          end
      | IfE c t el =>
          match eval f env c with
          | Some (VTensor _ [] [z]) => if (z =? 0)%Z then eval f env el else eval f env t
          | _ => None
          end
      | WhileLoop vars c b init =>
          match eval_list f env init with
          | Some vs =>
              match run_loop f env vars c b vs with
              | Some vs' => Some (VTuple vs')
              | None => None
              end
          | None => None
          end
      end
  end
with eval_list (fuel : nat) (env : odict value) (es : list expr) : option (list value) :=
  match fuel with
  | 0 => None
  | S f =>
      match es with
      | [] => Some []
      | e :: es' =>
          match eval f env e, eval_list f env es' with
          | Some v, Some vs => Some (v :: vs)
          | _, _ => None
          end
      end
  end
with run_loop (fuel : nat) (env : odict value) (vars : list (string * ttype))
              (c : expr) (b : list expr) (vs : list value) : option (list value) :=
  match fuel with
  | 0 => None
  | S f =>
      let env' := od_update env (combine (map fst vars) vs) in
      match eval f env' c with
      | Some (VTensor _ [] [z]) =>
          if (z =? 0)%Z then Some vs
          else match eval_list f env' b with
               | Some vs' => run_loop f env vars c b vs'
               | None => None
               end
      | _ => None
      end
  end.

(** ** Constant folding *)

(** [relay.transform.FoldConstant] on an expression: a closed expression
    that the evaluator computes becomes its constant; anything else is
    left as it is (operators outside [apply_op] are not folded). *)
Definition fold_constant (e : expr) : expr :=
  match free_vars e with
  | [] => match eval (2 * expr_size e) [] e with Some v => Const v | None => e end
  | _ :: _ => e
  end.

(** ** Type inference *)

Definition value_rty (v : value) : rty :=
  match v with
  | VTensor dt sh _ => TyTensor (TType (map DInt sh) dt)
  | VTuple vs => TyTuple (map (fun v => match v with
                                        | VTensor dt sh _ => TyTensor (TType (map DInt sh) dt)
                                        | VReal dt _ _ => TyTensor (TType [] dt)
                                        | VTuple _ => TyTuple []
                                        end) vs)
  | VReal dt _ _ => TyTensor (TType [] dt)
  end.

Definition dimv_eqb (a b : dimv) : bool :=
  match a, b with
  | DAny, DAny => true
  | DInt x, DInt y => Nat.eqb x y
  | _, _ => false
  end.

Definition shape_eqb (a b : list dimv) : bool :=
  Nat.eqb (length a) (length b) && forallb (fun p => dimv_eqb (fst p) (snd p)) (combine a b).

Definition infer_error : py_error := TypeInferenceError "type inference failed".

(** Relay's broadcast of two extents: equal extents, an extent 1, or a
    dynamic extent against a static one. *)
Definition bcast_dim (x y : dimv) : option dimv :=
  match x, y with
  | DInt 1, d | d, DInt 1 => Some d
  | DInt m, DInt n => if Nat.eqb m n then Some (DInt m) else None
  | DAny, d | d, DAny => Some d
  end.

(** The broadcast of two shapes given innermost extent first. *)
Fixpoint bcast_rev (a b : list dimv) : option (list dimv) :=
  match a, b with
  | [], _ => Some b
  | _, [] => Some a
  | x :: a', y :: b' =>
      match bcast_dim x y, bcast_rev a' b' with
      | Some d, Some r => Some (d :: r)
      | _, _ => None
      end
  end.

(** The broadcast of two shapes, aligned on their last axes. *)
Definition bcast_shapes (sa sb : list dimv) : option (list dimv) :=
  match bcast_rev (rev sa) (rev sb) with
  | Some r => Some (rev r)
  | None => None
  end.

(** The broadcast of two tensor types ([BroadcastRel]): the operands have
    one element type, and the shapes broadcast. *)
Definition broadcast_ty (out_dt : option string) (a b : rty) : result rty :=
  match a, b with
  | TyTensor (TType sa da), TyTensor (TType sb db) =>
      let dt := match out_dt with Some d => d | None => da end in
      if negb (String.eqb da db) then Err infer_error else
      match bcast_shapes sa sb with
      | Some r => Ok (TyTensor (TType r dt))
      | None => Err infer_error
      end
  | _, _ => Err infer_error
  end.

(** The elementwise unary operators: the type of their operand. *)
Definition unary_ops : list string :=
  ["nn.relu"; "exp"; "log"; "tanh"; "abs"; "negative"; "sqrt"; "sigmoid"; "erf"; "sign";
   "zeros_like"; "floor"; "ceil"; "clip"; "cos"].

(** The extents of a static shape. *)
Fixpoint static_extents (s : list dimv) : option (list nat) :=
  match s with
  | [] => Some []
  | DInt n :: s' => option_map (cons n) (static_extents s')
  | DAny :: _ => None
  end.

Definition sum_dims (ds : list dimv) : dimv :=
  fold_right (fun d acc => match d, acc with
                           | DInt x, DInt y => DInt (x + y)
                           | _, _ => DAny
                           end) (DInt 0) ds.

(** The product of extents, [Any] when one is. *)
Definition prod_dims (ds : list dimv) : dimv :=
  fold_right (fun d acc => match d, acc with
                           | DInt x, DInt y => DInt (x * y)
                           | _, _ => DAny
                           end) (DInt 1) ds.

(** The type relations of the shape operators the loss rules build:
    [gather] (the shape of the indices, of the data's rank), [gather_nd],
    [reshape_like], [cast_like], [squeeze] of axes of extent 1,
    [nn.batch_flatten], [sum] and [max] over all axes or keeping the
    reduced ones, and [ones]. *)
Definition shape_op_type (op : string) (attrs : list (string * kwarg)) (ts : list rty)
  : option (result rty) :=
  if op =? "gather" then Some
    match ts with
    | [TyTensor (TType sd dt); TyTensor (TType si _)] =>
        if Nat.eqb (length sd) (length si) then Ok (TyTensor (TType si dt)) else Err infer_error
    | _ => Err infer_error
    end
  else if op =? "gather_nd" then Some
    match ts with
    | [TyTensor (TType sd dt); TyTensor (TType (DInt m :: ys) _)] =>
        if Nat.leb m (length sd) then Ok (TyTensor (TType (ys ++ skipn m sd) dt))
        else Err infer_error
    | _ => Err infer_error
    end
  else if op =? "reshape_like" then Some
    match ts with
    | [TyTensor (TType _ dt); TyTensor (TType s _)] => Ok (TyTensor (TType s dt))
    | _ => Err infer_error
    end
  else if op =? "cast_like" then Some
    match ts with
    | [TyTensor (TType s _); TyTensor (TType _ dt)] => Ok (TyTensor (TType s dt))
    | _ => Err infer_error
    end
  else if op =? "squeeze" then Some
    match ts, od_get "axis" attrs with
    | [TyTensor (TType s dt)], Some (KInts zs) =>
        let dropped p := existsb (Z.eqb (Z.of_nat (fst p))) zs in
        let ps := combine (seq 0 (length s)) s in
        if forallb (fun p => negb (dropped p) || dimv_eqb (snd p) (DInt 1)) ps
        then Ok (TyTensor (TType (map snd (filter (fun p => negb (dropped p)) ps)) dt))
        else Err infer_error
    | _, _ => Err infer_error
    end
  else if op =? "nn.batch_flatten" then Some
    match ts with
    | [TyTensor (TType (d :: rest) dt)] => Ok (TyTensor (TType [d; prod_dims rest] dt))
    | _ => Err infer_error
    end
  else if (op =? "sum") || (op =? "max") then Some
    match ts, attrs with
    | [TyTensor (TType _ dt)], [] => Ok (TyTensor (TType [] dt))
    | [TyTensor (TType s dt)], _ =>
        match od_get "axis" attrs, od_get "keepdims" attrs with
        | Some (KInts zs), Some (KInt k) =>
            let r := Z.of_nat (length s) in
            let hit i := existsb (fun z => Z.eqb (if (z <? 0)%Z then z + r else z)%Z (Z.of_nat i)) zs in
            if Z.eqb k 1
            then Ok (TyTensor (TType (map (fun p => if hit (fst p) then DInt 1 else snd p)
                                          (combine (seq 0 (length s)) s)) dt))
            else Err infer_error
        | _, _ => Err infer_error
        end
    | _, _ => Err infer_error
    end
  else if op =? "random.threefry_key" then Some (Ok (TyTensor (TType [DInt 10] "uint64")))
  else if op =? "random.uniform" then Some
    (* the next key and the samples *)
    match ts, od_get "shape" attrs, od_get "dtype" attrs with
    | [TyTensor (TType [DInt 10] "uint64")], Some (KInts zs), Some (KStr dt) =>
        Ok (TyTuple [TyTensor (TType [DInt 10] "uint64");
                     TyTensor (TType (map (fun z => DInt (Z.to_nat z)) zs) dt)])
    | _, _, _ => Err infer_error
    end
  else if op =? "ones" then Some
    match ts, od_get "shape" attrs, od_get "dtype" attrs with
    | [], Some (KInts zs), Some (KStr dt) =>
        Ok (TyTensor (TType (map (fun z => DInt (Z.to_nat z)) zs) dt))
    | _, _, _ => Err infer_error
    end
  else None.

Definition op_type (op : string) (attrs : list (string * kwarg)) (ts : list rty) : result rty :=
  let bin o := match ts with [a; b] => broadcast_ty o a b | _ => Err infer_error end in
  if op =? "add" then bin None
  else if op =? "subtract" then bin None
  else if op =? "multiply" then bin None
  else if op =? "maximum" then bin None
  else if op =? "minimum" then bin None
  else if op =? "divide" then bin None
  else if op =? "power" then bin None
  else if op =? "mod" then bin None
  else if op =? "floor_mod" then bin None
  else if op =? "less" then bin (Some "bool")
  else if op =? "greater" then bin (Some "bool")
  else if op =? "equal" then bin (Some "bool")
  else if op =? "logical_and" then bin (Some "bool")
  else if op =? "copy" then match ts with [t] => Ok t | _ => Err infer_error end
  else if existsb (String.eqb op) unary_ops then
    match ts with [TyTensor t] => Ok (TyTensor t) | _ => Err infer_error end
  else if op =? "isinf" then
    match ts with [TyTensor (TType s _)] => Ok (TyTensor (TType s "bool")) | _ => Err infer_error end
  else if op =? "cast" then
    match ts, od_get "dtype" attrs with
    | [TyTensor (TType s _)], Some (KStr d) => Ok (TyTensor (TType s d))
    | _, _ => Err infer_error
    end
  else if op =? "full_like" then
    match ts with [TyTensor t; TyTensor (TType [] _)] => Ok (TyTensor t) | _ => Err infer_error end
  else if op =? "where" then
    match ts with
    | [TyTensor (TType sc "bool"); a; b] =>
        let* ab := broadcast_ty None a b in
        match ab with
        | TyTensor (TType sab dt) =>
            match bcast_shapes sc sab with
            | Some r => Ok (TyTensor (TType r dt))
            | None => Err infer_error
            end
        | TyTuple _ => Err infer_error
        end
    | _ => Err infer_error
    end
  else if op =? "expand_dims" then
    match ts with
    | [TyTensor (TType s dt)] =>
        let r := Z.of_nat (length s) in
        let a := kw_int "axis" attrs 0 in
        let a := if (a <? 0)%Z then (a + r + 1)%Z else a in
        if (0 <=? a)%Z && (a <=? r)%Z && (kw_int "num_newaxis" attrs 1 =? 1)%Z
        then Ok (TyTensor (TType (firstn (Z.to_nat a) s ++ DInt 1 :: skipn (Z.to_nat a) s) dt))
        else Err infer_error
    | _ => Err infer_error
    end
  else if op =? "concatenate" then
    match ts with
    | [TyTuple (TyTensor (TType (d :: rest) dt) :: ts')] =>
        let heads := map (fun t => match t with
                                   | TyTensor (TType (d' :: r') dt') =>
                                       if shape_eqb r' rest && String.eqb dt' dt
                                       then Some d' else None
                                   | _ => None
                                   end) ts' in
        if (kw_int "axis" attrs 0 =? 0)%Z && forallb (fun o => match o with Some _ => true | None => false end) heads
        then Ok (TyTensor (TType (sum_dims (d :: map (fun o => match o with Some x => x | None => DAny end) heads) :: rest) dt))
        else Err infer_error
    | _ => Err infer_error
    end
  else if op =? "reshape" then
    match ts, od_get "newshape" attrs with
    | [TyTensor (TType s dt)], Some (KInts zs) =>
        if forallb (fun z => (0 <=? z)%Z) zs
        then Ok (TyTensor (TType (map (fun z => DInt (Z.to_nat z)) zs) dt))
        else
          (* one [-1] of a static input: the extent that keeps the size *)
          match static_extents s with
          | Some ns =>
              let known := fold_right Nat.mul 1 (map Z.to_nat (filter (fun z => (0 <=? z)%Z) zs)) in
              if Nat.eqb (count_occ Z.eq_dec zs (-1)%Z) 1 && forallb (fun z => (-1 <=? z)%Z) zs
              then Ok (TyTensor (TType (map (fun z => DInt (if (z =? -1)%Z
                                                           then fold_right Nat.mul 1 ns / known
                                                           else Z.to_nat z)) zs) dt))
              else Err infer_error
          | None => Err infer_error
          end
    | _, _ => Err infer_error
    end
  else if op =? "take" then
    match ts with
    | [TyTensor (TType (_ :: rest) dt); TyTensor (TType [] _)] => Ok (TyTensor (TType rest dt))
    | _ => Err infer_error
    end
  else if op =? "scatter" then
    match ts with
    | [t; _; _] => Ok t
    | _ => Err infer_error
    end
  else if op =? "broadcast_to" then
    (* static: the input broadcasts to the [shape] attribute; dynamic:
       a shape tensor of [k] extents gives [k] unknown extents *)
    match ts, od_get "shape" attrs with
    | [TyTensor (TType s dt)], Some (KInts zs) =>
        let o := map (fun z => DInt (Z.to_nat z)) zs in
        match bcast_shapes s o with
        | Some r => if shape_eqb r o then Ok (TyTensor (TType o dt)) else Err infer_error
        | None => Err infer_error
        end
    | [TyTensor (TType _ dt); TyTensor (TType [DInt k] _)], _ => Ok (TyTensor (TType (repeat DAny k) dt))
    | _, _ => Err infer_error
    end
  else if op =? "shape_of" then
    match ts with
    | [TyTensor (TType s _)] =>
        let dt := match od_get "dtype" attrs with Some (KStr d) => d | _ => "int32" end in
        Ok (TyTensor (TType [DInt (length s)] dt))
    | _ => Err infer_error
    end
  else if op =? "transpose" then
    (* [axes] a permutation of the axes (negative ones counted from the
       end), reversed when absent *)
    match ts with
    | [TyTensor (TType s dt)] =>
        let r := length s in
        match od_get "axes" attrs with
        | None => Ok (TyTensor (TType (rev s) dt))
        | Some (KInts ax) =>
            let ax := map (fun a => if (a <? 0)%Z then (a + Z.of_nat r)%Z else a) ax in
            if Nat.eqb (length ax) r
               && forallb (fun i => existsb (Z.eqb (Z.of_nat i)) ax) (seq 0 r)
            then Ok (TyTensor (TType (map (fun a => nth (Z.to_nat a) s DAny) ax) dt))
            else Err infer_error
        | Some _ => Err infer_error
        end
    | _ => Err infer_error
    end
  else if op =? "nn.dense" then
    (* [data [.., K]] by [weight [N, K]]: [[.., N]] *)
    match ts with
    | [TyTensor (TType (_ :: _ as s) dt); TyTensor (TType [n; k] _)] =>
        let ok := match last s DAny, k with DInt a, DInt b => Nat.eqb a b | _, _ => true end in
        if ok then Ok (TyTensor (TType (removelast s ++ [n]) dt)) else Err infer_error
    | _ => Err infer_error
    end
  else match shape_op_type op attrs ts with Some r => r | None => Err infer_error end.

Fixpoint infer (e : expr) : result rty :=
  match e with
  | Var _ t => Ok (TyTensor t)
  | Const v => Ok (value_rty v)
  | Call op args attrs => let* ts := mapM infer args in op_type op attrs ts
  | Tuple fs => let* ts := mapM infer fs in Ok (TyTuple ts)
  | TupleGetItem e i =>
      let* t := infer e in
      match t with
      | TyTuple ts => of_option infer_error (nth_error ts i)
      | _ => Err infer_error
      end
  | IfE _ t _ => infer t
  | WhileLoop vars _ _ _ => Ok (TyTuple (map (fun v => TyTensor (snd v)) vars))
  end.

(** [infer_type(x).checked_type] as a tensor type. *)
Definition infer_tensor (e : expr) : result ttype :=
  let* t := infer e in
  match t with TyTensor t' => Ok t' | TyTuple _ => Err infer_error end.

(** ** Fuel *)

(** More fuel never changes a result the evaluator reached: [eval],
    [eval_list] and [run_loop] are monotone in their fuel. *)
Lemma eval_fuel_mono (f : nat) :
  (forall f' env e v, f <= f' -> eval f env e = Some v -> eval f' env e = Some v) /\
  (forall f' env es vs, f <= f' -> eval_list f env es = Some vs -> eval_list f' env es = Some vs) /\
  (forall f' env vars c b vs vs', f <= f' ->
     run_loop f env vars c b vs = Some vs' -> run_loop f' env vars c b vs = Some vs').
Proof.
  induction f as [|f (He & Hl & Hr)]; [repeat split; discriminate|].
  repeat split.
  - intros [|f'] env e v Hle; [lia|]. assert (Hf : f <= f') by lia. simpl. clear Hle.
    destruct e; try tauto.
    + destruct (eval_list f env args) eqn:E; [|discriminate]. now rewrite (Hl _ _ _ _ Hf E).
    + destruct (eval_list f env fields) eqn:E; [|discriminate]. now rewrite (Hl _ _ _ _ Hf E).
    + destruct (eval f env e) eqn:E; [|discriminate]. now rewrite (He _ _ _ _ Hf E).
    + destruct (eval f env e1) as [v0|] eqn:E; [|discriminate]. rewrite (He _ _ _ _ Hf E).
      destruct v0 as [? [|] [|z []]| |]; try discriminate.
      destruct (z =? 0)%Z; eauto.
    + destruct (eval_list f env _) eqn:E; [|discriminate]. rewrite (Hl _ _ _ _ Hf E).
      destruct (run_loop f env _ _ _ _) eqn:E2; [|discriminate].
      now rewrite (Hr _ _ _ _ _ _ _ Hf E2).
  - intros [|f'] env l vs Hle; [lia|]. assert (Hf : f <= f') by lia. simpl. clear Hle.
    destruct l as [|e l]; [tauto|].
    destruct (eval f env e) eqn:E1; [|discriminate].
    destruct (eval_list f env l) eqn:E2; [|discriminate].
    now rewrite (He _ _ _ _ Hf E1), (Hl _ _ _ _ Hf E2).
  - intros [|f'] env vars c b vs vs' Hle; [lia|]. assert (Hf : f <= f') by lia. simpl. clear Hle.
    destruct (eval f _ _) as [v0|] eqn:E; [|discriminate]. rewrite (He _ _ _ _ Hf E).
    destruct v0 as [? [|] [|z []]| |]; try discriminate.
    destruct (z =? 0)%Z; [tauto|].
    destruct (eval_list f _ _) eqn:E2; [|discriminate]. rewrite (Hl _ _ _ _ Hf E2). eauto.
Qed.

Lemma eval_call (f : nat) (env : odict value) (op : string) (args : list expr)
      (attrs : list (string * kwarg)) :
  eval (S f) env (Call op args attrs) =
  match eval_list f env args with Some vs => apply_op op attrs vs | None => None end.
Proof. reflexivity. Qed.

Lemma eval_list_cons (f : nat) (env : odict value) (e : expr) (es : list expr) :
  eval_list (S f) env (e :: es) =
  match eval f env e, eval_list f env es with
  | Some v, Some vs => Some (v :: vs)
  | _, _ => None
  end.
Proof. reflexivity. Qed.

(** [FoldConstant] leaves an expression with a free variable alone. *)
Lemma fold_constant_open (e : expr) : free_vars e <> [] -> fold_constant e = e.
Proof. unfold fold_constant. destruct (free_vars e); [contradiction | reflexivity]. Qed.

Lemma eval_mono (f f' : nat) (env : odict value) (e : expr) (v : value) :
  f <= f' -> eval f env e = Some v -> eval f' env e = Some v.
Proof. apply eval_fuel_mono. Qed.

Lemma eval_list_mono (f f' : nat) (env : odict value) (es : list expr) (vs : list value) :
  f <= f' -> eval_list f env es = Some vs -> eval_list f' env es = Some vs.
Proof. apply eval_fuel_mono. Qed.

(** ** Broadcasting *)

(** A shape broadcasts with itself and with a scalar's. *)
Lemma bcast_dim_same (d : dimv) : bcast_dim d d = Some d.
Proof. destruct d as [|[|[|n]]]; simpl; rewrite ?Nat.eqb_refl; reflexivity. Qed.

Lemma bcast_dim_one (d : dimv) : bcast_dim d (DInt 1) = Some d.
Proof. destruct d as [|[|[|n]]]; reflexivity. Qed.

Lemma bcast_shapes_same (s : list dimv) : bcast_shapes s s = Some s.
Proof.
  unfold bcast_shapes.
  assert (H : forall a, bcast_rev a a = Some a)
    by (induction a as [|x a IH]; simpl; [reflexivity|]; now rewrite bcast_dim_same, IH).
  now rewrite H, rev_involutive.
Qed.

Lemma bcast_shapes_nil_l (s : list dimv) : bcast_shapes [] s = Some s.
Proof. unfold bcast_shapes. simpl. now rewrite rev_involutive. Qed.

Lemma bcast_shapes_scalar (s : list dimv) : bcast_shapes s [] = Some s.
Proof.
  unfold bcast_shapes. change (rev []) with (@nil dimv).
  replace (bcast_rev (rev s) []) with (Some (rev s)) by (destruct (rev s); reflexivity).
  now rewrite rev_involutive.
Qed.

(** ** Elementwise evaluation *)

Lemma zip_data_map (f : Z -> Z -> Z) (g h : Z -> Z) (d : list Z) :
  zip_data f (map g d) (map h d) = map (fun x => f (g x) (h x)) d.
Proof. unfold zip_data. induction d as [|x d IH]; simpl; [reflexivity|]. now rewrite IH. Qed.

Lemma binop_same_shape (o : option string) (f : Z -> Z -> Z) (da db : string) (s : list nat)
      (xa xb : list Z) :
  binop o f (VTensor da s xa) (VTensor db s xb) =
  Some (VTensor (match o with Some t => t | None => da end) s (zip_data f xa xb)).
Proof. unfold binop. now destruct (list_eq_dec Nat.eq_dec s s). Qed.

(** A well-formed tensor, [length d] the product of its shape, with a
    scalar on the right. *)
Lemma binop_scalar_r (o : option string) (f : Z -> Z -> Z) (da db : string) (s : list nat)
      (d : list Z) (y : Z) :
  length d = fold_right Nat.mul 1 s ->
  binop o f (VTensor da s d) (VTensor db [] [y]) =
  Some (VTensor (match o with Some t => t | None => da end) s (map (fun x => f x y) d)).
Proof.
  intros Hl. unfold binop. destruct s as [|n s].
  - destruct d as [|x [|]]; try discriminate Hl. reflexivity.
  - destruct (list_eq_dec Nat.eq_dec (n :: s) []); [discriminate|]. reflexivity.
Qed.

Lemma where_val_map (dc da db : string) (s : list nat) (d : list Z) (c a b : Z -> Z) :
  where_val (VTensor dc s (map c d)) (VTensor da s (map a d)) (VTensor db s (map b d)) =
  Some (VTensor da s (map (fun x => if (c x =? 0)%Z then b x else a x) d)).
Proof.
  unfold where_val. destruct (list_eq_dec Nat.eq_dec s s); [|contradiction]. do 3 f_equal.
  induction d as [|x d IH]; simpl; [reflexivity|]. now rewrite IH.
Qed.

End IR.
