(* ===== verification/Attrs.v ===== *)
(** * Attrs: the attribute table of a node and the attribute helpers

    [GraphProto._parse_attr] (onnx.py, lines 4748-4771) turns the
    [AttributeProto] list of a node into a Python dict from names to
    values; [attr_val] is the closed variant of those values (the scalar
    fields [f], [i], [s], [g], the tuples built from the repeated fields,
    the tensors, and the ["tvm_custom"] entry that the importer adds).

    The helpers of onnx.py that read the table are here too:
    [dimension_picker] (lines 127-142), [revert_caffe2_pad] (145-153),
    [get_pad_pair] (156-166), [onnx_default_layout] (169-178),
    [onnx_storage_order2layout] (181-194) and [dimension_constraint]
    (197-203).

    Theorems: the table of well-formed attributes (one field each, names
    distinct); the errors for an empty attribute and for [graphs]; the
    finding that an attribute with two scalar fields is accepted and keeps
    the last; the bounds of the SAME padding that [get_pad_pair] splits;
    the layout helpers agree on storage order 0. *)

From Stdlib Require Import String List Bool Arith Lia ZArith.
From S2P Require Import Prelude Proto.
Import ListNotations.
Local Open Scope string_scope.
Local Open Scope list_scope.

Module Attrs.
Import Proto.

(** A value of the table: the protobuf fields, the [tvm_custom] entry,
    [AFloatInf], the float [np.inf] ([-np.inf] when [neg]) that the
    [Clip] rule stores, [APairs], the list of pairs [Pad] stores, and the
    values of the dictionaries some rules build: [ARatio num den], a float
    literal of the code that is not an integer ([num / den] exactly), and
    [ANone], Python's [None].
    Float values are carried as integers: the importer passes them on
    to Relay without computing with them. *)
Inductive attr_val : Type :=
| AFloat (z : Z)
| AInt (z : Z)
| ABytes (s : string)
| AGraph (g : graph_proto)
| AFloats (l : list Z)
| AInts (l : list Z)
| AStrings (l : list string)
| ATensor (t : tensor_proto)
| ATensors (l : list tensor_proto)
| ATvmCustom (name : string) (num_outputs : nat)
| AFloatInf (neg : bool)
| APairs (l : list (Z * Z))
| ARatio (num den : Z)
| ANone.

Definition attr_table := odict attr_val.

(** [if list(getattr(a, f)): assert a.name not in attrs; attrs[a.name] = tuple(...)]. *)
Definition set_repeated {A : Type} (name : string) (l : list A) (mk : list A -> attr_val)
           (acc : attr_table) : result attr_table :=
  match l with
  | [] => Ok acc
  | _ :: _ =>
      let* _ := py_assert (negb (od_mem name acc)) "Only one type of attr is allowed" in
      Ok (od_set name (mk l) acc)
  end.

Definition set_scalar {A : Type} (name : string) (o : option A) (mk : A -> attr_val)
           (acc : attr_table) : attr_table :=
  match o with Some v => od_set name (mk v) acc | None => acc end.

(** The body of the loop [for a in attr_proto]. *)
Definition parse_one (acc : attr_table) (a : attribute_proto) : result attr_table :=
  let 'AttributeProto name f i s g floats ints strings t tensors graphs := a in
  let acc := set_scalar name f AFloat acc in
  let acc := set_scalar name i AInt acc in
  let acc := set_scalar name s ABytes acc in
  let acc := set_scalar name g AGraph acc in
  let* acc := set_repeated name floats AFloats acc in
  let* acc := set_repeated name ints AInts acc in
  let* acc := set_repeated name strings AStrings acc in
  let acc := set_scalar name t ATensor acc in
  let* acc := set_repeated name tensors ATensors acc in
  match graphs with
  | _ :: _ => Err (NotImplementedError "Field graphs is not supported in relay.")
  | [] =>
      if od_mem name acc then Ok acc
      else Err (ValueError "Cannot parse attribute")
  end.

Definition parse_attr (attr_proto : list attribute_proto) : result attr_table :=
  foldM parse_one [] attr_proto.

(** The fields an attribute populates, in the order the code reads them. *)
Definition populated (a : attribute_proto) : list attr_val :=
  let 'AttributeProto _ f i s g floats ints strings t tensors _ := a in
  let opt {A} (o : option A) (mk : A -> attr_val) :=
    match o with Some v => [mk v] | None => [] end in
  let rep {A} (l : list A) (mk : list A -> attr_val) :=
    match l with [] => [] | _ => [mk l] end in
  opt f AFloat ++ opt i AInt ++ opt s ABytes ++ opt g AGraph ++ rep floats AFloats
  ++ rep ints AInts ++ rep strings AStrings ++ opt t ATensor ++ rep tensors ATensors.

Definition a_graphs (a : attribute_proto) : list graph_proto :=
  let 'AttributeProto _ _ _ _ _ _ _ _ _ _ gs := a in gs.

(** ** Attribute helpers of onnx.py *)

(** [attr["kernel_shape"]]'s length, as [len()] reads it. *)
Definition attr_len (k : string) (attr : attr_table) : result nat :=
  let* v := od_find k attr in
  match v with
  | AInts l => Ok (length l)
  | AFloats l => Ok (length l)
  | AStrings l => Ok (length l)
  | ATensors l => Ok (length l)
  | _ => Err (TypeError "object has no len()")
  end.

Definition dimension_picker (prefix suffix : string) (attr : attr_table) : result string :=
  let* n := attr_len "kernel_shape" attr in
  match n with
  | 1 => Ok (prefix ++ "1d" ++ suffix)%string
  | 2 => Ok (prefix ++ "2d" ++ suffix)%string
  | 3 => Ok (prefix ++ "3d" ++ suffix)%string
  | _ => Err (OpAttributeInvalid "Only 1D, 2D, and 3D kernels are supported")
  end.

(** [dimension_constraint()]: the check function and its message. *)
Definition dimension_constraint (attr : attr_table) : result bool :=
  let* n := attr_len "kernel_shape" attr in Ok (existsb (Nat.eqb n) [1; 2; 3]).

Definition revert_caffe2_pad (pads : list Z) : result (list Z) :=
  match length pads with
  | 4 => Ok (firstn 2 pads)
  | 2 => Ok pads
  | _ => Err (OpAttributeInvalid "Number of pads must be either 2 or 4.")
  end.

(** Python's [%] and [//] on integers are [Z.modulo] and [Z.div]
    (floor); a zero stride raises [ZeroDivisionError]. *)
Definition get_pad_pair (input1d kernel1d stride1d : Z) (mode : string) : result (list Z) :=
  if (stride1d =? 0)%Z then Err ZeroDivisionError else
  let pad := if (input1d mod stride1d =? 0)%Z
             then Z.max (kernel1d - stride1d) 0
             else Z.max (kernel1d - input1d mod stride1d) 0 in
  let pad_before := (pad / 2)%Z in
  let pad_after := (pad - pad_before)%Z in
  if str_contains "LOWER" mode then Ok [pad_after; pad_before]
  else Ok [pad_before; pad_after].

Definition onnx_default_layout (dims : nat) : result string :=
  match dims with
  | 1 => Ok "NCW" | 2 => Ok "NCHW" | 3 => Ok "NCDHW"
  | _ => Err (OpAttributeInvalid "Only 1D, 2D and 3D layouts are currently supported")
  end.

Definition onnx_storage_order2layout (storage_order : Z) (dims : nat) : result string :=
  if negb ((storage_order =? 0)%Z || (storage_order =? 1)%Z)
  then Err (OpAttributeInvalid "Mode of storage_order must be either 0 or 1")
  else
    let row := (storage_order =? 0)%Z in
    match dims with
    | 1 => Ok (if row then "NCW" else "NWC")
    | 2 => Ok (if row then "NCHW" else "NHWC")
    | 3 => Ok (if row then "NCDHW" else "NDHWC")
    | _ => Err (OpAttributeInvalid "Only 1D, 2D and 3D layouts are currently supported")
    end.

(** Every graph of a table is at most [d] deep: the measure that bounds
    the recursion of the importer through [If] and [Loop] bodies. *)
Definition graphs_within (d : nat) (attr : attr_table) : Prop :=
  forall k g, In (k, AGraph g) attr -> graph_depth g <= d.

(** ** The attribute table *)

Lemma graphs_within_set (d : nat) (attr : attr_table) (k : string) (v : attr_val) :
  graphs_within d attr -> (forall g, v = AGraph g -> graph_depth g <= d) ->
  graphs_within d (od_set k v attr).
Proof.
  intros H Hv k' g Hin. apply od_set_In in Hin as [E|Hin]; [|exact (H _ _ Hin)].
  inv E. now apply Hv.
Qed.

Lemma parse_one_within (d : nat) (acc acc' : attr_table) (a : attribute_proto) :
  attr_depth a <= d -> graphs_within d acc -> parse_one acc a = Ok acc' ->
  graphs_within d acc'.
Proof.
  destruct a as [name f i s g fs xs ss t ts gs]. simpl. intros Hd Hacc H.
  assert (Hsc : forall (B : Type) (o : option B) mk (acc0 : attr_table),
             (forall x g', o = Some x -> mk x = AGraph g' -> graph_depth g' <= d) ->
             graphs_within d acc0 -> graphs_within d (set_scalar name o mk acc0)).
  { intros B [x|] mk acc0 Hmk H0; simpl; [|exact H0].
    apply graphs_within_set; [exact H0 | intros g' E; exact (Hmk x g' eq_refl E)]. }
  assert (Hrep : forall (B : Type) (l : list B) mk (acc0 acc1 : attr_table),
             (forall x g', mk x <> AGraph g') -> graphs_within d acc0 ->
             set_repeated name l mk acc0 = Ok acc1 -> graphs_within d acc1).
  { intros B [|x l] mk acc0 acc1 Hmk H0 E; simpl in E; [now inv E|].
    bind_ok E. inv E. apply graphs_within_set; [exact H0 | intros g' E; now apply Hmk in E]. }
  bind_ok H. bind_ok H. bind_ok H. bind_ok H.
  destruct gs; [|discriminate]. destruct (od_mem name _); inv H.
  apply (Hrep _ ts ATensors (set_scalar name t ATensor a1)); [discriminate | | exact Hc2].
  apply Hsc; [intros ? ? _ E; discriminate E|].
  apply (Hrep _ ss AStrings a0); [discriminate | | exact Hc1].
  apply (Hrep _ xs AInts a); [discriminate | | exact Hc0].
  eapply (Hrep _ fs AFloats); [discriminate | | exact Hc].
  apply Hsc; [intros x g' -> E; inv E; simpl in Hd; lia|].
  repeat (apply Hsc; [intros ? ? _ E; discriminate E|]). exact Hacc.
Qed.

Lemma parse_attr_within (d : nat) (l : list attribute_proto) (attr : attr_table) :
  (forall a, In a l -> attr_depth a <= d) -> parse_attr l = Ok attr -> graphs_within d attr.
Proof.
  unfold parse_attr. assert (H0 : graphs_within d []) by (intros ? ? []).
  revert H0. generalize (@nil (string * attr_val)) as acc.
  induction l as [|a l IH]; intros acc H0 Hd H; simpl in H; [now inv H|].
  bind_ok H. apply (IH a0); [| intros; apply Hd; now right | exact H].
  exact (parse_one_within d acc a0 a (Hd a (or_introl eq_refl)) H0 Hc).
Qed.

Lemma parse_one_single (acc : attr_table) (a : attribute_proto) (v : attr_val) :
  ~ In (a_name a) (od_keys acc) -> a_graphs a = [] ->
  populated a = [v] -> parse_one acc a = Ok (acc ++ [(a_name a, v)]).
Proof.
  destruct a as [name f i s g fs xs ss t ts gs]; simpl; intros Hfresh Hg; subst gs.
  pose proof (od_mem_false _ _ Hfresh) as Hm.
  rewrite <- (od_set_notin_app _ v _ Hfresh).
  destruct f, i, s, g, fs, xs, ss, t, ts; simpl; intros Hp; inv Hp;
    rewrite ?Hm; simpl; rewrite ?od_mem_set_eq; reflexivity.
Qed.

Lemma parse_one_empty (acc : attr_table) (a : attribute_proto) :
  ~ In (a_name a) (od_keys acc) -> a_graphs a = [] ->
  populated a = [] -> parse_one acc a = Err (ValueError "Cannot parse attribute").
Proof.
  destruct a as [name f i s g fs xs ss t ts gs]; simpl; intros Hfresh Hg; subst gs.
  pose proof (od_mem_false _ _ Hfresh) as Hm.
  destruct f, i, s, g, fs, xs, ss, t, ts; simpl; intros Hp; inv Hp.
  now rewrite Hm.
Qed.

Lemma parse_attr_acc (l : list attribute_proto) (acc : attr_table) :
  NoDup (map a_name l) ->
  (forall n, In n (map a_name l) -> ~ In n (od_keys acc)) ->
  (forall a, In a l -> a_graphs a = [] /\ exists v, populated a = [v]) ->
  foldM parse_one acc l = Ok (acc ++ map (fun a => (a_name a, hd (AInt 0) (populated a))) l).
Proof.
  revert acc; induction l as [|a l IH]; intros acc Hnd Hfresh Hwf; simpl.
  - now rewrite app_nil_r.
  - destruct (Hwf a (or_introl eq_refl)) as [Hg [v Hv]].
    inversion Hnd as [|? ? Hnotin Hnd']; subst.
    rewrite (parse_one_single acc a v (Hfresh _ (or_introl eq_refl)) Hg Hv); simpl.
    rewrite IH, <- app_assoc, Hv; [reflexivity | exact Hnd' | | intros; apply Hwf; now right].
    intros n Hn Hin. unfold od_keys in Hin. rewrite map_app in Hin.
    apply in_app_or in Hin as [Hin|[Heq|[]]].
    + exact (Hfresh n (or_intror Hn) Hin).
    + simpl in Heq; subst. contradiction.
Qed.

(** A node's attributes, each with exactly one populated field and
    with distinct names, parse to the table of their values, in order. *)
Theorem parse_attr_table (l : list attribute_proto) :
  NoDup (map a_name l) ->
  (forall a, In a l -> a_graphs a = [] /\ exists v, populated a = [v]) ->
  parse_attr l = Ok (map (fun a => (a_name a, hd (AInt 0) (populated a))) l).
Proof.
  intros Hnd Hwf. unfold parse_attr.
  rewrite (parse_attr_acc l [] Hnd); [reflexivity | intros n _ [] | exact Hwf].
Qed.

Lemma parse_attr_table_witness :
  let k := AttributeProto "kernel_shape" None None None None [] [3; 3]%Z [] None [] [] in
  let m := AttributeProto "mode" None None (Some "SAME_UPPER") None [] [] [] None [] [] in
  parse_attr [k; m] = Ok [("kernel_shape", AInts [3; 3]%Z); ("mode", ABytes "SAME_UPPER")].
Proof.
  intros k m. apply (parse_attr_table [k; m]).
  - repeat constructor; simpl; intuition discriminate.
  - intros a [<-|[<-|[]]]; (split; [reflexivity | eexists; reflexivity]).
Defined.

(** An attribute that populates no field is rejected with
    [ValueError("Cannot parse attribute")], whatever follows it. *)
Lemma parse_attr_empty_error (a : attribute_proto) (l : list attribute_proto) :
  populated a = [] -> a_graphs a = [] ->
  parse_attr (a :: l) = Err (ValueError "Cannot parse attribute").
Proof.
  intros Hp Hg. unfold parse_attr; simpl.
  now rewrite (parse_one_empty [] a (fun H => H) Hg Hp).
Qed.

Lemma parse_attr_empty_error_witness :
  parse_attr [AttributeProto "alpha" None None None None [] [] [] None [] []] =
  Err (ValueError "Cannot parse attribute").
Proof. apply parse_attr_empty_error; reflexivity. Defined.

(** The spec requires exactly one populated field per attribute; the
    code accepts an attribute that sets both [f] and [i] and keeps the
    integer, silently dropping the float. *)
Theorem parse_attr_two_scalars (n : string) (x y : Z) :
  parse_attr [AttributeProto n (Some x) (Some y) None None [] [] [] None [] []]
  = Ok [(n, AInt y)].
Proof.
  unfold parse_attr; cbn. rewrite String.eqb_refl. unfold od_mem; cbn.
  now rewrite String.eqb_refl.
Qed.

(** ** Padding and layouts *)

(** The SAME padding of an axis, as [get_pad_pair] computes it. *)
Lemma get_pad_pair_eq (input kernel stride : Z) (mode : string) :
  stride <> 0%Z ->
  get_pad_pair input kernel stride mode =
  Ok (let pad := if (input mod stride =? 0)%Z then Z.max (kernel - stride) 0
                 else Z.max (kernel - input mod stride) 0 in
      if str_contains "LOWER" mode then [pad - pad / 2; pad / 2]%Z else [pad / 2; pad - pad / 2]%Z).
Proof.
  intros Hs. unfold get_pad_pair. destruct (Z.eqb_spec stride 0) as [|_]; [lia|]. cbv zeta.
  destruct (input mod stride =? 0)%Z, (str_contains "LOWER" mode); reflexivity.
Qed.

(** Halving a non-negative padding: the second half is the larger, by at
    most one. *)
Lemma half_split (pad : Z) :
  (0 <= pad)%Z -> (0 <= pad / 2 <= pad - pad / 2 /\ pad - pad / 2 <= pad / 2 + 1)%Z.
Proof. intros Hp. Z.to_euclidean_division_equations. lia. Qed.

(** [get_pad_pair] splits the SAME padding of an axis, with a positive
    stride, into two non-negative halves that sum to it, the larger half
    (by at most one) after the data for SAME_UPPER and before it for
    SAME_LOWER. *)
Theorem get_pad_pair_split (input kernel stride : Z) (mode : string) :
  (0 < stride)%Z ->
  exists before after : Z,
    get_pad_pair input kernel stride mode =
      Ok (if str_contains "LOWER" mode then [after; before] else [before; after]) /\
    (before + after =
       Z.max (kernel - (if (input mod stride =? 0)%Z then stride else input mod stride)) 0)%Z /\
    (0 <= before <= after /\ after <= before + 1)%Z.
Proof.
  intros Hs. rewrite get_pad_pair_eq by lia. cbv zeta.
  set (pad := if (input mod stride =? 0)%Z then _ else _).
  assert (Hp : (0 <= pad)%Z) by (unfold pad; destruct (_ =? _)%Z; lia).
  exists (pad / 2)%Z, (pad - pad / 2)%Z. split; [now destruct (str_contains _ _)|].
  split; [|now apply half_split].
  replace (pad / 2 + (pad - pad / 2))%Z with pad by lia.
  unfold pad. now destruct (_ =? _)%Z.
Qed.

Lemma get_pad_pair_split_witness :
  (0 < 2)%Z /\
  exists before after : Z,
    get_pad_pair 5 3 2 "SAME_LOWER" = Ok [after; before] /\
    (before + after = 2)%Z /\ (0 <= before <= after /\ after <= before + 1)%Z.
Proof.
  split; [lia|].
  destruct (get_pad_pair_split 5 3 2 "SAME_LOWER") as [x [y [H1 [H2 H3]]]]; [lia|].
  exists x, y. split; [exact H1|]. split; [exact H2 | exact H3].
Defined.

(** Storage order 0 (row major) gives the default layout of every
    rank, errors included. *)
Lemma storage_order_row_major (dims : nat) :
  onnx_storage_order2layout 0 dims = onnx_default_layout dims.
Proof. destruct dims as [|[|[|[|d]]]]; reflexivity. Qed.

End Attrs.
