(* ===== verification/Ops.v ===== *)
(** * Ops: the convert map and the operator conversion rules

    [_get_convert_map] (onnx.py, lines 4307-4497) maps every supported ONNX
    operator to its conversion rule: an [OnnxOpConverter] class resolved
    through the registry ([get_converter]) at the requested opset, a
    [Renamer] or an [AttrCvt].  [convert_table] transcribes the map
    (each class with the [_impl_v] versions it has, inherited ones
    included), as the concatenation of the groups the source marks with
    [# defs/...] comments ([defs_experimental], [defs_math], ...), and
    [get_convert_map] resolves it.

    The conversion rules of the classes modelled here follow the code:
    [Unary], [Elemwise] and its subclasses ([Add], [Sub], [Mul], [Div],
    [Equal], [Not], [And], [Or], [Tile]), [Sum], [Maximum], [Minimum],
    [Mean], [Concat], [Constant], [Sign], [Erf].  [Renamer] and [AttrCvt]
    live in frontend/common.py, outside the sources: they are modelled
    from the spec (section 4.2).  A rule returns an expression or a
    [TupleWrapper] ([conv_out]).

    The other rules (convolution, pooling, quantization, ...) are modelled
    in the files that follow; the class [OpOracle] stands for a rule
    outside the model.  The importer reaches it for no class of the
    convert map, and every theorem about the importer holds for any
    oracle.

    Theorems: building the map never fails; the map's keys are its
    operators; the inherited [Elemwise] rule that [Or] and [Tile] get at
    an opset below their own first version raises, because the class
    names no Relay operator. *)

From Stdlib Require Import String List Bool Arith Lia ZArith.
From S2P Require Import Prelude Registry Proto IR Attrs.
Import ListNotations.
Local Open Scope string_scope.
Local Open Scope list_scope.

Module Ops.
Import Proto IR Attrs.

(** What a conversion rule returns: an expression, or a [TupleWrapper]
    of a tuple-valued expression and its arity. *)
Inductive conv_out : Type :=
| Single (e : expr)
| Wrapper (tup : expr) (n : nat).

(** [onnx_input.__getitem__]: out-of-range positions read [None]. *)
Definition input_at (ins : list (option expr)) (i : nat) : option expr :=
  match nth_error ins i with Some o => o | None => None end.

(** An attribute value passed as a keyword argument of a Relay call. *)
Definition kwarg_of (v : attr_val) : kwarg :=
  match v with
  | AInt z => KInt z
  | AInts l => KInts l
  | AFloat z => KFloat z
  | AFloatInf b => KFloatInf b
  | APairs l => KPairs l
  | ABytes s => KStr s
  | ARatio n d => KRatio n d
  | _ => KNone
  end.

Definition kwargs_of (attr : attr_table) : list (string * kwarg) :=
  map (fun kv => (fst kv, kwarg_of (snd kv))) attr.

(** [get_relay_op(op_name)] called on the inputs and keywords: a name that no Relay
    namespace defines (the empty name of a base class) raises, and so
    does an omitted ([None]) input. *)
Definition relay_call (op : string) (ins : list (option expr))
           (kw : list (string * kwarg)) : result expr :=
  if String.eqb op "" then Err (OpNotImplemented [op]) else
  let* args := mapM (of_option (TypeError "None is not a Relay expression")) ins in
  Ok (Call op args kw).

(** [Renamer(new_name)]: drops ["tvm_custom"] and passes the attributes. *)
Definition renamer (new_name : string) (ins : list (option expr)) (attr : attr_table)
  : result expr :=
  relay_call new_name ins (kwargs_of (od_del "tvm_custom" attr)).

(** [AttrCvt]: renames attributes, drops the ignored ones and
    ["tvm_custom"], adds the extras; an attribute present together with
    the name it is renamed to is a conflict (spec, section 4.2). *)
Record attr_cvt : Type := AttrCvt {
  cvt_op : string;
  cvt_transforms : list (string * string);
  cvt_ignores : list string;
  cvt_extras : list (string * kwarg)
}.

Definition attr_cvt_apply (c : attr_cvt) (ins : list (option expr)) (attr : attr_table)
  : result expr :=
  let attr := od_del "tvm_custom" attr in
  match find (fun kk => od_mem (fst kk) attr && od_mem (snd kk) attr) (cvt_transforms c) with
  | Some (k, _) => Err (AttributeConflict k)
  | None =>
      let kept := filter (fun kv => negb (existsb (String.eqb (fst kv)) (cvt_ignores c))) attr in
      let renamed := map (fun kv => match od_get (fst kv) (cvt_transforms c) with
                                    | Some k' => (k', kwarg_of (snd kv))
                                    | None => (fst kv, kwarg_of (snd kv))
                                    end) kept in
      relay_call (cvt_op c) ins (od_update renamed (cvt_extras c))
  end.

(** ** The convert map *)

Inductive rule : Type :=
| RClass (cls : string) (impls : list nat)
| RRenamer (new_name : string)
| RAttrCvt (c : attr_cvt).

(** The entries under [# defs/experimental]. *)
Definition defs_experimental : list (string * rule) := [
  ("Identity", RRenamer "copy");
  ("Affine", RClass "Affine" [1]);
  ("BitShift", RClass "BitShift" [11]);
  ("ThresholdedRelu", RClass "ThresholdedRelu" [1]);
  ("ScaledTanh", RClass "ScaledTanh" [1]);
  ("ParametricSoftplus", RClass "ParametricSoftPlus" [1]);
  ("Constant", RClass "Constant" [9]);
  ("ConstantOfShape", RClass "ConstantOfShape" [9]);
  ("FC", RAttrCvt (AttrCvt "dense" [] ["axis"; "axis_w"] []));
  ("Scale", RClass "Scale" [1]);
  ("Upsample", RClass "Upsample" [9]);
  ("SpatialBN", RClass "BatchNorm" [1])
].

(** The entries under [# defs/math (defs/generator and defs/logical are empty)]. *)
Definition defs_math : list (string * rule) := [
  ("Add", RClass "Add" [1]);
  ("Sub", RClass "Sub" [1]);
  ("Mul", RClass "Mul" [1]);
  ("Div", RClass "Div" [1]);
  ("Neg", RRenamer "negative");
  ("Abs", RClass "Absolute" [1]);
  ("Reciprocal", RClass "Reciprocal" [1]);
  ("Floor", RRenamer "floor");
  ("Ceil", RRenamer "ceil");
  ("Round", RRenamer "round");
  ("IsInf", RClass "IsInf" [10]);
  ("IsNaN", RRenamer "isnan");
  ("Sqrt", RRenamer "sqrt");
  ("Relu", RRenamer "relu");
  ("Celu", RClass "Celu" [12]);
  ("LeakyRelu", RRenamer "leaky_relu");
  ("Selu", RClass "Selu" [1]);
  ("Elu", RClass "Elu" [1]);
  ("Exp", RRenamer "exp");
  ("Greater", RRenamer "greater");
  ("GreaterOrEqual", RRenamer "greater_equal");
  ("Less", RRenamer "less");
  ("LessOrEqual", RRenamer "less_equal");
  ("Log", RRenamer "log");
  ("Acos", RRenamer "acos");
  ("Acosh", RRenamer "acosh");
  ("Asin", RRenamer "asin");
  ("Asinh", RRenamer "asinh");
  ("Atan", RRenamer "atan");
  ("Atanh", RRenamer "atanh");
  ("Cos", RRenamer "cos");
  ("Cosh", RRenamer "cosh");
  ("Sin", RRenamer "sin");
  ("Sinh", RRenamer "sinh");
  ("Tan", RRenamer "tan");
  ("Tanh", RRenamer "tanh");
  ("Pow", RClass "Pow" [13]);
  ("PRelu", RClass "Prelu" [1]);
  ("Sigmoid", RRenamer "sigmoid");
  ("HardSigmoid", RClass "HardSigmoid" [1]);
  ("Max", RClass "Maximum" [1]);
  ("Min", RClass "Minimum" [1]);
  ("Sum", RClass "Sum" [1]);
  ("Mean", RClass "Mean" [1]);
  ("Clip", RClass "Clip" [1; 11]);
  ("Softplus", RClass "Softplus" [1]);
  ("Softmax", RClass "Softmax" [1; 13]);
  ("LogSoftmax", RClass "LogSoftmax" [1; 13]);
  ("OneHot", RClass "OneHot" [9]);
  ("Hardmax", RClass "Hardmax" [1; 13]);
  ("Shrink", RClass "Shrink" [9]);
  ("Softsign", RClass "Softsign" [1]);
  ("Gemm", RClass "Gemm" [1]);
  ("MatMul", RClass "MatMul" [1]);
  ("Mod", RClass "Mod" [1]);
  ("Xor", RRenamer "logical_xor")
].

(** The entries under [# defs/nn and the recurrent layers]. *)
Definition defs_nn : list (string * rule) := [
  ("AveragePool", RClass "AveragePool" [1]);
  ("LpPool", RClass "LpPool" [1]);
  ("GlobalLpPool", RClass "GlobalLpPool" [1]);
  ("MaxPool", RClass "MaxPool" [1]);
  ("MaxUnpool", RClass "MaxUnpool" [11]);
  ("Conv", RClass "Conv" [1]);
  ("ConvTranspose", RClass "ConvTranspose" [1; 11]);
  ("GlobalAveragePool", RClass "GlobalAveragePool" [1]);
  ("GlobalMaxPool", RClass "GlobalMaxPool" [1]);
  ("BatchNormalization", RClass "BatchNorm" [1]);
  ("InstanceNormalization", RClass "InstanceNorm" [1]);
  ("Dropout", RAttrCvt (AttrCvt "dropout" [("ratio", "rate")] ["is_test"] []));
  ("Flatten", RClass "Flatten" [1]);
  ("LRN", RClass "LRN" [1]);
  ("LSTM", RClass "LSTM" [7]);
  ("GRU", RClass "GRU" [7])
].

(** The entries under [# defs/vision]. *)
Definition defs_vision : list (string * rule) := [
  ("MaxRoiPool", RClass "MaxRoiPool" [1]);
  ("RoiAlign", RClass "RoiAlign" [1]);
  ("NonMaxSuppression", RClass "NonMaxSuppression" [10])
].

(** The entries under [# defs/reduction]. *)
Definition defs_reduction : list (string * rule) := [
  ("ReduceMax", RClass "ReduceMax" [1; 12]);
  ("ReduceMin", RClass "ReduceMin" [1; 12]);
  ("ReduceSum", RClass "ReduceSum" [1; 12]);
  ("ReduceMean", RClass "ReduceMean" [1; 12]);
  ("ReduceProd", RClass "ReduceProd" [1; 12]);
  ("ReduceLogSumExp", RClass "ReduceLogSumExp" [1; 12]);
  ("ReduceLogSum", RClass "ReduceLogSum" [1]);
  ("ReduceSumSquare", RClass "ReduceSumSquare" [1]);
  ("ReduceL1", RClass "ReduceL1" [1]);
  ("ReduceL2", RClass "ReduceL2" [1])
].

(** The entries under [# defs/sorting]. *)
Definition defs_sorting : list (string * rule) := [
  ("ArgMax", RClass "ArgMax" [13]);
  ("ArgMin", RClass "ArgMin" [13]);
  ("TopK", RClass "TopK" [1])
].

(** The entries under [# defs/tensor]. *)
Definition defs_tensor : list (string * rule) := [
  ("Cast", RClass "Cast" [1; 5]);
  ("Reshape", RClass "Reshape" [1; 5]);
  ("Expand", RClass "Expand" [8]);
  ("Concat", RClass "Concat" [1]);
  ("Split", RClass "Split" [1]);
  ("Slice", RClass "Slice" [1; 10]);
  ("Transpose", RAttrCvt (AttrCvt "transpose" [("perm", "axes")] [] []));
  ("DepthToSpace", RClass "DepthToSpace" [11]);
  ("SpaceToDepth", RClass "SpaceToDepth" [1]);
  ("Gather", RClass "Gather" [1]);
  ("GatherElements", RClass "GatherElements" [1]);
  ("GatherND", RClass "GatherND" [1; 12]);
  ("Compress", RClass "Compress" [11]);
  ("Size", RAttrCvt (AttrCvt "ndarray_size" [] [] [("dtype", KStr "int64")]));
  ("Scatter", RClass "Scatter" [1]);
  ("ScatterElements", RClass "Scatter" [1]);
  ("ScatterND", RClass "ScatterND" [11]);
  ("EyeLike", RClass "EyeLike" [9]);
  ("Squeeze", RClass "Squeeze" [1; 13]);
  ("Unsqueeze", RClass "Unsqueeze" [1; 13]);
  ("Pad", RClass "Pad" [1; 2; 11]);
  ("Shape", RClass "Shape" [1]);
  ("Sign", RClass "Sign" [1]);
  ("Equal", RClass "Equal" [1]);
  ("Not", RClass "Not" [1]);
  ("And", RClass "And" [1]);
  ("Tile", RClass "Tile" [1; 6]);
  ("Erf", RClass "Erf" [1]);
  ("Where", RClass "Where" [9]);
  ("Or", RClass "Or" [1; 7]);
  ("Resize", RClass "Resize" [10; 11; 13]);
  ("NonZero", RClass "NonZero" [9]);
  ("Range", RClass "Range" [1]);
  ("CumSum", RClass "CumSum" [1]);
  ("Unique", RClass "Unique" [11]);
  ("Einsum", RClass "Einsum" [12])
].

(** The entries under [# defs/control_flow]. *)
Definition defs_control_flow : list (string * rule) := [
  ("Loop", RClass "Loop" [11]);
  ("If", RClass "If" [1])
].

(** The entries under [# the Torch ATen dispatcher]. *)
Definition defs_aten : list (string * rule) := [
  ("ATen", RClass "ATen" [1])
].

(** The entries under [# quantization]. *)
Definition defs_quantization : list (string * rule) := [
  ("QuantizeLinear", RClass "QuantizeLinear" [10; 13]);
  ("DequantizeLinear", RClass "DequantizeLinear" [10; 13]);
  ("DynamicQuantizeLinear", RClass "DynamicQuantizeLinear" [11]);
  ("ReverseSequence", RClass "ReverseSequence" [10]);
  ("QLinearConv", RClass "QLinearConv" [10]);
  ("QLinearConcat", RClass "QLinearConcat" [1]);
  ("QLinearAdd", RClass "QLinearAdd" [10]);
  ("QLinearMatMul", RClass "QLinearMatMul" [10]);
  ("QLinearMul", RClass "QLinearMul" [10]);
  ("QLinearSigmoid", RClass "QLinearSigmoid" [10]);
  ("ConvInteger", RClass "ConvInteger" [10]);
  ("QLinearAveragePool", RClass "QLinearAveragePool" [1]);
  ("QLinearGlobalAveragePool", RClass "QLinearGlobalAveragePool" [1]);
  ("QLinearLeakyRelu", RClass "QLinearLeakyRelu" [10])
].

(** The entries under [# random number generation]. *)
Definition defs_random : list (string * rule) := [
  ("RandomUniform", RClass "RandomUniform" [1]);
  ("RandomNormal", RClass "RandomNormal" [1]);
  ("RandomNormalLike", RClass "RandomNormalLike" [1])
].

(** The entries under [# loss functions and training]. *)
Definition defs_training : list (string * rule) := [
  ("NegativeLogLikelihoodLoss", RClass "NegativeLogLikelihoodLoss" [13]);
  ("SoftmaxCrossEntropyLoss", RClass "SoftmaxCrossEntropyLoss" [13]);
  ("Adagrad", RClass "Adagrad" [1]);
  ("Adam", RClass "Adam" [1]);
  ("Momentum", RClass "Momentum" [1])
].

(** [_get_convert_map(opset)] before resolution: the groups in the
    order of the source. *)
Definition convert_table : list (string * rule) :=
  defs_experimental ++ defs_math ++ defs_nn ++ defs_vision ++ defs_reduction ++ defs_sorting ++
  defs_tensor ++ defs_control_flow ++ defs_aten ++ defs_quantization ++ defs_random ++ defs_training.

(** A rule of the map once the opset is known. *)
Inductive resolved : Type :=
| Cls (cls : string) (version : nat)
| Ren (new_name : string)
| Cvt (c : attr_cvt).

Definition resolve_rule (opset : nat) (r : rule) : result resolved :=
  match r with
  | RClass c impls => let* v := Registry.get_converter impls opset in Ok (Cls c v)
  | RRenamer n => Ok (Ren n)
  | RAttrCvt c => Ok (Cvt c)
  end.

Definition get_convert_map (opset : nat) : result (odict resolved) :=
  od_mapM (resolve_rule opset) convert_table.

(** [_identity_list = []] (onnx.py, line 4299). *)
Definition identity_list : list string := [].

(** The conversion rules of the classes this development does not model,
    as the importer sees them: a function of the class, the version of its
    rule, the inputs, the attributes and the graph's parameters. *)
Class OpOracle : Type :=
  oracle : string -> nat -> list (option expr) -> attr_table -> odict value -> result conv_out.

(** ** Conversion rules of the modelled classes *)

(** [_parse_array] / [get_numpy]: a [TensorProto] as a constant. *)
Definition parse_array (t : tensor_proto) : result value :=
  let* dt := get_type (t_data_type t) in
  if Nat.eqb (fold_right Nat.mul 1 (t_dims t)) (length (t_data t))
  then Ok (VTensor dt (t_dims t) (t_data t))
  else Err (ValueError "cannot reshape array").

(** Python truthiness of [attr.get(k, 0)]. *)
Definition attr_truthy (o : option attr_val) : bool :=
  match o with
  | None => false
  | Some (AInt z) | Some (AFloat z) => negb (z =? 0)%Z
  | Some (ABytes s) => negb (String.eqb s "")
  | Some (AInts l) | Some (AFloats l) => negb (Nat.eqb (length l) 0)
  | Some (AStrings l) => negb (Nat.eqb (length l) 0)
  | Some (ATensors l) => negb (Nat.eqb (length l) 0)
  | Some _ => true
  end.

(** [int(attr.get(k, dflt))]. *)
Definition attr_int (k : string) (dflt : Z) (attr : attr_table) : result Z :=
  match od_get k attr with
  | None => Ok dflt
  | Some (AInt z) | Some (AFloat z) => Ok z
  | Some _ => Err (TypeError "int() argument")
  end.

(** [x in str(e)] for an operator or variable name [x]: the printed
    expression shows every operator and variable name of [e]. *)
Fixpoint expr_mentions (pat : string) (e : expr) : bool :=
  match e with
  | Var n _ => str_contains pat n
  | Const _ => false
  | Call op args _ => str_contains pat op || existsb (expr_mentions pat) args
  | Tuple fs => existsb (expr_mentions pat) fs
  | TupleGetItem e _ => expr_mentions pat e
  | IfE c t f => expr_mentions pat c || expr_mentions pat t || expr_mentions pat f
  | WhileLoop _ c b i =>
      expr_mentions pat c || existsb (expr_mentions pat) b || existsb (expr_mentions pat) i
  end.

(** [Unary._impl_v1] (lines 250-255). *)
Definition unary (name : string) (ins : list (option expr)) : result expr :=
  let* _ := py_assert (Nat.eqb (length ins) 1) "Unary math op takes 1 input" in
  relay_call name ins [].

(** [Elemwise._impl_v1] (lines 264-272): the [broadcast] attribute of
    old opsets expands the second operand after a convolution. *)
Definition elemwise (name : string) (ins : list (option expr)) (attr : attr_table)
  : result expr :=
  let* _ := py_assert (Nat.eqb (length ins) 2) "Math op take 2 inputs" in
  let after_conv :=
    existsb (fun x => match input_at ins 0 with
                      | Some e => expr_mentions x e | None => false end)
            ["conv2d"; "conv2d_transpose"] in
  if attr_truthy (od_get "broadcast" attr) && after_conv then
    let* axis := attr_int "axis" 0 attr in
    let* in1 := of_option (TypeError "None is not a Relay expression") (input_at ins 1) in
    relay_call name
      [input_at ins 0; Some (Call "expand_dims" [in1] [("axis", KInt axis); ("num_newaxis", KInt 2)])]
      []
  else relay_call name ins [].

(** [Sum._impl_v1] (lines 1288-1293): a left fold of [add]. *)
Definition sum_impl (ins : list (option expr)) : result expr :=
  match ins with
  | [] => Err (IndexError "list index out of range")
  | i0 :: rest =>
      let* acc := foldM (fun acc x =>
                    let* a := of_option (TypeError "None is not a Relay expression") acc in
                    let* b := of_option (TypeError "None is not a Relay expression") x in
                    Ok (Some (Call "add" [a; b] []))) i0 rest in
      of_option (TypeError "None is not a Relay expression") acc
  end.

Definition none_error : py_error := TypeError "None is not a Relay expression".

(** [Maximum._impl_v1] / [Minimum._impl_v1] (lines 1797-1816): a left
    fold of [AttrCvt(name)] over the inputs. *)
Definition fold_binary (name : string) (ins : list (option expr)) : result expr :=
  match ins with
  | [] => Err none_error
  | i0 :: rest =>
      let* acc := foldM (fun acc x =>
                    let* e := attr_cvt_apply (AttrCvt name [] [] []) [acc; x] [] in
                    Ok (Some e)) i0 rest in
      of_option none_error acc
  end.

(** [Mean._impl_v1] (lines 1823-1828). *)
Definition mean_impl (ins : list (option expr)) : result expr :=
  match ins with
  | [i0] => of_option none_error i0
  | _ =>
      let* xs := mapM (of_option none_error) ins in
      let concat := Call "concatenate"
                      [Tuple (map (fun x => Call "expand_dims" [x] [("axis", KInt 0)]) xs)]
                      [("axis", KInt 0)] in
      Ok (Call "mean" [concat] [("axis", KInt 0); ("keepdims", KInt 0)])
  end.

(** [Constant._impl_v9] (lines 2157-2170): a string value becomes the
    int64 constant [[0]]. *)
Definition constant_impl (attr : attr_table) : result expr :=
  match od_get "value" attr with
  | None => Err (OpAttributeRequired "no value in Constant")
  | Some (ABytes _) => Ok (Const (VTensor "int64" [1] [0%Z]))
  | Some (ATensor t) => let* v := parse_array t in Ok (Const v)
  | Some _ => Err (TypeError "get_numpy expects a TensorProto")
  end.

(** [Concat._impl_v1] (lines 1220-1221): [AttrCvt("concatenate")] on the
    tuple of the inputs. *)
Definition concat_impl (ins : list (option expr)) (attr : attr_table) : result expr :=
  let* xs := mapM (of_option none_error) ins in
  attr_cvt_apply (AttrCvt "concatenate" [] [] []) [Some (Tuple xs)] attr.

(** The Relay operator of each [Elemwise] subclass ([name = ...]); [Or] and
    [Tile] inherit the base class's empty name. *)
Definition elemwise_name (cls : string) : option string :=
  if cls =? "Add" then Some "add"
  else if cls =? "Sub" then Some "subtract"
  else if cls =? "Mul" then Some "multiply"
  else if cls =? "Div" then Some "divide"
  else if cls =? "Equal" then Some "equal"
  else if cls =? "Or" then Some ""
  else if cls =? "Tile" then Some ""
  else None.

(** The rule [getattr(cls, "_impl_v" + version)] of a modelled class, or
    [None] for a class this development leaves to the oracle. *)
Definition convert_class (cls : string) (version : nat) (ins : list (option expr))
           (attr : attr_table) : option (result expr) :=
  let inp i := input_at ins i in
  if cls =? "Absolute" then Some (unary "abs" ins)
  else if (cls =? "Or") && Nat.eqb version 7 then Some (relay_call "logical_or" [inp 0; inp 1] [])
  else if (cls =? "Tile") && Nat.eqb version 6 then Some (relay_call "tile" [inp 0; inp 1] [])
  else if cls =? "Not" then Some (relay_call "logical_not" [inp 0] [])
  else if cls =? "And" then Some (relay_call "logical_and" [inp 0; inp 1] [])
  else if cls =? "Sign" then Some (relay_call "sign" [inp 0] [])
  else if cls =? "Erf" then Some (relay_call "erf" [inp 0] [])
  else if cls =? "Sum" then Some (sum_impl ins)
  else if cls =? "Maximum" then Some (fold_binary "maximum" ins)
  else if cls =? "Minimum" then Some (fold_binary "minimum" ins)
  else if cls =? "Mean" then Some (mean_impl ins)
  else if cls =? "Constant" then Some (constant_impl attr)
  else if cls =? "Concat" then Some (concat_impl ins attr)
  else match elemwise_name cls with
       | Some n => Some (elemwise n ins attr)
       | None => None
       end.

(** ** The map *)

(** Every class of the table has a rule. *)
Definition table_wf : bool :=
  forallb (fun kr => match snd kr with
                     | RClass _ l => negb (Nat.eqb (length l) 0)
                     | _ => true
                     end) convert_table.

Lemma table_wf_true : table_wf = true.
Proof. vm_compute. reflexivity. Qed.

Lemma resolve_rule_total (opset : nat) (r : rule) (k : string) :
  In (k, r) convert_table -> exists x, resolve_rule opset r = Ok x.
Proof.
  intros Hin. pose proof table_wf_true as Hwf. unfold table_wf in Hwf.
  rewrite forallb_forall in Hwf. specialize (Hwf _ Hin). simpl in Hwf.
  destruct r as [c l| n | c]; simpl; eauto.
  destruct l as [|v l]; [discriminate|].
  destruct (@Registry.get_converter_total (v :: l) opset) as [w [Hw _]]; [discriminate|].
  rewrite Hw. simpl. eauto.
Qed.

Lemma get_convert_map_ok (opset : nat) : exists m, get_convert_map opset = Ok m.
Proof.
  apply od_mapM_total. intros [k r] Hin. exact (resolve_rule_total opset r k Hin).
Qed.

(** [_get_convert_map] never raises, whatever the opset: every class
    of the table has at least one rule, and its keys are the operators of
    the table, in order. *)
Theorem get_convert_map_total (opset : nat) :
  exists m, get_convert_map opset = Ok m /\ od_keys m = map fst convert_table.
Proof.
  destruct (get_convert_map_ok opset) as [m Hm].
  exists m. split; [exact Hm|]. apply (od_mapM_get _ _ _ Hm).
Qed.

Lemma get_convert_map_lookup (opset : nat) (m : odict resolved) (k : string) (r : rule) :
  get_convert_map opset = Ok m -> od_get k convert_table = Some r ->
  exists x, resolve_rule opset r = Ok x /\ od_get k m = Some x.
Proof. intros Hm Hk. exact (proj2 (od_mapM_get _ _ _ Hm) k r Hk). Qed.

(** (C14) ONNX has [Or] since opset 1, but the class [Or] only defines
    [_impl_v7]: at opsets 1 to 6 the registry resolves it to the [_impl_v1]
    it inherits from [Elemwise], whose operator name is empty, so the
    conversion raises [OpNotImplemented]. *)
Theorem or_before_v7_fails (opset : nat) (a b : expr) (attr : attr_table) :
  1 <= opset < 7 -> (exists z, attr_int "axis" 0 attr = Ok z) ->
  exists m, get_convert_map opset = Ok m /\ od_get "Or" m = Some (Cls "Or" 1) /\
            convert_class "Or" 1 [Some a; Some b] attr = Some (Err (OpNotImplemented [""])).
Proof.
  intros Hop [z Hz]. destruct (get_convert_map_ok opset) as [m Hm].
  exists m. split; [exact Hm|]. split.
  - destruct (get_convert_map_lookup opset m "Or" (RClass "Or" [1; 7]) Hm eq_refl)
      as [x [Hx Hget]].
    rewrite Hget. simpl in Hx.
    rewrite (@Registry.get_converter_pick [1; 7] opset 1) in Hx.
    + now inv Hx.
    + now left.
    + lia.
    + intros w [<-|[<-|[]]]; lia.
  - unfold convert_class, elemwise; simpl.
    destruct (_ && _); [rewrite Hz|]; reflexivity.
Qed.

Lemma or_before_v7_fails_witness :
  let a := Var "a" (TType [] "bool") in
  exists m, get_convert_map 6 = Ok m /\ od_get "Or" m = Some (Cls "Or" 1) /\
            convert_class "Or" 1 [Some a; Some a] [] = Some (Err (OpNotImplemented [""])).
Proof. intros a. apply or_before_v7_fails; [lia | exists 0%Z; reflexivity]. Defined.

End Ops.
