(* ===== verification/Rules.v ===== *)
(** * Rules: more operator conversion rules

    The conversion rules of further [OnnxOpConverter] classes of onnx.py,
    as expression builders over [IR.expr]: each takes the node's inputs
    ([onnx_input], read with [Ops.input_at]) and its attribute table, and
    returns the Relay expression it builds, a [TupleWrapper]
    ([Ops.conv_out]), or the exception the code raises.  The Relay
    operators they call are [IR.Call] nodes named after the operator;
    [infer_type] and [infer_shape] on an input are [IR.infer].

    - [shape_of] (lines 1413-1418) and [Shape] (1421-1426);
    - the reductions [Reduce] and its subclasses (1843-1910),
      [ReduceSumSquare], [ReduceL1], [ReduceL2], [ReduceLogSum]
      (1912-1974), [ArgMax] and [ArgMin] (1977-1998);
    - [Softmax], [LogSoftmax] (2001-2056) and [Hardmax._impl_v13]
      (2092-2107).

    [convert_rule] dispatches a resolved class and version to these rules;
    the importer consults it after [Ops.convert_class] and before the
    oracle. *)

From Stdlib Require Import String List Bool Arith Lia ZArith Permutation.
From S2P Require Import Prelude Registry Proto IR Attrs Ops.
Import ListNotations.
Local Open Scope string_scope.
Local Open Scope list_scope.

Module Rules.
Import Proto IR Attrs Ops.

(** ** Helpers *)

(** [attr.get(k, d)]. *)
Definition attr_or (k : string) (d : attr_val) (attr : attr_table) : attr_val :=
  match od_get k attr with Some v => v | None => d end.

(** [list(range(a, b))] on Python integers. *)
Definition zrange (a b : Z) : list Z :=
  map (fun i => (a + Z.of_nat i)%Z) (seq 0 (Z.to_nat (b - a))).

(** [inputs[i]] and its inferred tensor type ([infer_type(inputs[i])]):
    an absent input fails in type inference. *)
Definition typed_input (ins : list (option expr)) (i : nat) : result (expr * ttype) :=
  let* x := of_option infer_error (input_at ins i) in
  let* t := infer_tensor x in
  Ok (x, t).

(** [len(infer_shape(inputs[i]))]. *)
Definition rank_of (ins : list (option expr)) (i : nat) : result nat :=
  let* '(_, t) := typed_input ins i in Ok (length (tt_shape t)).

(** [_expr.const(l, "int64")] for a list [l]. *)
Definition const_ints (l : list Z) : expr := Const (VTensor "int64" [length l] l).

(** [inputs[0] = e]: assignment into the input list. *)
Definition set_input0 (ins : list (option expr)) (e : expr) : result (list (option expr)) :=
  match ins with
  | [] => Err (IndexError "list assignment index out of range")
  | _ :: rest => Ok (Some e :: rest)
  end.

(** [shape_of(x, dtype)] (lines 1413-1418): a constant when the inferred
    shape is static. *)
Definition shape_of (x : expr) (dtype : string) : result expr :=
  let* t := infer_tensor x in
  let dims := tt_shape t in
  if forallb (fun d => match d with DInt _ => true | DAny => false end) dims
  then Ok (Const (VTensor dtype [length dims]
                  (map (fun d => match d with DInt n => Z.of_nat n | DAny => 0%Z end) dims)))
  else Ok (Call "shape_of" [x] [("dtype", KStr dtype)]).

(** [Shape._impl_v1]. *)
Definition shape_impl (ins : list (option expr)) : result expr :=
  let* x := of_option infer_error (input_at ins 0) in shape_of x "int64".

(** ** Reductions *)

(** The reduced axes of [_impl_v1]: the [axes] attribute, or every axis
    of the first input. *)
Definition reduce_axes (ins : list (option expr)) (attr : attr_table) : result attr_val :=
  match od_get "axes" attr with
  | Some v => Ok v
  | None => let* r := rank_of ins 0 in Ok (AInts (map Z.of_nat (seq 0 r)))
  end.

Definition keepdims (attr : attr_table) : attr_val := attr_or "keepdims" (AInt 1) attr.

(** [Reduce.run_calculation]: [AttrCvt(name)] with [axis] and [keepdims]. *)
Definition reduce_calc (name : string) (ins : list (option expr)) (axis kd : attr_val)
  : result expr :=
  attr_cvt_apply (AttrCvt name [] [] []) ins [("axis", axis); ("keepdims", kd)].

Definition reduce_v1 (name : string) (ins : list (option expr)) (attr : attr_table)
  : result expr :=
  let* axis := reduce_axes ins attr in reduce_calc name ins axis (keepdims attr).

(** [Reduce._impl_v12]: a second input, the axes, must be a constant, and
    only its first element is read. *)
Definition reduce_v12 (name : string) (ins : list (option expr)) (attr : attr_table)
  : result expr :=
  if Nat.eqb (length ins) 2 then
    match input_at ins 1 with
    | Some (Const (VTensor _ shape data)) =>
        match shape, data with
        | _ :: _, z :: _ => reduce_calc name [input_at ins 0] (AInt z) (keepdims attr)
        | _, _ => Err (IndexError "index 0 is out of bounds")
        end
    | _ => Err (ValueError "Dynamic Reduce is not supported yet!")
    end
  else reduce_v1 name ins attr.

(** The Relay operator of each [Reduce] subclass. *)
Definition reduce_name (cls : string) : option string :=
  if cls =? "ReduceMax" then Some "max"
  else if cls =? "ReduceMin" then Some "min"
  else if cls =? "ReduceSum" then Some "sum"
  else if cls =? "ReduceMean" then Some "mean"
  else if cls =? "ReduceProd" then Some "prod"
  else if cls =? "ReduceLogSumExp" then Some "logsumexp"
  else None.

(** [ReduceSumSquare], [ReduceL1], [ReduceL2], [ReduceLogSum]: the first
    input transformed by [pre], summed, and the sum transformed by
    [post]. *)
Definition reduce_sum_with (pre : option (expr -> expr)) (post : expr -> expr)
           (ins : list (option expr)) (attr : attr_table) : result expr :=
  let* axis := reduce_axes ins attr in
  let* ins := match pre with
              | None => Ok ins
              | Some f =>
                  match input_at ins 0 with
                  | Some x => set_input0 ins (f x)
                  | None => Err (TypeError "unsupported operand type(s) for NoneType")
                  end
              end in
  let* out := attr_cvt_apply (AttrCvt "sum" [] [] []) ins
                             [("axis", axis); ("keepdims", keepdims attr)] in
  Ok (post out).

(** [ArgMax._impl_v13] / [ArgMin._impl_v13]. *)
Definition arg_reduce (name : string) (ins : list (option expr)) (attr : attr_table)
  : result expr :=
  let a := [("axis", attr_or "axis" (AInt 0) attr); ("keepdims", keepdims attr);
            ("select_last_index", attr_or "select_last_index" (AInt 0) attr)] in
  let* e := attr_cvt_apply (AttrCvt name [] [] []) ins a in
  Ok (Call "cast" [e] [("dtype", KStr "int64")]).

(** ** Softmax and its relatives *)

(** [if axis < 0: axis += ndim]. *)
Definition norm_axis (axis : Z) (ndim : nat) : Z :=
  if (axis <? 0)%Z then (axis + Z.of_nat ndim)%Z else axis.

Definition rmax (x : expr) (axes : list Z) : expr :=
  Call "max" [x] [("axis", KInts axes); ("keepdims", KInt 1)].
Definition rsum (x : expr) (axes : list Z) : expr :=
  Call "sum" [x] [("axis", KInts axes); ("keepdims", KInt 1)].

(** [m = max(x, axes); e = exp(x - m); e / sum(e, axes)]. *)
Definition softmax_calc (x : expr) (axes : list Z) : expr :=
  let e := Call "exp" [Call "subtract" [x; rmax x axes] []] [] in
  Call "divide" [e; rsum e axes] [].

(** [LogSoftmax.run_calculation]: [x - m - log(sum(exp(x - m), axes))]. *)
Definition log_softmax_calc (x : expr) (axes : list Z) : expr :=
  let m := rmax x axes in
  let s := rsum (Call "exp" [Call "subtract" [x; m] []] []) axes in
  Call "subtract" [Call "subtract" [x; m] []; Call "log" [s] []] [].

(** The reduced axes: from [axis] to the last one at opset 1 (default
    axis 1), the single [axis] at opset 13 (default -1). *)
Definition softmax_axes (v13 : bool) (ins : list (option expr)) (attr : attr_table)
  : result (expr * list Z) :=
  let* axis := attr_int "axis" (if v13 then (-1)%Z else 1%Z) attr in
  let* '(x, t) := typed_input ins 0 in
  let ndim := length (tt_shape t) in
  let axis := norm_axis axis ndim in
  Ok (x, if v13 then [axis] else zrange axis (Z.of_nat ndim)).

Definition softmax_impl (v13 : bool) (ins : list (option expr)) (attr : attr_table)
  : result expr :=
  let* '(x, axes) := softmax_axes v13 ins attr in Ok (softmax_calc x axes).

Definition log_softmax_impl (v13 : bool) (ins : list (option expr)) (attr : attr_table)
  : result expr :=
  let* '(x, axes) := softmax_axes v13 ins attr in Ok (log_softmax_calc x axes).

(** Python's [a % b] on integers: floored, [ZeroDivisionError] for 0. *)
Definition py_mod (a b : Z) : result Z :=
  if (b =? 0)%Z then Err ZeroDivisionError else Ok (a mod b)%Z.

(** [_op.one_hot(indices, on, off, depth, axis, dtype)]: a constant
    depth is read with [.item()] (one element, or [ValueError]) and gives
    the static operator, any other expression [dyn.one_hot]. *)
Definition one_hot_of (indices on off depth : expr) (axis : Z) (dtype : string) : result expr :=
  match depth with
  | Const (VTensor _ _ [k]) =>
      Ok (Call "one_hot" [indices; on; off] [("depth", KInt k); ("axis", KInt axis); ("dtype", KStr dtype)])
  | Const _ => Err (ValueError "can only convert an array of size 1 to a Python scalar")
  | _ => Ok (Call "dyn.one_hot" [indices; on; off; depth] [("axis", KInt axis); ("dtype", KStr dtype)])
  end.

(** [_op.broadcast_to(data, shape)]: a constant shape gives the static
    operator, any other expression the dynamic one. *)
Definition broadcast_to_of (x shape : expr) : expr :=
  match shape with
  | Const (VTensor _ _ d) => Call "broadcast_to" [x] [("shape", KInts d)]
  | _ => Call "broadcast_to" [x; shape] []
  end.

(** [Hardmax._impl_v13]: a one-hot of the [argmax] along [axis % ndim],
    its depth folded. *)
Definition hardmax_v13 (ins : list (option expr)) (attr : attr_table) : result expr :=
  let* '(x, t) := typed_input ins 0 in
  let dtype := tt_dtype t in
  let* a := attr_int "axis" (-1)%Z attr in
  let* axis := py_mod a (Z.of_nat (length (tt_shape t))) in
  let argmax := Call "argmax" [x] [("axis", KInt axis)] in
  let* sh := shape_of x "int64" in
  one_hot_of argmax (Const (scalar dtype 1)) (Const (scalar dtype 0))
             (fold_constant (Call "take" [sh; const_ints [axis]] [])) axis dtype.

(** [_op.reshape(x, newshape)]: a constant shape is static, any other
    expression gives [dyn.reshape]. *)
Definition static_or_dyn_reshape (x shape : expr) : expr :=
  match shape with
  | Const (VTensor _ _ d) => Call "reshape" [x] [("newshape", KInts d)]
  | _ => Call "dyn.reshape" [x; shape] []
  end.

(** [_op.prod(_op.strided_slice(sh, [b], [e], [1]), axis=0, keepdims=True)]. *)
Definition prod_slice (sh : expr) (b e : Z) : expr :=
  Call "prod" [Call "strided_slice" [sh] [("begin", KInts [b]); ("end", KInts [e]); ("strides", KInts [1%Z])]]
       [("axis", KInt 0); ("keepdims", KInt 1)].

(** [Hardmax._impl_v1]: the input coerced to the matrix of the extents
    before [axis] by those from it, the shape computed in Relay and
    folded; [one_hot] with a folded depth is the static operator. *)
Definition hardmax_v1 (ins : list (option expr)) (attr : attr_table) : result expr :=
  let* axis := attr_int "axis" 1 attr in
  let* '(x, t) := typed_input ins 0 in
  let ndim := Z.of_nat (length (tt_shape t)) in
  let axis := if (axis <? 0)%Z then (axis + ndim)%Z else axis in
  let dtype := tt_dtype t in
  let* sh := shape_of x "int64" in
  let pre := if (axis =? 0)%Z then Const (VTensor "int64" [1] [1%Z]) else prod_slice sh 0 axis in
  let post := prod_slice sh axis 2147483647 in
  let newshape := Call "concatenate" [Tuple [pre; post]] [("axis", KInt 0)] in
  let x2 := static_or_dyn_reshape x (fold_constant newshape) in
  let argmax := Call "argmax" [x2] [("axis", KInt 1)] in
  let* sh2 := shape_of x2 "int64" in
  let depth := fold_constant (Call "take" [sh2; Const (VTensor "int64" [1] [1%Z])] []) in
  let on := Const (scalar dtype 1) in
  let off := Const (scalar dtype 0) in
  let* onehot := one_hot_of argmax on off depth 1 dtype in
  let* sh0 := shape_of x "int64" in
  Ok (static_or_dyn_reshape onehot sh0).

(** ** Shapes and casts *)

(** [sorted()] on a list of integers. *)
Fixpoint zinsert (z : Z) (l : list Z) : list Z :=
  match l with
  | [] => [z]
  | y :: l' => if (z <=? y)%Z then z :: l else y :: zinsert z l'
  end.

Fixpoint zsort (l : list Z) : list Z :=
  match l with [] => [] | z :: l' => zinsert z (zsort l') end.

(** [list(map(int, c.data.numpy()))] of a constant input. *)
Definition const_data (o : option expr) : option (list Z) :=
  match o with Some (Const (VTensor _ _ d)) => Some d | _ => None end.

(** [Cast._impl_v1]: [AttrCvt("cast", {"to": "dtype"})]. *)
Definition cast_cvt : attr_cvt := AttrCvt "cast" [("to", "dtype")] [] [].

(** [Cast._impl_v5]: [to] is first mapped to the numpy type name. *)
Definition cast_v5 (ins : list (option expr)) (attr : attr_table) : result expr :=
  let* to := od_find "to" attr in
  let* code := match to with
               | AInt z => if (z <? 0)%Z then Err (KeyError "to") else Ok (Z.to_nat z)
               | _ => Err (KeyError "to")
               end in
  let* name := get_type code in
  attr_cvt_apply cast_cvt ins (od_set "to" (ABytes name) attr).

(** [Unsqueeze.run_calculation]: [expand_dims] at each axis, in increasing
    order. *)
Definition unsqueeze_calc (x : expr) (axes : list Z) : expr :=
  fold_left (fun t a => Call "expand_dims" [t] [("axis", KInt a); ("num_newaxis", KInt 1)])
            (zsort axes) x.

Definition unsqueeze_v1 (ins : list (option expr)) (attr : attr_table) : result expr :=
  let* axes := od_find "axes" attr in
  let* axes := match axes with AInts l => Ok l | _ => Err (TypeError "axes is not a list") end in
  let* x := of_option none_error (input_at ins 0) in
  Ok (unsqueeze_calc x axes).

(** [Unsqueeze._impl_v13]: constant axes as in opset 1; otherwise one
    dynamic [expand_dims] per axis, a negative axis counted from the
    input's rank. *)
Definition unsqueeze_v13 (ins : list (option expr)) : result expr :=
  match const_data (input_at ins 1) with
  | Some axes =>
      let* x := of_option none_error (input_at ins 0) in Ok (unsqueeze_calc x axes)
  | None =>
      let* '(x, t) := typed_input ins 0 in
      let rank := length (tt_shape t) in
      let* '(a, ta) := typed_input ins 1 in
      let* n := match tt_shape ta with
                | DInt n :: _ => Ok n
                | DAny :: _ => Err (TypeError "int() argument must be a number")
                | [] => Err (IndexError "tuple index out of range")
                end in
      let axes := Call "split" [a] [("indices_or_sections", KInt (Z.of_nat n))] in
      Ok (fold_left (fun r i =>
            let ax := Call "reshape" [TupleGetItem axes i] [("newshape", KInts [])] in
            let ax := Call "where" [Call "greater_equal" [ax; Const (scalar "int64" 0)] [];
                                   ax; Call "add" [ax; Const (scalar "int64" (Z.of_nat rank))] []] [] in
            Call "expand_dims" [r; ax] []) (seq 0 n) x)
  end.

(** [Squeeze._impl_v1]: [squeeze(inputs[0], attr.get("axes"))]. *)
Definition squeeze_v1 (ins : list (option expr)) (attr : attr_table) : result expr :=
  let axis := match od_get "axes" attr with Some v => kwarg_of v | None => KNone end in
  relay_call "squeeze" [input_at ins 0] [("axis", axis)].

(** [Squeeze._impl_v13]: the axes are the second input. *)
Definition squeeze_v13 (ins : list (option expr)) : result expr :=
  let* '(axis, ta) := typed_input ins 1 in
  let dtype := tt_dtype ta in
  match const_data (Some axis) with
  | Some axes => relay_call "squeeze" [input_at ins 0] [("axis", KInts axes)]
  | None =>
      let* x := of_option none_error (input_at ins 0) in
      let rank := Call "shape_of" [Call "shape_of" [x] [("dtype", KStr dtype)]]
                       [("dtype", KStr dtype)] in
      let axis := Call "where" [Call "less" [axis; Const (scalar dtype 0)] [];
                                Call "add" [axis; rank] []; axis] [] in
      (* [_op.squeeze]: a constant axis is static, any other expression
         [dyn.squeeze] *)
      match fold_constant axis with
      | Const (VTensor _ _ d) => Ok (Call "squeeze" [x] [("axis", KInts d)])
      | axis => Ok (Call "squeeze" [x; axis] [])
      end
  end.

(** [Split._impl_v1]: the running sums of [split] but its last entry, or,
    without [split], as many equal parts as the node has outputs. *)
Fixpoint prefix_sums (acc : Z) (l : list Z) : list Z :=
  match l with [] => [] | z :: l' => (acc + z)%Z :: prefix_sums (acc + z)%Z l' end.

Definition split_v1 (ins : list (option expr)) (attr : attr_table) : result conv_out :=
  let* '(ios, n) :=
    match od_get "split" attr with
    | Some (AInts splits) =>
        let idx := prefix_sums 0 (removelast splits) in Ok (KInts idx, S (length idx))
    | Some _ => Err (TypeError "split is not a list")
    | None =>
        match od_get "tvm_custom" attr with
        | Some (ATvmCustom _ k) => Ok (KInt (Z.of_nat k), k)
        | _ => Err (KeyError "tvm_custom")
        end
    end in
  let axis := kwarg_of (attr_or "axis" (AInt 0) attr) in
  let* e := relay_call "split" [input_at ins 0] [("indices_or_sections", ios); ("axis", axis)] in
  Ok (if Nat.eqb n 1 then Single (TupleGetItem e 0) else Wrapper e n).

(** [fold_constant(indices < 0)] on constant indices: the shape and the
    folded truth values; [None] when the comparison does not fold to a
    constant. *)
Definition fold_less0 (indices : expr) : option (list nat * list bool) :=
  match indices with
  | Const (VTensor _ sh d) => Some (sh, map (fun z => (z <? 0)%Z) d)
  | _ => None
  end.

(** [normalize_gather_indices] (lines 1647-1661). *)
Definition normalize_gather_indices (data : option expr) (indices : expr) (axis : Z)
  : result expr :=
  let* ti := infer_tensor indices in
  let ind_dtype := tt_dtype ti in
  let* data := of_option none_error data in
  let s := Call "take" [Call "shape_of" [data] [("dtype", KStr ind_dtype)];
                        Const (scalar "int64" axis)] [] in
  let cond := Call "less" [indices; Const (scalar ind_dtype 0)] [] in
  match fold_less0 indices with
  | Some (_, [b]) => Ok (if b then Call "add" [indices; s] [] else indices)
  | Some (sh, bs) =>
      Ok (Call "where" [Const (VTensor "bool" sh (map b2z bs)); Call "add" [indices; s] [];
                        indices] [])
  | None => Ok (Call "where" [cond; Call "add" [indices; s] []; indices] [])
  end.

(** [Gather._impl_v1]. *)
Definition gather_v1 (ins : list (option expr)) (attr : attr_table) : result expr :=
  let* axis := attr_int "axis" 0 attr in
  let* indices := of_option infer_error (input_at ins 1) in
  let* indices := normalize_gather_indices (input_at ins 0) indices axis in
  relay_call "take" [input_at ins 0; Some indices] [("axis", KInt axis)].

(** [Where._impl_v9]: the three operands broadcast to the shape of the
    one of largest rank, or the elementwise maximum of the shapes of
    those of largest rank when several have it. *)
Definition where_v9 (ins : list (option expr)) : result expr :=
  let* '(c, tc) := typed_input ins 0 in
  let* '(x, tx) := typed_input ins 1 in
  let* '(y, ty) := typed_input ins 2 in
  let ranks := [length (tt_shape tc); length (tt_shape tx); length (tt_shape ty)] in
  let max_rank := fold_right Nat.max 0 ranks in
  let idxs := filter (fun i => Nat.eqb (nth i ranks 0) max_rank) (seq 0 3) in
  let opnd i := nth i [c; x; y] c in
  let* bs0 := shape_of (opnd (hd 0 idxs)) "int64" in
  let* bs := if Nat.ltb 1 (length idxs) then
               foldM (fun b i => let* si := shape_of (opnd i) "int64" in
                                 Ok (Call "maximum" [b; si] [])) bs0 idxs
             else Ok bs0 in
  let bs := fold_constant bs in
  let bc e := broadcast_to_of e bs in
  Ok (Call "where" [bc c; bc x; bc y] []).

(** [ConstantOfShape._impl_v9]: [full] of the first element of the
    [value] tensor, or of the integer 0 as [float32]. *)
Definition constant_of_shape (ins : list (option expr)) (attr : attr_table) : result expr :=
  let* '(value, dtype) :=
    match od_get "value" attr with
    | Some (ATensor t) =>
        let* v := parse_array t in
        match v with
        | VTensor dt (_ :: _) (z :: _) => Ok (Const (scalar dt z), dt)
        | _ => Err (IndexError "index 0 is out of bounds")
        end
    | Some _ => Err (TypeError "get_numpy expects a TensorProto")
    | None => Ok (Const (scalar "int32" 0), "float32")
    end in
  relay_call "full" [Some value; input_at ins 0] [("dtype", KStr dtype)].

(** [Flatten._impl_v1]: [batch_flatten] at axis 1, otherwise a reshape to
    the products of the dimensions before and after [axis]. *)
Definition flatten_v1 (ins : list (option expr)) (attr : attr_table) : result expr :=
  let* axis := attr_int "axis" 1 attr in
  let* x := of_option none_error (input_at ins 0) in
  let ishape := Call "shape_of" [x] [] in
  let* ts := infer_tensor ishape in
  let* ndim := match tt_shape ts with
               | DInt n :: _ => Ok (Z.of_nat n)
               | _ => Err infer_error
               end in
  let axis := if (axis <? 0)%Z then (axis + ndim)%Z else axis in
  if (axis =? 1)%Z then Ok (Call "batch_flatten" [x] [])
  else
    let slice b e := Call "strided_slice" [ishape]
                          [("begin", KInts [b]); ("end", KInts [e]); ("strides", KInts [1%Z])] in
    let prod e := Call "prod" [e] [("keepdims", KInt 1)] in
    let newshape := Call "concatenate" [Tuple [prod (slice 0%Z axis); prod (slice axis ndim)]]
                         [("axis", KInt 0)] in
    Ok (Call "reshape" [x; newshape] []).

(** [get_name] (frontend/common.py): the name of a variable, [""] for
    other expressions. *)
Definition get_name (o : option expr) : string :=
  match o with Some (Var n _) => n | _ => "" end.

(** [Reshape._impl_v1] and [_impl_v5]: at opset 5 the shape is the second
    input, read from the parameters when it is one of them. *)
Definition reshape_v1 (ins : list (option expr)) (attr : attr_table) : result expr :=
  let* sh := od_find "shape" attr in
  relay_call "reshape" [input_at ins 0] [("newshape", kwarg_of sh)].

Definition reshape_v5 (ins : list (option expr)) (params : odict value) : result expr :=
  match od_get (get_name (input_at ins 1)) params with
  | Some (VTensor _ _ d) => relay_call "reshape" [input_at ins 0] [("newshape", KInts d)]
  | Some _ => Err (TypeError "not a tensor")
  | None => relay_call "reshape" ins []
  end.

(** ** Clip *)

(** [Clip.convert_attributes]: [AttrCvt("clip", {"min": "a_min", "max": "a_max"})]. *)
Definition clip_cvt : attr_cvt := AttrCvt "clip" [("min", "a_min"); ("max", "a_max")] [] [].

(** [Clip._impl_v1]: missing bounds are [-inf] and [inf]. *)
Definition clip_v1 (ins : list (option expr)) (attr : attr_table) : result expr :=
  let attr := if od_mem "min" attr then attr else od_set "min" (AFloatInf true) attr in
  let attr := if od_mem "max" attr then attr else od_set "max" (AFloatInf false) attr in
  attr_cvt_apply clip_cvt ins attr.

(** [c.data.numpy().item()] of a constant: its only element, an [int]
    or a [float] by its dtype. *)
Definition const_item (v : value) : result attr_val :=
  match v with
  | VTensor dt _ [z] =>
      Ok (if String.prefix "float" dt then AFloat z else AInt z)
  | _ => Err (ValueError "can only convert an array of size 1 to a Python scalar")
  end.

(** [Clip._impl_v11]: constant bounds among the inputs become attributes
    and are cut from the input list ([inputs[0:2]], [inputs[0:1]], plain
    lists from then on); with both bounds as attributes the rule is
    [clip], otherwise [maximum] and [minimum] with the bound inputs that
    remain. *)
Definition clip_v11 (ins : list (option expr)) (attr : attr_table) : result expr :=
  let* '(attr, ins) :=
    match Nat.eqb (length ins) 3, input_at ins 2 with
    | true, Some (Const v) => let* m := const_item v in Ok (od_set "max" m attr, firstn 2 ins)
    | _, _ => Ok (attr, ins)
    end in
  let* '(attr, ins) :=
    match Nat.leb 2 (length ins), input_at ins 1 with
    | true, Some (Const v) => let* m := const_item v in Ok (od_set "min" m attr, firstn 1 ins)
    | _, _ => Ok (attr, ins)
    end in
  if od_mem "min" attr && od_mem "max" attr then attr_cvt_apply clip_cvt ins attr
  else
    let* _ := py_assert (Nat.leb (length ins) 3) "Clip-11 takes up to 3 inputs, input, min, max" in
    let* r := foldM (fun r '(i, op) =>
                if Nat.ltb i (length ins - 1) then
                  match nth (i + 1) ins None with
                  | Some b => let* e := relay_call op [r; Some b] [] in Ok (Some e)
                  | None => Ok r
                  end
                else Ok r) (input_at ins 0) [(0, "maximum"); (1, "minimum")] in
    of_option none_error r.

(** ** Dispatch *)

(** The rule [getattr(cls, "_impl_v" + version)] of the classes of this
    file, as the convert map resolved them; [None] for the others. *)
Definition convert_rule (cls : string) (version : nat) (ins : list (option expr))
           (attr : attr_table) (params : odict value) : option (result conv_out) :=
  let single r := Some (let* e := r in Ok (Single e)) in
  match reduce_name cls with
  | Some n => single (if Nat.eqb version 12 then reduce_v12 n ins attr else reduce_v1 n ins attr)
  | None =>
  if cls =? "Shape" then single (shape_impl ins)
  else if cls =? "ReduceSumSquare" then
    single (reduce_sum_with (Some (fun x => Call "multiply" [x; x] [])) id ins attr)
  else if cls =? "ReduceL1" then
    single (reduce_sum_with (Some (fun x => Call "abs" [x] [])) id ins attr)
  else if cls =? "ReduceL2" then
    single (reduce_sum_with (Some (fun x => Call "multiply" [x; x] []))
                            (fun e => Call "sqrt" [e] []) ins attr)
  else if cls =? "ReduceLogSum" then
    single (reduce_sum_with None (fun e => Call "log" [e] []) ins attr)
  else if cls =? "ArgMax" then single (arg_reduce "argmax" ins attr)
  else if cls =? "ArgMin" then single (arg_reduce "argmin" ins attr)
  else if cls =? "Softmax" then single (softmax_impl (Nat.eqb version 13) ins attr)
  else if cls =? "LogSoftmax" then single (log_softmax_impl (Nat.eqb version 13) ins attr)
  else if (cls =? "Hardmax") && Nat.eqb version 13 then single (hardmax_v13 ins attr)
  else if (cls =? "Hardmax") && Nat.eqb version 1 then single (hardmax_v1 ins attr)
  else if cls =? "Cast" then
    single (if Nat.eqb version 5 then cast_v5 ins attr else attr_cvt_apply cast_cvt ins attr)
  else if cls =? "Unsqueeze" then
    single (if Nat.eqb version 13 then unsqueeze_v13 ins else unsqueeze_v1 ins attr)
  else if cls =? "Squeeze" then
    single (if Nat.eqb version 13 then squeeze_v13 ins else squeeze_v1 ins attr)
  else if cls =? "Split" then Some (split_v1 ins attr)
  else if cls =? "Gather" then single (gather_v1 ins attr)
  else if cls =? "Where" then single (where_v9 ins)
  else if cls =? "ConstantOfShape" then single (constant_of_shape ins attr)
  else if cls =? "Flatten" then single (flatten_v1 ins attr)
  else if cls =? "Reshape" then
    single (if Nat.eqb version 5 then reshape_v5 ins params else reshape_v1 ins attr)
  else if cls =? "Clip" then
    single (if Nat.eqb version 11 then clip_v11 ins attr else clip_v1 ins attr)
  else None
  end.

(** ** Theorems *)

Lemma infer_of_tensor (e : expr) (t : ttype) :
  infer_tensor e = Ok t -> infer e = Ok (TyTensor t).
Proof. unfold infer_tensor. destruct (infer e) as [[t'|ts]|err]; simpl; congruence. Qed.

(** [shape_of] of a statically shaped tensor is a constant. *)
Lemma shape_of_static (x : expr) (dims : list nat) (dt dtype : string) :
  infer_tensor x = Ok (TType (map DInt dims) dt) ->
  shape_of x dtype = Ok (Const (VTensor dtype [length dims] (map Z.of_nat dims))).
Proof.
  intros Hx. unfold shape_of. rewrite Hx. simpl bind. cbn [tt_shape].
  replace (forallb _ (map DInt dims)) with true
    by (clear Hx; induction dims as [|d dims IH]; [reflexivity | exact IH]).
  rewrite length_map, map_map. reflexivity.
Qed.

Lemma zrange_In (a b z : Z) : In z (zrange a b) <-> (a <= z < b)%Z.
Proof.
  unfold zrange. rewrite in_map_iff. split.
  - intros [i [<- Hi]]. apply in_seq in Hi. lia.
  - intros Hz. exists (Z.to_nat (z - a)). split; [lia|]. apply in_seq. lia.
Qed.

Lemma norm_axis_bounds (axis : Z) (ndim : nat) :
  (- Z.of_nat ndim <= axis < Z.of_nat ndim)%Z -> (0 <= norm_axis axis ndim < Z.of_nat ndim)%Z.
Proof. unfold norm_axis. destruct (Z.ltb_spec axis 0); lia. Qed.

(** The reduction of [Softmax] and [LogSoftmax] runs over axes of the
    input: for an input of rank [ndim] and an [axis] attribute in
    [[-ndim, ndim)], opset 13 reduces the one axis [axis] counted from the
    front, and opset 1 the axes from it to the last; every reduced axis
    is in [[0, ndim)]. *)
Theorem softmax_axes_in_range (v13 : bool) (x : expr) (t : ttype) (attr : attr_table) (axis : Z) :
  infer_tensor x = Ok t ->
  attr_int "axis" (if v13 then (-1)%Z else 1%Z) attr = Ok axis ->
  (- Z.of_nat (length (tt_shape t)) <= axis < Z.of_nat (length (tt_shape t)))%Z ->
  let a := norm_axis axis (length (tt_shape t)) in
  let axes := if v13 then [a] else zrange a (Z.of_nat (length (tt_shape t))) in
  softmax_impl v13 [Some x] attr = Ok (softmax_calc x axes) /\
  log_softmax_impl v13 [Some x] attr = Ok (log_softmax_calc x axes) /\
  axes <> [] /\ (forall z, In z axes -> 0 <= z < Z.of_nat (length (tt_shape t)))%Z.
Proof.
  intros Ht Ha Hb a axes. pose proof (norm_axis_bounds _ _ Hb) as Hn. fold a in Hn.
  unfold softmax_impl, log_softmax_impl, softmax_axes, typed_input. simpl.
  rewrite Ha, Ht. simpl. fold a. fold axes.
  split; [reflexivity|]. split; [reflexivity|]. subst axes. destruct v13.
  - split; [discriminate|]. intros z [<-|[]]. exact Hn.
  - split.
    + intros E. assert (In a (zrange a (Z.of_nat (length (tt_shape t))))) as H
        by (apply zrange_In; lia). rewrite E in H. exact H.
    + intros z Hz. apply zrange_In in Hz. lia.
Qed.

(** (C15) ONNX [ReduceSum] from opset 13 (and the other reductions from
    opset 18) reads its axes from a second input and reduces over all of
    them; at every opset from 12 on the registry resolves the reductions
    to [_impl_v12], which reads only the first element of a constant axes
    input: with axes [[a; b]] the rule reduces along [a] alone. *)
Theorem reduce_v12_first_axis_only (opset : nat) (x : expr) (dt : string) (a b : Z)
        (attr : attr_table) :
  12 <= opset -> od_get "keepdims" attr = None ->
  Registry.get_converter [1; 12] opset = Ok 12 /\
  convert_rule "ReduceSum" 12 [Some x; Some (Const (VTensor dt [2] [a; b]))] attr []
  = Some (Ok (Single (Call "sum" [x] [("axis", KInt a); ("keepdims", KInt 1)]))).
Proof.
  intros Hop Hk. split.
  - apply (@Registry.get_converter_pick [1; 12] opset 12); [right; left; reflexivity | lia |].
    intros w [<-|[<-|[]]]; lia.
  - unfold convert_rule, reduce_v12, reduce_calc, keepdims, attr_or. simpl. rewrite Hk.
    reflexivity.
Qed.

(** (C16) [Clip] from opset 11 takes its bounds as inputs; when only one
    of them is a constant, the rule drops the other one: with a constant
    minimum and a computed maximum, or with the minimum omitted and a
    constant maximum, the node converts to its input unclipped. *)
Theorem clip_v11_drops_bound (x m : expr) (dt : string) (sh : list nat) (c : Z)
        (attr : attr_table) :
  (forall v, m <> Const v) -> od_mem "min" attr = false -> od_mem "max" attr = false ->
  clip_v11 [Some x; Some (Const (VTensor dt sh [c])); Some m] attr = Ok x /\
  clip_v11 [Some x; None; Some (Const (VTensor dt sh [c]))] attr = Ok x.
Proof.
  intros Hm Hmin Hmax. unfold clip_v11. simpl. split.
  - destruct m; try (exfalso; now apply (Hm v)); simpl;
      rewrite od_mem_set_eq, od_mem_set_ne, Hmax by discriminate; reflexivity.
  - rewrite od_mem_set_ne, Hmin by discriminate. reflexivity.
Qed.

(** [Hardmax] at opset 13 takes [axis % ndim] with Python's modulo:
    for an input of positive rank the one-hot axis is always in
    [[0, ndim)], whatever the [axis] attribute; a scalar input raises
    [ZeroDivisionError]. *)
Lemma hardmax_v13_axis (x : expr) (t : ttype) (attr : attr_table) (a : Z) :
  infer_tensor x = Ok t -> attr_int "axis" (-1)%Z attr = Ok a ->
  (tt_shape t = [] -> hardmax_v13 [Some x] attr = Err ZeroDivisionError) /\
  (tt_shape t <> [] ->
   let ax := (a mod Z.of_nat (length (tt_shape t)))%Z in
   exists sh, shape_of x "int64" = Ok sh /\
     hardmax_v13 [Some x] attr =
       one_hot_of (Call "argmax" [x] [("axis", KInt ax)]) (Const (scalar (tt_dtype t) 1))
                  (Const (scalar (tt_dtype t) 0))
                  (fold_constant (Call "take" [sh; const_ints [ax]] [])) ax (tt_dtype t) /\
     (0 <= ax < Z.of_nat (length (tt_shape t)))%Z).
Proof.
  intros Ht Ha. unfold hardmax_v13, typed_input, py_mod. simpl. rewrite Ht, Ha. simpl. split.
  - intros E. rewrite E. reflexivity.
  - intros Hne. destruct (tt_shape t) as [|d ds] eqn:Es; [contradiction|].
    replace (Z.of_nat (length (d :: ds)) =? 0)%Z with false by (simpl; lia).
    destruct (shape_of x "int64") as [sh|err] eqn:Hsh.
    + exists sh. split; [reflexivity|]. split; [reflexivity|].
      apply Z.mod_pos_bound. simpl. lia.
    + unfold shape_of in Hsh. rewrite Ht in Hsh. simpl in Hsh. destruct (forallb _ _); discriminate.
Qed.

Lemma prefix_sums_length (acc : Z) (l : list Z) : length (prefix_sums acc l) = length l.
Proof. revert acc; induction l as [|z l IH]; intros acc; simpl; [reflexivity | now rewrite IH]. Qed.

Lemma prefix_sums_nth (acc : Z) (l : list Z) (i : nat) :
  i < length l ->
  nth i (prefix_sums acc l) 0%Z = (acc + fold_right Z.add 0 (firstn (S i) l))%Z.
Proof.
  revert acc i; induction l as [|z l IH]; intros acc [|i] Hi; simpl in *; try lia.
  rewrite IH by lia. simpl. lia.
Qed.

(** [Split] produces as many outputs as the node asks for: with a
    [split] attribute of [n >= 2] sizes the rule splits at the running
    sums of the sizes (the [i]-th point is the sum of the first [i + 1]
    sizes) into [n] parts; without it, into as many equal parts as the
    node has outputs. *)
Theorem split_arity (x : expr) (attr : attr_table) :
  let axis := ("axis", kwarg_of (attr_or "axis" (AInt 0) attr)) in
  (forall splits, od_get "split" attr = Some (AInts splits) -> 2 <= length splits ->
     let idx := prefix_sums 0 (removelast splits) in
     split_v1 [Some x] attr =
       Ok (Wrapper (Call "split" [x] [("indices_or_sections", KInts idx); axis]) (length splits)) /\
     length idx = length splits - 1 /\
     (forall i, i < length idx -> nth i idx 0%Z = fold_right Z.add 0%Z (firstn (S i) splits))) /\
  (forall name k, od_get "split" attr = None ->
     od_get "tvm_custom" attr = Some (ATvmCustom name k) -> 2 <= k ->
     split_v1 [Some x] attr =
       Ok (Wrapper (Call "split" [x] [("indices_or_sections", KInt (Z.of_nat k)); axis]) k)).
Proof.
  intros axis. split.
  - intros splits Hs Hn idx.
    assert (Hlen : length idx = length splits - 1)
      by (unfold idx; rewrite prefix_sums_length, length_removelast; lia).
    split; [|split; [exact Hlen|]].
    + unfold split_v1. rewrite Hs. simpl. fold idx.
      replace (Nat.eqb (length idx) 0) with false by (symmetry; apply Nat.eqb_neq; lia).
      replace (S (length idx)) with (length splits) by lia. reflexivity.
    + intros i Hi. unfold idx. rewrite prefix_sums_nth by (rewrite length_removelast; lia).
      rewrite firstn_removelast by lia. lia.
  - intros name k Hs Ht Hk. unfold split_v1. rewrite Hs, Ht. simpl.
    replace (Nat.eqb k 1) with false by (symmetry; apply Nat.eqb_neq; lia). reflexivity.
Qed.

Lemma zinsert_comm (a b : Z) (l : list Z) : zinsert a (zinsert b l) = zinsert b (zinsert a l).
Proof.
  induction l as [|y l IH]; simpl.
  - destruct (Z.leb_spec a b), (Z.leb_spec b a); try reflexivity; try lia.
    replace b with a by lia. reflexivity.
  - destruct (Z.leb_spec b y), (Z.leb_spec a y); simpl;
      repeat match goal with
             | |- context [(?u <=? ?v)%Z] => destruct (Z.leb_spec u v)
             end; try reflexivity; try lia;
      try (replace b with a by lia; reflexivity); now rewrite IH.
Qed.

Lemma zsort_perm (l l' : list Z) : Permutation l l' -> zsort l = zsort l'.
Proof.
  induction 1 as [| x l l' _ IH | x y l | l l' l'' _ IH1 _ IH2]; simpl.
  - reflexivity.
  - now rewrite IH.
  - apply zinsert_comm.
  - now rewrite IH1.
Qed.

(** [Unsqueeze] inserts the new axes in increasing order, so the
    order in which a node lists its axes does not matter: axes lists that
    are permutations of each other convert to the same expression, from
    the [axes] attribute (opset 1) or from a constant second input (opset
    13). *)
Theorem unsqueeze_axes_order_free (x : expr) (axes axes' : list Z) (dt : string) (sh : list nat)
        (attr attr' : attr_table) :
  Permutation axes axes' ->
  (od_get "axes" attr = Some (AInts axes) -> od_get "axes" attr' = Some (AInts axes') ->
   unsqueeze_v1 [Some x] attr = unsqueeze_v1 [Some x] attr') /\
  unsqueeze_v13 [Some x; Some (Const (VTensor dt sh axes))] =
  unsqueeze_v13 [Some x; Some (Const (VTensor dt sh axes'))].
Proof.
  intros Hp. unfold unsqueeze_v1, unsqueeze_v13, unsqueeze_calc, od_find, of_option. simpl.
  rewrite (zsort_perm _ _ Hp). split; [|reflexivity].
  intros H1 H2. rewrite H1, H2. simpl. now rewrite (zsort_perm _ _ Hp).
Qed.

(** [Gather] with a constant scalar index: a negative index is
    offset by the extent of the gathered axis, a non-negative one is kept
    as it is, and no [where] is built. *)
Lemma gather_const_index (data : expr) (dt : string) (sh : list nat) (i axis : Z)
        (attr : attr_table) :
  attr_int "axis" 0 attr = Ok axis ->
  let idx := Const (VTensor dt sh [i]) in
  let extent := Call "take" [Call "shape_of" [data] [("dtype", KStr dt)];
                             Const (scalar "int64" axis)] [] in
  gather_v1 [Some data; Some idx] attr =
  Ok (Call "take" [data; if (i <? 0)%Z then Call "add" [idx; extent] [] else idx]
           [("axis", KInt axis)]).
Proof. intros Ha idx extent. unfold gather_v1. rewrite Ha. reflexivity. Qed.

(** ** Witnesses *)

Lemma softmax_axes_in_range_witness :
  let x := Var "x" (TType [DInt 2; DInt 3] "float32") in
  softmax_impl false [Some x] [] = Ok (softmax_calc x [1%Z]) /\
  log_softmax_impl false [Some x] [] = Ok (log_softmax_calc x [1%Z]) /\
  [1%Z] <> [] /\ (forall z, In z [1%Z] -> 0 <= z < 2)%Z.
Proof.
  intros x. exact (softmax_axes_in_range false x (TType [DInt 2; DInt 3] "float32") [] 1
                     eq_refl eq_refl ltac:(simpl; lia)).
Defined.

Lemma reduce_v12_first_axis_only_witness :
  let x := Var "x" (TType [DInt 2; DInt 3] "float32") in
  Registry.get_converter [1; 12] 13 = Ok 12 /\
  convert_rule "ReduceSum" 12 [Some x; Some (Const (VTensor "int64" [2] [0; 1]%Z))] [] []
  = Some (Ok (Single (Call "sum" [x] [("axis", KInt 0); ("keepdims", KInt 1)]))).
Proof. intros x. apply reduce_v12_first_axis_only; [lia | reflexivity]. Defined.

Lemma clip_v11_drops_bound_witness :
  let x := Var "x" (TType [DInt 4] "float32") in
  let m := Var "m" (TType [] "float32") in
  clip_v11 [Some x; Some (Const (VTensor "float32" [] [0%Z])); Some m] [] = Ok x /\
  clip_v11 [Some x; None; Some (Const (VTensor "float32" [] [0%Z]))] [] = Ok x.
Proof. intros x m. apply clip_v11_drops_bound; [discriminate | reflexivity | reflexivity]. Defined.

Lemma hardmax_v13_axis_witness :
  let x := Var "x" (TType [DInt 2; DInt 3] "float32") in
  (tt_shape (TType [DInt 2; DInt 3] "float32") = [] ->
   hardmax_v13 [Some x] [("axis", AInt (-5))] = Err ZeroDivisionError) /\
  (tt_shape (TType [DInt 2; DInt 3] "float32") <> [] ->
   let ax := ((-5) mod Z.of_nat (length (tt_shape (TType [DInt 2; DInt 3] "float32"))))%Z in
   exists sh, shape_of x "int64" = Ok sh /\
     hardmax_v13 [Some x] [("axis", AInt (-5))] =
       one_hot_of (Call "argmax" [x] [("axis", KInt ax)]) (Const (scalar "float32" 1))
                  (Const (scalar "float32" 0))
                  (fold_constant (Call "take" [sh; const_ints [ax]] [])) ax "float32" /\
     (0 <= ax < Z.of_nat (length (tt_shape (TType [DInt 2; DInt 3] "float32"))))%Z).
Proof. intros x. exact (hardmax_v13_axis x _ [("axis", AInt (-5))] (-5) eq_refl eq_refl). Defined.

Lemma split_arity_witness :
  let x := Var "x" (TType [DInt 6] "float32") in
  let attr := [("split", AInts [1; 2; 3]%Z); ("tvm_custom", ATvmCustom "s" 3)] in
  split_v1 [Some x] attr =
  Ok (Wrapper (Call "split" [x] [("indices_or_sections", KInts [1; 3]%Z); ("axis", KInt 0)]) 3).
Proof.
  intros x attr.
  destruct (proj1 (split_arity x attr) [1; 2; 3]%Z eq_refl ltac:(simpl; lia)) as [H _].
  exact H.
Defined.

Lemma unsqueeze_axes_order_free_witness :
  let x := Var "x" (TType [DInt 3] "float32") in
  unsqueeze_v13 [Some x; Some (Const (VTensor "int64" [2] [2; 0]%Z))] =
  unsqueeze_v13 [Some x; Some (Const (VTensor "int64" [2] [0; 2]%Z))].
Proof.
  intros x. apply (unsqueeze_axes_order_free x [2; 0]%Z [0; 2]%Z "int64" [2] [] []).
  apply perm_swap.
Defined.

Lemma gather_const_index_witness :
  let data := Var "d" (TType [DInt 5] "float32") in
  gather_v1 [Some data; Some (Const (VTensor "int64" [] [(-1)%Z]))] [] =
  Ok (Call "take" [data; Call "add" [Const (VTensor "int64" [] [(-1)%Z]);
                                     Call "take" [Call "shape_of" [data] [("dtype", KStr "int64")];
                                                  Const (scalar "int64" 0)] []] []]
           [("axis", KInt 0)]).
Proof. intros data. apply (gather_const_index data "int64" [] (-1) 0 []). reflexivity. Defined.

Lemma fold_mul_of_nat (l : list nat) :
  fold_right Z.mul 1%Z (map Z.of_nat l) = Z.of_nat (fold_right Nat.mul 1 l).
Proof. induction l as [|x l IH]; cbn [map fold_right]; [reflexivity|]. rewrite IH. lia. Qed.

(** The product of the extents [b] to [e] of a constant shape vector,
    as [prod_slice] evaluates it. *)
Lemma eval_prod_slice (f : nat) (env : odict value) (dt : string) (n : nat) (d : list Z) (b e : Z) :
  (0 <= b <= e)%Z ->
  eval (5 + f) env (prod_slice (Const (VTensor dt [n] d)) b e) =
  Some (VTensor dt [1] [fold_right Z.mul 1%Z
                          (firstn (Z.to_nat (Z.min e (Z.of_nat n)) - Z.to_nat (Z.min b (Z.of_nat n)))
                                  (skipn (Z.to_nat (Z.min b (Z.of_nat n))) d))]).
Proof.
  intros Hbe. unfold prod_slice. cbn -[Z.min Z.to_nat Nat.sub].
  replace ((0 <=? b)%Z && (b <=? e)%Z) with true
    by (symmetry; apply andb_true_intro; split; apply Z.leb_le; lia).
  reflexivity.
Qed.

Lemma fold_newshape (ns : list nat) (a : Z) :
  (0 <= a <= Z.of_nat (length ns))%Z -> (Z.of_nat (length ns) <= 2147483647)%Z ->
  let sh := Const (VTensor "int64" [length ns] (map Z.of_nat ns)) in
  fold_constant (Call "concatenate"
                      [Tuple [if (a =? 0)%Z then Const (VTensor "int64" [1] [1%Z]) else prod_slice sh 0 a;
                              prod_slice sh a 2147483647]] [("axis", KInt 0)])
  = Const (VTensor "int64" [2] [Z.of_nat (fold_right Nat.mul 1 (firstn (Z.to_nat a) ns));
                                Z.of_nat (fold_right Nat.mul 1 (skipn (Z.to_nat a) ns))]).
Proof.
  intros Ha Hn sh.
  assert (E1 : Z.min a (Z.of_nat (length ns)) = a) by lia.
  assert (E2 : Z.min 0 (Z.of_nat (length ns)) = 0%Z) by lia.
  assert (E3 : Z.min 2147483647 (Z.of_nat (length ns)) = Z.of_nat (length ns)) by lia.
  assert (E4 : (0 <=? a)%Z = true) by (apply Z.leb_le; lia).
  assert (E5 : (a <=? 2147483647)%Z = true) by (apply Z.leb_le; lia).
  unfold fold_constant, sh, prod_slice. destruct (Z.eqb_spec a 0) as [->|Ha0].
  all: cbn -[Z.min Z.to_nat Nat.sub firstn skipn Z.of_nat]; rewrite ?E1, ?E2, ?E3, ?E4, ?E5.
  all: cbn -[Z.to_nat Nat.sub firstn skipn Z.of_nat]; rewrite Nat2Z.id; change (Z.to_nat 0) with 0.
  all: rewrite Nat.sub_0_r, skipn_O.
  all: first [ rewrite (firstn_all2 (skipn _ _)) by (rewrite length_skipn, length_map; lia)
             | rewrite (firstn_all2 (n := length ns) (map Z.of_nat ns)) by (rewrite length_map; lia) ].
  all: rewrite ?firstn_map, ?skipn_map, ?fold_mul_of_nat; reflexivity.
Qed.

(** (C10) [Hardmax] before opset 13 on a statically shaped input of rank
    [r] (at most [2 ^ 31 - 1]) with [axis] in [[-r, r)]: the input is
    coerced to the matrix [[P; Q]] of the extents before the axis by
    those from it, as ONNX's opset-1 [Hardmax] defines, the one-hot of
    the row-wise [argmax] has depth [Q], and the result takes the
    input's shape again: the shape computed in Relay folds to constants. *)
Theorem hardmax_v1_coerces (x : expr) (ns : list nat) (dt : string) (a : Z) :
  infer_tensor x = Ok (TType (map DInt ns) dt) ->
  (- Z.of_nat (length ns) <= a < Z.of_nat (length ns))%Z ->
  (Z.of_nat (length ns) <= 2147483647)%Z ->
  let k := Z.to_nat (if (a <? 0)%Z then a + Z.of_nat (length ns) else a)%Z in
  let p := Z.of_nat (fold_right Nat.mul 1 (firstn k ns)) in
  let q := Z.of_nat (fold_right Nat.mul 1 (skipn k ns)) in
  hardmax_v1 [Some x] [("axis", AInt a)] =
  Ok (Call "reshape"
        [Call "one_hot"
           [Call "argmax" [Call "reshape" [x] [("newshape", KInts [p; q])]] [("axis", KInt 1)];
            Const (scalar dt 1); Const (scalar dt 0)]
           [("depth", KInt q); ("axis", KInt 1); ("dtype", KStr dt)]]
        [("newshape", KInts (map Z.of_nat ns))]).
Proof.
  intros Hx Ha Hn k p q. unfold hardmax_v1, typed_input. cbn [attr_int od_get String.eqb].
  cbn -[infer_tensor shape_of fold_constant]. rewrite Hx. cbn -[shape_of fold_constant].
  rewrite (shape_of_static _ _ _ _ Hx). cbn -[fold_constant]. rewrite length_map.
  rewrite fold_newshape by (destruct (Z.ltb_spec a 0); lia). fold k p q. cbn [static_or_dyn_reshape].
  assert (Hr : infer_tensor (Call "reshape" [x] [("newshape", KInts [p; q])])
               = Ok (TType (map DInt [Z.to_nat p; Z.to_nat q]) dt)).
  { unfold infer_tensor. cbn [infer mapM]. rewrite (infer_of_tensor _ _ Hx). cbn.
    replace (0 <=? p)%Z with true by (symmetry; apply Z.leb_le; lia).
    replace (0 <=? q)%Z with true by (symmetry; apply Z.leb_le; lia). reflexivity. }
  rewrite (shape_of_static _ _ _ _ Hr). cbn. change (PosDef.Pos.to_nat 1) with 1. cbv iota.
  rewrite (Z2Nat.id q) by (unfold q; lia). reflexivity.
Qed.

Lemma hardmax_v1_coerces_witness :
  hardmax_v1 [Some (Var "x" (TType (map DInt [2; 3; 4]) "float32"))] [("axis", AInt (-2))] =
  Ok (Call "reshape"
        [Call "one_hot"
           [Call "argmax" [Call "reshape" [Var "x" (TType (map DInt [2; 3; 4]) "float32")]
                                [("newshape", KInts [2; 12]%Z)]] [("axis", KInt 1)];
            Const (scalar "float32" 1); Const (scalar "float32" 0)]
           [("depth", KInt 12); ("axis", KInt 1); ("dtype", KStr "float32")]]
        [("newshape", KInts (map Z.of_nat [2; 3; 4]))]).
Proof. apply (hardmax_v1_coerces _ [2; 3; 4] "float32" (-2)); [reflexivity | simpl; lia | simpl; lia]. Defined.

End Rules.
