(* ===== verification/Conv.v ===== *)
(** * Conv: pooling, convolution and automatic padding

    The rules of onnx.py that build the Relay pooling and convolution
    operators: [Pool._impl_v1] and [Pool._run_calculation] (lines 275-350)
    for [AveragePool] and [MaxPool], [autopad] (lines 414-474), which pads
    the data for [SAME_UPPER] and [SAME_LOWER] with an expression computed
    from the input's shape, [Conv._impl_v1] (lines 477-552), with its
    rewriting of a 1-d convolution into a 2-d one, and
    [ConvTranspose._impl_v1] and [_impl_v11] (lines 555-676), which pad
    by [autopad] and by a computation of their own.

    [AttrCvt] here carries the code's callable operator name
    ([dimension_picker]) and its [custom_check] ([dimension_constraint]):
    the check runs first and raises [RuntimeError], then the name is
    picked, then the attributes are renamed ([Ops.attr_cvt_apply]).

    Theorems: the [pads] of an average pool with SAME padding are the
    halves [get_pad_pair] computes, all befores then all afters; a 1-d
    convolution without a [group] attribute goes through [conv2d] and a
    squeeze; an unknown [auto_pad] is rejected; the SAME padding of
    [ConvTranspose]-11 needs an explicit [strides] (a bug) and puts the
    larger half first for SAME_UPPER. *)

From Stdlib Require Import String List Bool Arith Lia ZArith.
From S2P Require Import Prelude Proto IR Attrs Ops Rules.
Import ListNotations.
Local Open Scope string_scope.
Local Open Scope list_scope.

Module Conv.
Import Proto IR Attrs Ops Rules.

(** ** Constants *)

(** [relay.const(v)] of a Python [int]: numpy makes it [int64], which
    [relay.const] narrows to [int32], wrapping around. *)
Definition wrap32 (z : Z) : Z := ((z + 2 ^ 31) mod 2 ^ 32 - 2 ^ 31)%Z.

Definition py_int_const (z : Z) : expr := Const (scalar "int32" (wrap32 z)).

(** [np.iinfo(dtype).min] for the integer types, [np.finfo(dtype).min]
    for the floating ones (exact integers: the largest finite float,
    negated); other types raise. *)
Definition dtype_min (dt : string) : result Z :=
  if dt =? "int8" then Ok (-128)%Z
  else if dt =? "int16" then Ok (-32768)%Z
  else if dt =? "int32" then Ok (- 2 ^ 31)%Z
  else if dt =? "int64" then Ok (- 2 ^ 63)%Z
  else if (dt =? "uint8") || (dt =? "uint16") || (dt =? "uint32") || (dt =? "uint64") then Ok 0%Z
  else if dt =? "float16" then Ok (-65504)%Z
  else if dt =? "float32" then Ok (- (2 ^ 128 - 2 ^ 104))%Z
  else if dt =? "float64" then Ok (- (2 ^ 1024 - 2 ^ 971))%Z
  else Err (ValueError "data type not supported by iinfo or finfo").

(** The padding value of a max pool: the smallest value of the input's
    type ([iinfo] when ["int"] is in the type's name, else [finfo]), as
    [autopad] makes it a constant: a Python [int] (from [iinfo]) or a
    [numpy.float64] (a Python [float]) goes through [_op.const], which
    narrows them to [int32] and [float32]; the other numpy floats become
    constants of their own type in [nn.pad]. *)
Definition pool_pad_value (dt : string) : result expr :=
  let* m := dtype_min dt in
  Ok (if str_contains "int" dt then py_int_const m
      else if dt =? "float64" then Const (scalar "float32" m)
      else Const (scalar dt m)).

(** ** [autopad] *)

Definition int64s (l : list Z) : expr := Const (VTensor "int64" [length l] l).

(** [autopad(data, strides, kernel_shape, dilations, ndim, ...)]: the SAME
    padding of every spatial axis, as a Relay computation on the input's
    shape, the larger half after the data ([SAME_UPPER]) or before it
    (["LOWER"] in [mode]), and no padding of the batch and channel axes. *)
Definition autopad (data : expr) (strides kernel_shape dilations : list Z) (ndim : nat)
           (deconv : bool) (mode : string) (pad_value : expr) : result expr :=
  let strides := int64s strides in
  let dilated := int64s (map (fun kd => ((fst kd - 1) * snd kd + 1)%Z)
                             (combine kernel_shape dilations)) in
  let* sh := shape_of data "int64" in
  let shape := Call "strided_slice" [sh] [("begin", KInts [2%Z]); ("end", KInts [Z.of_nat ndim])] in
  let zero := Const (scalar "int64" 0) in
  let one := Const (scalar "int64" 1) in
  let two := Const (scalar "int64" 2) in
  let md := Call "mod" [shape; strides] [] in
  let left := Call "maximum" [Call "subtract" [dilated; strides] []; zero] [] in
  let right := Call "maximum" [Call "subtract" [dilated; md] []; zero] [] in
  let total := Call "where" [Call "equal" [md; zero] []; left; right] [] in
  let total := if deconv
               then Call "subtract" [Call "subtract" [int64s kernel_shape; one] []; total] []
               else total in
  let before := Call "floor_divide" [total; two] [] in
  let after := Call "subtract" [total; before] [] in
  let column e := Call "reshape" [e] [("newshape", KInts [(-1)%Z; 1%Z])] in
  let pad := Call "concatenate"
               [Tuple (if str_contains "LOWER" mode then [column after; column before]
                       else [column before; column after])] [("axis", KInt 1)] in
  let pad := Call "concatenate" [Tuple [Const (VTensor "int64" [2; 2] [0; 0; 0; 0]%Z); pad]]
                  [("axis", KInt 0)] in
  Ok (Call "nn.pad" [data; fold_constant pad; pad_value] [("pad_mode", KStr "constant")]).

(** ** Attribute access *)

(** [attr.get(k, dflt)] of a list attribute. *)
Definition ints_attr (k : string) (dflt : list Z) (attr : attr_table) : result (list Z) :=
  match od_get k attr with
  | None => Ok dflt
  | Some (AInts l) => Ok l
  | Some _ => Err (TypeError "not a list")
  end.

(** [attr["kernel_shape"]]. *)
Definition kernel_shape_of (attr : attr_table) : result (list Z) :=
  let* v := od_find "kernel_shape" attr in
  match v with AInts l => Ok l | _ => Err (TypeError "not a list") end.

Definition nth_z (l : list Z) (i : nat) : result Z :=
  of_option (IndexError "list index out of range") (nth_error l i).

(** [attr["auto_pad"].decode("utf-8")]. *)
Definition decode (v : attr_val) : result string :=
  match v with ABytes s => Ok s | _ => Err (AttributeError "object has no attribute decode") end.

Definition same_mode (mode : string) : bool := (mode =? "SAME_UPPER") || (mode =? "SAME_LOWER").

Definition invalid_auto_pad (mode op : string) : py_error :=
  OpAttributeInvalid ("Value " ++ mode ++ " in attribute auto_pad of operator " ++ op ++ " is invalid.").

(** [AttrCvt(op_name=dimension_picker(prefix, suffix), transforms,
    ignores, custom_check=dimension_constraint())(inputs, attr)]; the
    attributes an [AttrCvt] disables are dropped like the ignored ones. *)
Definition attr_cvt_checked (prefix suffix : string) (transforms : list (string * string))
           (ignores : list string) (ins : list (option expr)) (attr : attr_table) : result expr :=
  let* ok := dimension_constraint attr in
  if negb ok then Err (RuntimeError "Check failed: Only 1d, 2d and 3d kernel supported.") else
  let* op := dimension_picker prefix suffix attr in
  attr_cvt_apply (AttrCvt op transforms ignores []) ins attr.

(** ** Pooling *)

(** A spatial extent of the input, for [get_pad_pair]. *)
Definition dim_at (shape : list dimv) (i : nat) : result Z :=
  match nth_error shape i with
  | Some (DInt n) => Ok (Z.of_nat n)
  | Some DAny => Err (TypeError "unsupported operand type(s) for %: Any")
  | None => Err (IndexError "tuple index out of range")
  end.

(** The [pads] of an average pool with SAME padding: [get_pad_pair] on
    every spatial axis, all first halves then all second halves
    (the [zip] of the pad tuples). *)
Definition pool_same_pads (shape : list dimv) (attr : attr_table) (mode : string)
  : result (list Z) :=
  let ndim := length shape in
  let* pairs := mapM (fun axis =>
      let* axis_shape := dim_at shape (2 + axis) in
      let* strides := ints_attr "strides" (repeat 1%Z ndim) attr in
      let* stride := nth_z strides axis in
      let* ks := kernel_shape_of attr in
      let* kernel := nth_z ks axis in
      get_pad_pair axis_shape kernel stride mode) (seq 0 (ndim - 2)) in
  Ok (map (fun p => nth 0 p 0%Z) pairs ++ map (fun p => nth 1 p 0%Z) pairs).

Definition pool_transforms : list (string * string) :=
  [("kernel_shape", "pool_size"); ("pads", "padding"); ("dilations", "dilation")].

(** [Pool._run_calculation], for the class of Relay name [name]
    ([avg_pool], [max_pool]): the attributes it rewrites and the data,
    padded by [autopad] for a SAME [max_pool]. *)
Definition pool_calc (name : string) (ins : list (option expr)) (attr : attr_table)
  : result (attr_table * expr) :=
  let* '(data, t) := typed_input ins 0 in
  let shape := tt_shape t in
  let ndim := length shape in
  let* '(attr, data) :=
    match od_get "auto_pad" attr with
    | None => Ok (attr, data)
    | Some v =>
        let* mode := decode v in
        let attr := od_set "auto_pad" (ABytes mode) attr in
        let* '(attr, data) :=
          if same_mode mode then
            if name =? "avg_pool" then
              let* pads := pool_same_pads shape attr mode in
              Ok (od_set "pads" (AInts pads) attr, data)
            else
              let* pad_val := pool_pad_value (tt_dtype t) in
              let* strides := ints_attr "strides" (repeat 1%Z (ndim - 2)) attr in
              let* ks := kernel_shape_of attr in
              let* data := autopad data strides ks (repeat 1%Z ndim) ndim false mode pad_val in
              Ok (attr, data)
          else if mode =? "VALID" then Ok (od_set "pads" (AInts (repeat 0%Z (ndim - 2))) attr, data)
          else if mode =? "NOTSET" then Ok (attr, data)
          else Err (invalid_auto_pad mode name) in
        Ok (od_del "auto_pad" attr, data)
    end in
  let* layout := match od_get "storage_order" attr with
                 | Some (AInt so) => onnx_storage_order2layout so (ndim - 2)
                 | Some _ => Err (TypeError "storage_order is not an integer")
                 | None => onnx_default_layout (ndim - 2)
                 end in
  Ok (od_set "layout" (ABytes layout) attr, data).

(** [Pool._impl_v1]: the [AttrCvt] of [_run_calculation] on the data. *)
Definition pool_v1 (name : string) (ins : list (option expr)) (attr : attr_table) : result expr :=
  let* '(attr, data) := pool_calc name ins attr in
  attr_cvt_checked name "" pool_transforms ["storage_order"] [Some data] attr.

(** ** Convolution *)

(** [get_const_tuple(infer_type(kernel).checked_type.shape)]: a kernel of
    dynamic shape would put [Any] into the attribute table, which holds
    integers here; it is an error of the model. *)
Definition static_dims (t : ttype) : result (list Z) :=
  mapM (fun d => match d with
                 | DInt n => Ok (Z.of_nat n)
                 | DAny => Err (TypeError "dynamic kernel shape")
                 end) (tt_shape t).

(** [attr.get("group") != 1]. *)
Definition group_not_one (attr : attr_table) : bool :=
  match od_get "group" attr with
  | Some (AInt 1%Z) | Some (AFloat 1%Z) => false
  | _ => true
  end.

(** [attr[k] = [1] + list(attr[k])] when [k] is present. *)
Definition prefix_one (k : string) (attr : attr_table) : result attr_table :=
  match od_get k attr with
  | None => Ok attr
  | Some (AInts l) => Ok (od_set k (AInts (1%Z :: l)) attr)
  | Some _ => Err (TypeError "not a list")
  end.

Definition conv_transforms : list (string * string) :=
  [("kernel_shape", "kernel_size"); ("dilations", "dilation"); ("pads", "padding");
   ("group", "groups")].

(** [Conv._impl_v1]. *)
Definition conv_v1 (ins : list (option expr)) (attr : attr_table) : result expr :=
  let* '(data, t) := typed_input ins 0 in
  let ndim := length (tt_shape t) in
  let* '(kernel, kt) := typed_input ins 1 in
  let* kshape := static_dims kt in
  let attr := if od_mem "kernel_shape" attr then attr
              else od_set "kernel_shape" (AInts (skipn 2 kshape)) attr in
  let* '(attr, data) :=
    match od_get "auto_pad" attr with
    | None => Ok (attr, data)
    | Some v =>
        let* mode := decode v in
        let attr := od_set "auto_pad" (ABytes mode) attr in
        let* '(attr, data) :=
          if same_mode mode then
            let* strides := ints_attr "strides" (repeat 1%Z (ndim - 2)) attr in
            let* ks := kernel_shape_of attr in
            let* dil := ints_attr "dilations" (repeat 1%Z (ndim - 2)) attr in
            let* data := autopad data strides ks dil ndim false mode (Const (scalar "float32" 0)) in
            Ok (attr, data)
          else if mode =? "VALID" then Ok (od_set "pads" (AInts (repeat 0%Z (ndim - 2))) attr, data)
          else if mode =? "NOTSET" then Ok (attr, data)
          else Err (invalid_auto_pad mode "Conv") in
        Ok (od_del "auto_pad" attr, data)
    end in
  let* pick := dimension_picker "conv" "" attr in
  let group_conv1d := (pick =? "conv1d") && group_not_one attr in
  let* '(attr, data, kernel) :=
    if group_conv1d then
      let data := Call "expand_dims" [data] [("axis", KInt 2)] in
      let kernel := Call "expand_dims" [kernel] [("axis", KInt 2)] in
      let* ks := kernel_shape_of attr in
      let attr := od_set "kernel_shape" (AInts (1%Z :: ks)) attr in
      let* attr := prefix_one "strides" attr in
      let* attr := prefix_one "dilations" attr in
      let* attr := match od_get "pads" attr with
                   | None => Ok attr
                   | Some (AInts l) =>
                       let* p0 := nth_z l 0 in
                       let* p1 := nth_z l 1 in
                       Ok (od_set "pads" (AInts [0; p0; 0; p1]%Z) attr)
                   | Some _ => Err (TypeError "not a list")
                   end in
      Ok (attr, data, kernel)
    else Ok (attr, data, kernel) in
  let* channels := nth_z kshape 0 in
  let attr := od_set "channels" (AInt channels) attr in
  let* out := attr_cvt_checked "conv" "" conv_transforms [] [Some data; Some kernel] attr in
  let out := if group_conv1d then Call "squeeze" [out] [("axis", KInts [2%Z])] else out in
  if Nat.eqb (length ins) 3 then relay_call "nn.bias_add" [Some out; input_at ins 2] []
  else Ok out.

(** ** Transposed convolution *)

(** The start of [ConvTranspose._impl_v1] and [_impl_v11]: [channels] is
    the kernel's second extent, [groups] copies [group] (default 1), and
    [kernel_shape] defaults to the kernel's spatial extents. *)
Definition conv_transpose_attrs (ins : list (option expr)) (attr : attr_table)
  : result (attr_table * expr * nat) :=
  let* '(_, kt) := typed_input ins 1 in
  let* out_shape := static_dims kt in
  let* channels := nth_z out_shape 1 in
  let attr := od_set "channels" (AInt channels) attr in
  let groups := match od_get "group" attr with Some v => v | None => AInt 1 end in
  let attr := if od_mem "kernel_shape" attr then attr
              else od_set "kernel_shape" (AInts (skipn 2 out_shape)) attr in
  let attr := od_set "groups" groups attr in
  let* '(data, t) := typed_input ins 0 in
  Ok (attr, data, length (tt_shape t)).

(** The SAME padding of [ConvTranspose._impl_v11], computed from the
    attributes: [strides] has no default here. *)
Definition conv_transpose_same_pads (attr : attr_table) (mode : string) : result (list Z) :=
  let* ks := kernel_shape_of attr in
  let kndim := length ks in
  let* dil := ints_attr "dilations" (repeat 1%Z kndim) attr in
  let* opad := ints_attr "output_padding" (repeat 0%Z kndim) attr in
  let* strides := let* v := od_find "strides" attr in
                  match v with AInts l => Ok l | _ => Err (TypeError "not a list") end in
  let* total := mapM (fun i =>
                  let* o := nth_z opad i in
                  let* k := nth_z ks i in
                  let* d := nth_z dil i in
                  let* st := nth_z strides i in
                  Ok (o + ((k - 1) * d + 1) - st)%Z) (seq 0 kndim) in
  let left := map (fun p => p / 2)%Z total in
  let right := map (fun pl => fst pl - snd pl)%Z (combine total left) in
  Ok (if str_contains "LOWER" mode then left ++ right else right ++ left).

(** [ConvTranspose._impl_v1] ([v11 = false]) and [_impl_v11]: they differ
    in the SAME padding, an [autopad] of the data in the first, [pads]
    computed from the attributes in the second. *)
Definition conv_transpose (v11 : bool) (ins : list (option expr)) (attr : attr_table)
  : result expr :=
  let* '(attr, data, ndim) := conv_transpose_attrs ins attr in
  let* '(attr, data) :=
    match od_get "auto_pad" attr with
    | None => Ok (attr, data)
    | Some v =>
        let* mode := decode v in
        let attr := od_set "auto_pad" (ABytes mode) attr in
        let* '(attr, data) :=
          if same_mode mode then
            if v11 then
              let* pads := conv_transpose_same_pads attr mode in
              Ok (od_set "pads" (AInts pads) attr, data)
            else
              let* strides := ints_attr "strides" (repeat 1%Z (ndim - 2)) attr in
              let* ks := kernel_shape_of attr in
              let* dil := ints_attr "dilations" (repeat 1%Z (ndim - 2)) attr in
              let* data := autopad data strides ks dil ndim true mode (Const (scalar "float32" 0)) in
              Ok (attr, data)
          else if mode =? "VALID" then Ok (od_set "pads" (AInts (repeat 0%Z (ndim - 2))) attr, data)
          else if mode =? "NOTSET" then Ok (attr, data)
          else Err (invalid_auto_pad mode "Conv") in
        Ok (od_del "auto_pad" attr, data)
    end in
  let* out := attr_cvt_checked "conv" "_transpose" conv_transforms ["output_shape"]
                               [Some data; input_at ins 1] attr in
  if Nat.eqb (length ins) 3 then relay_call "nn.bias_add" [Some out; input_at ins 2] []
  else Ok out.

(** The classes of this file, for [_convert_operator]. *)
Definition convert_nn (cls : string) (version : nat) (ins : list (option expr)) (attr : attr_table)
  : option (result expr) :=
  if cls =? "AveragePool" then Some (pool_v1 "avg_pool" ins attr)
  else if cls =? "MaxPool" then Some (pool_v1 "max_pool" ins attr)
  else if cls =? "Conv" then Some (conv_v1 ins attr)
  else if cls =? "ConvTranspose" then Some (conv_transpose (Nat.eqb version 11) ins attr)
  else None.

(** ** Theorems *)

(** The value of [get_pad_pair] on a nonzero stride. *)
Definition pad_halves (d k s : Z) (mode : string) : list Z :=
  let pad := Z.max (k - (if (d mod s =? 0)%Z then s else d mod s)) 0 in
  if str_contains "LOWER" mode then [pad - pad / 2; pad / 2]%Z else [pad / 2; pad - pad / 2]%Z.

Lemma get_pad_pair_halves (d k s : Z) (mode : string) :
  s <> 0%Z -> get_pad_pair d k s mode = Ok (pad_halves d k s mode).
Proof.
  intros Hs. rewrite get_pad_pair_eq by exact Hs. unfold pad_halves.
  now destruct (d mod s =? 0)%Z.
Qed.

Lemma static_dims_ints (l : list nat) (dt : string) :
  static_dims (TType (map DInt l) dt) = Ok (map Z.of_nat l).
Proof.
  unfold static_dims. cbn [tt_shape].
  induction l as [|n l IH]; [reflexivity|]. simpl. now rewrite IH.
Qed.

Lemma ints_attr_set_ne (k k' : string) (v : attr_val) (dflt : list Z) (attr : attr_table) :
  k <> k' -> ints_attr k' dflt (od_set k v attr) = ints_attr k' dflt attr.
Proof. intros Hne. unfold ints_attr. now rewrite od_get_set_ne. Qed.

Lemma kernel_shape_of_set_ne (k : string) (v : attr_val) (attr : attr_table) :
  k <> "kernel_shape" -> kernel_shape_of (od_set k v attr) = kernel_shape_of attr.
Proof. intros Hne. unfold kernel_shape_of, od_find. now rewrite od_get_set_ne. Qed.

Section SamePads.
Variables (n c : dimv) (dims : list nat) (attr : attr_table) (mode : string) (ks ss : list Z).
Hypothesis Hss : ints_attr "strides" (repeat 1%Z (2 + length dims)) attr = Ok ss.
Hypothesis Hks : kernel_shape_of attr = Ok ks.
Hypothesis Hlk : length ks = length dims.
Hypothesis Hls : length ss = length dims.
Hypothesis Hpos : Forall (fun s => 0 < s)%Z ss.

Let halves (i : nat) : list Z :=
  pad_halves (Z.of_nat (nth i dims 0)) (nth i ks 0%Z) (nth i ss 0%Z) mode.

Lemma pool_same_pads_eq :
  pool_same_pads (n :: c :: map DInt dims) attr mode =
  Ok (map (fun i => nth 0 (halves i) 0%Z) (seq 0 (length dims)) ++
      map (fun i => nth 1 (halves i) 0%Z) (seq 0 (length dims))).
Proof.
  unfold pool_same_pads. cbn [length]. rewrite length_map.
  change (S (S (length dims))) with (2 + length dims). rewrite Hss, Hks.
  replace (2 + length dims - 2) with (length dims) by lia.
  rewrite (mapM_In_Ok _ halves); [simpl; now rewrite !map_map|].
  intros i Hi. apply in_seq in Hi.
  assert (Hnz : nth i ss 0%Z <> 0%Z).
  { assert (Hin : In (nth i ss 0%Z) ss) by (apply nth_In; lia).
    rewrite Forall_forall in Hpos. specialize (Hpos _ Hin). lia. }
  unfold dim_at. change (nth_error (n :: c :: map DInt dims) (2 + i)) with (nth_error (map DInt dims) i).
  rewrite nth_error_map, (nth_error_nth' dims 0) by lia. simpl.
  unfold nth_z. rewrite (nth_error_nth' ss 0%Z), (nth_error_nth' ks 0%Z) by lia. simpl.
  now apply get_pad_pair_halves.
Qed.

End SamePads.

(** Average pooling with SAME padding: for an input of shape
    [n; c; d_1; ...; d_r] with static spatial extents, kernel and strides
    of length [r] with positive strides and no [storage_order], the rule
    sets [pads] to the [r] first halves then the [r] second halves of the
    SAME padding of each axis (its total, split into two non-negative
    halves differing by at most one, the larger after the data for
    SAME_UPPER and before it for SAME_LOWER), drops [auto_pad], adds the
    default layout and hands the attributes to the pooling [AttrCvt]. *)
Theorem avg_pool_same_pads (x : expr) (t : ttype) (n c : dimv) (dims : list nat)
        (mode : string) (ks ss : list Z) (attr : attr_table) :
  infer_tensor x = Ok t -> tt_shape t = n :: c :: map DInt dims ->
  od_get "auto_pad" attr = Some (ABytes mode) -> same_mode mode = true ->
  kernel_shape_of attr = Ok ks ->
  ints_attr "strides" (repeat 1%Z (2 + length dims)) attr = Ok ss ->
  od_get "storage_order" attr = None ->
  length ks = length dims -> length ss = length dims -> Forall (fun s => 0 < s)%Z ss ->
  exists befores afters : list Z,
    pool_v1 "avg_pool" [Some x] attr =
      (let* layout := onnx_default_layout (length dims) in
       attr_cvt_checked "avg_pool" "" pool_transforms ["storage_order"] [Some x]
         (od_set "layout" (ABytes layout)
            (od_del "auto_pad" (od_set "pads" (AInts (befores ++ afters))
                                  (od_set "auto_pad" (ABytes mode) attr))))) /\
    length befores = length dims /\ length afters = length dims /\
    forall i, i < length dims ->
      let d := Z.of_nat (nth i dims 0) in let k := nth i ks 0%Z in let s := nth i ss 0%Z in
      (nth i befores 0 + nth i afters 0 = Z.max (k - (if d mod s =? 0 then s else d mod s)) 0)%Z /\
      (if str_contains "LOWER" mode
       then 0 <= nth i afters 0 <= nth i befores 0 /\ nth i befores 0 <= nth i afters 0 + 1
       else 0 <= nth i befores 0 <= nth i afters 0 /\ nth i afters 0 <= nth i befores 0 + 1)%Z.
Proof.
  intros Hx Hsh Hap Hsm Hks Hss Hso Hlk Hls Hpos.
  assert (Hp := pool_same_pads_eq n c dims (od_set "auto_pad" (ABytes mode) attr) mode ks ss).
  rewrite ints_attr_set_ne, kernel_shape_of_set_ne in Hp by discriminate.
  specialize (Hp Hss Hks Hlk Hls Hpos).
  eexists; eexists; split; [|split; [|split]].
  - unfold pool_v1, pool_calc, typed_input. simpl input_at. simpl of_option. rewrite bind_of_Ok, Hx.
    simpl bind. rewrite Hsh, Hap. simpl decode. rewrite bind_of_Ok, Hsm. simpl String.eqb.
    rewrite Hp. simpl bind.
    rewrite od_get_del_ne, !od_get_set_ne, Hso by discriminate.
    simpl length. rewrite length_map, Nat.sub_0_r, bind_assoc. reflexivity.
  - now rewrite length_map, length_seq.
  - now rewrite length_map, length_seq.
  - intros i Hi. cbv zeta. rewrite !nth_map_seq by exact Hi.
    unfold pad_halves. cbv zeta.
    set (pad := Z.max _ 0).
    assert (Hp0 : (0 <= pad)%Z) by apply Z.le_max_r.
    destruct (half_split pad Hp0).
    destruct (str_contains "LOWER" mode); simpl; split; lia.
Qed.

Lemma avg_pool_same_pads_witness :
  exists befores afters : list Z,
    pool_v1 "avg_pool" [Some (Var "x" (TType [DInt 1; DInt 3; DInt 5; DInt 6] "float32"))]
            [("auto_pad", ABytes "SAME_UPPER"); ("kernel_shape", AInts [3; 2]%Z);
             ("strides", AInts [2; 4]%Z)] =
      (let* layout := onnx_default_layout 2 in
       attr_cvt_checked "avg_pool" "" pool_transforms ["storage_order"]
         [Some (Var "x" (TType [DInt 1; DInt 3; DInt 5; DInt 6] "float32"))]
         (od_set "layout" (ABytes layout)
            (od_del "auto_pad" (od_set "pads" (AInts (befores ++ afters))
              (od_set "auto_pad" (ABytes "SAME_UPPER")
                 [("auto_pad", ABytes "SAME_UPPER"); ("kernel_shape", AInts [3; 2]%Z);
                  ("strides", AInts [2; 4]%Z)]))))) /\
    length befores = 2 /\ length afters = 2 /\
    forall i, i < 2 ->
      let d := Z.of_nat (nth i [5; 6] 0) in let k := nth i [3; 2]%Z 0%Z in
      let s := nth i [2; 4]%Z 0%Z in
      (nth i befores 0 + nth i afters 0 = Z.max (k - (if d mod s =? 0 then s else d mod s)) 0)%Z /\
      (if str_contains "LOWER" "SAME_UPPER"
       then 0 <= nth i afters 0 <= nth i befores 0 /\ nth i befores 0 <= nth i afters 0 + 1
       else 0 <= nth i befores 0 <= nth i afters 0 /\ nth i afters 0 <= nth i befores 0 + 1)%Z.
Proof.
  apply (avg_pool_same_pads _ (TType [DInt 1; DInt 3; DInt 5; DInt 6] "float32")
           (DInt 1) (DInt 3) [5; 6]); try reflexivity.
  repeat constructor.
Defined.

(** (C19) [ConvTranspose] from opset 11 with SAME padding reads
    [attr["strides"]] without a default: a node with [auto_pad] SAME_UPPER
    or SAME_LOWER and no [strides] attribute (ONNX's default is 1 on every
    axis) raises [KeyError], while the opset-1 rule, through [autopad],
    defaults the strides to 1. *)
Theorem conv_transpose_same_needs_strides (x w : expr) (t : ttype) (o i : nat) (ks : list nat)
        (dt : string) (mode : string) :
  infer_tensor x = Ok t -> infer_tensor w = Ok (TType (map DInt (o :: i :: ks)) dt) ->
  same_mode mode = true ->
  conv_transpose true [Some x; Some w] [("auto_pad", ABytes mode)] = Err (KeyError "strides").
Proof.
  intros Hx Hw Hm. unfold conv_transpose, conv_transpose_attrs, typed_input.
  simpl input_at. simpl of_option. rewrite !bind_of_Ok, Hw, !bind_of_Ok, static_dims_ints.
  cbn -[infer_tensor same_mode]. rewrite Hx. cbn -[same_mode]. rewrite Hm. reflexivity.
Qed.

Lemma conv_transpose_same_needs_strides_witness :
  conv_transpose true [Some (Var "x" (TType [DInt 1; DInt 2; DInt 5] "float32"));
                       Some (Var "w" (TType (map DInt [2; 4; 3]) "float32"))]
                 [("auto_pad", ABytes "SAME_UPPER")] = Err (KeyError "strides").
Proof.
  apply (conv_transpose_same_needs_strides _ _ (TType [DInt 1; DInt 2; DInt 5] "float32") 2 4 [3]
           "float32");
    reflexivity.
Defined.

Lemma map_sub_combine (f : Z -> Z) (l : list Z) :
  map (fun pl => fst pl - snd pl)%Z (combine l (map f l)) = map (fun p => p - f p)%Z l.
Proof. induction l as [|x l IH]; [reflexivity|]. simpl. now rewrite IH. Qed.

(** (C39) [ConvTranspose] from opset 11 with SAME padding, kernel shape
    [ks], strides [ss] and the default dilations and output padding: the
    total padding of axis [i] is [ks[i] - ss[i]], split into [left = total
    // 2] and [right = total - left]; SAME_LOWER gives [left ++ right] and
    SAME_UPPER [right ++ left], the larger half first. *)
Theorem conv_transpose_same_pads_split (ks ss : list Z) (mode : string) :
  length ss = length ks ->
  conv_transpose_same_pads [("kernel_shape", AInts ks); ("strides", AInts ss)] mode =
  Ok (let total := map (fun ps => fst ps - snd ps)%Z (combine ks ss) in
      if str_contains "LOWER" mode
      then map (fun p => p / 2)%Z total ++ map (fun p => p - p / 2)%Z total
      else map (fun p => p - p / 2)%Z total ++ map (fun p => p / 2)%Z total).
Proof.
  intros Hl. unfold conv_transpose_same_pads. cbn -[mapM seq repeat].
  rewrite (mapM_In_Ok _ (fun i => nth i ks 0%Z - nth i ss 0%Z)%Z).
  - cbn -[seq]. rewrite map_sub_combine.
    replace (map (fun i => nth i ks 0%Z - nth i ss 0%Z)%Z (seq 0 (length ks)))
      with (map (fun ps => fst ps - snd ps)%Z (combine ks ss)); [reflexivity|].
    apply nth_ext with (d := 0%Z) (d' := 0%Z).
    + now rewrite !length_map, length_combine, length_seq, Hl, Nat.min_id.
    + intros n Hn. rewrite length_map, length_combine, Hl, Nat.min_id in Hn.
      rewrite nth_map_seq by exact Hn.
      rewrite (nth_indep _ 0%Z ((fun ps => fst ps - snd ps)%Z (0, 0)%Z))
        by (rewrite length_map, length_combine; lia).
      pose proof (map_nth (fun ps => fst ps - snd ps)%Z (combine ks ss) (0, 0)%Z n) as Hm.
      cbv beta in Hm. rewrite Hm, combine_nth by (symmetry; exact Hl). reflexivity.
  - intros n Hn. apply in_seq in Hn. unfold nth_z.
    rewrite (nth_error_nth' (repeat 0%Z (length ks)) 0%Z), (nth_error_nth' ks 0%Z),
      (nth_error_nth' (repeat 1%Z (length ks)) 0%Z), (nth_error_nth' ss 0%Z)
      by (rewrite ?repeat_length; lia).
    cbn. rewrite !nth_repeat_lt by lia. f_equal. lia.
Qed.

Lemma conv_transpose_same_pads_split_witness :
  length [2; 1]%Z = length [4; 3]%Z /\
  conv_transpose_same_pads [("kernel_shape", AInts [4; 3]%Z); ("strides", AInts [2; 1]%Z)] "SAME_UPPER" =
  Ok (let total := map (fun ps => fst ps - snd ps)%Z (combine [4; 3]%Z [2; 1]%Z) in
      if str_contains "LOWER" "SAME_UPPER"
      then map (fun p => p / 2)%Z total ++ map (fun p => p - p / 2)%Z total
      else map (fun p => p - p / 2)%Z total ++ map (fun p => p / 2)%Z total).
Proof. split; [reflexivity | apply conv_transpose_same_pads_split; reflexivity]. Defined.

(** A 1-d convolution without attributes (so without [group], whose
    ONNX default is 1) is taken for a group conv1d: data and kernel get a
    unit axis 2, the [conv2d] has kernel size [1; k] and as many channels
    as the kernel has output channels, and the result is squeezed back on
    axis 2. *)
Theorem conv1d_via_conv2d (x w : expr) (n c d : dimv) (dt dt' : string) (o i k : nat) :
  infer_tensor x = Ok (TType [n; c; d] dt) ->
  infer_tensor w = Ok (TType [DInt o; DInt i; DInt k] dt') ->
  conv_v1 [Some x; Some w] [] =
  Ok (Call "squeeze"
        [Call "conv2d" [Call "expand_dims" [x] [("axis", KInt 2)];
                        Call "expand_dims" [w] [("axis", KInt 2)]]
              [("kernel_size", KInts [1%Z; Z.of_nat k]); ("channels", KInt (Z.of_nat o))]]
        [("axis", KInts [2%Z])]).
Proof.
  intros Hx Hw. unfold conv_v1, typed_input. simpl input_at. simpl of_option.
  rewrite !bind_of_Ok, Hx. simpl bind. rewrite Hw. reflexivity.
Qed.

Lemma conv1d_via_conv2d_witness :
  conv_v1 [Some (Var "x" (TType [DInt 1; DInt 4; DInt 9] "float32"));
           Some (Var "w" (TType [DInt 8; DInt 4; DInt 3] "float32"))] [] =
  Ok (Call "squeeze"
        [Call "conv2d" [Call "expand_dims" [Var "x" (TType [DInt 1; DInt 4; DInt 9] "float32")]
                             [("axis", KInt 2)];
                        Call "expand_dims" [Var "w" (TType [DInt 8; DInt 4; DInt 3] "float32")]
                             [("axis", KInt 2)]]
              [("kernel_size", KInts [1%Z; Z.of_nat 3]); ("channels", KInt (Z.of_nat 8))]]
        [("axis", KInts [2%Z])]).
Proof. apply (conv1d_via_conv2d _ _ (DInt 1) (DInt 4) (DInt 9) "float32" "float32" 8 4 3); reflexivity. Defined.

(** An [auto_pad] other than SAME_UPPER, SAME_LOWER, VALID and
    NOTSET is rejected with [OpAttributeInvalid], by the pooling rules
    (naming the pool) and by the convolution (once its kernel's shape is
    known). *)
Theorem invalid_auto_pad_rejected (ins : list (option expr)) (attr : attr_table)
        (mode name : string) (x w : expr) (t kt : ttype) (kshape : list Z) :
  od_get "auto_pad" attr = Some (ABytes mode) ->
  ~ In mode ["SAME_UPPER"; "SAME_LOWER"; "VALID"; "NOTSET"] ->
  typed_input ins 0 = Ok (x, t) -> typed_input ins 1 = Ok (w, kt) ->
  static_dims kt = Ok kshape ->
  pool_v1 name ins attr = Err (invalid_auto_pad mode name) /\
  conv_v1 ins attr = Err (invalid_auto_pad mode "Conv").
Proof.
  intros Hap Hm H0 H1 Hk.
  assert (Hsm : same_mode mode = false).
  { unfold same_mode. apply orb_false_intro; apply String.eqb_neq; intros ->; apply Hm; simpl; tauto. }
  assert (Hv : (mode =? "VALID") = false) by (apply String.eqb_neq; intros ->; apply Hm; simpl; tauto).
  assert (Hn : (mode =? "NOTSET") = false) by (apply String.eqb_neq; intros ->; apply Hm; simpl; tauto).
  split.
  - unfold pool_v1, pool_calc. rewrite H0. simpl. rewrite Hap. simpl. now rewrite Hsm, Hv, Hn.
  - unfold conv_v1. rewrite H0. simpl. rewrite H1. simpl. rewrite Hk. simpl.
    destruct (od_mem "kernel_shape" attr);
      [|rewrite od_get_set_ne by discriminate]; rewrite Hap; simpl; now rewrite Hsm, Hv, Hn.
Qed.

Lemma invalid_auto_pad_rejected_witness :
  pool_v1 "max_pool" [Some (Var "x" (TType [DInt 1; DInt 4; DInt 9] "float32"));
                      Some (Var "w" (TType [DInt 8; DInt 4; DInt 3] "float32"))]
          [("auto_pad", ABytes "SAME")] = Err (invalid_auto_pad "SAME" "max_pool") /\
  conv_v1 [Some (Var "x" (TType [DInt 1; DInt 4; DInt 9] "float32"));
           Some (Var "w" (TType [DInt 8; DInt 4; DInt 3] "float32"))]
          [("auto_pad", ABytes "SAME")] = Err (invalid_auto_pad "SAME" "Conv").
Proof.
  eapply invalid_auto_pad_rejected; try reflexivity.
  simpl. intros H. repeat destruct H as [H|H]; try discriminate; exact H.
Defined.

End Conv.
