(* ===== verification/Tensor.v ===== *)
(** * Tensor: slicing, padding, expansion, Gemm and MatMul

    The rules of onnx.py for [Slice] ([Slice._common], [_impl_v1],
    [_impl_v10], lines 1554-1644), [Pad] ([_impl_v1], [_impl_v2],
    [_impl_v11], lines 1031-1097), [Expand] ([_impl_v8], lines
    2256-2313), [Gemm] ([_impl_v1], lines 766-792) and [MatMul]
    ([_impl_v1], lines 795-875, with the configuration key
    [use_nt_batch_matmul] as a parameter, [true] in the dispatch as in
    [ONNX_DEFAULT_CONFIGS]).

    Python's list indexing is written out: a negative index counts from
    the end, and an index out of range raises [IndexError] ([py_getitem],
    [py_setitem]).  [fold_constant] is [IR.fold_constant]: a closed
    shape folds to a constant, which makes [reshape] and [strided_slice]
    static, as it makes [Expand]'s [broadcast_to].

    Theorems: [Slice._common] places every start and end at its axis, the
    last one listed winning, with [0] and [INT32_MAX] elsewhere; [Pad]
    pairs the first half of [pads] with the second; [Expand] builds a
    well-typed shape only when the target shape's rank is at least the
    input's (or is 1), because its branch for a target of lower rank
    repeats the condition of the branch before it; [MatMul] of a static
    batch by a static matrix folds its shapes and is a [dense] between
    two static [reshape]s, of type [[B; M; N]]. *)

From Stdlib Require Import String List Bool Arith Lia ZArith.
From S2P Require Import Prelude Proto IR Attrs Ops Rules Conv.
Import ListNotations.
Local Open Scope string_scope.
Local Open Scope list_scope.

Module Tensor.
Import Proto IR Attrs Ops Rules Conv.

(** ** Python lists *)

(** The position [l[i]] designates in a list of length [n]. *)
Definition py_index (n : nat) (i : Z) : option nat :=
  let j := if (i <? 0)%Z then (i + Z.of_nat n)%Z else i in
  if ((0 <=? j) && (j <? Z.of_nat n))%Z then Some (Z.to_nat j) else None.

(** [l[i]]. *)
Definition py_getitem {A : Type} (l : list A) (i : Z) : result A :=
  match py_index (length l) i with
  | Some j => of_option (IndexError "list index out of range") (nth_error l j)
  | None => Err (IndexError "list index out of range")
  end.

(** The list [l] with position [j] replaced by [v]. *)
Definition replace_at {A : Type} (l : list A) (j : nat) (v : A) : list A :=
  firstn j l ++ v :: skipn (S j) l.

(** [l[i] = v]. *)
Definition py_setitem {A : Type} (l : list A) (i : Z) (v : A) : result (list A) :=
  match py_index (length l) i with
  | Some j => Ok (replace_at l j v)
  | None => Err (IndexError "list assignment index out of range")
  end.

(** A tuple attribute, for indexing and [list(...)]. *)
Definition seq_of (v : attr_val) : result (list Z) :=
  match v with
  | AInts l => Ok l
  | AInt _ => Err (TypeError "'int' object is not subscriptable")
  | _ => Err (TypeError "not a sequence of integers")
  end.

(** ** Slice *)

Definition int32_max : Z := (2 ^ 31 - 1)%Z.

(** [range(N)] for a Python integer [N]. *)
Definition py_range (n : Z) : list Z := map Z.of_nat (seq 0 (Z.to_nat n)).

(** One iteration of the loop of [Slice._common]:
    [new_starts[axis] = starts[i]; new_ends[axis] = ends[i]]. *)
Definition slice_step (starts ends : attr_val) (st : list Z * list Z) (ia : nat * Z)
  : result (list Z * list Z) :=
  let '(ns, ne) := st in
  let '(i, axis) := ia in
  let* s := let* l := seq_of starts in py_getitem l (Z.of_nat i) in
  let* ns := py_setitem ns axis s in
  let* e := let* l := seq_of ends in py_getitem l (Z.of_nat i) in
  let* ne := py_setitem ne axis e in
  Ok (ns, ne).

(** [Slice._common(starts, ends, axes)], on the attribute values of
    [starts] and [ends]. *)
Definition slice_common (starts ends : attr_val) (axes : list Z)
  : result (list Z * list Z * list Z) :=
  match axes with
  | [] => Err (ValueError "max() arg is an empty sequence")
  | a0 :: rest =>
      let n := (fold_left Z.max rest a0 + 1)%Z in
      let* '(ns, ne) :=
        foldM (slice_step starts ends) (repeat 0%Z (Z.to_nat n), repeat int32_max (Z.to_nat n))
              (combine (seq 0 (length axes)) axes) in
      Ok (ns, ne, py_range n)
  end.

(** [Slice._impl_v1].  An integer [starts] turns [starts] and [ends] into
    1-tuples (an [ends] that is already a tuple would nest, which the
    table cannot hold: an error here); the [try] block rewrites the
    attributes by [_common] when [axes] is present, and a missing key in
    it is caught. *)
Definition slice_v1 (ins : list (option expr)) (attr : attr_table) : result expr :=
  let* sv := od_find "starts" attr in
  let* attr :=
    match sv with
    | AInt s =>
        let* ev := od_find "ends" attr in
        match ev with
        | AInt e => Ok (od_set "ends" (AInts [e]) (od_set "starts" (AInts [s]) attr))
        | _ => Err (TypeError "nested tuple")
        end
    | _ => Ok attr
    end in
  let* attr :=
    match od_get "axes" attr with
    | None => Ok attr
    | Some av =>
        let attr := match av with AInt a => od_set "axes" (AInts [a]) attr | _ => attr end in
        match od_get "starts" attr, od_get "ends" attr, od_get "axes" attr with
        | Some sv, Some ev, Some av =>
            let* ax := seq_of av in
            let* '(ns, ne, na) := slice_common sv ev ax in
            Ok (od_set "ends" (AInts ne) (od_set "starts" (AInts ns) (od_set "axes" (AInts na) attr)))
        | _, _, _ => Ok attr
        end
    end in
  let* b := let* v := od_find "starts" attr in seq_of v in
  let* e := let* v := od_find "ends" attr in seq_of v in
  relay_call "strided_slice" [input_at ins 0] [("begin", KInts b); ("end", KInts e)].

(** [all([isinstance(ishape[i], int) for i in axes_np])]: the list is
    built first, so every axis is looked up. *)
Definition static_axes (ishape : list dimv) (axes : list Z) : result bool :=
  let* ds := mapM (py_getitem ishape) axes in
  Ok (forallb (fun d => match d with DInt _ => true | DAny => false end) ds).

(** [has_static_axes()] and the constants it reads, the strides being
    ones when [steps] is absent. *)
Definition static_slice (starts ends axes steps : option expr)
  : option (list Z * list Z * list Z * list Z) :=
  match axes, const_data axes, const_data starts, const_data ends with
  | Some _, Some ax, Some b, Some e =>
      match steps with
      | None => Some (ax, b, e, map (fun _ => 1%Z) b)
      | Some _ => match const_data steps with Some st => Some (ax, b, e, st) | None => None end
      end
  | _, _, _, _ => None
  end.

(** [infer_type(e).checked_type.dtype] of an optional input. *)
Definition dtype_of (o : option expr) : result string :=
  let* e := of_option infer_error o in
  let* t := infer_tensor e in Ok (tt_dtype t).

(** [_op.strided_slice(data, begin, end, strides)] on expressions: three
    constants give the static operator, anything else the dynamic one. *)
Definition strided_slice_of (x b e st : expr) : expr :=
  match b, e, st with
  | Const (VTensor _ _ db), Const (VTensor _ _ de), Const (VTensor _ _ ds) =>
      Call "strided_slice" [x] [("begin", KInts db); ("end", KInts de); ("strides", KInts ds)]
  | _, _, _ => Call "strided_slice" [x; b; e; st] []
  end.

(** [Slice._impl_v10]. *)
Definition slice_v10 (ins : list (option expr)) : result expr :=
  let starts := input_at ins 1 in
  let ends := input_at ins 2 in
  let axes := input_at ins 3 in
  let steps := input_at ins 4 in
  let* '(x, xt) := typed_input ins 0 in
  let ishape := tt_shape xt in
  let rank := length ishape in
  let* fast :=
    match static_slice starts ends axes steps with
    | Some (ax, b, e, st) =>
        let* ok := static_axes ishape ax in
        Ok (if ok then Some (Call "strided_slice" [x] [("begin", KInts b); ("end", KInts e);
                                                     ("strides", KInts st); ("axes", KInts ax)])
            else None)
    | None => Ok None
    end in
  match fast with
  | Some r => Ok r
  | None =>
      let* '(starts, ends, steps) :=
        match axes with
        | None => Ok (starts, ends, steps)
        | Some _ =>
            let* edt := dtype_of ends in
            let* data_shape := shape_of x edt in
            let* sdt := dtype_of starts in
            let* s := relay_call "scatter" [Some (Const (VTensor sdt [rank] (repeat 0%Z rank)));
                                             axes; starts] [("axis", KInt 0)] in
            let* e := relay_call "scatter" [Some data_shape; axes; ends] [("axis", KInt 0)] in
            let* st := match steps with
                       | None => Ok None
                       | Some _ =>
                           let* tdt := dtype_of steps in
                           let* r := relay_call "scatter"
                                       [Some (Const (VTensor tdt [rank] (repeat 1%Z rank)));
                                        axes; steps] [("axis", KInt 0)] in
                           Ok (Some r)
                       end in
            Ok (Some s, Some e, st)
        end in
      let* steps := match steps with
                    | Some st => Ok (Some st)
                    | None => let* sdt := dtype_of starts in
                              Ok (Some (Const (VTensor sdt [rank] (repeat 1%Z rank))))
                    end in
      let* starts := of_option none_error starts in
      let* ends := of_option none_error ends in
      let* steps := of_option none_error steps in
      Ok (strided_slice_of x (fold_constant starts) (fold_constant ends) (fold_constant steps))
  end.

(** ** Pad *)

(** [pad_width]: [(pads[i], pads[i + dims])] for [dims = int(len(pads) / 2)]. *)
Definition pad_pairs (pads : list Z) : list (Z * Z) :=
  let dims := Nat.div (length pads) 2 in
  map (fun i => (nth i pads 0%Z, nth (i + dims) pads 0%Z)) (seq 0 dims).

Definition pad_mode_ok (m : string) : bool := existsb (String.eqb m) ["constant"; "edge"; "reflect"].

(** [attr.get("mode", b"constant").decode("utf-8")]. *)
Definition pad_mode_of (attr : attr_table) : result string :=
  match od_get "mode" attr with None => Ok "constant" | Some v => decode v end.

Definition invalid_pad_mode (m : string) : py_error :=
  OpAttributeInvalid ("Value " ++ m ++ " in attribute mode is invalid for operator Pad.").

(** The attribute rewriting shared by [_impl_v1] and [_impl_v2], which pop
    their padding from [key]. *)
Definition pad_attrs (key : string) (attr : attr_table) : result attr_table :=
  let* '(pv, attr) := od_pop key attr in
  let* pads := seq_of pv in
  let attr := od_set "pad_width" (APairs (pad_pairs pads)) attr in
  let* mode := pad_mode_of attr in
  if pad_mode_ok mode then Ok (od_del "mode" (od_set "pad_mode" (ABytes mode) attr))
  else Err (invalid_pad_mode mode).

(** [Pad._impl_v1]: its [AttrCvt] is given the function [_op.nn.pad] as
    operator name, and [AttrCvt] calls a callable name on the attribute
    dictionary to get the name, so [nn.pad] is called without its
    [pad_width] argument. *)
Definition pad_v1 (ins : list (option expr)) (attr : attr_table) : result expr :=
  let* attr := pad_attrs "paddings" attr in
  Err (TypeError "pad() missing 1 required positional argument: pad_width").

(** [Pad._impl_v2]. *)
Definition pad_v2 (ins : list (option expr)) (attr : attr_table) : result expr :=
  let* attr := pad_attrs "pads" attr in
  attr_cvt_apply (AttrCvt "pad" [("value", "pad_value")] [] []) ins attr.

(** [Pad._impl_v11]: the pads and the value are inputs. *)
Definition pad_v11 (ins : list (option expr)) (attr : attr_table) : result expr :=
  let* value := if Nat.eqb (length ins) 3
                then let* v := relay_call "take" [input_at ins 2; Some (Const (scalar "int32" 0))] [] in
                     Ok (fold_constant v)
                else Ok (Const (scalar "float32" 0)) in
  let* pw := relay_call "reshape" [input_at ins 1] [("newshape", KInts [2; -1]%Z)] in
  let pw := fold_constant (Call "transpose" [pw] []) in
  let* mode := pad_mode_of attr in
  if negb (pad_mode_ok mode) then Err (invalid_pad_mode mode) else
  relay_call "nn.pad" [input_at ins 0; Some pw; Some value] [("pad_mode", KStr mode)].

(** ** Expand *)

(** [infer_shape(e)[0]]: the leading extent of a shape tensor; comparing
    a dynamic extent raises. *)
Definition lead_dim (e : expr) : result nat :=
  let* t := infer_tensor e in
  match tt_shape t with
  | DInt n :: _ => Ok n
  | DAny :: _ => Err (TypeError "cannot compare a dynamic extent")
  | [] => Err (IndexError "tuple index out of range")
  end.

(** [_expr.const([1] * n, dtype=dtype)]. *)
Definition ones (dtype : string) (n : nat) : expr := Const (VTensor dtype [n] (repeat 1%Z n)).

(** [expand_shape(in_shape, shape)]: the [elif] repeats the test of the
    [if] ([new_dims > in_dims] is [in_dims < new_dims]), so its branch,
    which would pad a target shape of lower rank, is never taken. *)
Definition expand_shape (dtype : string) (in_shape shape : expr) : result expr :=
  let* in_dims := lead_dim in_shape in
  let* new_dims := lead_dim shape in
  let '(in_shape, shape) :=
    if Nat.ltb in_dims new_dims then
      (Call "concatenate" [Tuple [ones dtype (new_dims - in_dims); in_shape]] [("axis", KInt 0)], shape)
    else if Nat.ltb in_dims new_dims then
      (in_shape, Call "concatenate" [Tuple [ones dtype (in_dims - new_dims); shape]] [("axis", KInt 0)])
    else (in_shape, shape) in
  Ok (Call "maximum" [in_shape; shape] []).

(** [Expand._impl_v8]: [broadcast_to] to the folded shape. *)
Definition expand_v8 (ins : list (option expr)) : result expr :=
  let* '(shape, st) := typed_input ins 1 in
  let dtype := tt_dtype st in
  let* x := of_option infer_error (input_at ins 0) in
  let* in_shape := shape_of x dtype in
  let* new_shape := expand_shape dtype in_shape shape in
  Ok (broadcast_to_of x (fold_constant new_shape)).

(** ** Gemm *)

(** [float(attr.get(k, dflt))] and [int(attr.get(k, dflt))]. *)
Definition num_attr (k : string) (dflt : Z) (attr : attr_table) : result Z :=
  match od_get k attr with
  | None => Ok dflt
  | Some (AFloat z) | Some (AInt z) => Ok z
  | Some _ => Err (TypeError "not a number")
  end.

(** [infer_channels(x, transpose)] of frontend/common.py: the first
    extent of the type, the second when [transpose]. *)
Definition infer_channels (x : option expr) (transpose : bool) : result Z :=
  let* e := of_option infer_error x in
  let* t := infer_tensor e in
  let* dims := static_dims t in
  nth_z dims (if transpose then 1 else 0).

(** [Gemm._impl_v1]: [Y = alpha * A * B + beta * C] as [nn.dense]. *)
Definition gemm_v1 (ins : list (option expr)) (attr : attr_table) : result expr :=
  let* _ := py_assert (Nat.eqb (length ins) 3 || Nat.eqb (length ins) 2)
                      "Gemm op take 2 or 3 inputs" in
  let* '(a, ta) := typed_input ins 0 in
  let dtype := tt_dtype ta in
  let* alpha := num_attr "alpha" 1 attr in
  let* beta := num_attr "beta" 1 attr in
  let* transA := num_attr "transA" 0 attr in
  let* transB := num_attr "transB" 0 attr in
  let* channels := infer_channels (input_at ins 1) (transB =? 0)%Z in
  let* b := of_option infer_error (input_at ins 1) in
  let a := if (transA =? 0)%Z then a else Call "transpose" [a] [("axes", KInts [1; 0]%Z)] in
  let b := if (transB =? 0)%Z then Call "transpose" [b] [("axes", KInts [1; 0]%Z)] else b in
  let a := Call "nn.batch_flatten" [a] [] in
  let a := if (alpha =? 1)%Z then a else Call "multiply" [a; Const (scalar dtype alpha)] [] in
  let out := Call "nn.dense" [a; b] [("units", KInt channels)] in
  if Nat.eqb (length ins) 3 then
    let* c := relay_call "multiply" [Some (Const (scalar dtype beta)); input_at ins 2] [] in
    Ok (Call "add" [out; c] [])
  else Ok out.

(** ** MatMul *)

(** [_ty.is_dynamic(t)]: some extent is unknown. *)
Definition is_dynamic (t : ttype) : bool :=
  existsb (fun d => match d with DAny => true | DInt _ => false end) (tt_shape t).

(** [_op.strided_slice(x, [b], [e])]. *)
Definition slice1 (x : expr) (b e : Z) : expr :=
  Call "strided_slice" [x] [("begin", KInts [b]); ("end", KInts [e])].

(** [flatten_to_nd(x, x_shape, nd)]: [x] reshaped to rank [nd], its
    leading extents merged into one ([-1]). *)
Definition flatten_to_nd (x x_shape : expr) (nd : nat) : result expr :=
  let* ndims := lead_dim x_shape in
  if Nat.eqb ndims nd then Ok x else
  let* sdt := dtype_of (Some x_shape) in
  let newshape := Call "concatenate"
                    [Tuple [Const (VTensor sdt [1] [(-1)%Z]);
                            slice1 x_shape (Z.of_nat ndims - Z.of_nat nd + 1) (Z.of_nat ndims)]]
                    [("axis", KInt 0)] in
  Ok (static_or_dyn_reshape x (fold_constant newshape)).

(** [MatMul._impl_v1], with [ONNX_DEFAULT_CONFIGS["use_nt_batch_matmul"]]
    as [use_nt]: two matrices are a [dense]; a batch is flattened to rank
    3 (rank 2 for a static matrix [b], again a [dense]), multiplied, and
    reshaped to the batch extents followed by [a]'s rows and [b]'s
    columns. *)
Definition matmul_v1 (use_nt : bool) (ins : list (option expr)) : result expr :=
  let* _ := py_assert (Nat.eqb (length ins) 2) "MatMul op take 2 inputs" in
  let* x0 := of_option infer_error (input_at ins 0) in
  let* a_shape := shape_of x0 "int64" in
  let* a_rank := lead_dim a_shape in
  let* x1 := of_option infer_error (input_at ins 1) in
  let* b_shape := shape_of x1 "int64" in
  let* b_rank := lead_dim b_shape in
  if Nat.ltb 2 a_rank || Nat.ltb 2 b_rank then
    let* b_type := infer_tensor x1 in
    let* output :=
      if Nat.eqb b_rank 2 && negb (is_dynamic b_type) then
        let* a := flatten_to_nd x0 a_shape 2 in
        Ok (Call "nn.dense" [a; Call "transpose" [x1] []] [])
      else
        let* a := flatten_to_nd x0 a_shape 3 in
        let* b := flatten_to_nd x1 b_shape 3 in
        Ok (if use_nt
            then Call "nn.batch_matmul" [a; Call "transpose" [b] [("axes", KInts [0; 2; 1]%Z)]] []
            else Call "nn.batch_matmul" [a; b] [("transpose_b", KInt 0)]) in
    let ar := Z.of_nat a_rank in
    let br := Z.of_nat b_rank in
    let out_batch :=
      if Nat.ltb b_rank a_rank then slice1 a_shape 0 (ar - 2)
      else if Nat.ltb a_rank b_rank then slice1 b_shape 0 (br - 2)
      else Call "concatenate"
             [Tuple (map (fun i => Call "maximum" [slice1 a_shape (Z.of_nat i) (Z.of_nat i + 1);
                                                  slice1 b_shape (Z.of_nat i) (Z.of_nat i + 1)] [])
                         (seq 0 (a_rank - 2)))] [("axis", KInt 0)] in
    let final_shape := Call "concatenate"
                         [Tuple [out_batch; slice1 a_shape (ar - 2) (ar - 1); slice1 b_shape (br - 1) br]]
                         [("axis", KInt 0)] in
    Ok (static_or_dyn_reshape output (fold_constant final_shape))
  else
    Ok (Call "nn.dense" [x0; Call "transpose" [x1] [("axes", KInts [1; 0]%Z)]] []).

(** The classes of this file, for [_convert_operator]. *)
Definition convert_tensor (cls : string) (version : nat) (ins : list (option expr))
           (attr : attr_table) : option (result expr) :=
  if cls =? "Slice" then Some (if Nat.eqb version 10 then slice_v10 ins else slice_v1 ins attr)
  else if cls =? "Pad" then
    Some (if Nat.eqb version 11 then pad_v11 ins attr
          else if Nat.eqb version 2 then pad_v2 ins attr else pad_v1 ins attr)
  else if cls =? "Expand" then Some (expand_v8 ins)
  else if cls =? "Gemm" then Some (gemm_v1 ins attr)
  else if cls =? "MatMul" then Some (matmul_v1 true ins)
  else None.

(** ** Specifications *)

(** The value a sequence of assignments [l[axes[i]] = vals[i]] leaves at
    position [a], starting from [dflt]: the last assignment to [a] wins. *)
Fixpoint last_write (axes vals : list Z) (dflt a : Z) : Z :=
  match axes, vals with
  | ax :: axes', v :: vals' => last_write axes' vals' (if (ax =? a)%Z then v else dflt) a
  | _, _ => dflt
  end.

(** The list those assignments leave, on positions in range. *)
Fixpoint write_all (axes vals : list Z) (l : list Z) : list Z :=
  match axes, vals with
  | ax :: axes', v :: vals' => write_all axes' vals' (replace_at l (Z.to_nat ax) v)
  | _, _ => l
  end.

(** ** Lemmas on Python lists *)

Lemma py_index_in (n : nat) (i : Z) :
  (0 <= i < Z.of_nat n)%Z -> py_index n i = Some (Z.to_nat i).
Proof.
  intros Hi. unfold py_index.
  destruct (Z.ltb_spec i 0); [lia|].
  destruct (Z.leb_spec 0 i), (Z.ltb_spec i (Z.of_nat n)); simpl; try lia; reflexivity.
Qed.

Lemma py_getitem_nth (l : list Z) (i : nat) :
  i < length l -> py_getitem l (Z.of_nat i) = Ok (nth i l 0%Z).
Proof.
  intros Hi. unfold py_getitem. rewrite py_index_in by lia. rewrite Nat2Z.id.
  rewrite (nth_error_nth' l 0%Z Hi). reflexivity.
Qed.

Lemma py_setitem_in {A : Type} (l : list A) (i : Z) (v : A) :
  (0 <= i < Z.of_nat (length l))%Z -> py_setitem l i v = Ok (replace_at l (Z.to_nat i) v).
Proof. intros Hi. unfold py_setitem. now rewrite py_index_in. Qed.

Lemma length_replace_at {A : Type} (l : list A) (j : nat) (v : A) :
  j < length l -> length (replace_at l j v) = length l.
Proof.
  intros Hj. unfold replace_at. rewrite length_app, length_firstn. cbn [length].
  rewrite length_skipn. lia.
Qed.

Lemma nth_replace_at {A : Type} (l : list A) (j k : nat) (v d : A) :
  j < length l -> nth k (replace_at l j v) d = if Nat.eqb k j then v else nth k l d.
Proof.
  intros Hj. unfold replace_at.
  assert (Hf : length (firstn j l) = j) by (rewrite length_firstn; lia).
  destruct (Nat.ltb_spec k j).
  - rewrite app_nth1 by lia. rewrite nth_firstn.
    destruct (Nat.eqb_spec k j); [lia|]. destruct (Nat.ltb_spec k j); [reflexivity | lia].
  - rewrite app_nth2 by lia. rewrite Hf.
    destruct (Nat.eqb_spec k j) as [->|Hne]; [now rewrite Nat.sub_diag|].
    replace (k - j) with (S (k - S j)) by lia. cbn [nth]. rewrite nth_skipn.
    f_equal. lia.
Qed.

Lemma skipn_nth_cons (l : list Z) (k : nat) :
  k < length l -> skipn k l = nth k l 0%Z :: skipn (S k) l.
Proof.
  revert l; induction k as [|k IH]; intros [|x l] Hk; simpl in *; try lia; [reflexivity|].
  apply IH. lia.
Qed.

Lemma length_write_all (axes vals l : list Z) :
  Forall (fun a => 0 <= a < Z.of_nat (length l))%Z axes ->
  length (write_all axes vals l) = length l.
Proof.
  revert vals l; induction axes as [|a axes IH]; intros [|v vals] l Ha; simpl; auto.
  inversion Ha; subst. rewrite IH; [apply length_replace_at; lia|].
  rewrite length_replace_at by lia. assumption.
Qed.

Lemma nth_write_all (axes vals l : list Z) (j : nat) :
  Forall (fun a => 0 <= a < Z.of_nat (length l))%Z axes -> j < length l ->
  nth j (write_all axes vals l) 0%Z = last_write axes vals (nth j l 0%Z) (Z.of_nat j).
Proof.
  revert vals l; induction axes as [|a axes IH]; intros [|v vals] l Ha Hj; simpl; auto.
  inversion Ha; subst. rewrite IH.
  - rewrite nth_replace_at by lia. f_equal.
    destruct (Nat.eqb_spec j (Z.to_nat a)), (Z.eqb_spec a (Z.of_nat j)); auto; lia.
  - rewrite length_replace_at by lia. assumption.
  - rewrite length_replace_at by lia. assumption.
Qed.

Lemma fold_max_init (l : list Z) (a : Z) : (a <= fold_left Z.max l a)%Z.
Proof.
  revert a; induction l as [|b l IH]; intros a; simpl; [lia|].
  specialize (IH (Z.max a b)). lia.
Qed.

Lemma fold_max_ge (l : list Z) (a x : Z) : In x (a :: l) -> (x <= fold_left Z.max l a)%Z.
Proof.
  revert a; induction l as [|b l IH]; intros a Hx; simpl in *.
  - destruct Hx as [->|[]]. lia.
  - destruct Hx as [->|[->|Hx]].
    + specialize (fold_max_init l (Z.max x b)). lia.
    + specialize (fold_max_init l (Z.max a x)). lia.
    + apply IH. now right.
Qed.

Lemma fold_max_in (l : list Z) (a : Z) : In (fold_left Z.max l a) (a :: l).
Proof.
  revert a; induction l as [|b l IH]; intros a; simpl; [now left|].
  destruct (IH (Z.max a b)) as [Hm|Hm].
  - rewrite <- Hm. destruct (Z.max_spec a b) as [[_ ->]|[_ ->]]; [right; left | left]; reflexivity.
  - right; right; exact Hm.
Qed.

(** The loop of [Slice._common] on tuples long enough and axes in range
    performs the assignments in order. *)
Lemma slice_loop (starts ends axes : list Z) (k : nat) (ns ne : list Z) :
  Forall (fun a => 0 <= a < Z.of_nat (length ns))%Z axes -> length ne = length ns ->
  k + length axes <= length starts -> k + length axes <= length ends ->
  foldM (slice_step (AInts starts) (AInts ends)) (ns, ne) (combine (seq k (length axes)) axes) =
  Ok (write_all axes (skipn k starts) ns, write_all axes (skipn k ends) ne).
Proof.
  revert k ns ne; induction axes as [|a axes IH]; intros k ns ne Ha Hl Hs He; [reflexivity|].
  inversion Ha as [|? ? Ha0 Ha']; subst. cbn [length] in *.
  cbn [seq combine foldM]. unfold slice_step at 1. cbn [seq_of bind].
  rewrite py_getitem_nth by lia. simpl bind.
  rewrite py_setitem_in by lia. simpl bind.
  rewrite py_getitem_nth by lia. simpl bind.
  rewrite py_setitem_in by lia. simpl bind.
  rewrite (skipn_nth_cons starts k), (skipn_nth_cons ends k) by lia. cbn [write_all].
  apply IH; try lia.
  - eapply Forall_impl; [|exact Ha']. intros x Hx. cbv beta in Hx |- *. rewrite length_replace_at; lia.
  - rewrite !length_replace_at; lia.
Qed.

Lemma nth_py_range (n : Z) (j : nat) (d : Z) :
  j < Z.to_nat n -> nth j (py_range n) d = Z.of_nat j.
Proof.
  intros Hj. unfold py_range.
  rewrite (nth_indep _ d (Z.of_nat 0)) by (rewrite length_map, length_seq; lia).
  rewrite map_nth, seq_nth by lia. reflexivity.
Qed.

(** The lists [_common] returns, position by position. *)
Lemma write_all_range (axes vals : list Z) (n dflt : Z) :
  Forall (fun a => 0 <= a < n)%Z axes ->
  write_all axes vals (repeat dflt (Z.to_nat n)) = map (last_write axes vals dflt) (py_range n).
Proof.
  intros Ha.
  assert (Ha' : Forall (fun a => 0 <= a < Z.of_nat (length (repeat dflt (Z.to_nat n))))%Z axes).
  { rewrite repeat_length. eapply Forall_impl; [|exact Ha]. cbv beta. lia. }
  apply nth_ext with (d := 0%Z) (d' := 0%Z).
  - rewrite length_write_all by exact Ha'. unfold py_range.
    now rewrite repeat_length, !length_map, length_seq.
  - intros j Hj. rewrite length_write_all, repeat_length in Hj by exact Ha'.
    rewrite nth_write_all by first [exact Ha' | rewrite repeat_length; exact Hj].
    rewrite nth_repeat_lt by exact Hj.
    rewrite (nth_indep _ 0%Z (last_write axes vals dflt 0%Z))
      by (unfold py_range; rewrite !length_map, length_seq; lia).
    rewrite map_nth, nth_py_range by lia. reflexivity.
Qed.

(** (C27) [Slice._common] with non-negative axes and [starts], [ends] at
    least as long as [axes]: the axes become [range(N)] for [N] one more
    than the largest axis, and each position holds the start (the end)
    of the last entry of [axes] naming it, or [0] ([INT32_MAX]) when
    none does. *)
Theorem slice_common_places (starts ends axes : list Z) :
  axes <> [] -> Forall (fun a => 0 <= a)%Z axes ->
  length axes <= length starts -> length axes <= length ends ->
  exists n : Z,
    (forall a, In a axes -> a < n)%Z /\ (exists a, In a axes /\ n = a + 1)%Z /\
    slice_common (AInts starts) (AInts ends) axes =
    Ok (map (last_write axes starts 0) (py_range n),
        map (last_write axes ends int32_max) (py_range n), py_range n).
Proof.
  intros Hne Hpos Hs He. destruct axes as [|a0 rest]; [contradiction|].
  set (n := (fold_left Z.max rest a0 + 1)%Z).
  assert (Hlt : forall a, In a (a0 :: rest) -> (a < n)%Z)
    by (intros a Ha; unfold n; specialize (fold_max_ge rest a0 a Ha); lia).
  assert (Hrange : Forall (fun a => 0 <= a < n)%Z (a0 :: rest)).
  { rewrite Forall_forall in *. intros a Ha. split; [now apply Hpos | now apply Hlt]. }
  exists n. split; [exact Hlt|]. split; [exists (fold_left Z.max rest a0); split; [apply fold_max_in | reflexivity]|].
  unfold slice_common. fold n.
  rewrite slice_loop; try lia.
  - simpl skipn. rewrite !write_all_range by exact Hrange. reflexivity.
  - rewrite repeat_length. eapply Forall_impl; [|exact Hrange]. cbv beta. lia.
  - now rewrite !repeat_length.
Qed.

Lemma slice_common_places_witness :
  exists n : Z,
    (forall a, In a [2; 0; 2]%Z -> a < n)%Z /\ (exists a, In a [2; 0; 2]%Z /\ n = a + 1)%Z /\
    slice_common (AInts [1; 2; 3]%Z) (AInts [5; 6; 7]%Z) [2; 0; 2]%Z =
    Ok (map (last_write [2; 0; 2]%Z [1; 2; 3]%Z 0) (py_range n),
        map (last_write [2; 0; 2]%Z [5; 6; 7]%Z int32_max) (py_range n), py_range n).
Proof.
  apply slice_common_places; [discriminate | repeat constructor; lia | simpl; lia | simpl; lia].
Defined.

(** An index in [[-n, n)] designates a position of a list of length [n]. *)
Lemma py_index_range (n : nat) (i : Z) :
  (- Z.of_nat n <= i < Z.of_nat n)%Z -> exists j, py_index n i = Some j /\ j < n.
Proof.
  intros Hi. unfold py_index.
  destruct (Z.ltb_spec i 0);
    [destruct (Z.leb_spec 0 (i + Z.of_nat n)), (Z.ltb_spec (i + Z.of_nat n) (Z.of_nat n))
    |destruct (Z.leb_spec 0 i), (Z.ltb_spec i (Z.of_nat n))]; simpl; try lia;
    eexists; split; [reflexivity | lia | reflexivity | lia].
Qed.

(** Every axis in range of a static shape is static. *)
Lemma static_axes_static (dims : list nat) (ax : list Z) :
  Forall (fun a => - Z.of_nat (length dims) <= a < Z.of_nat (length dims))%Z ax ->
  static_axes (map DInt dims) ax = Ok true.
Proof.
  intros Hax. unfold static_axes.
  rewrite (mapM_In_Ok _ (fun a => match py_index (length dims) a with
                                  | Some j => DInt (nth j dims 0)
                                  | None => DAny
                                  end)).
  - simpl. apply f_equal. apply forallb_forall. intros d Hd.
    apply in_map_iff in Hd as (a & <- & Ha). rewrite Forall_forall in Hax.
    destruct (py_index_range _ _ (Hax a Ha)) as (j & -> & _). reflexivity.
  - intros a Ha. rewrite Forall_forall in Hax.
    destruct (py_index_range _ _ (Hax a Ha)) as (j & Hj & Hlt).
    unfold py_getitem. rewrite length_map, Hj, nth_error_map.
    rewrite (nth_error_nth' dims 0 Hlt). reflexivity.
Qed.

(** [Slice] from opset 10 with constant [starts], [ends] and [axes],
    no [steps], and axes in range (negative ones counting from the end)
    of a statically shaped input is one [strided_slice] with those
    constants, unit strides and the axes. *)
Theorem slice_v10_static (x : expr) (dims : list nat) (dt cdt : string) (b e ax : list Z) :
  infer_tensor x = Ok (TType (map DInt dims) dt) ->
  Forall (fun a => - Z.of_nat (length dims) <= a < Z.of_nat (length dims))%Z ax ->
  slice_v10 [Some x; Some (Const (VTensor cdt [length b] b)); Some (Const (VTensor cdt [length e] e));
             Some (Const (VTensor cdt [length ax] ax))] =
  Ok (Call "strided_slice" [x] [("begin", KInts b); ("end", KInts e);
                                ("strides", KInts (map (fun _ => 1%Z) b)); ("axes", KInts ax)]).
Proof.
  intros Hx Hax. unfold slice_v10, typed_input. simpl input_at. simpl of_option.
  rewrite bind_of_Ok, Hx. simpl bind. cbn [tt_shape static_slice const_data].
  rewrite static_axes_static by exact Hax. reflexivity.
Qed.

Lemma slice_v10_static_witness :
  slice_v10 [Some (Var "x" (TType (map DInt [4; 6]) "float32"));
             Some (Const (VTensor "int64" [length [1%Z]] [1%Z]));
             Some (Const (VTensor "int64" [length [(-1)%Z]] [(-1)%Z]));
             Some (Const (VTensor "int64" [length [(-1)%Z]] [(-1)%Z]))] =
  Ok (Call "strided_slice" [Var "x" (TType (map DInt [4; 6]) "float32")]
           [("begin", KInts [1%Z]); ("end", KInts [(-1)%Z]);
            ("strides", KInts (map (fun _ => 1%Z) [1%Z])); ("axes", KInts [(-1)%Z])]).
Proof. apply (slice_v10_static _ [4; 6] "float32"); [reflexivity | repeat constructor; simpl; lia]. Defined.

(** ** Pad *)

Lemma pad_pairs_app (b e : list Z) :
  length b = length e -> pad_pairs (b ++ e) = combine b e.
Proof.
  intros Hl. unfold pad_pairs. rewrite length_app, <- Hl.
  replace ((length b + length b) / 2) with (length b)
    by (replace (length b + length b) with (length b * 2) by lia;
        symmetry; apply Nat.div_mul; lia).
  apply nth_ext with (d := (0, 0)%Z) (d' := (0, 0)%Z).
  - now rewrite length_map, length_seq, length_combine, <- Hl, Nat.min_id.
  - intros i Hi. rewrite length_map, length_seq in Hi.
    rewrite nth_map_seq by exact Hi. rewrite combine_nth by exact Hl.
    rewrite app_nth1, app_nth2 by lia. f_equal. f_equal. lia.
Qed.

(** [Pad] at opset 2 pairs the first half of [pads] with the second:
    for [pads = b ++ e] with [b] and [e] of one length and a valid mode,
    the Relay [pad] gets [pad_width = zip(b, e)] and the mode, and the
    ONNX attributes [pads] and [mode] are gone. *)
Lemma pad_v2_pairs (x : expr) (b e : list Z) (m : string) :
  length b = length e -> pad_mode_ok m = true ->
  pad_v2 [Some x] [("pads", AInts (b ++ e)); ("mode", ABytes m)] =
  Ok (Call "pad" [x] [("pad_width", KPairs (combine b e)); ("pad_mode", KStr m)]).
Proof.
  intros Hl Hm. unfold pad_v2, pad_attrs. cbn -[pad_pairs pad_mode_ok].
  rewrite Hm, pad_pairs_app by exact Hl. reflexivity.
Qed.

Lemma pad_v2_pairs_witness :
  pad_v2 [Some (Var "x" (TType [DInt 2; DInt 3] "float32"))]
         [("pads", AInts ([0; 1] ++ [2; 0])%Z); ("mode", ABytes "reflect")] =
  Ok (Call "pad" [Var "x" (TType [DInt 2; DInt 3] "float32")]
           [("pad_width", KPairs (combine [0; 1] [2; 0])%Z); ("pad_mode", KStr "reflect")]).
Proof. apply pad_v2_pairs; reflexivity. Defined.

(** [Pad] at opset 1 raises on every input: its [AttrCvt] calls
    [_op.nn.pad] on the attribute dictionary. *)
Lemma pad_v1_fails (ins : list (option expr)) (attr : attr_table) :
  exists err, pad_v1 ins attr = Err err.
Proof. unfold pad_v1. destruct (pad_attrs "paddings" attr); simpl; eauto. Qed.

(** ** Expand *)

Lemma bcast_shapes_1 (m n : nat) :
  bcast_shapes [DInt m] [DInt n] = option_map (fun d => [d]) (bcast_dim (DInt m) (DInt n)).
Proof. unfold bcast_shapes. cbn [rev app bcast_rev]. now destruct (bcast_dim (DInt m) (DInt n)). Qed.

Lemma bcast_dim_int (m n : nat) :
  bcast_dim (DInt m) (DInt n) =
  if Nat.eqb m 1 then Some (DInt n) else if Nat.eqb n 1 then Some (DInt m)
  else if Nat.eqb m n then Some (DInt m) else None.
Proof. destruct m as [|[|m]], n as [|[|n]]; reflexivity. Qed.

(** A target shape computed at run time is not folded. *)
Lemma fold_maximum_open (a s : expr) :
  free_vars s <> [] -> fold_constant (Call "maximum" [a; s] []) = Call "maximum" [a; s] [].
Proof.
  intros Hs. apply fold_constant_open. cbn [free_vars flat_map]. rewrite app_nil_r.
  intros H. apply app_eq_nil in H as [_ H]. contradiction.
Qed.

(** (C17) [Expand] of a statically shaped input of rank [r] to a target
    shape tensor of [k >= 1] extents computed at run time (the target has a
    free variable, so it is not folded) converts, and the graph it builds is
    well typed exactly when [r <= k] or [k = 1]: a target of lower rank
    (which ONNX's multidirectional broadcasting allows) is never padded
    with ones, and the [maximum] of two shapes of different lengths does
    not broadcast. *)
Theorem expand_rank_typed (x s : expr) (dims : list nat) (dt sdt : string) (k : nat) :
  infer_tensor x = Ok (TType (map DInt dims) dt) ->
  infer_tensor s = Ok (TType [DInt k] sdt) -> free_vars s <> [] -> 1 <= k ->
  exists e, expand_v8 [Some x; Some s] = Ok e /\
    ((exists t, infer_tensor e = Ok t) <-> length dims <= k \/ k = 1).
Proof.
  intros Hx Hs Hfv Hk.
  assert (Hx' := infer_of_tensor _ _ Hx). assert (Hs' := infer_of_tensor _ _ Hs).
  unfold expand_v8, typed_input. simpl input_at. simpl of_option. rewrite !bind_of_Ok, Hs.
  simpl bind. rewrite (shape_of_static x dims dt) by exact Hx. simpl bind.
  unfold expand_shape, lead_dim. rewrite Hs. simpl bind. cbn [tt_shape].
  set (r := length dims).
  destruct (Nat.ltb_spec r k) as [Hlt|Hge].
  - eexists; split; [reflexivity|]. rewrite fold_maximum_open by exact Hfv.
    split; [intros _; left; lia | intros _].
    unfold infer_tensor. simpl infer. rewrite Hx', Hs'. cbn -[bcast_dim bcast_shapes].
    rewrite !String.eqb_refl. cbn -[bcast_dim bcast_shapes].
    replace (k - r + (r + 0)) with k by lia.
    rewrite bcast_shapes_1, bcast_dim_int, Nat.eqb_refl, ?String.eqb_refl. simpl.
    destruct (Nat.eqb k 1); eexists; reflexivity.
  - eexists; split; [reflexivity|]. rewrite fold_maximum_open by exact Hfv.
    unfold infer_tensor. simpl infer. rewrite Hx', Hs'. cbn -[bcast_dim bcast_shapes].
    rewrite String.eqb_refl. cbn -[bcast_dim bcast_shapes].
    rewrite bcast_shapes_1, bcast_dim_int.
    destruct (Nat.eqb_spec r 1), (Nat.eqb_spec k 1), (Nat.eqb_spec r k); simpl;
      split; intros H; try (eexists; reflexivity); try lia;
      destruct H as [t Ht]; discriminate.
Qed.

Lemma expand_rank_typed_witness :
  exists e, expand_v8 [Some (Var "x" (TType (map DInt [2; 3; 4]) "float32"));
                       Some (Var "s" (TType [DInt 2] "int64"))] = Ok e /\
    ((exists t, infer_tensor e = Ok t) <-> length [2; 3; 4] <= 2 \/ 2 = 1).
Proof.
  apply (expand_rank_typed _ _ [2; 3; 4] "float32" "int64" 2); reflexivity || lia || discriminate.
Defined.

(** ** Gemm *)

(** [Gemm] with the default attributes and a 2-d [B] of static shape
    [[m; n]] is a [dense] of the flattened [A] by [B] transposed with [n]
    units; with [transB = 1], of [B] itself with [m] units. *)
Lemma gemm_dense (a b : expr) (ta : ttype) (m n : nat) (bdt : string) (tb : bool) :
  infer_tensor a = Ok ta -> infer_tensor b = Ok (TType [DInt m; DInt n] bdt) ->
  gemm_v1 [Some a; Some b] (if tb then [("transB", AInt 1)] else []) =
  Ok (Call "nn.dense" [Call "nn.batch_flatten" [a] [];
                       if tb then b else Call "transpose" [b] [("axes", KInts [1; 0]%Z)]]
           [("units", KInt (Z.of_nat (if tb then m else n)))]).
Proof.
  intros Ha Hb. unfold gemm_v1, typed_input, infer_channels. simpl input_at.
  simpl py_assert. simpl of_option. rewrite !bind_of_Ok, Ha. simpl bind.
  destruct tb; cbn -[infer_tensor]; rewrite Hb; reflexivity.
Qed.

Lemma gemm_dense_witness :
  gemm_v1 [Some (Var "a" (TType [DInt 4; DInt 3] "float32"));
           Some (Var "b" (TType [DInt 3; DInt 5] "float32"))] [] =
  Ok (Call "nn.dense" [Call "nn.batch_flatten" [Var "a" (TType [DInt 4; DInt 3] "float32")] [];
                       Call "transpose" [Var "b" (TType [DInt 3; DInt 5] "float32")]
                            [("axes", KInts [1; 0]%Z)]]
           [("units", KInt (Z.of_nat 5))]).
Proof. apply (gemm_dense _ _ (TType [DInt 4; DInt 3] "float32") 3 5 "float32" false); reflexivity. Defined.

Lemma of_nat_leb_0 (x : nat) : (0 <=? Z.of_nat x)%Z = true.
Proof. apply Z.leb_le. lia. Qed.

Lemma of_nat_leb_m1 (x : nat) : (-1 <=? Z.of_nat x)%Z = true.
Proof. apply Z.leb_le. lia. Qed.

Lemma of_nat_eqb_m1 (x : nat) : (Z.of_nat x =? -1)%Z = false.
Proof. apply Z.eqb_neq. lia. Qed.

(** [MatMul] of a static batch [[B; M; K]] by a static matrix [[K; N]]
    ([K > 0]): the shapes computed in Relay fold to constants, so the
    batch is flattened by the static [reshape] to [[-1; K]], multiplied
    by [dense] with the transposed matrix, and reshaped statically to
    [[B; M; N]], the type of the result ([K > 0]: Relay cannot infer the
    [-1] extent of an empty tensor). *)
Theorem matmul_batch_static (bt m k n : nat) (dt : string) :
  0 < k ->
  let a := Var "a" (TType (map DInt [bt; m; k]) dt) in
  let b := Var "b" (TType (map DInt [k; n]) dt) in
  matmul_v1 true [Some a; Some b] =
  Ok (Call "reshape" [Call "nn.dense" [Call "reshape" [a] [("newshape", KInts [-1; Z.of_nat k]%Z)];
                                       Call "transpose" [b] []] []]
           [("newshape", KInts [Z.of_nat bt; Z.of_nat m; Z.of_nat n])]) /\
  infer_tensor (Call "reshape" [Call "nn.dense" [Call "reshape" [a] [("newshape", KInts [-1; Z.of_nat k]%Z)];
                                                 Call "transpose" [b] []] []]
                     [("newshape", KInts [Z.of_nat bt; Z.of_nat m; Z.of_nat n])])
  = Ok (TType (map DInt [bt; m; n]) dt).
Proof.
  intros Hk a b. split; [reflexivity|].
  unfold infer_tensor. cbn.
  rewrite !of_nat_leb_0, !of_nat_leb_m1, of_nat_eqb_m1, !Nat2Z.id.
  destruct (Z.eq_dec (Z.of_nat k) (-1)); [lia|]. cbn. now rewrite Nat.eqb_refl.
Qed.

Lemma matmul_batch_static_witness :
  0 < 4 /\
  let a := Var "a" (TType (map DInt [2; 3; 4]) "float32") in
  let b := Var "b" (TType (map DInt [4; 5]) "float32") in
  matmul_v1 true [Some a; Some b] =
  Ok (Call "reshape" [Call "nn.dense" [Call "reshape" [a] [("newshape", KInts [-1; Z.of_nat 4]%Z)];
                                       Call "transpose" [b] []] []]
           [("newshape", KInts [Z.of_nat 2; Z.of_nat 3; Z.of_nat 5])]) /\
  infer_tensor (Call "reshape" [Call "nn.dense" [Call "reshape" [a] [("newshape", KInts [-1; Z.of_nat 4]%Z)];
                                                 Call "transpose" [b] []] []]
                     [("newshape", KInts [Z.of_nat 2; Z.of_nat 3; Z.of_nat 5])])
  = Ok (TType (map DInt [2; 3; 5]) "float32").
Proof. split; [lia | apply (matmul_batch_static 2 3 4 5 "float32"); lia]. Defined.

End Tensor.
