(* ===== verification/Activations.v ===== *)
(** * Activations: elementwise rules built from Relay arithmetic

    The rules of onnx.py that write an activation or an arithmetic
    operator as Relay arithmetic on their input, through the operator
    overloading of Relay expressions ([a * b] is [multiply], [a + b]
    [add], [a - b] [subtract], [a / b] [divide], [a > b] [greater]):
    [Elu] (lines 755-763), [Scale] (1224-1230), [ScaledTanh] (1246-1253),
    [ParametricSoftPlus] (1100-1107), [ThresholdedRelu] (1306-1314),
    [Softsign] (1270-1275), [Affine] (1296-1303), [Reciprocal]
    (1149-1155), [Softplus] (2961-2969), [Celu] (2868-2879), [IsInf]
    (2852-2865), [Pow] (1110-1133), [Mod] (878-893), [Prelu] (1136-1146),
    [DepthToSpace] and [SpaceToDepth] (1196-1213), the global pools
    (679-746), [BatchNorm] and [InstanceNorm] (394-411).

    [_expr.const(v)] of a Python float is a [float32] constant and of a
    Python int an [int32] one; [_expr.const(v, dtype)] has the given type.
    Float values are integers here (see [Attrs]); the rules whose default
    constants are not integral ([Selu], [HardSigmoid], [Shrink], [LRN])
    are in [Scaled].

    Theorems: the rules that multiply or add a [float32] constant
    ([Elu], [Scale], [ScaledTanh], [ParametricSoftPlus],
    [ThresholdedRelu], [Softsign], [Affine]) type-check exactly on
    [float32] inputs, while [Softplus], [Reciprocal] and [Celu], which
    build their constants in the input's type, type-check on every float
    type; [Pow] of an integer base computes in [float32] and casts back. *)

From Stdlib Require Import String List Bool Arith Lia ZArith.
From S2P Require Import Prelude Proto IR Attrs Ops Rules Conv Tensor.
Import ListNotations.
Local Open Scope string_scope.
Local Open Scope list_scope.

Module Activations.
Import Proto IR Attrs Ops Rules Conv Tensor.

(** ** Relay arithmetic *)

Definition un (op : string) (a : expr) : expr := Call op [a] [].
Definition bin (op : string) (a b : expr) : expr := Call op [a; b] [].

(** [_expr.const(v)] of a Python float. *)
Definition fconst (z : Z) : expr := Const (scalar "float32" z).

(** [_expr.const(v, dtype)]. *)
Definition tconst (dt : string) (z : Z) : expr := Const (scalar dt z).

(** [_expr.const(v)] of an attribute value, a float or an int. *)
Definition py_const (v : attr_val) : result expr :=
  match v with
  | AFloat z => Ok (fconst z)
  | AInt z => Ok (py_int_const z)
  | _ => Err (ValueError "unsupported constant")
  end.

(** [float(attr.get(k, dflt))]. *)
Definition float_attr (k : string) (dflt : Z) (attr : attr_table) : result Z :=
  match od_get k attr with
  | None => Ok dflt
  | Some (AFloat z) | Some (AInt z) => Ok z
  | Some _ => Err (TypeError "float() argument must be a number")
  end.

(** [inputs[0]], an expression. *)
Definition input0 (ins : list (option expr)) : result expr := of_option none_error (input_at ins 0).

(** ** Activations with [float32] constants *)

(** [Elu._impl_v1]. *)
Definition elu_v1 (ins : list (option expr)) (attr : attr_table) : result expr :=
  let* alpha := float_attr "alpha" 1 attr in
  let* x := input0 ins in
  Ok (bin "add" (bin "multiply" (fconst (- alpha)) (un "nn.relu" (bin "subtract" (fconst 1) (un "exp" x))))
                (un "nn.relu" x)).

(** [Scale._impl_v1]. *)
Definition scale_v1 (ins : list (option expr)) (attr : attr_table) : result expr :=
  let* scale := float_attr "scale" 1 attr in
  let* x := input0 ins in
  Ok (bin "multiply" x (fconst scale)).

(** [ScaledTanh._impl_v1]. *)
Definition scaled_tanh_v1 (ins : list (option expr)) (attr : attr_table) : result expr :=
  let* alpha := float_attr "alpha" 1 attr in
  let* beta := float_attr "beta" 1 attr in
  let* x := input0 ins in
  Ok (bin "multiply" (un "tanh" (bin "multiply" (fconst beta) x)) (fconst alpha)).

(** [ParametricSoftPlus._impl_v1]. *)
Definition parametric_softplus_v1 (ins : list (option expr)) (attr : attr_table) : result expr :=
  let* alpha := float_attr "alpha" 1 attr in
  let* beta := float_attr "beta" 1 attr in
  let* x := input0 ins in
  Ok (bin "multiply" (un "log" (bin "add" (un "exp" (bin "multiply" (fconst beta) x)) (fconst 1)))
          (fconst alpha)).

(** [ThresholdedRelu._impl_v1]: the mask is cast to [float32]. *)
Definition thresholded_relu_v1 (ins : list (option expr)) (attr : attr_table) : result expr :=
  let* alpha := float_attr "alpha" 1 attr in
  let* x := input0 ins in
  let alpha_tensor := Call "full_like" [x; fconst alpha] [] in
  let mask := Call "cast" [bin "greater" x alpha_tensor] [("dtype", KStr "float32")] in
  Ok (bin "multiply" x mask).

(** [Softsign._impl_v1]: [Absolute]'s rule gives the absolute value. *)
Definition softsign_v1 (ins : list (option expr)) : result expr :=
  let* a := unary "abs" ins in
  let* x := input0 ins in
  Ok (bin "divide" x (bin "add" (fconst 1) a)).

(** [Affine._impl_v1]: the constants take the type of the attribute. *)
Definition affine_v1 (ins : list (option expr)) (attr : attr_table) : result expr :=
  let* alpha := py_const (match od_get "alpha" attr with Some v => v | None => AFloat 1 end) in
  let* beta := py_const (match od_get "beta" attr with Some v => v | None => AFloat 0 end) in
  let* x := input0 ins in
  Ok (bin "add" (bin "multiply" alpha x) beta).

(** ** Rules with constants of the input's type *)

(** [Reciprocal._impl_v1]. *)
Definition reciprocal_v1 (ins : list (option expr)) : result expr :=
  let* dtype := dtype_of (input_at ins 0) in
  let* x := input0 ins in
  Ok (bin "divide" (tconst dtype 1) x).

(** [Softplus._impl_v1]. *)
Definition softplus_v1 (ins : list (option expr)) : result expr :=
  let* dtype := dtype_of (input_at ins 0) in
  let* x := input0 ins in
  Ok (un "log" (bin "add" (un "exp" x) (tconst dtype 1))).

(** [Celu._impl_v12]. *)
Definition celu_v12 (ins : list (option expr)) (attr : attr_table) : result expr :=
  let* dtype := dtype_of (input_at ins 0) in
  let* x := input0 ins in
  let* a := float_attr "alpha" 1 attr in
  let alpha := tconst dtype a in
  let zero := tconst dtype 0 in
  let one := tconst dtype 1 in
  Ok (bin "add" (bin "maximum" zero x)
                (bin "minimum" zero (bin "multiply" alpha
                                       (bin "subtract" (un "exp" (bin "divide" x alpha)) one)))).

(** [IsInf._impl_v10]: a sign not to detect masks the result by a
    comparison with zero. *)
Definition isinf_v10 (ins : list (option expr)) (attr : attr_table) : result expr :=
  let detect_negative := match od_get "detect_negative" attr with None => true | v => attr_truthy v end in
  let detect_positive := match od_get "detect_positive" attr with None => true | v => attr_truthy v end in
  let* dtype := dtype_of (input_at ins 0) in
  let* x := input0 ins in
  let isinf := un "isinf" x in
  let isinf := if detect_negative then isinf
               else bin "multiply" isinf (bin "greater" x (tconst dtype 0)) in
  let isinf := if detect_positive then isinf
               else bin "multiply" isinf (bin "less" x (tconst dtype 0)) in
  Ok isinf.

(** [Pow._impl_v13]: a base of a non-float type is cast to [float32], the
    exponent to the base's type, and the result back. *)
Definition pow_v13 (ins : list (option expr)) : result expr :=
  let* x_type := dtype_of (input_at ins 0) in
  let output_type := x_type in
  let* y_type := dtype_of (input_at ins 1) in
  let* x := input0 ins in
  let* y := of_option none_error (input_at ins 1) in
  let '(x_type, x) := if String.prefix "float" x_type then (x_type, x)
                      else ("float32", Call "cast" [x] [("dtype", KStr "float32")]) in
  let y := if String.eqb x_type y_type then y else Call "cast" [y] [("dtype", KStr x_type)] in
  let result := bin "power" x y in
  Ok (if String.eqb x_type output_type then result
      else Call "cast" [result] [("dtype", KStr output_type)]).

(** [Mod._impl_v1]: [fmod] picks C's remainder over the floor one. *)
Definition mod_v1 (ins : list (option expr)) (attr : attr_table) : result expr :=
  let* _ := py_assert (Nat.eqb (length ins) 2) "Mod op take 2 inputs" in
  let op_name := match od_get "fmod" attr with
                 | None | Some (AInt 0) | Some (AFloat 0) => "floor_mod"
                 | Some _ => "mod"
                 end in
  attr_cvt_apply (AttrCvt op_name [] [] []) ins [].

(** [Prelu._impl_v1]: the slope is broadcast to the input, both are
    flattened, and the result takes the input's shape again. *)
Definition prelu_v1 (ins : list (option expr)) : result expr :=
  let* _ := py_assert (Nat.eqb (length ins) 2) "Prelu need 2 inputs" in
  let* x := input0 ins in
  let* input_shape := shape_of x "int64" in
  let* slope := of_option none_error (input_at ins 1) in
  let alpha := Call "broadcast_to_like" [slope; x] [] in
  let alpha := Call "reshape" [alpha] [("newshape", KInts [(-1)%Z])] in
  let output := Call "nn.prelu" [Call "reshape" [x] [("newshape", KInts [(-1)%Z])]; alpha]
                     [("axis", KInt 0)] in
  Ok (Call "reshape" [output; input_shape] []).

(** ** Layout and normalisation rules *)

(** [int(attr["blocksize"])]. *)
Definition block_size (attr : attr_table) : result Z :=
  let* v := od_find "blocksize" attr in
  match v with AInt z | AFloat z => Ok z | _ => Err (TypeError "int() argument must be a number") end.

(** [DepthToSpace._impl_v11]. *)
Definition depth_to_space_v11 (ins : list (option expr)) (attr : attr_table) : result expr :=
  let* b := block_size attr in
  let* mode := match od_get "mode" attr with None => Ok "DCR" | Some v => decode v end in
  relay_call "nn.depth_to_space" [input_at ins 0] [("block_size", KInt b); ("mode", KStr mode)].

(** [SpaceToDepth._impl_v1]. *)
Definition space_to_depth_v1 (ins : list (option expr)) (attr : attr_table) : result expr :=
  let* b := block_size attr in
  relay_call "nn.space_to_depth" [input_at ins 0] [("block_size", KInt b)].

(** [GlobalAveragePool._impl_v1]: the rank picks the operator. *)
Definition global_average_pool_v1 (ins : list (option expr)) : result expr :=
  let* rank := rank_of ins 0 in
  let* x := input0 ins in
  match rank with
  | 3 => Ok (un "nn.global_avg_pool1d" x)
  | 4 => Ok (un "nn.global_avg_pool2d" x)
  | 5 => Ok (un "nn.global_avg_pool3d" x)
  | _ => Err (NotImplementedError "Global average pooling is only implemented for 1D, 2D, and 3D kernels")
  end.

(** [GlobalMaxPool._impl_v1]. *)
Definition global_max_pool_v1 (ins : list (option expr)) : result expr :=
  let* rank := rank_of ins 0 in
  let* x := input0 ins in
  match rank with
  | 3 => Ok (un "nn.global_max_pool1d" x)
  | 4 => Ok (un "nn.global_max_pool2d" x)
  | 5 => Ok (un "nn.global_max_pool3d" x)
  | _ => Err (NotImplementedError "Global max pooling is only implemented for 1D, 2D, and 3D kernels")
  end.

(** [BatchNorm._impl_v1]: the first field of [batch_norm]'s tuple. *)
Definition batch_norm_v1 (ins : list (option expr)) (attr : attr_table) : result expr :=
  let* out := attr_cvt_apply
                (AttrCvt "batch_norm" [] ["spatial"; "is_test"; "consumed_inputs"; "momentum"] [])
                ins attr in
  Ok (TupleGetItem out 0).

(** [InstanceNorm._impl_v1]. *)
Definition instance_norm_v1 (ins : list (option expr)) (attr : attr_table) : result expr :=
  attr_cvt_apply (AttrCvt "instance_norm" [] [] []) ins attr.

(** The classes of this file, for [_convert_operator]. *)
Definition convert_act (cls : string) (ins : list (option expr)) (attr : attr_table)
  : option (result expr) :=
  if cls =? "Elu" then Some (elu_v1 ins attr)
  else if cls =? "Scale" then Some (scale_v1 ins attr)
  else if cls =? "ScaledTanh" then Some (scaled_tanh_v1 ins attr)
  else if cls =? "ParametricSoftPlus" then Some (parametric_softplus_v1 ins attr)
  else if cls =? "ThresholdedRelu" then Some (thresholded_relu_v1 ins attr)
  else if cls =? "Softsign" then Some (softsign_v1 ins)
  else if cls =? "Affine" then Some (affine_v1 ins attr)
  else if cls =? "Reciprocal" then Some (reciprocal_v1 ins)
  else if cls =? "Softplus" then Some (softplus_v1 ins)
  else if cls =? "Celu" then Some (celu_v12 ins attr)
  else if cls =? "IsInf" then Some (isinf_v10 ins attr)
  else if cls =? "Pow" then Some (pow_v13 ins)
  else if cls =? "Mod" then Some (mod_v1 ins attr)
  else if cls =? "Prelu" then Some (prelu_v1 ins)
  else if cls =? "DepthToSpace" then Some (depth_to_space_v11 ins attr)
  else if cls =? "SpaceToDepth" then Some (space_to_depth_v1 ins attr)
  else if cls =? "GlobalAveragePool" then Some (global_average_pool_v1 ins)
  else if cls =? "GlobalMaxPool" then Some (global_max_pool_v1 ins)
  else if cls =? "BatchNorm" then Some (batch_norm_v1 ins attr)
  else if cls =? "InstanceNorm" then Some (instance_norm_v1 ins attr)
  else None.

(** ** Theorems *)

Lemma broadcast_ty_same (o : option string) (sa sb : list dimv) (d : string) :
  broadcast_ty o (TyTensor (TType sa d)) (TyTensor (TType sb d)) =
  match bcast_shapes sa sb with
  | Some r => Ok (TyTensor (TType r (match o with Some d' => d' | None => d end)))
  | None => Err infer_error
  end.
Proof. unfold broadcast_ty. now rewrite String.eqb_refl. Qed.

Lemma broadcast_ty_diff (o : option string) (sa sb : list dimv) (da db : string) :
  da <> db -> broadcast_ty o (TyTensor (TType sa da)) (TyTensor (TType sb db)) = Err infer_error.
Proof. intros Hne. unfold broadcast_ty. apply String.eqb_neq in Hne. now rewrite Hne. Qed.

Create Rewrite HintDb bcast.

#[export] Hint Rewrite broadcast_ty_same bcast_shapes_same bcast_shapes_nil_l bcast_shapes_scalar
  : bcast.

(** Evaluate the type inference of a rule's output on an input of known
    type, one operator at a time; operands of two element types stop it
    with an error. *)
Ltac infer_steps Hx :=
  unfold infer_tensor; simpl infer; rewrite ?Hx; cbn -[bcast_shapes broadcast_ty];
  repeat progress (autorewrite with bcast; cbn -[bcast_shapes broadcast_ty]).

Ltac infer_mismatch Hd :=
  rewrite broadcast_ty_diff by (exact Hd || (intros ?; apply Hd; symmetry; assumption));
  cbn -[bcast_shapes broadcast_ty].

(** The classes whose rules mix a [float32] constant into the input. *)
Definition float32_classes : list string :=
  ["Elu"; "Scale"; "ScaledTanh"; "ParametricSoftPlus"; "ThresholdedRelu"; "Softsign"; "Affine"].

(** (C18) The rules that combine their input with a [float32] constant
    ([Elu], [Scale], [ScaledTanh], [ParametricSoftPlus],
    [ThresholdedRelu], [Softsign], [Affine], with default attributes)
    convert every input, and the result type-checks exactly when the
    input is [float32]: a [float16] or [float64] input gives a Relay
    graph whose binary operators mix two element types. *)
Theorem float32_constant_rules (cls : string) (x : expr) (s : list dimv) (dt : string) :
  In cls float32_classes -> infer_tensor x = Ok (TType s dt) ->
  exists e, convert_act cls [Some x] [] = Some (Ok e) /\
    ((exists t, infer_tensor e = Ok t) <-> dt = "float32").
Proof.
  intros Hin Hx. apply infer_of_tensor in Hx.
  unfold float32_classes in Hin. simpl in Hin.
  repeat destruct Hin as [<-|Hin]; try contradiction;
    (eexists; split; [reflexivity|]);
    (destruct (String.eqb_spec dt "float32") as [->|Hd];
     [split; [reflexivity | intros _]; infer_steps Hx; eexists; reflexivity
     |split; [|intros; contradiction];
      intros [t Ht]; revert Ht; infer_steps Hx; repeat infer_mismatch Hd; intros Ht; discriminate Ht]).
Qed.

Lemma float32_constant_rules_witness :
  exists e, convert_act "Elu" [Some (Var "x" (TType [DInt 2] "float64"))] [] = Some (Ok e) /\
    ((exists t, infer_tensor e = Ok t) <-> "float64" = "float32").
Proof. apply (float32_constant_rules _ _ [DInt 2] "float64"); [simpl; tauto | reflexivity]. Defined.

(** [Softplus], [Reciprocal] and [Celu] (default attributes) build
    their constants in the input's element type: they convert every
    typed input, and the result has the input's shape and element type,
    [float16] and [float64] included. *)
Theorem dtype_preserving_rules (cls : string) (x : expr) (s : list dimv) (dt : string) :
  In cls ["Softplus"; "Reciprocal"; "Celu"] -> infer_tensor x = Ok (TType s dt) ->
  exists e, convert_act cls [Some x] [] = Some (Ok e) /\ infer_tensor e = Ok (TType s dt).
Proof.
  intros Hin Hx. assert (Hx' := infer_of_tensor _ _ Hx). simpl in Hin.
  repeat destruct Hin as [<-|Hin]; try contradiction;
    (eexists; split;
     [cbn -[infer_tensor]; unfold softplus_v1, reciprocal_v1, celu_v12, dtype_of, input0;
      cbn -[infer_tensor]; rewrite Hx; reflexivity
     |infer_steps Hx'; reflexivity]).
Qed.

Lemma dtype_preserving_rules_witness :
  exists e, convert_act "Celu" [Some (Var "x" (TType [DInt 2; DAny] "float16"))] [] = Some (Ok e) /\
    infer_tensor e = Ok (TType [DInt 2; DAny] "float16").
Proof. apply dtype_preserving_rules; [simpl; tauto | reflexivity]. Defined.

(** [Pow] of a base of a non-float type computes in [float32]: the
    base is cast to [float32], the exponent too unless it is already
    [float32], and the power is cast back to the base's type. *)
Theorem pow_integer_base (x y : expr) (s s' : list dimv) (dx dy : string) :
  infer_tensor x = Ok (TType s dx) -> infer_tensor y = Ok (TType s' dy) ->
  String.prefix "float" dx = false ->
  pow_v13 [Some x; Some y] =
  Ok (Call "cast"
        [bin "power" (Call "cast" [x] [("dtype", KStr "float32")])
                     (if String.eqb "float32" dy then y else Call "cast" [y] [("dtype", KStr "float32")])]
        [("dtype", KStr dx)]).
Proof.
  intros Hx Hy Hp. unfold pow_v13, dtype_of. cbn -[infer_tensor String.prefix String.eqb].
  rewrite Hx. cbn -[infer_tensor String.prefix String.eqb]. rewrite Hy.
  cbn -[String.prefix String.eqb]. rewrite Hp.
  replace (String.eqb "float32" dx) with false
    by (symmetry; apply String.eqb_neq; intros <-; discriminate Hp).
  reflexivity.
Qed.

Lemma pow_integer_base_witness :
  pow_v13 [Some (Var "x" (TType [DInt 3] "int32")); Some (Var "y" (TType [] "int32"))] =
  Ok (Call "cast"
        [bin "power" (Call "cast" [Var "x" (TType [DInt 3] "int32")] [("dtype", KStr "float32")])
                     (if String.eqb "float32" "int32" then Var "y" (TType [] "int32")
                      else Call "cast" [Var "y" (TType [] "int32")] [("dtype", KStr "float32")])]
        [("dtype", KStr "int32")]).
Proof. apply (pow_integer_base _ _ [DInt 3] [] "int32" "int32"); reflexivity. Defined.

End Activations.
