(* ===== verification/Scaled.v ===== *)
(** * Scaled: rules with non-integral float constants

    The rules of onnx.py whose constants are Python floats that are not
    integers: [Selu] (lines 1233-1243), [Shrink] (1256-1267),
    [HardSigmoid] (1831-1840), [LRN] (1776-1789), [LpPool] (958-1010)
    and [GlobalLpPool] (1013-1021).  A float default such as [0.5] is the
    exact ratio [ARatio 1 2] of the attribute table, and a constant built
    from it is [IR.real_const]: a [VReal] scalar in a floating type,
    truncated toward zero in an integer type, as numpy converts it.

    Theorems: [Shrink] on an integer input with the default [lambd] of
    [0.5] computes the ONNX function exactly, although the threshold is
    truncated to [0]; [HardSigmoid] and [Selu] type-check exactly on
    [float32] inputs; [LpPool] computes [(|avg_pool(x ^ p)| * prod k) ^ (1/p)]
    and raises on [p = 0]; a SAME [LpPool] without [strides] raises
    [KeyError]. *)

From Stdlib Require Import String List Bool Arith Lia ZArith.
From S2P Require Import Prelude Proto IR Attrs Ops Rules Conv Tensor Activations.
Import ListNotations.
Local Open Scope string_scope.
Local Open Scope list_scope.

Module Scaled.
Import Proto IR Attrs Ops Rules Conv Tensor Activations.

(** ** Python floats *)

(** [float(attr.get(k, dflt))] with the default [num / den]. *)
Definition float_q (k : string) (dflt : Z * Z) (attr : attr_table) : result (Z * Z) :=
  match od_get k attr with
  | None => Ok dflt
  | Some (AFloat z) | Some (AInt z) => Ok (z, 1%Z)
  | Some (ARatio n d) => Ok (n, d)
  | Some _ => Err (TypeError "float() argument must be a number")
  end.

(** [_expr.const(v, dtype)] of the float [q]. *)
Definition qconst (dt : string) (q : Z * Z) : expr := Const (real_const dt (fst q) (snd q)).

(** [_expr.const(v)] of a value of the attribute table, or
    [_op.const(v, dtype)] when [dt] is given: a Python float without a
    dtype is [float32], a Python int [int32]. *)
Definition num_const (dt : option string) (v : attr_val) : result expr :=
  match dt, v with
  | None, ARatio n d => Ok (qconst "float32" (n, d))
  | None, _ => py_const v
  | Some t, (AFloat z | AInt z) => Ok (tconst t z)
  | Some t, ARatio n d => Ok (qconst t (n, d))
  | Some _, _ => Err (ValueError "unsupported constant")
  end.

(** ** Activations *)

(** [Selu._impl_v1]. *)
Definition selu_v1 (ins : list (option expr)) (attr : attr_table) : result expr :=
  let* alpha := float_q "alpha" (14036349, 8388608)%Z attr in
  let* gamma := float_q "gamma" (8813919, 8388608)%Z attr in
  let* x := input0 ins in
  Ok (bin "multiply" (qconst "float32" gamma)
        (bin "add" (bin "multiply" (qconst "float32" (- fst alpha, snd alpha)%Z)
                                   (un "nn.relu" (bin "subtract" (fconst 1) (un "exp" x))))
                   (un "nn.relu" x))).

(** [Shrink._impl_v9]: the constants take the input's type. *)
Definition shrink_v9 (ins : list (option expr)) (attr : attr_table) : result expr :=
  let* dtype := dtype_of (input_at ins 0) in
  let* x := input0 ins in
  let* lambd := num_const (Some dtype) (attr_or "lambd" (ARatio 1 2) attr) in
  let* bias := num_const (Some dtype) (attr_or "bias" (AFloat 0) attr) in
  let zeros := un "zeros_like" x in
  Ok (bin "add" (Call "where" [bin "less" x (un "negative" lambd); bin "add" x bias; zeros] [])
                (Call "where" [bin "greater" x lambd; bin "subtract" x bias; zeros] [])).

(** [HardSigmoid._impl_v1]: [clip] of [x * alpha + beta] to [[0, 1]]. *)
Definition hard_sigmoid_v1 (ins : list (option expr)) (attr : attr_table) : result expr :=
  let* alpha := num_const None (attr_or "alpha" (ARatio 1 5) attr) in
  let* x := input0 ins in
  let* beta := num_const None (attr_or "beta" (ARatio 1 2) attr) in
  let transformX := bin "add" (bin "multiply" x alpha) beta in
  attr_cvt_apply (AttrCvt "clip" [] [] []) [Some transformX] [("a_min", AInt 0); ("a_max", AInt 1)].

(** [LRN._impl_v1]: a new dictionary of five entries, [size] [None]
    when the node has none. *)
Definition lrn_v1 (ins : list (option expr)) (attr : attr_table) : result expr :=
  let alpha := attr_or "alpha" (ARatio 1 10000) attr in
  let beta := attr_or "beta" (ARatio 3 4) attr in
  let bias := attr_or "bias" (AFloat 1) attr in
  let nsize := attr_or "size" ANone attr in
  attr_cvt_apply (AttrCvt "lrn" [] [] []) ins
    [("size", nsize); ("axis", AInt 1); ("alpha", alpha); ("beta", beta); ("bias", bias)].

(** ** Lp pooling *)

(** [attr["strides"]]: a SAME [LpPool] reads it without a default. *)
Definition strides_of (attr : attr_table) : result (list Z) :=
  let* v := od_find "strides" attr in
  match v with AInts l => Ok l | _ => Err (TypeError "not a list") end.

(** The [auto_pad] and [storage_order] handling of [LpPool._impl_v1]
    (lines 963-995): the data padded by [autopad] for a SAME mode, the
    [pads] of a VALID one, and the layout. *)
Definition lp_pool_calc (ins : list (option expr)) (attr : attr_table)
  : result (attr_table * expr * string) :=
  let* '(data, t) := typed_input ins 0 in
  let ndim := length (tt_shape t) in
  let* '(attr, data) :=
    match od_get "auto_pad" attr with
    | None => Ok (attr, data)
    | Some v =>
        let* mode := decode v in
        let attr := od_set "auto_pad" (ABytes mode) attr in
        let* '(attr, data) :=
          if same_mode mode then
            let* strides := strides_of attr in
            let* ks := kernel_shape_of attr in
            let* data := autopad data strides ks (repeat 1%Z ndim) ndim false mode
                                 (Const (scalar "float32" 0)) in
            Ok (attr, data)
          else if mode =? "VALID" then Ok (od_set "pads" (AInts (repeat 0%Z (ndim - 2))) attr, data)
          else if mode =? "NOTSET" then Ok (attr, data)
          else Err (invalid_auto_pad mode "LpPool") in
        Ok (od_del "auto_pad" attr, data)
    end in
  let* layout := match od_get "storage_order" attr with
                 | Some (AInt so) => onnx_storage_order2layout so (ndim - 2)
                 | Some _ => Err (TypeError "storage_order is not an integer")
                 | None => onnx_default_layout (ndim - 2)
                 end in
  Ok (od_set "layout" (ABytes layout) attr, data, tt_dtype t).

(** [1.0 / p_value] as a ratio of positive denominator. *)
Definition reciprocal_q (p : Z) : result (Z * Z) :=
  if (p =? 0)%Z then Err ZeroDivisionError else Ok (Z.sgn p, Z.abs p).

(** [LpPool._impl_v1]: [avg_pool] of [x ^ p], counting the padding,
    rescaled by the kernel's size and raised to [1 / p]. *)
Definition lp_pool_v1 (ins : list (option expr)) (attr : attr_table) : result expr :=
  let* '(attr, data, dtype) := lp_pool_calc ins attr in
  let* p_value := match od_get "p" attr with
                  | None => Ok 2%Z
                  | Some (AInt z) | Some (AFloat z) => Ok z
                  | Some _ => Err (TypeError "unsupported operand type(s) for /")
                  end in
  let p := tconst dtype p_value in
  let* rp := reciprocal_q p_value in
  let reci_p := qconst dtype rp in
  let data := bin "power" data p in
  let* ok := dimension_constraint attr in
  if negb ok then Err (RuntimeError "Check failed: Only 1d, 2d and 3d kernel supported.") else
  let* op := dimension_picker "avg_pool" "" attr in
  (* [count_include_pad=True] *)
  let* out := attr_cvt_apply (AttrCvt op [("kernel_shape", "pool_size"); ("pads", "padding")]
                                      ["p"] [("count_include_pad", KInt 1)])
                             [Some data] attr in
  let* kernels := kernel_shape_of attr in
  let out := bin "multiply" (un "abs" out) (tconst dtype (fold_right Z.mul 1%Z kernels)) in
  Ok (bin "power" out reci_p).

(** [GlobalLpPool._impl_v1]: the kernel is the input's spatial shape. *)
Definition global_lp_pool_v1 (ins : list (option expr)) (attr : attr_table) : result expr :=
  let* '(_, t) := typed_input ins 0 in
  let* in_shape := static_dims t in
  lp_pool_v1 ins (od_set "kernel_shape" (AInts (skipn 2 in_shape)) attr).

(** The classes of this file, for [_convert_operator]. *)
Definition convert_scaled (cls : string) (ins : list (option expr)) (attr : attr_table)
  : option (result expr) :=
  if cls =? "Selu" then Some (selu_v1 ins attr)
  else if cls =? "Shrink" then Some (shrink_v9 ins attr)
  else if cls =? "HardSigmoid" then Some (hard_sigmoid_v1 ins attr)
  else if cls =? "LRN" then Some (lrn_v1 ins attr)
  else if cls =? "LpPool" then Some (lp_pool_v1 ins attr)
  else if cls =? "GlobalLpPool" then Some (global_lp_pool_v1 ins attr)
  else None.

(** ** Reference semantics *)

(** The ONNX [Shrink] of threshold [num / den] ([den > 0]) and bias
    [bias], on one element. *)
Definition shrink_ref (num den bias x : Z) : Z :=
  if (x * den <? - num)%Z then x + bias
  else if (num <? x * den)%Z then x - bias
  else 0.

(** ** Theorems *)

(** [Shrink] with the default threshold [0.5] on a tensor of an
    integer type: the threshold constant is truncated to [0], and the
    converted graph still computes the ONNX function on every element,
    the bias of the node (or the default [0]) included. *)
Theorem shrink_integer_exact (dt : string) (sh : list nat) (d : list Z) (attr : attr_table)
        (b : Z) :
  String.prefix "float" dt = false -> length d = fold_right Nat.mul 1 sh ->
  od_get "lambd" attr = None -> attr_or "bias" (AFloat 0) attr = AFloat b ->
  exists e, shrink_v9 [Some (Var "x" (TType (map DInt sh) dt))] attr = Ok e /\
    eval 10 [("x", VTensor dt sh d)] e = Some (VTensor dt sh (map (shrink_ref 1 2 b) d)).
Proof.
  intros Hf Hl Hlam Hb. unfold shrink_v9, attr_or at 1. rewrite Hlam, Hb.
  eexists; split; [reflexivity|].
  cbn -[binop where_val]. rewrite Hf. unfold scalar. cbn -[binop where_val].
  rewrite !binop_scalar_r by exact Hl. cbn -[binop where_val].
  rewrite !where_val_map. cbn -[binop]. rewrite binop_same_shape, zip_data_map.
  do 2 f_equal. apply map_ext. intros x. unfold shrink_ref, b2z. cbn [Z.opp].
  destruct (Z.ltb_spec x 0), (Z.ltb_spec 0 x), (Z.ltb_spec (x * 2) (- 1)), (Z.ltb_spec 1 (x * 2));
    cbn; lia.
Qed.

Lemma shrink_integer_exact_witness :
  exists e, shrink_v9 [Some (Var "x" (TType [DInt 3] "int32"))] [("bias", AFloat 1)] = Ok e /\
    eval 10 [("x", VTensor "int32" [3] [-2; 0; 5]%Z)] e
    = Some (VTensor "int32" [3] (map (shrink_ref 1 2 1) [-2; 0; 5]%Z)).
Proof. apply (shrink_integer_exact "int32" [3] [-2; 0; 5]%Z); reflexivity. Defined.

(** [Selu] and [HardSigmoid] (default attributes) build [float32]
    constants, their non-integral defaults included: they convert every
    input, and the result type-checks exactly when the input is
    [float32]. *)
Theorem scaled_float32_rules (cls : string) (x : expr) (s : list dimv) (dt : string) :
  In cls ["Selu"; "HardSigmoid"] -> infer_tensor x = Ok (TType s dt) ->
  exists e, convert_scaled cls [Some x] [] = Some (Ok e) /\
    ((exists t, infer_tensor e = Ok t) <-> dt = "float32").
Proof.
  intros Hin Hx. apply infer_of_tensor in Hx. simpl in Hin.
  repeat destruct Hin as [<-|Hin]; try contradiction;
    (eexists; split; [reflexivity|]);
    (destruct (String.eqb_spec dt "float32") as [->|Hd];
     [split; [reflexivity | intros _]; infer_steps Hx; eexists; reflexivity
     |split; [|intros; contradiction];
      intros [t Ht]; revert Ht; infer_steps Hx; repeat infer_mismatch Hd; intros Ht; discriminate Ht]).
Qed.

Lemma scaled_float32_rules_witness :
  exists e, convert_scaled "HardSigmoid" [Some (Var "x" (TType [DInt 2] "float64"))] [] = Some (Ok e) /\
    ((exists t, infer_tensor e = Ok t) <-> "float64" = "float32").
Proof. apply (scaled_float32_rules _ _ [DInt 2] "float64"); [simpl; tauto | reflexivity]. Defined.

(** The attributes of a two-dimensional [LpPool] of kernel [k1 x k2]. *)
Definition lp_attr (k1 k2 p : Z) : attr_table := [("kernel_shape", AInts [k1; k2]); ("p", AInt p)].

(** (C33) [LpPool] on an input of rank 4 without [auto_pad]: the input
    raised to [p] is average-pooled counting the padding, the absolute
    value of the mean is multiplied back by the kernel's size and raised
    to [1 / p], all constants in the input's type; [p = 0] raises
    [ZeroDivisionError]. *)
Theorem lp_pool_formula (x : expr) (n c h w : dimv) (dt : string) (k1 k2 p : Z) :
  infer_tensor x = Ok (TType [n; c; h; w] dt) ->
  lp_pool_v1 [Some x] (lp_attr k1 k2 p) =
  if (p =? 0)%Z then Err ZeroDivisionError
  else Ok (bin "power"
             (bin "multiply"
                (un "abs" (Call "avg_pool2d" [bin "power" x (tconst dt p)]
                             [("pool_size", KInts [k1; k2]); ("layout", KStr "NCHW");
                              ("count_include_pad", KInt 1)]))
                (tconst dt (k1 * k2)))
             (qconst dt (Z.sgn p, Z.abs p))).
Proof.
  intros Hx. unfold lp_pool_v1, lp_pool_calc, typed_input. cbn -[infer_tensor]. rewrite Hx.
  cbn. unfold reciprocal_q. destruct (p =? 0)%Z; [reflexivity|]. cbn. now rewrite Z.mul_1_r.
Qed.

Lemma lp_pool_formula_witness :
  lp_pool_v1 [Some (Var "x" (TType [DInt 1; DInt 1; DInt 4; DInt 4] "float32"))] (lp_attr 2 2 0)
  = Err ZeroDivisionError.
Proof. apply (lp_pool_formula _ (DInt 1) (DInt 1) (DInt 4) (DInt 4) "float32"). reflexivity. Defined.

(** A SAME [LpPool] reads [attr["strides"]] without a default: a
    node with [auto_pad] SAME_UPPER or SAME_LOWER and no [strides]
    attribute (ONNX's default is 1 on every axis) raises [KeyError]. *)
Theorem lp_pool_same_needs_strides (x : expr) (t : ttype) (mode : string) (attr : attr_table) :
  infer_tensor x = Ok t -> same_mode mode = true ->
  od_get "auto_pad" attr = Some (ABytes mode) -> od_get "strides" attr = None ->
  lp_pool_v1 [Some x] attr = Err (KeyError "strides").
Proof.
  intros Hx Hm Ha Hs. unfold lp_pool_v1, lp_pool_calc, typed_input.
  cbn -[infer_tensor same_mode od_set od_get]. rewrite Hx. cbn -[same_mode od_set od_get].
  rewrite Ha. cbn -[same_mode od_set od_get]. rewrite Hm.
  unfold strides_of, od_find. rewrite od_get_set_ne by discriminate. now rewrite Hs.
Qed.

Lemma lp_pool_same_needs_strides_witness :
  lp_pool_v1 [Some (Var "x" (TType [DInt 1; DInt 1; DInt 4; DInt 4] "float32"))]
             [("auto_pad", ABytes "SAME_UPPER"); ("kernel_shape", AInts [2; 2]%Z)]
  = Err (KeyError "strides").
Proof. apply (lp_pool_same_needs_strides _ (TType [DInt 1; DInt 1; DInt 4; DInt 4] "float32") "SAME_UPPER");
  reflexivity. Defined.

End Scaled.
