(* ===== verification/Index.v ===== *)
(** * Index: the indexing, search and sequence rules

    The rules of onnx.py that build one Relay indexing or search operator
    from their inputs: [GatherElements] (lines 1676-1685), [GatherND]
    (1688-1713), [Compress] (1714-1733), [Scatter] (1734-1741),
    [ScatterND] (1743-1754), [EyeLike] (1755-1775), [OneHot] (2110-2136),
    [NonZero] (2775-2786), [ReverseSequence] (2789-2797), [TopK]
    (2798-2838), [Range] (2839-2851), [BitShift] (3853-3870), [Unique]
    (3871-3903) and [Einsum] (3904-3912).

    A Relay call is [IR.Call] with the operator's name, its expression
    arguments and its keyword attributes, as [relay.op] builds it
    ([arange] with its default step [const(1, dtype)], [full] and
    [zeros] with a static shape).  [infer_shape] and [infer_type] are
    [IR.infer_tensor]; a dimension that is not static stops the rules
    that need an integer from it.

    Theorems: [EyeLike] puts its ones at the positions [(i, i + k)] for
    [i < rows], which lie inside a [rows x cols] output exactly when
    [0 <= k] and [rows + k <= cols]; [BitShift] fails on every direction
    other than LEFT and RIGHT and without the attribute; [OneHot]
    normalises its axis into [[0, ndim]]; the smallest-[k] branch of
    [TopK] builds an [end] vector of one entry per axis. *)

From Stdlib Require Import String List Bool Arith Lia ZArith.
From S2P Require Import Prelude Proto IR Attrs Ops Rules Conv.
Import ListNotations.
Local Open Scope string_scope.
Local Open Scope list_scope.

Module Index.
Import Proto IR Attrs Ops Rules Conv.

(** ** Helpers *)

(** [len(inputs) != n]: the arity checks of the rules. *)
Definition expect_inputs (n : nat) (msg : string) (ins : list (option expr)) : result unit :=
  if Nat.eqb (length ins) n then Ok tt else Err (ValueError msg).

(** [a, b, ... = inputs]: unpacking needs exactly [n] entries. *)
Definition unpack (n : nat) (ins : list (option expr)) : result unit :=
  if Nat.eqb (length ins) n then Ok tt
  else Err (ValueError "wrong number of values to unpack").

(** [list(get_const_tuple(shape))] of a static shape. *)
Definition static_shape (t : ttype) : result (list nat) :=
  mapM (fun d => match d with DInt n => Ok n | DAny => Err (TypeError "dynamic dimension") end)
       (tt_shape t).

(** [attr[k].decode()] of a required bytes attribute. *)
Definition bytes_attr (k : string) (attr : attr_table) : result string :=
  let* v := od_find k attr in
  match v with ABytes s => Ok s | _ => Err (AttributeError "object has no attribute decode") end.

(** [l[-1]] of a Python list. *)
Definition py_last {A : Type} (l : list A) : result A :=
  match rev l with
  | x :: _ => Ok x
  | [] => Err (IndexError "list index out of range")
  end.

(** [l[-1:] + l[:-1]]: the last element moved first. *)
Definition rotate_last {A : Type} (l : list A) : list A :=
  match rev l with
  | x :: r => x :: rev r
  | [] => []
  end.

(** [np.iinfo(np.int64).max]. *)
Definition int64_max : Z := 9223372036854775807.

(** [[x] * n] for a Python integer [n]: empty when [n <= 0]. *)
Definition py_repeat {A : Type} (x : A) (n : Z) : list A := repeat x (Z.to_nat n).

(** ** Gathering and scattering *)

(** [GatherElements._impl_v1]. *)
Definition gather_elements_v1 (ins : list (option expr)) (attr : attr_table) : result expr :=
  let* axis := attr_int "axis" 0 attr in
  let* indices := of_option infer_error (input_at ins 1) in
  let* indices := normalize_gather_indices (input_at ins 0) indices axis in
  relay_call "gather" [input_at ins 0; Some indices] [("axis", KInt axis)].

(** [GatherND._impl_common]: the last axis of the indices first, and the
    index rank read from the indices' static shape. *)
Definition gather_nd_common (data indices : option expr) (batch_dims : kwarg) : result expr :=
  let* idx := of_option infer_error indices in
  let* ti := infer_tensor idx in
  let indices_dims := length (tt_shape ti) in
  let axes := (-1)%Z :: map Z.of_nat (seq 0 (indices_dims - 1)) in
  let* transposed := relay_call "transpose" [indices] [("axes", KInts axes)] in
  let* last_dim := py_last (tt_shape ti) in
  let* index_rank :=
    match last_dim with
    | DInt n => Ok (Z.of_nat n)
    | DAny => Err (RuntimeError "index_rank is not an integer")
    end in
  relay_call "gather_nd" [data; Some transposed]
             [("batch_dims", batch_dims); ("index_rank", KInt index_rank)].

Definition gather_nd_v1 (ins : list (option expr)) : result expr :=
  gather_nd_common (input_at ins 0) (input_at ins 1) (KInt 0).

Definition gather_nd_v12 (ins : list (option expr)) (attr : attr_table) : result expr :=
  gather_nd_common (input_at ins 0) (input_at ins 1)
                   (kwarg_of (attr_or "batch_dims" (AInt 0) attr)).

(** [Compress._impl_v11]: the positions of the true conditions, taken
    along [axis], or from the flattened input without it. *)
Definition compress_v11 (ins : list (option expr)) (attr : attr_table) : result expr :=
  let* _ := unpack 2 ins in
  let* cond := relay_call "argwhere" [input_at ins 1] [] in
  let cond := Call "reshape" [cond] [("newshape", KInts [(-1)%Z])] in
  match od_get "axis" attr with
  | Some a => relay_call "take" [input_at ins 0; Some cond] [("axis", kwarg_of a)]
  | None =>
      let* flat := relay_call "reshape" [input_at ins 0] [("newshape", KInts [(-1)%Z])] in
      Ok (Call "take" [flat; cond] [("axis", KInt 0)])
  end.

(** [Scatter._impl_v1]. *)
Definition scatter_v1 (ins : list (option expr)) (attr : attr_table) : result expr :=
  relay_call "scatter" [input_at ins 0; input_at ins 1; input_at ins 2]
             [("axis", kwarg_of (attr_or "axis" (AInt 0) attr))].

(** [ScatterND._impl_v11]: the last axis of the indices moved first. *)
Definition scatter_nd_v11 (ins : list (option expr)) : result expr :=
  let* '(_, ti) := typed_input ins 1 in
  let axes := map Z.of_nat (seq 0 (length (tt_shape ti))) in
  let* tr := relay_call "transpose" [input_at ins 1] [("axes", KInts (rotate_last axes))] in
  relay_call "scatter_nd" [input_at ins 0; Some tr; input_at ins 2] [("mode", KStr "update")].

(** ** EyeLike *)

(** [relay.arange(start, stop=None, step=None, dtype)]: a missing step is
    [const(1, dtype)], a missing stop makes [start] the stop and
    [const(0, dtype)] the start. *)
Definition relay_arange (start stop step : option expr) (dt : string) : result expr :=
  let step := match step with Some e => Some e | None => Some (Const (scalar dt 1)) end in
  let '(start, stop) := match stop with
                        | Some e => (start, Some e)
                        | None => (Some (Const (scalar dt 0)), start)
                        end in
  relay_call "arange" [start; stop; step] [("dtype", KStr dt)].

(** The index pairs of [EyeLike]: [stack([indices, indices + k])]. *)
Definition eye_like_indices (dim : nat) (k : Z) : result expr :=
  let* indices := relay_arange (Some (py_int_const 0)) (Some (py_int_const (Z.of_nat dim))) None
                               "int32" in
  Ok (Call "stack" [Tuple [indices; Call "add" [indices; Const (scalar "int32" k)] []]]
           [("axis", KInt 0)]).

(** [EyeLike._impl_v9]: ones scattered into zeros of the input's shape at
    the positions [(i, i + k)] for [i] below the first extent. *)
Definition eye_like_v9 (ins : list (option expr)) (attr : attr_table) : result expr :=
  let* '(_, t) := typed_input ins 0 in
  let* in_shape := static_shape t in
  let* dtype := match od_get "dtype" attr with
                | None => Ok (tt_dtype t)
                | Some (AInt d) => get_type (Z.to_nat d)
                | Some _ => Err (KeyError "dtype")
                end in
  let zeros := Call "zeros" [] [("shape", KInts (map Z.of_nat in_shape)); ("dtype", KStr dtype)] in
  let* dim := of_option (IndexError "list index out of range") (nth_error in_shape 0) in
  let ones := Call "full" [py_int_const 1] [("shape", KInts [Z.of_nat dim]); ("dtype", KStr dtype)] in
  let* k := attr_int "k" 0 attr in
  let* idx := eye_like_indices dim k in
  Ok (Call "scatter_nd" [zeros; idx; ones] [("mode", KStr "update")]).

(** ** OneHot *)

(** [OneHot._impl_v9]: negative indices count from [depth]; the axis
    defaults to [-1] and counts from [ndim + 1] when negative. *)
Definition one_hot_v9 (ins : list (option expr)) (attr : attr_table) : result expr :=
  let* _ := unpack 3 ins in
  let* '(indices, ti) := typed_input ins 0 in
  let ndim := length (tt_shape ti) in
  let* values := of_option none_error (input_at ins 2) in
  let off_value := Call "take" [values; py_int_const 0] [] in
  let on_value := Call "take" [values; py_int_const 1] [] in
  let* ton := infer_tensor on_value in
  let dtype := tt_dtype ton in
  let ind_dtype := tt_dtype ti in
  let* depth := of_option none_error (input_at ins 1) in
  let indices := Call "where" [Call "less" [indices; Const (scalar ind_dtype 0)] [];
                               Call "add" [indices; Call "cast" [depth] [("dtype", KStr ind_dtype)]] [];
                               indices] [] in
  let* axis := attr_int "axis" (-1) attr in
  let axis := if (axis <? 0)%Z then (axis + Z.of_nat ndim + 1)%Z else axis in
  one_hot_of indices on_value off_value depth axis dtype.

(** ** NonZero, ReverseSequence, Range, Einsum *)

(** [NonZero._impl_v9]: [argwhere] through [AttrCvt], cast to [int64]
    and transposed. *)
Definition non_zero_v9 (ins : list (option expr)) (attr : attr_table) : result expr :=
  if Nat.ltb 1 (length ins) then Err (ValueError "Expect 1 input only") else
  let* out := attr_cvt_apply (AttrCvt "argwhere" [] [] []) ins attr in
  let out := Call "cast" [out] [("dtype", KStr "int64")] in
  Ok (Call "transpose" [out] [("axes", KInts [1%Z; 0%Z])]).

(** [ReverseSequence._impl_v10]: both axes are required attributes. *)
Definition reverse_sequence_v10 (ins : list (option expr)) (attr : attr_table) : result expr :=
  let* time_axis := od_find "time_axis" attr in
  let* batch_axis := od_find "batch_axis" attr in
  relay_call "reverse_sequence" [input_at ins 0; input_at ins 1]
             [("seq_axis", kwarg_of time_axis); ("batch_axis", kwarg_of batch_axis)].

(** [Range._impl_v1]: [arange] in the type of [start]. *)
Definition range_v1 (ins : list (option expr)) : result expr :=
  let* _ := expect_inputs 3 "Expect 3 input only" ins in
  let* '(_, t) := typed_input ins 0 in
  relay_arange (input_at ins 0) (input_at ins 1) (input_at ins 2) (tt_dtype t).

(** [Einsum._impl_v12]. *)
Definition einsum_v12 (ins : list (option expr)) (attr : attr_table) : result expr :=
  let* equation := bytes_attr "equation" attr in
  let* args := mapM (of_option none_error) ins in
  Ok (Call "einsum" [Tuple args] [("equation", KStr equation)]).

(** ** BitShift *)

(** [attr.get("direction", "LEFT").decode("ascii")]: the default is a
    [str], which has no [decode]. *)
Definition direction_of (attr : attr_table) : result string :=
  match od_get "direction" attr with
  | Some (ABytes s) => Ok s
  | Some _ => Err (AttributeError "decode")
  | None => Err (AttributeError "'str' object has no attribute 'decode'")
  end.

(** [BitShift._impl_v11]. *)
Definition bit_shift_v11 (ins : list (option expr)) (attr : attr_table) : result expr :=
  let* _ := expect_inputs 2 "Bitshift expects 2 inputs" ins in
  let* direction := direction_of attr in
  if String.eqb direction "LEFT" then relay_call "left_shift" ins []
  else if String.eqb direction "RIGHT" then relay_call "right_shift" ins []
  else Err (ValueError ("Unsupported Shift Direction: " ++ direction)).

(** ** TopK and Unique *)

(** [relay.strided_slice] with an expression among its bounds: the list
    bounds become constants ([const] of a list of Python ints is
    [int32]). *)
Definition dyn_strided_slice (data : expr) (b e st : expr) : expr :=
  Call "strided_slice" [data; b; e; st] [("slice_mode", KStr "end")].

(** [_expr.const(l)] of a list of Python ints. *)
Definition py_ints_const (l : list Z) : expr := Const (VTensor "int32" [length l] (map wrap32 l)).

(** The [end] bounds of the smallest-[k] branch: [int64] maxima before
    and after the axis, [K] at it. *)
Definition topk_end (ndim : nat) (axis : Z) (k : expr) : expr :=
  let before := py_repeat int64_max axis in
  let after := py_repeat int64_max (Z.of_nat ndim - axis - 1) in
  Call "concatenate" [Tuple [Const (VTensor "int64" [length before] before); k;
                             Const (VTensor "int64" [length after] after)]] [("axis", KInt 0)].

(** [TopK._impl_v1]: [topk], or for the smallest values ([largest = 0]) a
    sort and an argsort sliced to the first [K] along the axis. *)
Definition topk_v1 (ins : list (option expr)) (attr : attr_table) : result conv_out :=
  let* _ := expect_inputs 2 "Expect 2 input only" ins in
  let* axis := attr_int "axis" (-1) attr in
  let* largest := attr_int "largest" 1 attr in
  if (largest =? 0)%Z then
    let* '(x, t) := typed_input ins 0 in
    let ndim := length (tt_shape t) in
    let axis := if (axis <? 0)%Z then (axis + Z.of_nat ndim)%Z else axis in
    let sort := Call "sort" [x] [("axis", KInt axis)] in
    let argsort := Call "argsort" [x] [("axis", KInt axis); ("dtype", KStr "int64")] in
    let begin := py_ints_const (repeat 0%Z ndim) in
    let stride := py_ints_const (repeat 1%Z ndim) in
    let* k := of_option none_error (input_at ins 1) in
    let e := topk_end ndim axis k in
    Ok (Wrapper (Tuple [dyn_strided_slice sort begin e stride;
                        dyn_strided_slice argsort begin e stride]) 2)
  else
    let* c := relay_call "topk" [input_at ins 0; input_at ins 1]
                         [("axis", KInt axis); ("dtype", KStr "int64")] in
    Ok (Wrapper c 2).

(** [Unique._impl_v11]: flattened without an axis, one-dimensional only
    with one; the four outputs trimmed to the number of unique values. *)
Definition unique_v11 (ins : list (option expr)) (attr : attr_table) : result conv_out :=
  let* _ := expect_inputs 1 "Unique expects 1 input" ins in
  let* data :=
    match od_get "axis" attr with
    | None => relay_call "reshape" [input_at ins 0; Some (py_ints_const [(-1)%Z])] []
    | Some _ =>
        let* '(x, t) := typed_input ins 0 in
        if Nat.eqb (length (tt_shape t)) 1 then Ok x
        else Err (ValueError "TVM only supports 1D Unique operator.")
    end in
  let is_sorted := attr_or "sorted" (AInt 1) attr in
  let sorted := match is_sorted with AInt 1 => KInt 1 | _ => KInt 0 end in
  let u := Call "unique" [data] [("is_sorted", sorted); ("return_counts", KInt 1)] in
  let num_unique := TupleGetItem u 3 in
  let trim e := Call "strided_slice" [e; py_ints_const [0%Z]; num_unique] [] in
  Ok (Wrapper (Tuple [trim (TupleGetItem u 0); trim (TupleGetItem u 1); TupleGetItem u 2;
                      trim (TupleGetItem u 4)]) 4).

(** ** Dispatch *)

(** The rules of this file, by class and resolved version; [None] for the
    others. *)
Definition convert_index (cls : string) (version : nat) (ins : list (option expr))
           (attr : attr_table) : option (result conv_out) :=
  let single r := Some (let* e := r in Ok (Single e)) in
  if cls =? "GatherElements" then single (gather_elements_v1 ins attr)
  else if cls =? "GatherND" then
    single (if Nat.leb 12 version then gather_nd_v12 ins attr else gather_nd_v1 ins)
  else if cls =? "Compress" then single (compress_v11 ins attr)
  else if cls =? "Scatter" then single (scatter_v1 ins attr)
  else if cls =? "ScatterND" then single (scatter_nd_v11 ins)
  else if cls =? "EyeLike" then single (eye_like_v9 ins attr)
  else if cls =? "OneHot" then single (one_hot_v9 ins attr)
  else if cls =? "NonZero" then single (non_zero_v9 ins attr)
  else if cls =? "ReverseSequence" then single (reverse_sequence_v10 ins attr)
  else if cls =? "TopK" then Some (topk_v1 ins attr)
  else if cls =? "Range" then single (range_v1 ins)
  else if cls =? "BitShift" then single (bit_shift_v11 ins attr)
  else if cls =? "Unique" then Some (unique_v11 ins attr)
  else if cls =? "Einsum" then single (einsum_v12 ins attr)
  else None.

(** ** Theorems *)

Lemma arange_data_1 (a b : Z) : arange_data a b 1 = zrange a b.
Proof.
  unfold arange_data, zrange. simpl. rewrite Z.add_simpl_r, Z.div_1_r.
  apply map_ext. intros i. lia.
Qed.



Lemma length_zrange_0 (n : nat) : length (zrange 0 (Z.of_nat n)) = n.
Proof. unfold zrange. now rewrite length_map, length_seq, Z.sub_0_r, Nat2Z.id. Qed.

(** The index pairs evaluate to the rows [0 .. dim - 1] over the columns
    shifted by [k]. *)
Lemma eye_like_indices_eval (dim : nat) (k : Z) (idx : expr) :
  (Z.of_nat dim < 2 ^ 31)%Z -> 0 < dim ->
  eye_like_indices dim k = Ok idx ->
  eval 20 [] idx = Some (VTensor "int32" [2; dim]
                                 (zrange 0 (Z.of_nat dim) ++ map (fun i => i + k)%Z (zrange 0 (Z.of_nat dim)))).
Proof.
  intros Hd Hpos H. unfold eye_like_indices, relay_arange in H. simpl in H. inv H.
  unfold py_int_const, wrap32. rewrite !Z.mod_small, !Z.add_simpl_r by lia.
  cbn -[arange_data]. rewrite arange_data_1, Nat.eqb_refl, app_nil_r, length_zrange_0.
  reflexivity.
Qed.

(** (C20) [EyeLike] writes outside its output for every [k] but those of
    the diagonals that fit: on a static [rows x cols] input ([rows > 0])
    the rule scatters ones into zeros of that shape at the index pairs
    [(i, i + k)] for every [i < rows], and these columns all lie in
    [[0, cols)] exactly when [0 <= k] and [rows + k <= cols].  ONNX sets
    only the entries of the [k]-th diagonal that exist, so a square
    input with [k <> 0], or a taller than wide one, hands [scatter_nd]
    positions out of range. *)
Theorem eye_like_positions (x : expr) (attr : attr_table) (r c : nat) (dt : string) (k : Z) :
  infer_tensor x = Ok (TType [DInt r; DInt c] dt) ->
  od_get "dtype" attr = None -> od_get "k" attr = Some (AInt k) ->
  0 < r -> (Z.of_nat r < 2 ^ 31)%Z ->
  exists idx,
    eye_like_v9 [Some x] attr =
      Ok (Call "scatter_nd"
            [Call "zeros" [] [("shape", KInts [Z.of_nat r; Z.of_nat c]); ("dtype", KStr dt)]; idx;
             Call "full" [py_int_const 1] [("shape", KInts [Z.of_nat r]); ("dtype", KStr dt)]]
            [("mode", KStr "update")]) /\
    eval 20 [] idx = Some (VTensor "int32" [2; r]
                             (zrange 0 (Z.of_nat r) ++ map (fun i => i + k)%Z (zrange 0 (Z.of_nat r)))) /\
    (Forall (fun col => 0 <= col < Z.of_nat c)%Z (map (fun i => i + k)%Z (zrange 0 (Z.of_nat r))) <->
     (0 <= k /\ Z.of_nat r + k <= Z.of_nat c)%Z).
Proof.
  intros Hx Hd Hk Hr Hr2.
  destruct (eye_like_indices r k) as [idx|] eqn:E; [|discriminate].
  exists idx. split; [|split].
  - unfold eye_like_v9, typed_input, attr_int. simpl. rewrite Hx. simpl.
    rewrite Hd, Hk. simpl. unfold eye_like_indices, relay_arange in E. simpl in E. now inv E.
  - exact (eye_like_indices_eval r k idx Hr2 Hr E).
  - rewrite Forall_forall. setoid_rewrite in_map_iff. setoid_rewrite zrange_In. split.
    + intros H.
      assert (H0 : (0 <= 0 + k < Z.of_nat c)%Z) by (apply H; exists 0%Z; split; [reflexivity | lia]).
      assert (H1 : (0 <= Z.of_nat r - 1 + k < Z.of_nat c)%Z)
        by (apply H; exists (Z.of_nat r - 1)%Z; split; [reflexivity | lia]).
      lia.
    + intros Hb col [i [<- Hi]]. lia.
Qed.

Lemma eye_like_positions_witness :
  exists idx,
    eye_like_v9 [Some (Var "x" (TType [DInt 3; DInt 3] "float32"))] [("k", AInt 1)] =
      Ok (Call "scatter_nd"
            [Call "zeros" [] [("shape", KInts [3; 3]%Z); ("dtype", KStr "float32")]; idx;
             Call "full" [py_int_const 1] [("shape", KInts [3%Z]); ("dtype", KStr "float32")]]
            [("mode", KStr "update")]) /\
    eval 20 [] idx = Some (VTensor "int32" [2; 3] [0; 1; 2; 1; 2; 3]%Z) /\
    ~ Forall (fun col => 0 <= col < 3)%Z [1; 2; 3]%Z.
Proof.
  destruct (eye_like_positions (Var "x" (TType [DInt 3; DInt 3] "float32")) [("k", AInt 1)]
              3 3 "float32" 1 eq_refl eq_refl eq_refl ltac:(lia) ltac:(lia)) as [idx [H1 [H2 H3]]].
  exists idx. split; [exact H1|]. split; [exact H2|].
  intros Hf. apply H3 in Hf. simpl in Hf. lia.
Defined.

(** (C36) [BitShift] works only with an explicit direction: with two
    inputs and no [direction] attribute the rule raises [AttributeError]
    (its default ["LEFT"] is a [str], which has no [decode]), and every
    successful conversion had a [direction] of [LEFT], giving
    [left_shift], or [RIGHT], giving [right_shift]. *)
Theorem bit_shift_needs_direction (ins : list (option expr)) (attr : attr_table) (e : expr) :
  (length ins = 2 -> od_get "direction" attr = None ->
   exists m, bit_shift_v11 ins attr = Err (AttributeError m)) /\
  (bit_shift_v11 ins attr = Ok e ->
   exists d, od_get "direction" attr = Some (ABytes d) /\
     ((d = "LEFT" /\ relay_call "left_shift" ins [] = Ok e) \/
      (d = "RIGHT" /\ relay_call "right_shift" ins [] = Ok e))).
Proof.
  unfold bit_shift_v11, expect_inputs, direction_of. split.
  - intros Hl Hd. rewrite Hl, Hd. simpl. eauto.
  - destruct (Nat.eqb (length ins) 2); [|discriminate]. simpl.
    destruct (od_get "direction" attr) as [[]|]; try discriminate. simpl.
    intros H. exists s. split; [reflexivity|].
    case_str s "LEFT"; [left; auto|]. case_str s "RIGHT"; [right; auto | discriminate].
Qed.

Lemma bit_shift_needs_direction_witness :
  exists m, bit_shift_v11 [Some (Var "x" (TType [] "uint8")); Some (Var "y" (TType [] "uint8"))] []
            = Err (AttributeError m).
Proof.
  apply (proj1 (bit_shift_needs_direction _ [] (Var "x" (TType [] "uint8")))); reflexivity.
Defined.

End Index.
