(* ===== verification/Resize.v ===== *)
(** * Resize: the [Upsample] and [Resize] rules

    [Upsample._impl_v9] (onnx.py, lines 1336-1410) and [Resize]
    (lines 2664-2774: [_impl_v10], [_impl_v11], [_impl_v13] and their
    shared [v11_13_common]).  Both read their scales or target sizes
    from an attribute, a parameter, a constant or a computed input, pick
    a Relay method from the [mode] attribute, and build one
    [nn.upsampling], [nn.upsampling3d] or [image.resize1d/2d/3d] call.

    [relay.nn.upsampling] and [upsampling3d] (outside the sources,
    modelled from their definition) use the static operator when every
    scale is a number and the [dyn.] one, with the numbers as [float64]
    constants, as soon as one scale is an expression.  Scales are
    integers here, as all floats of the development; the default
    [cubic_coeff_a] of [-0.75] is the ratio [KRatio (-3) 4].

    Theorems: with a computed scales tensor, a 4-d [Upsample] reads its
    height scale at position 3 and its width scale at position 4 of a
    tensor of 4 scales, so with [take]'s clipping both become the width
    scale (a bug); [Resize] of every version raises [AttributeError]
    without a [mode] attribute, and [Upsample] raises
    [OpAttributeInvalid], where ONNX defaults the mode to [nearest]. *)

From Stdlib Require Import String List Bool Arith Lia ZArith.
From S2P Require Import Prelude Proto IR Attrs Ops Rules Conv Tensor.
Import ListNotations.
Local Open Scope string_scope.
Local Open Scope list_scope.

Module Resize.
Import Proto IR Attrs Ops Rules Conv Tensor.

(** ** Scales *)

(** A scale argument of [upsampling]: a Python number or a Relay
    expression. *)
Inductive scale_arg : Type :=
| SNum (z : Z)
| SExpr (e : expr).

(** [relay.nn.upsampling] / [upsampling3d]: numbers go to attributes of
    the static operator; with an expression among the scales, every
    number becomes [const(v, "float64")] and the dynamic operator takes
    the scales as arguments. *)
Definition relay_upsampling (name : string) (x : expr) (scales : list (string * scale_arg))
           (attrs : list (string * kwarg)) : expr :=
  if existsb (fun kv => match snd kv with SExpr _ => true | SNum _ => false end) scales
  then Call ("dyn." ++ name)
            (x :: map (fun kv => match snd kv with
                                 | SExpr e => e
                                 | SNum z => Const (scalar "float64" z)
                                 end) scales) attrs
  else Call name [x] (map (fun kv => match snd kv with
                                     | SNum z => (fst kv, KFloat z)
                                     | SExpr _ => (fst kv, KNone)
                                     end) scales ++ attrs).

(** Where [Upsample] found its scales: a list of numbers (the attribute,
    a parameter's array or a constant's data) or an expression. *)
Inductive scales_src : Type :=
| ScList (l : list Z)
| ScExpr (e : expr).

(** ** Upsample *)

(** [mode] of [Upsample]: compared with [b"nearest"] and [b"linear"]. *)
Definition upsample_method (attr : attr_table) (dims : nat) : result string :=
  match od_get "mode" attr with
  | Some (ABytes m) =>
      if String.eqb m "nearest" then Ok "nearest_neighbor"
      else if String.eqb m "linear" then Ok (if Nat.eqb dims 5 then "trilinear" else "bilinear")
      else Err (OpAttributeInvalid "Value in attribute mode of operator Upsample is not valid.")
  | _ => Err (OpAttributeInvalid "Value in attribute mode of operator Upsample is not valid.")
  end.

(** The scales of [Upsample._impl_v9]: the [scales] attribute when it is
    a non-empty list, otherwise the second input, from the parameters
    when it names one; a constant gives its data. *)
Definition upsample_scales (ins : list (option expr)) (attr : attr_table) (params : odict value)
  : result scales_src :=
  let* sc :=
    if attr_truthy (od_get "scales" attr) then
      match od_get "scales" attr with
      | Some (AFloats l) => Ok (ScList l)
      | _ => Err (TypeError "object is not subscriptable")
      end
    else
      let* _ := py_assert (Nat.eqb (length ins) 2) "Upsample op takes 2 inputs" in
      match od_get (get_name (input_at ins 1)) params with
      | Some (VTensor _ _ d) => Ok (ScList d)
      | Some _ => Err (TypeError "not an array")
      | None =>
          match input_at ins 1 with
          | Some e => Ok (ScExpr e)
          | None => Err (TypeError "'NoneType' object is not subscriptable")
          end
      end in
  match sc with
  | ScExpr (Const (VTensor _ _ d)) => Ok (ScList d)
  | sc => Ok sc
  end.

Definition upsample_v9 (ins : list (option expr)) (attr : attr_table) (params : odict value)
  : result expr :=
  let* '(x, t) := typed_input ins 0 in
  let dims := length (tt_shape t) in
  let* scales := upsample_scales ins attr params in
  let* _ := match scales with
            | ScList (a :: b :: _) => py_assert ((a =? 1) && (b =? 1))%Z "scales[0] == 1.0 and scales[1] == 1.0"
            | ScList _ => Err (IndexError "list index out of range")
            | ScExpr _ => Ok tt
            end in
  let* method := upsample_method attr dims in
  let take_at s i := SExpr (Call "take" [s; py_int_const i] []) in
  if Nat.eqb dims 5 then
    let* '(sh, sw, sd) :=
      match scales with
      | ScExpr s => Ok (take_at s 3%Z, take_at s 4%Z, take_at s 1%Z)
      | ScList l =>
          let* _ := py_assert (Nat.eqb (length l) 5) "len(scales) == 5" in
          let* h := py_getitem l (-2)%Z in let* w := py_getitem l (-1)%Z in let* d := py_getitem l (-3)%Z in
          Ok (SNum h, SNum w, SNum d)
      end in
    Ok (relay_upsampling "nn.upsampling3d" x [("scale_d", sd); ("scale_h", sh); ("scale_w", sw)]
          [("layout", KStr "NCDHW"); ("method", KStr method);
           ("coordinate_transformation_mode", KStr "asymmetric")])
  else
    let* '(sh, sw) :=
      match scales with
      | ScExpr s => Ok (take_at s 3%Z, take_at s 4%Z)
      | ScList l =>
          let* _ := py_assert (Nat.eqb (length l) 4) "len(scales) == 4" in
          let* h := py_getitem l (-2)%Z in let* w := py_getitem l (-1)%Z in
          Ok (SNum h, SNum w)
      end in
    Ok (relay_upsampling "nn.upsampling" x [("scale_h", sh); ("scale_w", sw)]
          [("layout", KStr "NCHW"); ("method", KStr method); ("align_corners", KInt 0)]).

(** ** Resize *)

(** [attr.get(k, default).decode("ascii")]: a missing attribute without a
    default is [None], which has no [decode]. *)
Definition decode_attr (k : string) (dflt : option string) (attr : attr_table) : result string :=
  match od_get k attr, dflt with
  | Some (ABytes s), _ => Ok s
  | Some _, _ => Err (AttributeError "decode")
  | None, Some d => Ok d
  | None, None => Err (AttributeError "'NoneType' object has no attribute 'decode'")
  end.

(** The [mode] of [Resize]. *)
Definition resize_method (mode : string) : result string :=
  if String.eqb mode "nearest" then Ok "nearest_neighbor"
  else if String.eqb mode "linear" then Ok "linear"
  else if String.eqb mode "cubic" then Ok "cubic"
  else Err (OpAttributeInvalid "Value in attribute mode of operator Resize is not valid.").

(** [_op.cast(shape_of(x), dtype) * scale]. *)
Definition scaled_size (x : expr) (dtype : string) (scale : expr) : result expr :=
  let* sh := shape_of x "int64" in
  Ok (Call "multiply" [Call "cast" [sh] [("dtype", KStr dtype)]; scale] []).

(** [fold_constant(_op.strided_slice(size, [2], [k]))]. *)
Definition out_size (size : option expr) (k : Z) : result expr :=
  let* e := relay_call "strided_slice" [size] [("begin", KInts [2%Z]); ("end", KInts [k])] in
  Ok (fold_constant e).

(** The [image.resize1d/2d/3d] call of a rank, with its layout. *)
Definition resize_call (ndims : nat) : result (string * string * Z) :=
  match ndims with
  | 3 => Ok ("image.resize1d", "NCW", 3%Z)
  | 4 => Ok ("image.resize2d", "NCHW", 4%Z)
  | 5 => Ok ("image.resize3d", "NCDHW", 5%Z)
  | _ => Err (NotImplementedError "Resize only supports 3, 4, or 5 dims")
  end.

(** [Resize._impl_v10]: the output size is the input's shape times the
    [scales] input. *)
Definition resize_v10 (ins : list (option expr)) (attr : attr_table) : result expr :=
  let* mode := decode_attr "mode" None attr in
  let* method := resize_method mode in
  let* x := of_option infer_error (input_at ins 0) in
  let* sc := of_option infer_error (input_at ins 1) in
  let* tsc := infer_tensor sc in
  let* size := scaled_size x (tt_dtype tsc) sc in
  let* '(_, t) := typed_input ins 0 in
  let* '(name, layout, k) := resize_call (length (tt_shape t)) in
  let* os := out_size (Some size) k in
  Ok (Call name [x; os] [("layout", KStr layout); ("method", KStr method);
                         ("coordinate_transformation_mode", KStr "asymmetric")]).

(** [Resize.v11_13_common]. *)
Definition resize_common (ins : list (option expr)) (size : option expr) (attr : attr_table)
  : result expr :=
  let* '(x, t) := typed_input ins 0 in
  let ndims := length (tt_shape t) in
  let* mode := decode_attr "mode" None attr in
  let* method := resize_method mode in
  let* coord := decode_attr "coordinate_transformation_mode" (Some "half_pixel") attr in
  let* nearest := decode_attr "nearest_mode" (Some "round_prefer_floor") attr in
  let alpha := match od_get "cubic_coeff_a" attr with
               | Some v => kwarg_of v
               | None => KRatio (-3) 4
               end in
  let exclude := kwarg_of (attr_or "exclude_outside" (AInt 0) attr) in
  let* _ := out_size size 4 in
  let* '(name, layout, k) := resize_call ndims in
  let* os := out_size size k in
  Ok (Call name [x; os] [("layout", KStr layout); ("method", KStr method);
                         ("coordinate_transformation_mode", KStr coord);
                         ("rounding_method", KStr nearest); ("cubic_alpha", alpha);
                         ("cubic_exclude", exclude)]).

(** [Resize._impl_v11]: [scales] or, as a fourth input, [sizes], not
    both (an empty [scales] stands for none). *)
Definition resize_v11 (ins : list (option expr)) (attr : attr_table) : result expr :=
  let* '(sc, tsc) := typed_input ins 2 in
  let scale_shape := tt_shape tsc in
  let* size :=
    if Nat.eqb (length ins) 4 then
      let* _ := py_assert (match scale_shape with [] | DInt 0 :: _ => true | _ => false end)
                          "One of scale or size should be passed, not both." in
      Ok (input_at ins 3)
    else
      let* _ := py_assert (negb (Nat.eqb (length scale_shape) 0))
                          "One of scale or size should be passed." in
      let* x := of_option infer_error (input_at ins 0) in
      let* s := scaled_size x (tt_dtype tsc) sc in Ok (Some s) in
  resize_common ins size attr.

(** [Resize._impl_v13]: [sizes] when given, and then no [scales]. *)
Definition resize_v13 (ins : list (option expr)) (attr : attr_table) : result expr :=
  let* size :=
    match input_at ins 3 with
    | Some sz =>
        let* _ := py_assert (match input_at ins 2 with None => true | Some _ => false end)
                            "One of scale or size should be passed, not both." in
        Ok sz
    | None =>
        let* '(sc, tsc) := typed_input ins 2 in
        let* _ := py_assert (negb (Nat.eqb (length (tt_shape tsc)) 0))
                            "One of scale or size should be passed." in
        let* x := of_option infer_error (input_at ins 0) in
        scaled_size x (tt_dtype tsc) sc
    end in
  resize_common ins (Some size) attr.

(** ** Dispatch *)

Definition convert_resize (cls : string) (version : nat) (ins : list (option expr))
           (attr : attr_table) (params : odict value) : option (result expr) :=
  if cls =? "Upsample" then Some (upsample_v9 ins attr params)
  else if cls =? "Resize" then
    Some (if Nat.leb 13 version then resize_v13 ins attr
          else if Nat.leb 11 version then resize_v11 ins attr
          else resize_v10 ins attr)
  else None.

(** ** Theorems *)

(** (C21) [Upsample]'s dynamic scales are read at the wrong positions: for
    a 4-d input whose scales come from a computed tensor (not an
    attribute, a parameter or a constant), the rule builds the dynamic
    upsampling with [take(scales, 3)] as the height scale and
    [take(scales, 4)] as the width scale.  On the 4 scales
    [[sN; sC; sH; sW]] of an NCHW input both evaluate to [sW] (position 4
    is clipped to 3): the height is scaled by the width's factor. *)
Theorem upsample_dynamic_scales (x s : expr) (attr : attr_table) (params env : odict value)
        (f : nat) (dt sdt : string) (n c h w : nat) (a b sh sw : Z) :
  infer_tensor x = Ok (TType [DInt n; DInt c; DInt h; DInt w] dt) ->
  attr_truthy (od_get "scales" attr) = false ->
  od_get "mode" attr = Some (ABytes "nearest") ->
  od_get (get_name (Some s)) params = None ->
  (forall v, s <> Const v) ->
  eval f env s = Some (VTensor sdt [4] [a; b; sh; sw]) ->
  exists eh ew,
    upsample_v9 [Some x; Some s] attr params =
      Ok (Call "dyn.nn.upsampling" [x; eh; ew]
             [("layout", KStr "NCHW"); ("method", KStr "nearest_neighbor"); ("align_corners", KInt 0)]) /\
    eval (S (S (S f))) env eh = Some (VTensor sdt [] [sw]) /\
    eval (S (S (S f))) env ew = Some (VTensor sdt [] [sw]).
Proof.
  intros Hx Hsc Hm Hp Hc Hs.
  assert (Hs' : eval (S f) env s = Some (VTensor sdt [4] [a; b; sh; sw]))
    by (apply (eval_mono f); [lia | exact Hs]).
  destruct f as [|f]; [discriminate|].
  do 2 eexists. split; [|split].
  - unfold upsample_v9, upsample_scales, typed_input, upsample_method. simpl. rewrite Hx.
    simpl. rewrite Hsc. simpl.
    destruct s; try (exfalso; eapply Hc; reflexivity); simpl in Hp |- *; rewrite Hp, Hm;
      reflexivity.
  - cbn [snd]. rewrite eval_call, eval_list_cons, Hs'. reflexivity.
  - cbn [snd]. rewrite eval_call, eval_list_cons, Hs'. reflexivity.
Qed.

Lemma upsample_dynamic_scales_witness :
  exists eh ew,
    upsample_v9 [Some (Var "x" (TType [DInt 1; DInt 1; DInt 2; DInt 3] "float32"));
                 Some (Var "scales" (TType [DInt 4] "float32"))]
                [("mode", ABytes "nearest")] [] =
      Ok (Call "dyn.nn.upsampling" [Var "x" (TType [DInt 1; DInt 1; DInt 2; DInt 3] "float32"); eh; ew]
             [("layout", KStr "NCHW"); ("method", KStr "nearest_neighbor"); ("align_corners", KInt 0)]) /\
    eval 4 [("scales", VTensor "float32" [4] [1; 1; 2; 3]%Z)] eh = Some (VTensor "float32" [] [3%Z]) /\
    eval 4 [("scales", VTensor "float32" [4] [1; 1; 2; 3]%Z)] ew = Some (VTensor "float32" [] [3%Z]).
Proof.
  apply (upsample_dynamic_scales _ _ _ _ _ 1 "float32" "float32" 1 1 2 3 1 1 2 3);
    try reflexivity; discriminate.
Defined.

(** (C37) [Resize] and [Upsample] need an explicit [mode], although ONNX
    defaults it to [nearest]: without it [Resize]-10 raises
    [AttributeError] ([None] has no [decode]), so does the common part
    of [Resize]-11 and 13 (on every input it reaches, for instance a
    [Resize]-13 given [sizes] and no [scales]), and [Upsample]'s method
    lookup raises [OpAttributeInvalid]. *)
Theorem resize_mode_required (ins : list (option expr)) (attr : attr_table) (size : option expr)
        (x : expr) (t : ttype) (sz : expr) :
  od_get "mode" attr = None -> typed_input ins 0 = Ok (x, t) ->
  (exists m, resize_v10 ins attr = Err (AttributeError m)) /\
  (exists m, resize_common ins size attr = Err (AttributeError m)) /\
  (input_at ins 3 = Some sz -> input_at ins 2 = None ->
   exists m, resize_v13 ins attr = Err (AttributeError m)) /\
  (forall dims, exists m, upsample_method attr dims = Err (OpAttributeInvalid m)).
Proof.
  intros Hm Hx.
  assert (Hc : forall size, exists m, resize_common ins size attr = Err (AttributeError m)).
  { intros sz'. unfold resize_common. rewrite Hx. simpl. unfold decode_attr. rewrite Hm.
    simpl. eauto. }
  split; [|split; [apply Hc | split]].
  - unfold resize_v10, decode_attr. rewrite Hm. simpl. eauto.
  - intros H3 H2. unfold resize_v13. rewrite H3, H2. simpl. apply Hc.
  - intros dims. unfold upsample_method. rewrite Hm. simpl. eauto.
Qed.

Lemma resize_mode_required_witness :
  exists m, resize_v13 [Some (Var "x" (TType [DInt 1; DInt 1; DInt 2; DInt 2] "float32")); None; None;
                        Some (Const (VTensor "int64" [4] [1; 1; 4; 4]%Z))] [] = Err (AttributeError m).
Proof.
  refine (proj1 (proj2 (proj2 (resize_mode_required
            [Some (Var "x" (TType [DInt 1; DInt 1; DInt 2; DInt 2] "float32")); None; None;
             Some (Const (VTensor "int64" [4] [1; 1; 4; 4]%Z))] [] None
            (Var "x" (TType [DInt 1; DInt 1; DInt 2; DInt 2] "float32"))
            (TType [DInt 1; DInt 1; DInt 2; DInt 2] "float32")
            (Const (VTensor "int64" [4] [1; 1; 4; 4]%Z)) eq_refl eq_refl))) eq_refl eq_refl).
Defined.

End Resize.
