(* ===== verification/Quant.v ===== *)
(** * Quant: the quantization rules

    The rules of onnx.py for quantized operators, written with Relay's
    [qnn] dialect: [QuantizeLinear] and [DequantizeLinear] (lines
    3353-3386), [DynamicQuantizeLinear] (3389-3408), [QLinearConv]
    (3411-3503), [QLinearAdd] (3506-3532), [QLinearMatMul] (3535-3682),
    [QLinearMul] (3685-3707), [QLinearLeakyRelu] (3710-3729),
    [QLinearSigmoid] (3732-3751), [QLinearConcat] (3754-3777),
    [ConvInteger] (3780-3850), [QLinearAveragePool] (371-391) and
    [QLinearGlobalAveragePool] (697-728), with the helper [get_scalar]
    (206-214).

    A [qnn] operator is an [IR.Call] named [qnn.<op>], with its
    expression arguments in the order of the Python call and its keyword
    arguments as attributes; [fold_constant] is [IR.fold_constant].
    [try_resolve_var_to_const] and [ensure_scalar_shape]
    (frontend/common.py) are modelled after their definitions.

    Theorems: [QuantizeLinear] and [DequantizeLinear] unpack exactly three
    inputs, so the zero point that ONNX makes optional is required (a
    bug); [QLinearConv] with SAME padding reads [.data] of its input zero
    point, which only a parameter turned into a constant has: a zero
    point given as a constant (an initializer frozen by [freeze_params])
    or computed raises [AttributeError] (a bug). *)

From Stdlib Require Import String List Bool Arith Lia ZArith.
From S2P Require Import Prelude Proto IR Attrs Ops Rules Conv Tensor Activations Index.
Import ListNotations.
Local Open Scope string_scope.
Local Open Scope list_scope.

Module Quant.
Import Proto IR Attrs Ops Rules Conv Tensor Activations Index.

(** ** Scalars *)

(** [_op.const(params[name].numpy(), dtype)]: the parameter's array
    converted to [dtype]. *)
Definition retype (dtype : string) (v : value) : result value :=
  match v with
  | VTensor _ sh d => Ok (VTensor dtype sh d)
  | VReal _ n d => Ok (VReal dtype n d)
  | VTuple _ => Err (TypeError "not an array")
  end.

(** [get_scalar(x, params, dtype)]: a parameter becomes a constant;
    otherwise a tensor of rank at most one, squeezed and cast. *)
Definition get_scalar (x : option expr) (params : odict value) (dtype : string) : result expr :=
  let param := match x with Some (Var n _) => od_get n params | _ => None end in
  match param with
  | Some v => let* v := retype dtype v in Ok (Const v)
  | None =>
      let* xe := of_option infer_error x in
      let* t := infer_tensor xe in
      let rank := length (tt_shape t) in
      let* _ := py_assert (Nat.leb rank 1) "scale and zero_point input must be scalars" in
      let xe := if Nat.eqb rank 1 then Call "squeeze" [xe] [("axis", KInts [0%Z])] else xe in
      Ok (Call "cast" [xe] [("dtype", KStr dtype)])
  end.

(** [x.data] of a Relay expression: only a constant has it. *)
Definition expr_data (e : expr) : result value :=
  match e with
  | Const v => Ok v
  | _ => Err (AttributeError "data")
  end.

(** [_op.cast(e, dt)]. *)
Definition cast (e : expr) (dt : string) : expr := Call "cast" [e] [("dtype", KStr dt)].

(** [_op.const(0, dtype="int32")]. *)
Definition zero_i32 : expr := Const (scalar "int32" 0).

(** ** QuantizeLinear and DequantizeLinear *)

(** [QuantizeLinear._impl_v10] and [_impl_v13]: [data, scale, zp =
    inputs]; from opset 13 the axis attribute (default 1) applies to
    inputs of rank at least 2. *)
Definition quantize_linear (v13 : bool) (ins : list (option expr)) (attr : attr_table)
  : result expr :=
  let* _ := unpack 3 ins in
  let* zp := of_option infer_error (input_at ins 2) in
  let* tzp := infer_tensor zp in
  let* axis :=
    if v13 then
      let axis := kwarg_of (attr_or "axis" (AInt 1) attr) in
      let* r := rank_of ins 0 in
      Ok (if Nat.ltb r 2 then KInt 0 else axis)
    else Ok (KInt 0) in
  relay_call "qnn.quantize" [input_at ins 0; input_at ins 1; Some (cast zp "int32")]
             [("axis", axis); ("out_dtype", KStr (tt_dtype tzp))].

(** [DequantizeLinear._impl_v10] and [_impl_v13]. *)
Definition dequantize_linear (v13 : bool) (ins : list (option expr)) (attr : attr_table)
  : result expr :=
  let* _ := unpack 3 ins in
  let* axis :=
    if v13 then
      let axis := kwarg_of (attr_or "axis" (AInt 1) attr) in
      let* r := rank_of ins 0 in
      Ok (if Nat.leb r 1 then KInt 0 else axis)
    else Ok (KInt 0) in
  let* zp := of_option none_error (input_at ins 2) in
  relay_call "qnn.dequantize" [input_at ins 0; input_at ins 1; Some (cast zp "int32")]
             [("axis", axis)].

(** [DynamicQuantizeLinear._impl_v11]: scale and zero point from the
    range of the data, widened to contain 0, over the 255 steps of
    [uint8]. *)
Definition dynamic_quantize_linear_v11 (ins : list (option expr)) : result conv_out :=
  let* '(data, t) := typed_input ins 0 in
  let dt := tt_dtype t in
  let zero := Const (scalar dt 0) in
  let maximum := Call "maximum" [zero; Call "max" [data] []] [] in
  let minimum := Call "minimum" [zero; Call "min" [data] []] [] in
  let scale := Call "divide" [Call "subtract" [maximum; minimum] []; Const (scalar dt 255)] [] in
  let zp := Call "subtract" [zero; Call "divide" [Call "min" [data] []; scale] []] [] in
  let zp := cast (Call "round" [Call "clip" [zp] [("a_min", KInt 0); ("a_max", KInt 255)]] [])
                 "uint8" in
  Ok (Wrapper (Tuple [Call "qnn.quantize" [data; scale; cast zp "int32"]
                           [("axis", KInt 0); ("out_dtype", KStr "uint8")]; scale; zp]) 3).

(** ** QLinearConv and ConvInteger *)

(** The [auto_pad] handling of [QLinearConv] and [ConvInteger] (as in
    [Conv]): SAME pads the data with [autopad] and [pad_value], which is
    only computed there; VALID sets zero [pads]. *)
Definition conv_auto_pad (data : expr) (ndim : nat) (attr : attr_table) (pad_value : result expr)
  : result (attr_table * expr) :=
  match od_get "auto_pad" attr with
  | None => Ok (attr, data)
  | Some v =>
      let* mode := decode v in
      let attr := od_set "auto_pad" (ABytes mode) attr in
      let* '(attr, data) :=
        if same_mode mode then
          let* strides := ints_attr "strides" (repeat 1%Z (ndim - 2)) attr in
          let* ks := kernel_shape_of attr in
          let* dil := ints_attr "dilations" (repeat 1%Z (ndim - 2)) attr in
          let* pv := pad_value in
          let* data := autopad data strides ks dil ndim false mode pv in
          Ok (attr, data)
        else if mode =? "VALID" then Ok (od_set "pads" (AInts (repeat 0%Z (ndim - 2))) attr, data)
        else if mode =? "NOTSET" then Ok (attr, data)
        else Err (invalid_auto_pad mode "Conv") in
      Ok (od_del "auto_pad" attr, data)
  end.

(** The kernel shape from the weight when the attribute is absent. *)
Definition default_kernel_shape (kshape : list Z) (attr : attr_table) : attr_table :=
  if od_mem "kernel_shape" attr then attr else od_set "kernel_shape" (AInts (skipn 2 kshape)) attr.

(** The [qnn.conv2d] keywords: kernel size, output channels, strides,
    padding, dilation and groups with their defaults. *)
Definition qconv_kwargs (attr : attr_table) (ndim : nat) (kshape : list Z)
  : result (list (string * kwarg)) :=
  let* out_channels := of_option (IndexError "tuple index out of range") (nth_error kshape 0) in
  let dilation := attr_or "dilations" (AInts (repeat 1%Z (ndim - 2))) attr in
  let strides := attr_or "strides" (AInts (repeat 1%Z (ndim - 2))) attr in
  let padding := attr_or "pads" (AInt 0) attr in
  let groups := attr_or "group" (AInt 1) attr in
  let* ks := od_find "kernel_shape" attr in
  Ok [("kernel_size", kwarg_of ks); ("channels", KInt out_channels);
      ("strides", kwarg_of strides); ("padding", kwarg_of padding);
      ("dilation", kwarg_of dilation); ("groups", kwarg_of groups)].

(** [requantize] needs a constant output scale; otherwise the result is
    dequantized and quantized again. *)
Definition requantize_or (out rq y_scale y_zp : expr) (out_dtype : string) (axis : Z)
                         (extra : list (string * kwarg)) : expr :=
  match y_scale with
  | Const _ =>
      Call "qnn.requantize" [out; rq; zero_i32; y_scale; y_zp]
           ([("axis", KInt axis)] ++ extra ++ [("out_dtype", KStr out_dtype)])
  | _ =>
      let out := Call "qnn.dequantize" [out; rq; zero_i32] [("axis", KInt 0)] in
      Call "qnn.quantize" [out; y_scale; y_zp] [("axis", KInt 0); ("out_dtype", KStr out_dtype)]
  end.

(** [QLinearConv._impl_v10]. *)
Definition qlinear_conv_v10 (ins : list (option expr)) (attr : attr_table) (params : odict value)
  : result expr :=
  let* x_scale := get_scalar (input_at ins 1) params "float32" in
  let* x_zp := get_scalar (input_at ins 2) params "int32" in
  let weight := input_at ins 3 in
  let* w_scale := get_scalar (input_at ins 4) params "float32" in
  let* w_zp := get_scalar (input_at ins 5) params "int32" in
  let* y_scale := get_scalar (input_at ins 6) params "float32" in
  let y_scale := fold_constant y_scale in
  let* y_zp := get_scalar (input_at ins 7) params "int32" in
  let* '(data, t) := typed_input ins 0 in
  let ndim := length (tt_shape t) in
  let* '(_, kt) := typed_input ins 3 in
  let* kshape := static_dims kt in
  let attr := default_kernel_shape kshape attr in
  let* '(attr, data) := conv_auto_pad data ndim attr (let* v := expr_data x_zp in Ok (Const v)) in
  let* kw := qconv_kwargs attr ndim kshape in
  if negb (Nat.eqb ndim 4)
  then Err (OpAttributeInvalid "Only 2D kernels are supported for operator QLinearConv.") else
  let* out := relay_call "qnn.conv2d" [Some data; weight; Some x_zp; Some w_zp; Some x_scale;
                                       Some w_scale] kw in
  let* out := if Nat.eqb (length ins) 9 then relay_call "nn.bias_add" [Some out; input_at ins 8] []
              else Ok out in
  let* '(_, t7) := typed_input ins 7 in
  Ok (requantize_or out (Call "multiply" [x_scale; w_scale] []) y_scale y_zp (tt_dtype t7) 0 []).

(** [ConvInteger._impl_v10]: omitted zero points are [const(0, "int32")];
    the scales are [1.0]. *)
Definition conv_integer_v10 (ins : list (option expr)) (attr : attr_table) : result expr :=
  let data_zp := match input_at ins 2 with Some e => e | None => zero_i32 end in
  let weight_zp := match input_at ins 3 with Some e => e | None => zero_i32 end in
  let* '(data, t) := typed_input ins 0 in
  let ndim := length (tt_shape t) in
  let* '(_, kt) := typed_input ins 1 in
  let* kshape := static_dims kt in
  let attr := default_kernel_shape kshape attr in
  let* '(attr, data) := conv_auto_pad data ndim attr (Ok data_zp) in
  let* kw := qconv_kwargs attr ndim kshape in
  if negb (Nat.eqb ndim 4)
  then Err (OpAttributeInvalid "Only 2D kernels are supported for operator ConvInteger.") else
  relay_call "qnn.conv2d" [Some data; input_at ins 1; Some (cast data_zp "int32");
                           Some (cast weight_zp "int32"); Some (Const (scalar "float32" 1));
                           Some (Const (scalar "float32" 1))] kw.

(** ** Dequantize, compute, quantize *)

(** [_qnn.op.dequantize(x, scale, zp)] and [_qnn.op.quantize(x, scale,
    zp, out_dtype=dt)]: the axis defaults to [-1]. *)
Definition dequantize (x scale zp : expr) : expr :=
  Call "qnn.dequantize" [x; scale; zp] [("axis", KInt (-1))].
Definition quantize (x scale zp : expr) (dt : string) : expr :=
  Call "qnn.quantize" [x; scale; zp] [("axis", KInt (-1)); ("out_dtype", KStr dt)].

(** [QLinearAdd._impl_v10] and [QLinearMul._impl_v10]: both operands
    dequantized, added or multiplied, and quantized to the type of [a];
    [QLinearMul] folds its output scale, [QLinearAdd] does not. *)
Definition qlinear_binary (op : string) (fold : bool) (ins : list (option expr))
           (params : odict value) : result expr :=
  let* a_scale := get_scalar (input_at ins 1) params "float32" in
  let* a_zp := get_scalar (input_at ins 2) params "int32" in
  let* b_scale := get_scalar (input_at ins 4) params "float32" in
  let* b_zp := get_scalar (input_at ins 5) params "int32" in
  let* c_scale := get_scalar (input_at ins 6) params "float32" in
  let c_scale := if fold then fold_constant c_scale else c_scale in
  let* c_zp := get_scalar (input_at ins 7) params "int32" in
  let* '(a, ta) := typed_input ins 0 in
  let* b := of_option none_error (input_at ins 3) in
  Ok (quantize (Call op [dequantize a a_scale a_zp; dequantize b b_scale b_zp] [])
               c_scale c_zp (tt_dtype ta)).

(** [QLinearAdd._impl_v10]: the output scale is not folded. *)
Definition qlinear_add_v10 (ins : list (option expr)) (params : odict value) : result expr :=
  qlinear_binary "add" false ins params.

(** [QLinearMul._impl_v10]: [y_scale = fold_constant(get_scalar(inputs[6], params))]. *)
Definition qlinear_mul_v10 (ins : list (option expr)) (params : odict value) : result expr :=
  qlinear_binary "multiply" true ins params.

(** [QLinearLeakyRelu._impl_v10] and [QLinearSigmoid._impl_v10]: one
    operand through a float operator. *)
Definition qlinear_unary (f : expr -> expr) (ins : list (option expr)) (params : odict value)
  : result expr :=
  let* a_scale := get_scalar (input_at ins 1) params "float32" in
  let* a_zp := get_scalar (input_at ins 2) params "int32" in
  let* y_scale := get_scalar (input_at ins 3) params "float32" in
  let y_scale := fold_constant y_scale in
  let* y_zp := get_scalar (input_at ins 4) params "int32" in
  let* '(a, ta) := typed_input ins 0 in
  Ok (quantize (f (dequantize a a_scale a_zp)) y_scale y_zp (tt_dtype ta)).

Definition qlinear_leaky_relu_v10 (ins : list (option expr)) (attr : attr_table)
           (params : odict value) : result expr :=
  let* alpha := float_attr "alpha" 1 attr in
  qlinear_unary (fun a => Call "nn.leaky_relu" [a] [("alpha", KFloat alpha)]) ins params.

Definition qlinear_sigmoid_v10 (ins : list (option expr)) (params : odict value) : result expr :=
  qlinear_unary (fun a => Call "sigmoid" [a] []) ins params.

(** [QLinearConcat._impl_v1]: after the output scale and zero point come
    triples of tensor, scale and zero point. *)
Definition qlinear_concat_v1 (ins : list (option expr)) (attr : attr_table) (params : odict value)
  : result expr :=
  let* axis := od_find "axis" attr in
  let* y_scale := get_scalar (input_at ins 0) params "float32" in
  let y_scale := fold_constant y_scale in
  let* y_zp := get_scalar (input_at ins 1) params "int32" in
  let* _ := py_assert (Nat.eqb (length ins mod 3) 2)
                      "Additional input count must be a multiple of 3" in
  let starts := map (fun j => 2 + 3 * j) (seq 0 ((length ins - 2) / 3)) in
  let* triples := mapM (fun i =>
      let* sc := get_scalar (input_at ins (i + 1)) params "float32" in
      let* zp := get_scalar (input_at ins (i + 2)) params "int32" in
      Ok (input_at ins i, sc, zp)) starts in
  let* tensors := mapM (fun t => of_option none_error (fst (fst t))) triples in
  Ok (Call "qnn.concatenate"
           [Tuple tensors; Tuple (map (fun t => snd (fst t)) triples); Tuple (map snd triples);
            y_scale; y_zp] [("axis", kwarg_of axis)]).

(** ** QLinearMatMul *)

(** [relay.const] of a numpy array without a type: [float64] becomes
    [float32] and [int64] becomes [int32]. *)
Definition const_dtype (dt : string) : string :=
  if String.eqb dt "float64" then "float32" else if String.eqb dt "int64" then "int32" else dt.

(** [try_resolve_var_to_const(x, params)] (frontend/common.py). *)
Definition try_resolve_var_to_const (x : expr) (params : odict value) : result expr :=
  match x with
  | Var n _ =>
      match od_get n params with
      | Some (VTensor dt sh d) => Ok (Const (VTensor (const_dtype dt) sh d))
      | Some _ => Err (TypeError "not an array")
      | None => Ok x
      end
  | _ => Ok x
  end.

(** [ensure_scalar_shape(x)] (frontend/common.py): a tensor of one
    element is squeezed to a scalar. *)
Definition ensure_scalar_shape (x : expr) : result expr :=
  let* t := infer_tensor x in
  match tt_shape t with
  | [] => Ok x
  | _ :: _ =>
      let* dims := static_shape t in
      let* _ := py_assert (Nat.eqb (fold_right Nat.mul 1 dims) 1)
                          "Cannot squeeze tensor shape to scalar form." in
      Ok (Call "squeeze" [x] [])
  end.

(** [try_resolve_to_const_scalar(x, dtype_override)] of [_impl_v10]. *)
Definition try_resolve_to_const_scalar (x : expr) (params : odict value)
           (dtype_override : option string) : result expr :=
  let* x2 := try_resolve_var_to_const x params in
  let* x3 := ensure_scalar_shape x2 in
  let* tx := infer_tensor x in
  let x4 := match dtype_override with
            | Some dt => if String.eqb dt (tt_dtype tx) then x3 else cast x3 dt
            | None => x3
            end in
  Ok (fold_constant x4).

(** [dtype in ["int8", "uint8"]]. *)
Definition int8_like (dt : string) : bool := String.eqb dt "int8" || String.eqb dt "uint8".

(** [QLinearMatMul._impl_v10]: two 2-d quantized operands, [qnn.dense]
    with an [int32] accumulator, then requantized to the output's type. *)
Definition qlinear_matmul_v10 (ins : list (option expr)) (params : odict value) : result expr :=
  let* _ := unpack 8 ins in
  let* ts := mapM (typed_input ins) (seq 0 8) in
  match ts with
  | [(a, ta); (a_scale, tas); (a_zp, taz); (b, tb); (b_scale, tbs); (b_zp, tbz);
     (y_scale, tys); (y_zp, tyz)] =>
      let* _ := py_assert (int8_like (tt_dtype ta)) "a_type.dtype in [int8, uint8]" in
      let* _ := py_assert (String.eqb (tt_dtype tas) "float32") "a_scale_type.dtype == float32" in
      let* _ := py_assert (String.eqb (tt_dtype taz) (tt_dtype ta)) "a_zp_type.dtype == a_type.dtype" in
      let* _ := py_assert (int8_like (tt_dtype tb)) "b_type.dtype in [int8, uint8]" in
      let* _ := py_assert (String.eqb (tt_dtype tbs) "float32") "b_scale_type.dtype == float32" in
      let* _ := py_assert (String.eqb (tt_dtype tbz) (tt_dtype tb)) "b_zp_type.dtype == b_type.dtype" in
      let* _ := py_assert (String.eqb (tt_dtype tys) "float32") "y_scale_type.dtype == float32" in
      let* _ := py_assert (int8_like (tt_dtype tyz)) "y_zp_type.dtype in [int8, uint8]" in
      let* _ := py_assert (Nat.eqb (length (tt_shape ta)) 2 && Nat.eqb (length (tt_shape tb)) 2)
                          "QLinearMatMul importer currently requires both 'a' and 'b' tensors to be 2D" in
      let* a_scale_s := try_resolve_to_const_scalar a_scale params None in
      let* a_zp_s := try_resolve_to_const_scalar a_zp params (Some "int32") in
      let* b_scale_s := try_resolve_to_const_scalar b_scale params None in
      let* b_zp_s := try_resolve_to_const_scalar b_zp params (Some "int32") in
      let* y_scale_s := try_resolve_to_const_scalar y_scale params None in
      let* y_zp_s := try_resolve_to_const_scalar y_zp params (Some "int32") in
      let* units := py_last (tt_shape tb) in
      let units := match units with DInt n => KInt (Z.of_nat n) | DAny => KNone end in
      let mm := Call "qnn.dense" [a; Call "transpose" [b] []; a_zp_s; b_zp_s; a_scale_s; b_scale_s]
                     [("units", units); ("out_dtype", KStr "int32")] in
      let mm_scale := fold_constant (Call "multiply" [a_scale_s; b_scale_s] []) in
      Ok (requantize_or mm mm_scale y_scale_s y_zp_s (tt_dtype tyz) (-1)
                        [("rounding", KStr "TONEAREST")])
  | _ => Err (ValueError "wrong number of values to unpack")
  end.

(** ** Quantized pools *)

(** [QLinearAveragePool._impl_v1]: [Pool._run_calculation] as for
    [AveragePool], on the dequantized data. *)
Definition qlinear_average_pool_v1 (ins : list (option expr)) (attr : attr_table)
           (params : odict value) : result expr :=
  let* x_scale := get_scalar (input_at ins 1) params "float32" in
  let* x_zp := get_scalar (input_at ins 2) params "int32" in
  let* y_scale := get_scalar (input_at ins 3) params "float32" in
  let y_scale := fold_constant y_scale in
  let* y_zp := get_scalar (input_at ins 4) params "int32" in
  let* '(attr, data) := pool_calc "avg_pool" ins attr in
  let* td := infer_tensor data in
  let* out := attr_cvt_checked "avg_pool" "" pool_transforms ["storage_order"]
                               [Some (dequantize data x_scale x_zp)] attr in
  Ok (quantize out y_scale y_zp (tt_dtype td)).

(** [QLinearGlobalAveragePool._impl_v1]. *)
Definition qlinear_global_average_pool_v1 (ins : list (option expr)) (params : odict value)
  : result expr :=
  let* rank := rank_of ins 0 in
  let* x_scale := get_scalar (input_at ins 1) params "float32" in
  let* x_zp := get_scalar (input_at ins 2) params "int32" in
  let* y_scale := get_scalar (input_at ins 3) params "float32" in
  let y_scale := fold_constant y_scale in
  let* y_zp := get_scalar (input_at ins 4) params "int32" in
  let* '(x, tx) := typed_input ins 0 in
  let x := dequantize x x_scale x_zp in
  let* out := match rank with
              | 3 => Ok (Call "nn.global_avg_pool1d" [x] [])
              | 4 => Ok (Call "nn.global_avg_pool2d" [x] [])
              | 5 => Ok (Call "nn.global_avg_pool3d" [x] [])
              | _ => Err (NotImplementedError "Global average pooling is only implemented for 1D, 2D, and 3D kernels")
              end in
  Ok (quantize out y_scale y_zp (tt_dtype tx)).

(** ** Dispatch *)

Definition convert_quant (cls : string) (version : nat) (ins : list (option expr))
           (attr : attr_table) (params : odict value) : option (result conv_out) :=
  let single r := Some (let* e := r in Ok (Single e)) in
  if cls =? "QuantizeLinear" then single (quantize_linear (Nat.leb 13 version) ins attr)
  else if cls =? "DequantizeLinear" then single (dequantize_linear (Nat.leb 13 version) ins attr)
  else if cls =? "DynamicQuantizeLinear" then Some (dynamic_quantize_linear_v11 ins)
  else if cls =? "QLinearConv" then single (qlinear_conv_v10 ins attr params)
  else if cls =? "QLinearConcat" then single (qlinear_concat_v1 ins attr params)
  else if cls =? "QLinearAdd" then single (qlinear_add_v10 ins params)
  else if cls =? "QLinearMatMul" then single (qlinear_matmul_v10 ins params)
  else if cls =? "QLinearMul" then single (qlinear_mul_v10 ins params)
  else if cls =? "QLinearSigmoid" then single (qlinear_sigmoid_v10 ins params)
  else if cls =? "ConvInteger" then single (conv_integer_v10 ins attr)
  else if cls =? "QLinearAveragePool" then single (qlinear_average_pool_v1 ins attr params)
  else if cls =? "QLinearGlobalAveragePool" then single (qlinear_global_average_pool_v1 ins params)
  else if cls =? "QLinearLeakyRelu" then single (qlinear_leaky_relu_v10 ins attr params)
  else None.

(** ** Sample inputs *)

(** A [QLinearConv] of a [1x1x4x4] [uint8] image with a [3x3] kernel,
    every scale and zero point a parameter but the input zero point
    [zp]. *)
Definition qc_ins (zp : expr) : list (option expr) :=
  [Some (Var "x" (TType [DInt 1; DInt 1; DInt 4; DInt 4] "uint8"));
   Some (Var "xs" (TType [] "float32")); Some zp;
   Some (Var "w" (TType [DInt 1; DInt 1; DInt 3; DInt 3] "uint8"));
   Some (Var "ws" (TType [] "float32")); Some (Var "wz" (TType [] "uint8"));
   Some (Var "ys" (TType [] "float32")); Some (Var "yz" (TType [] "uint8"))].

Definition qc_params : odict value :=
  [("xs", scalar "float32" 1); ("xz", scalar "uint8" 0); ("ws", scalar "float32" 1);
   ("wz", scalar "uint8" 0); ("ys", scalar "float32" 1); ("yz", scalar "uint8" 0)].

(** ** Theorems *)

Lemma get_scalar_cast (x : option expr) (params : odict value) (dt : string) (e : expr) :
  (forall n t, x = Some (Var n t) -> od_get n params = None) ->
  get_scalar x params dt = Ok e -> exists e', e = Call "cast" [e'] [("dtype", KStr dt)].
Proof.
  intros Hp H. unfold get_scalar in H.
  destruct x as [x|]; [|discriminate].
  assert (Hn : match x with Var n _ => od_get n params | _ => None end = None)
    by (destruct x; auto; eapply Hp; reflexivity).
  rewrite Hn in H. do 3 bind_ok H. inv H. eauto.
Qed.

Lemma conv_auto_pad_same (data : expr) (ndim : nat) (attr : attr_table) (pv : result expr)
      (m : string) (r : attr_table * expr) :
  od_get "auto_pad" attr = Some (ABytes m) -> same_mode m = true ->
  conv_auto_pad data ndim attr pv = Ok r -> exists v, pv = Ok v.
Proof.
  intros Hap Hsm H. unfold conv_auto_pad in H. rewrite Hap in H. simpl in H.
  rewrite Hsm in H. bind_ok H. do 4 bind_ok Hc. eauto.
Qed.

Lemma default_kernel_shape_get (k : string) (ks : list Z) (attr : attr_table) :
  k <> "kernel_shape" -> od_get k (default_kernel_shape ks attr) = od_get k attr.
Proof.
  intros Hk. unfold default_kernel_shape. destruct (od_mem _ _); auto.
  apply od_get_set_ne. congruence.
Qed.

(** (C23) [QuantizeLinear] and [DequantizeLinear] require the zero point
    that ONNX makes optional: with two inputs both rules raise
    [ValueError] when they unpack [data, scale, zp = inputs], at every
    opset. *)
Theorem quantize_zero_point_required (v13 : bool) (x s : expr) (attr : attr_table) :
  quantize_linear v13 [Some x; Some s] attr = Err (ValueError "wrong number of values to unpack") /\
  dequantize_linear v13 [Some x; Some s] attr = Err (ValueError "wrong number of values to unpack").
Proof. split; reflexivity. Qed.

(** (C22) [QLinearConv] with SAME padding only converts when its input
    zero point is a parameter: if the zero point input is not a variable
    bound in [params] (a constant, as an initializer becomes with
    [freeze_params], or a computed value), [get_scalar] returns a [cast],
    whose [.data] the padding reads, and the rule never succeeds. *)
Theorem qlinear_conv_same_needs_param (ins : list (option expr)) (attr : attr_table)
        (params : odict value) (m : string) :
  (forall n t, input_at ins 2 = Some (Var n t) -> od_get n params = None) ->
  od_get "auto_pad" attr = Some (ABytes m) -> same_mode m = true ->
  forall e, qlinear_conv_v10 ins attr params <> Ok e.
Proof.
  intros Hp Hap Hsm e H. unfold qlinear_conv_v10 in H. do 2 bind_ok H.
  destruct (get_scalar_cast _ _ _ _ Hp Hc0) as [e' ->].
  ok_steps H.
  match goal with
  | E : conv_auto_pad _ _ (default_kernel_shape ?ks _) _ = Ok _ |- _ =>
      rewrite <- (default_kernel_shape_get "auto_pad" ks) in Hap by discriminate;
      destruct (conv_auto_pad_same _ _ _ _ _ _ Hap Hsm E) as [v Hv]; discriminate Hv
  end.
Qed.

(** The padded convolution converts when the zero point is the
    parameter [xz], and never when it is the same value as a constant. *)
Lemma qlinear_conv_same_needs_param_witness :
  (forall n t, input_at (qc_ins (Const (scalar "uint8" 0))) 2 = Some (Var n t) ->
               od_get n qc_params = None) /\
  od_get "auto_pad" [("auto_pad", ABytes "SAME_UPPER")] = Some (ABytes "SAME_UPPER") /\
  same_mode "SAME_UPPER" = true /\
  (forall e, qlinear_conv_v10 (qc_ins (Const (scalar "uint8" 0)))
                              [("auto_pad", ABytes "SAME_UPPER")] qc_params <> Ok e) /\
  (exists e, qlinear_conv_v10 (qc_ins (Var "xz" (TType [] "uint8")))
                              [("auto_pad", ABytes "SAME_UPPER")] qc_params = Ok e).
Proof.
  refine (conj _ (conj eq_refl (conj eq_refl (conj _ _)))).
  - intros n t H. discriminate H.
  - apply (qlinear_conv_same_needs_param _ _ _ "SAME_UPPER"); [|reflexivity|reflexivity].
    intros n t H. discriminate H.
  - eexists. vm_compute. reflexivity.
Defined.

End Quant.
