(* ===== verification/Training.v ===== *)
(** * Training: the loss and optimizer rules

    The rules of onnx.py for the training operators of ONNX:
    [NegativeLogLikelihoodLoss] (lines 4006-4092, with its
    [run_calculation]), [SoftmaxCrossEntropyLoss] (4095-4125), [Adagrad]
    (4128-4175), [Adam] (4178-4242) and [Momentum] (4245-4295).  Relay's arithmetic operators
    on expressions ([+], [-], [*], [/], unary [-], [>]) are calls of
    [add], [subtract], [multiply], [divide], [negative] and [greater];
    [relay.If] is [IR.IfE]; a float constant [relay.const(f, dtype)] is a
    scalar constant whose value is the float carried as an integer, as
    everywhere in the development; [Adam]'s defaults [alpha = 0.9],
    [beta = 0.999] and [epsilon = 1e-2] are the exact ratios of
    [Scaled.qconst].

    Theorems: the optimizers return the updated tensors and then their
    accumulators, [2 n] outputs for [n] tensors ([3 n] for [Adam]), each
    the update the ONNX operator defines; [Momentum] rejects an unknown mode; the loss
    with reduction [none] keeps one value per sample and the reductions
    give a scalar of the input's type; [ignore_index] needs a target that
    is a graph variable (it reads [type_annotation], a bug otherwise);
    [SoftmaxCrossEntropyLoss] accepts any reduction and returns the
    unreduced loss for an unknown one, which [NegativeLogLikelihoodLoss]
    rejects. *)

From Stdlib Require Import String List Bool Arith Lia ZArith.
From S2P Require Import Prelude Proto IR Attrs Ops Rules Conv Tensor Activations Scaled Index.
Import ListNotations.
Local Open Scope string_scope.
Local Open Scope list_scope.

Module Training.
Import Proto IR Attrs Ops Rules Conv Tensor Activations Scaled Index.

(** ** Relay arithmetic on expressions *)

Definition radd (a b : expr) : expr := Call "add" [a; b] [].
Definition rsub (a b : expr) : expr := Call "subtract" [a; b] [].
Definition rmul (a b : expr) : expr := Call "multiply" [a; b] [].
Definition rdiv (a b : expr) : expr := Call "divide" [a; b] [].

(** [relay.const(f, dtype=dt)]. *)
Definition const_of (dt : string) (z : Z) : expr := Const (scalar dt z).

(** [attr[k]] of a numeric attribute: a [KeyError] when absent. *)
Definition req_num_attr (k : string) (attr : attr_table) : result Z :=
  let* v := od_find k attr in
  match v with
  | AFloat z | AInt z => Ok z
  | _ => Err (TypeError "must be real number")
  end.

(** [inputs[i]] used as an expression. *)
Definition expr_at (ins : list (option expr)) (i : nat) : result expr :=
  of_option none_error (input_at ins i).

(** ** NegativeLogLikelihoodLoss *)

Definition valid_reduction (r : string) : bool :=
  (r =? "mean") || (r =? "sum") || (r =? "none").

(** [attr.get("ignore_index", None)]. *)
Definition ignore_index_attr (attr : attr_table) : result (option Z) :=
  match od_get "ignore_index" attr with
  | None => Ok None
  | Some (AInt z) => Ok (Some z)
  | Some _ => Err (TypeError "ignore_index")
  end.

(** [attr.get("reduction", b"mean").decode("utf-8")]. *)
Definition reduction_attr (attr : attr_table) : result string :=
  match od_get "reduction" attr with
  | None => Ok "mean"
  | Some v => decode v
  end.

(** [target_tensor.type_annotation.dtype]: only a variable has a type
    annotation. *)
Definition annotation_dtype (e : expr) : result string :=
  match e with
  | Var _ t => Ok (tt_dtype t)
  | _ => Err (AttributeError "type_annotation")
  end.

(** [relay.ones([channels], dtype)] of the input's second extent. *)
Definition ones_weight (x : expr) : result expr :=
  let* t := infer_tensor x in
  let* c := py_getitem (tt_shape t) 1 in
  match c with
  | DInt n => Ok (Call "ones" [] [("shape", KInts [Z.of_nat n]); ("dtype", KStr (tt_dtype t))])
  | DAny => Err (TypeError "Any is not an integer extent")
  end.

(** [NegativeLogLikelihoodLoss.run_calculation]: the loss per sample and
    the total weight of the samples. *)
Definition nll_calc (input : option expr) (target : expr) (weight : option expr)
           (ignore_index : option Z) : result (expr * expr) :=
  let* nt := normalize_gather_indices input target 1 in
  let* x := of_option none_error input in
  let* w := match weight with Some w => Ok w | None => ones_weight x end in
  let loss := Call "negative" [Call "gather" [x; Call "expand_dims" [nt] [("axis", KInt 1)]]
                                    [("axis", KInt 1)]] [] in
  let loss := Call "squeeze" [loss] [("axis", KInts [1%Z])] in
  let flat := Call "nn.batch_flatten" [Call "expand_dims" [nt] [("axis", KInt 0)]] [] in
  let sw := Call "reshape_like" [Call "gather_nd" [w; flat] []; loss] [] in
  let loss := rmul loss sw in
  let* '(loss, sw) :=
    match ignore_index with
    | None => Ok (loss, sw)
    | Some ii =>
        let* tdt := annotation_dtype target in
        let mask := Call "equal" [target; Const (scalar tdt ii)] [] in
        let mask := rsub (const_of "int8" 1) (Call "cast" [mask] [("dtype", KStr "int8")]) in
        let* tl := infer_tensor loss in
        Ok (Call "where" [mask; loss; const_of (tt_dtype tl) 0] [],
            rmul sw (Call "cast_like" [mask; sw] []))
    end in
  Ok (loss, Call "sum" [sw] []).

(** The reductions shared by both losses. *)
Definition reduce_loss (reduction : string) (loss total : expr) : expr :=
  if reduction =? "mean" then rdiv (Call "sum" [loss] []) total
  else if reduction =? "sum" then Call "sum" [loss] []
  else loss.

(** [inputs[2] if len(inputs) == 3 else None]. *)
Definition weight_input (ins : list (option expr)) : option expr :=
  if Nat.eqb (length ins) 3 then input_at ins 2 else None.

(** [NegativeLogLikelihoodLoss._impl_v13]. *)
Definition nll_loss_v13 (ins : list (option expr)) (attr : attr_table) : result expr :=
  let* ii := ignore_index_attr attr in
  let* reduction := reduction_attr attr in
  let* _ := if valid_reduction reduction then Ok tt
            else Err (ValueError ("Unknown reduction type " ++ reduction)) in
  let* target := expr_at ins 1 in
  let* '(loss, total) := nll_calc (input_at ins 0) target (weight_input ins) ii in
  Ok (reduce_loss reduction loss total).

(** [SoftmaxCrossEntropyLoss._impl_v13]: the loss of [log_softmax] on
    axis 1, with the log-probabilities as a second output when the node
    has two. *)
Definition sce_loss_v13 (ins : list (option expr)) (attr : attr_table) : result conv_out :=
  let* ii := ignore_index_attr attr in
  let* reduction := reduction_attr attr in
  let* target := expr_at ins 1 in
  let* k := match od_get "tvm_custom" attr with
            | Some (ATvmCustom _ k) => Ok k
            | _ => Err (KeyError "tvm_custom")
            end in
  let* x := expr_at ins 0 in
  let lsm := log_softmax_calc x [1%Z] in
  let* '(loss, total) := nll_calc (Some lsm) target (weight_input ins) ii in
  let loss := reduce_loss reduction loss total in
  Ok (if Nat.eqb k 2 then Wrapper (Tuple [loss; lsm]) 2 else Single loss).

(** ** Adagrad and Momentum *)

(** One pass of [Adagrad._impl_v1]'s loop: the new value of [x] and its
    new accumulated squared gradient. *)
Definition adagrad_step (r0 t decay norm eps one : expr) (x g acc : expr) : expr * expr :=
  let r := rdiv r0 (radd one (rmul t decay)) in
  let g_reg := radd (rmul norm x) g in
  let acc' := radd acc (rmul g_reg g_reg) in
  let h := radd (Call "sqrt" [acc'] []) eps in
  (rsub x (rdiv (rmul r g_reg) h), acc').

(** The optimizers' input layout [R, T, x_1..x_n, g_1..g_n, a_1..a_n]:
    the [i]-th triple. *)
Definition triple_at (ins : list (option expr)) (n i : nat) : result (expr * expr * expr) :=
  let* x := expr_at ins (i + 2) in
  let* g := expr_at ins (i + 2 + n) in
  let* a := expr_at ins (i + 2 + 2 * n) in
  Ok (x, g, a).

(** [TupleWrapper(Tuple(outputs + accumulators), len)]. *)
Definition updates_out (steps : list (expr * expr)) : conv_out :=
  let result := map fst steps ++ map snd steps in
  Wrapper (Tuple result) (length result).

(** [Adagrad._impl_v1]. *)
Definition adagrad_v1 (ins : list (option expr)) (attr : attr_table) : result conv_out :=
  let* decay := float_attr "decay_factor" 0 attr in
  let* eps := float_attr "epsilon" 0 attr in
  let* norm := float_attr "norm_coefficient" 0 attr in
  let* '(x3, t3) := typed_input ins 3 in
  let dt := tt_dtype t3 in
  let* t := expr_at ins 1 in
  let t := Call "cast_like" [t; x3] [] in
  let* _ := py_assert (Nat.eqb ((length ins - 2) mod 3) 0) "Expect triplets for remaining inputs" in
  let n := (length ins - 2) / 3 in
  let* steps := mapM (fun i =>
      let* '(x, g, a) := triple_at ins n i in
      let* r0 := expr_at ins 0 in
      Ok (adagrad_step r0 t (const_of dt decay) (const_of dt norm) (const_of dt eps) (const_of dt 1) x g a))
    (seq 0 n) in
  Ok (updates_out steps).

(** One pass of [Momentum._impl_v1]'s loop: [beta] is replaced by [1]
    at the first step ([T = 0]); [nesterov] looks ahead along the new
    momentum. *)
Definition momentum_step (mode : string) (r t alpha beta norm one : expr) (x g m : expr)
  : expr * expr :=
  let g_reg := radd (rmul norm x) g in
  let beta_adj := IfE (Call "greater" [t; const_of "int64" 0] []) beta one in
  let m' := radd (rmul alpha m) (rmul beta_adj g_reg) in
  let x' := if mode =? "standard" then rsub x (rmul r m')
            else rsub x (rmul r (radd g_reg (rmul alpha m'))) in
  (x', m').

(** [Momentum._impl_v1]: every attribute is required. *)
Definition momentum_v1 (ins : list (option expr)) (attr : attr_table) : result conv_out :=
  let* alpha := req_num_attr "alpha" attr in
  let* beta := req_num_attr "beta" attr in
  let* mode := od_find "mode" attr in
  let* mode := decode mode in
  let* norm := req_num_attr "norm_coefficient" attr in
  let* _ := py_assert ((mode =? "nesterov") || (mode =? "standard"))
                      ("Unknown momentum mode " ++ mode) in
  let* _ := py_assert (Nat.eqb ((length ins - 2) mod 3) 0) "Expect triplets for remaining inputs" in
  let n := (length ins - 2) / 3 in
  let* '(_, t3) := typed_input ins 3 in
  let dt := tt_dtype t3 in
  let* steps := mapM (fun i =>
      let* '(x, g, m) := triple_at ins n i in
      let* r := expr_at ins 0 in
      let* t := expr_at ins 1 in
      Ok (momentum_step mode r t (const_of dt alpha) (const_of dt beta) (const_of dt norm) (const_of dt 1)
                        x g m))
    (seq 0 n) in
  Ok (updates_out steps).

(** ** Adam *)

(** A float of the table in Python arithmetic ([1 - alpha]) or given to
    [relay.const]. *)
Definition float_val (v : attr_val) : result (Z * Z) :=
  match v with
  | AFloat z | AInt z => Ok (z, 1%Z)
  | ARatio n d => Ok (n, d)
  | _ => Err (TypeError "unsupported operand type(s) for -")
  end.

Definition one_minus (q : Z * Z) : Z * Z := (snd q - fst q, snd q)%Z.

(** One pass of [Adam._impl_v1]'s loop: the new value of [x], its new
    accumulated gradient and its new accumulated squared gradient; the
    bias correction of [R] applies when [T > 0]. *)
Definition adam_step (r t alpha ialpha beta ibeta eps norm norm_post one zero : expr)
           (x g v h : expr) : expr * expr * expr :=
  let g_reg := radd (rmul norm x) g in
  let v' := radd (rmul alpha v) (rmul ialpha g_reg) in
  let h' := radd (rmul beta h) (rmul (rmul ibeta g_reg) g_reg) in
  let h_sqrt := radd (Call "sqrt" [h'] []) eps in
  let true_branch := rdiv (rmul r (Call "sqrt" [rsub one (Call "power" [beta; t] [])] []))
                          (rsub one (Call "power" [alpha; t] [])) in
  let r_adj := IfE (Call "greater" [t; zero] []) true_branch r in
  let x' := rsub x (rmul r_adj (rdiv v' h_sqrt)) in
  (rmul (rsub one norm_post) x', v', h').

(** The [i]-th 4-let [x_i, g_i, v_i, h_i] of [R, T, x.., g.., v.., h..]. *)
Definition quad_at (ins : list (option expr)) (n i : nat) : result (expr * expr * expr * expr) :=
  let* x := expr_at ins (i + 2) in
  let* g := expr_at ins (i + 2 + n) in
  let* v := expr_at ins (i + 2 + 2 * n) in
  let* h := expr_at ins (i + 2 + 3 * n) in
  Ok (x, g, v, h).

(** [Adam._impl_v1]: the defaults [alpha = 0.9], [beta = 0.999] and
    [epsilon = 1e-2] are exact ratios; every constant takes the type of
    the fourth input. *)
Definition adam_v1 (ins : list (option expr)) (attr : attr_table) : result conv_out :=
  let alpha := attr_or "alpha" (ARatio 9 10) attr in
  let beta := attr_or "beta" (ARatio 999 1000) attr in
  let epsilon := attr_or "epsilon" (ARatio 1 100) attr in
  let norm := attr_or "norm_coefficient" (AFloat 0) attr in
  let norm_post := attr_or "norm_coefficient_post" (AFloat 0) attr in
  let* _ := py_assert (Nat.eqb ((length ins - 2) mod 4) 0) "Expect 4-lets for remaining inputs" in
  let* '(x3, t3) := typed_input ins 3 in
  let c := qconst (tt_dtype t3) in
  let* qa := float_val alpha in
  let* qb := float_val beta in
  let* qe := float_val epsilon in
  let* qn := float_val norm in
  let* qp := float_val norm_post in
  let* t := expr_at ins 1 in
  let t := Call "cast_like" [t; x3] [] in
  let n := (length ins - 2) / 4 in
  let* steps := mapM (fun i =>
      let* '(x, g, v, h) := quad_at ins n i in
      let* r := expr_at ins 0 in
      Ok (adam_step r t (c qa) (c (one_minus qa)) (c qb) (c (one_minus qb)) (c qe) (c qn) (c qp)
                    (const_of (tt_dtype t3) 1) (const_of (tt_dtype t3) 0) x g v h))
    (seq 0 n) in
  let result := map (fun s => fst (fst s)) steps ++ map (fun s => snd (fst s)) steps
                ++ map snd steps in
  Ok (Wrapper (Tuple result) (length result)).

(** ** Dispatch *)

Definition convert_training (cls : string) (ins : list (option expr)) (attr : attr_table)
  : option (result conv_out) :=
  let single r := Some (let* e := r in Ok (Single e)) in
  if cls =? "NegativeLogLikelihoodLoss" then single (nll_loss_v13 ins attr)
  else if cls =? "SoftmaxCrossEntropyLoss" then Some (sce_loss_v13 ins attr)
  else if cls =? "Adagrad" then Some (adagrad_v1 ins attr)
  else if cls =? "Momentum" then Some (momentum_v1 ins attr)
  else if cls =? "Adam" then Some (adam_v1 ins attr)
  else None.

(** ** Sample inputs *)

(** The optimizers' inputs [R, T, x_1..x_n, g_1..g_n, a_1..a_n]. *)
Definition optimizer_inputs (r t : expr) (xs gs accs : list expr) : list (option expr) :=
  Some r :: Some t :: map Some (xs ++ gs ++ accs).

(** A float32 vector of two elements, the iteration count and a batch of
    three scores over five classes with their labels. *)
Definition opt_var (name : string) : expr := Var name (TType [DInt 2] "float32").
Definition opt_count : expr := Var "T" (TType [] "int64").
Definition scores : expr := Var "scores" (TType [DInt 3; DInt 5] "float32").
Definition labels : expr := Var "labels" (TType [DInt 3] "int64").

(** The inputs of [Adam]: [R, T, x_1..x_n, g_1..g_n, v_1..v_n, h_1..h_n]. *)
Definition adam_inputs (r t : expr) (xs gs vs hs : list expr) : list (option expr) :=
  Some r :: Some t :: map Some (xs ++ gs ++ vs ++ hs).

(** ** Theorems *)

Lemma optimizer_inputs_length (r t : expr) (xs gs accs : list expr) (n : nat) :
  length xs = n -> length gs = n -> length accs = n ->
  length (optimizer_inputs r t xs gs accs) = 2 + 3 * n.
Proof.
  intros Hx Hg Ha. unfold optimizer_inputs. simpl.
  rewrite length_map, !length_app. lia.
Qed.

(** [R], [T] and [n] groups of [k] inputs. *)
Lemma group_count (k n : nat) : 0 < k -> (2 + k * n - 2) mod k = 0 /\ (2 + k * n - 2) / k = n.
Proof.
  intros Hk. replace (2 + k * n - 2) with (n * k) by lia.
  split; [apply Nat.Div0.mod_mul | apply Nat.div_mul; lia].
Qed.

Lemma triple_at_inputs (r t : expr) (xs gs accs : list expr) (n i : nat) :
  length xs = n -> length gs = n -> length accs = n -> i < n ->
  triple_at (optimizer_inputs r t xs gs accs) n i = Ok (nth i xs r, nth i gs r, nth i accs r).
Proof.
  intros Hx Hg Ha Hi. unfold triple_at, expr_at, input_at, optimizer_inputs.
  assert (E1 : nth_error (xs ++ gs ++ accs) i = Some (nth i xs r))
    by (rewrite nth_error_app1 by lia; apply nth_error_nth'; lia).
  assert (E2 : nth_error (xs ++ gs ++ accs) (i + n) = Some (nth i gs r)).
  { rewrite nth_error_app2, nth_error_app1 by lia.
    replace (i + n - length xs) with i by lia. apply nth_error_nth'; lia. }
  assert (E3 : nth_error (xs ++ gs ++ accs) (i + 2 * n) = Some (nth i accs r)).
  { rewrite nth_error_app2, nth_error_app2 by lia.
    replace (i + 2 * n - length xs - length gs) with i by lia. apply nth_error_nth'; lia. }
  replace (i + 2 + 2 * n) with (S (S (i + 2 * n))) by lia.
  replace (i + 2 + n) with (S (S (i + n))) by lia.
  replace (i + 2) with (S (S i)) by lia.
  cbn [nth_error]. rewrite !nth_error_map, E1, E2, E3. reflexivity.
Qed.

Lemma adam_inputs_length (r t : expr) (xs gs vs hs : list expr) (n : nat) :
  length xs = n -> length gs = n -> length vs = n -> length hs = n ->
  length (adam_inputs r t xs gs vs hs) = 2 + 4 * n.
Proof. intros Hx Hg Hv Hh. unfold adam_inputs. simpl. rewrite length_map, !length_app. lia. Qed.

Lemma nth_error_skip_block {A : Type} (ys zs : list A) (j : nat) :
  nth_error (ys ++ zs) (length ys + j) = nth_error zs j.
Proof. rewrite nth_error_app2 by lia. f_equal. lia. Qed.

Lemma quad_at_inputs (r t : expr) (xs gs vs hs : list expr) (n i : nat) :
  length xs = n -> length gs = n -> length vs = n -> length hs = n -> i < n ->
  quad_at (adam_inputs r t xs gs vs hs) n i
  = Ok (nth i xs r, nth i gs r, nth i vs r, nth i hs r).
Proof.
  intros Hx Hg Hv Hh Hi. unfold quad_at, expr_at, input_at, adam_inputs.
  replace (i + 2 + 3 * n) with (S (S (length xs + (length gs + (length vs + i))))) by lia.
  replace (i + 2 + 2 * n) with (S (S (length xs + (length gs + i)))) by lia.
  replace (i + 2 + n) with (S (S (length xs + i))) by lia.
  replace (i + 2) with (S (S i)) by lia.
  cbn [nth_error]. rewrite !nth_error_map, !nth_error_skip_block, nth_error_app1 by lia.
  rewrite nth_error_app1 by lia. rewrite nth_error_app1 by lia.
  rewrite !(nth_error_nth' _ r) by lia. reflexivity.
Qed.

(** (C28) [Adagrad] on [n] tensors returns the [n] updated tensors and
    then their [n] accumulated squared gradients, the [i]-th pair being
    the ONNX update of [x_i] with gradient [g_i] and accumulator [a_i]:
    [r = R / (1 + T * decay_factor)], [g' = norm_coefficient * x + g],
    [a' = a + g' * g'] and [x' = x - r * g' / (sqrt(a') + epsilon)], with
    [T] cast like the fourth input and the constants in its type. *)
Theorem adagrad_updates (r t x3 : expr) (t3 : ttype) (xs gs accs : list expr)
        (attr : attr_table) (decay eps norm : Z) :
  length gs = length xs -> length accs = length xs ->
  float_attr "decay_factor" 0 attr = Ok decay -> float_attr "epsilon" 0 attr = Ok eps ->
  float_attr "norm_coefficient" 0 attr = Ok norm ->
  typed_input (optimizer_inputs r t xs gs accs) 3 = Ok (x3, t3) ->
  let c := const_of (tt_dtype t3) in
  let rate := rdiv r (radd (c 1%Z) (rmul (Call "cast_like" [t; x3] []) (c decay))) in
  let g' i := radd (rmul (c norm) (nth i xs r)) (nth i gs r) in
  let a' i := radd (nth i accs r) (rmul (g' i) (g' i)) in
  let x' i := rsub (nth i xs r) (rdiv (rmul rate (g' i)) (radd (Call "sqrt" [a' i] []) (c eps))) in
  adagrad_v1 (optimizer_inputs r t xs gs accs) attr =
    Ok (Wrapper (Tuple (map x' (seq 0 (length xs)) ++ map a' (seq 0 (length xs))))
                (2 * length xs)).
Proof.
  intros Hg Ha Hd He Hn Hx c rate g' a' x'. unfold adagrad_v1.
  rewrite (optimizer_inputs_length r t xs gs accs (length xs)) by auto.
  destruct (group_count 3 (length xs)) as [Hm Hdv]; [lia|]. rewrite Hm, Hdv, Hd, He, Hn, Hx.
  simpl bind. rewrite (mapM_In_Ok _ (fun i => (x' i, a' i))).
  2: { intros i Hi. apply in_seq in Hi. rewrite triple_at_inputs by lia. reflexivity. }
  simpl bind. unfold updates_out. rewrite !map_map, length_app, !length_map, length_seq.
  do 2 f_equal. lia.
Qed.

(** [Momentum] on [n] tensors with a known mode returns the [n]
    updated tensors and then their [n] new momenta, the [i]-th pair being
    the ONNX update: [g' = norm_coefficient * x + g],
    [v' = alpha * v + (T > 0 ? beta : 1) * g'], and [x' = x - R * v']
    ([standard]) or [x' = x - R * (g' + alpha * v')] ([nesterov]); any
    other mode fails the rule's assertion. *)
Theorem momentum_updates (r t x3 : expr) (t3 : ttype) (xs gs ms : list expr)
        (attr : attr_table) (alpha beta norm : Z) (mode : string) :
  length gs = length xs -> length ms = length xs ->
  req_num_attr "alpha" attr = Ok alpha -> req_num_attr "beta" attr = Ok beta ->
  od_get "mode" attr = Some (ABytes mode) -> req_num_attr "norm_coefficient" attr = Ok norm ->
  typed_input (optimizer_inputs r t xs gs ms) 3 = Ok (x3, t3) ->
  let c := const_of (tt_dtype t3) in
  let g' i := radd (rmul (c norm) (nth i xs r)) (nth i gs r) in
  let beta' := IfE (Call "greater" [t; const_of "int64" 0] []) (c beta) (c 1%Z) in
  let v' i := radd (rmul (c alpha) (nth i ms r)) (rmul beta' (g' i)) in
  let x' i := if mode =? "standard" then rsub (nth i xs r) (rmul r (v' i))
              else rsub (nth i xs r) (rmul r (radd (g' i) (rmul (c alpha) (v' i)))) in
  momentum_v1 (optimizer_inputs r t xs gs ms) attr =
    if (mode =? "nesterov") || (mode =? "standard")
    then Ok (Wrapper (Tuple (map x' (seq 0 (length xs)) ++ map v' (seq 0 (length xs))))
                     (2 * length xs))
    else Err (AssertionError ("Unknown momentum mode " ++ mode)).
Proof.
  intros Hg Ha Hal Hbe Hmo Hn Hx c g' beta' v' x'. unfold momentum_v1, od_find at 1.
  rewrite (optimizer_inputs_length r t xs gs ms (length xs)) by auto.
  destruct (group_count 3 (length xs)) as [Hm Hdv]; [lia|].
  rewrite Hm, Hdv, Hal, Hbe, Hmo, Hn. simpl bind.
  destruct ((mode =? "nesterov") || (mode =? "standard")); [|reflexivity].
  simpl bind. rewrite Hx. simpl bind. rewrite (mapM_In_Ok _ (fun i => (x' i, v' i))).
  2: { intros i Hi. apply in_seq in Hi. rewrite triple_at_inputs by lia. reflexivity. }
  simpl bind. unfold updates_out. rewrite !map_map, length_app, !length_map, length_seq.
  do 2 f_equal. lia.
Qed.

(** (C29) [Adam] on [n] tensors returns the [n] updated tensors, then
    their [n] accumulated gradients, then their [n] accumulated squared
    gradients, the [i]-th triple being the ONNX update with the
    attributes' values [alpha], [beta], [epsilon], [norm_coefficient] and
    [norm_coefficient_post] as constants of the fourth input's type:
    [g' = norm * x + g], [v' = alpha * v + (1 - alpha) * g'],
    [h' = beta * h + (1 - beta) * g' * g'], the rate
    [R * sqrt(1 - beta ^ T) / (1 - alpha ^ T)] when [T > 0] and [R]
    otherwise, and [x' = (1 - norm_post) * (x - rate * (v' / (sqrt(h') + epsilon)))]. *)
Theorem adam_updates (r t x3 : expr) (t3 : ttype) (xs gs vs hs : list expr) (attr : attr_table)
        (qa qb qe qn qp : Z * Z) :
  length gs = length xs -> length vs = length xs -> length hs = length xs ->
  typed_input (adam_inputs r t xs gs vs hs) 3 = Ok (x3, t3) ->
  float_val (attr_or "alpha" (ARatio 9 10) attr) = Ok qa ->
  float_val (attr_or "beta" (ARatio 999 1000) attr) = Ok qb ->
  float_val (attr_or "epsilon" (ARatio 1 100) attr) = Ok qe ->
  float_val (attr_or "norm_coefficient" (AFloat 0) attr) = Ok qn ->
  float_val (attr_or "norm_coefficient_post" (AFloat 0) attr) = Ok qp ->
  let c := qconst (tt_dtype t3) in
  let one := const_of (tt_dtype t3) 1 in
  let tc := Call "cast_like" [t; x3] [] in
  let g' i := radd (rmul (c qn) (nth i xs r)) (nth i gs r) in
  let v' i := radd (rmul (c qa) (nth i vs r)) (rmul (c (snd qa - fst qa, snd qa)%Z) (g' i)) in
  let h' i := radd (rmul (c qb) (nth i hs r))
                   (rmul (rmul (c (snd qb - fst qb, snd qb)%Z) (g' i)) (g' i)) in
  let rate := IfE (Call "greater" [tc; const_of (tt_dtype t3) 0] [])
                  (rdiv (rmul r (Call "sqrt" [rsub one (Call "power" [c qb; tc] [])] []))
                        (rsub one (Call "power" [c qa; tc] [])))
                  r in
  let x' i := rmul (rsub one (c qp))
                   (rsub (nth i xs r) (rmul rate (rdiv (v' i) (radd (Call "sqrt" [h' i] []) (c qe))))) in
  adam_v1 (adam_inputs r t xs gs vs hs) attr =
    Ok (Wrapper (Tuple (map x' (seq 0 (length xs)) ++ map v' (seq 0 (length xs))
                        ++ map h' (seq 0 (length xs))))
                (3 * length xs)).
Proof.
  intros Hg Hv Hh Hx Ha Hb He Hn Hp c one tc g' v' h' rate x'. unfold adam_v1.
  rewrite (adam_inputs_length r t xs gs vs hs (length xs)) by auto.
  destruct (group_count 4 (length xs)) as [Hm Hdv]; [lia|]. rewrite Hm, Hdv. simpl bind.
  rewrite Hx, Ha, Hb, He, Hn, Hp. simpl bind.
  rewrite (mapM_In_Ok _ (fun i => (x' i, v' i, h' i))).
  2: { intros i Hi. apply in_seq in Hi. rewrite quad_at_inputs by lia. reflexivity. }
  simpl bind. rewrite !map_map, !length_app, !length_map, length_seq.
  do 2 f_equal. lia.
Qed.

(** One tensor with the default attributes: [alpha = 9/10],
    [beta = 999/1000] and [epsilon = 1/100], where ONNX's default
    [epsilon] is [0]. *)
Lemma adam_updates_witness :
  let c := qconst "float32" in
  let step := adam_step (opt_var "R") (Call "cast_like" [opt_count; opt_var "g"] [])
                (c (9, 10)%Z) (c (1, 10)%Z) (c (999, 1000)%Z) (c (1, 1000)%Z) (c (1, 100)%Z)
                (c (0, 1)%Z) (c (0, 1)%Z) (const_of "float32" 1) (const_of "float32" 0)
                (opt_var "x") (opt_var "g") (opt_var "v") (opt_var "h") in
  adam_v1 (adam_inputs (opt_var "R") opt_count [opt_var "x"] [opt_var "g"] [opt_var "v"] [opt_var "h"]) []
  = Ok (Wrapper (Tuple [fst (fst step); snd (fst step); snd step]) 3).
Proof.
  exact (adam_updates (opt_var "R") opt_count (opt_var "g") (TType [DInt 2] "float32")
           [opt_var "x"] [opt_var "g"] [opt_var "v"] [opt_var "h"] [] (9, 10)%Z (999, 1000)%Z
           (1, 100)%Z (0, 1)%Z (0, 1)%Z eq_refl eq_refl eq_refl eq_refl eq_refl eq_refl eq_refl
           eq_refl eq_refl).
Defined.

Lemma valid_reduction_cases (r : string) :
  valid_reduction r = true -> r = "mean" \/ r = "sum" \/ r = "none".
Proof.
  unfold valid_reduction. intros H.
  repeat (apply orb_true_iff in H; destruct H as [H|H]); apply String.eqb_eq in H; auto.
Qed.

(** A matrix broadcasts with its rows reduced by [keepdims]. *)
Lemma bcast_shapes_keepdim (a b : dimv) : bcast_shapes [a; b] [a; DInt 1] = Some [a; b].
Proof. unfold bcast_shapes. simpl. now rewrite bcast_dim_one, bcast_dim_same. Qed.

#[local] Arguments bcast_dim : simpl never.

(** Type inference through a graph whose extents are variables: the
    shapes broadcast with themselves and with scalars. *)
Ltac infer_steps :=
  repeat (progress (cbn; simpl; rewrite ?bcast_dim_same, ?bcast_dim_one, ?bcast_shapes_same,
                                     ?bcast_shapes_scalar, ?bcast_shapes_keepdim,
                                     ?String.eqb_refl));
  try reflexivity.

(** One tensor, [epsilon = 1]: [x' = x - R / (1 + T * 0) * g' / (sqrt(a + g' * g') + 1)]. *)
Lemma adagrad_updates_witness :
  let step := adagrad_step (opt_var "R") (Call "cast_like" [opt_count; opt_var "g"] [])
                (const_of "float32" 0) (const_of "float32" 0) (const_of "float32" 1) (const_of "float32" 1)
                (opt_var "x") (opt_var "g") (opt_var "a") in
  adagrad_v1 (optimizer_inputs (opt_var "R") opt_count [opt_var "x"] [opt_var "g"] [opt_var "a"])
             [("epsilon", AFloat 1)] =
  Ok (Wrapper (Tuple [fst step; snd step]) 2).
Proof.
  exact (adagrad_updates (opt_var "R") opt_count (opt_var "g") (TType [DInt 2] "float32")
           [opt_var "x"] [opt_var "g"] [opt_var "a"] [("epsilon", AFloat 1)] 0 1 0
           eq_refl eq_refl eq_refl eq_refl eq_refl eq_refl).
Defined.

(** Nesterov momentum on one tensor; the same node with mode [heavy]
    fails. *)
Lemma momentum_updates_witness :
  let attr m := [("alpha", AFloat 1); ("beta", AFloat 1); ("mode", ABytes m);
                 ("norm_coefficient", AFloat 0)] in
  let ins := optimizer_inputs (opt_var "R") opt_count [opt_var "x"] [opt_var "g"] [opt_var "v"] in
  let step := momentum_step "nesterov" (opt_var "R") opt_count (const_of "float32" 1)
                (const_of "float32" 1) (const_of "float32" 0) (const_of "float32" 1)
                (opt_var "x") (opt_var "g") (opt_var "v") in
  momentum_v1 ins (attr "nesterov") = Ok (Wrapper (Tuple [fst step; snd step]) 2) /\
  momentum_v1 ins (attr "heavy") = Err (AssertionError "Unknown momentum mode heavy").
Proof.
  split.
  - exact (momentum_updates (opt_var "R") opt_count (opt_var "g") (TType [DInt 2] "float32")
             [opt_var "x"] [opt_var "g"] [opt_var "v"]
             [("alpha", AFloat 1); ("beta", AFloat 1); ("mode", ABytes "nesterov");
              ("norm_coefficient", AFloat 0)] 1 1 0 "nesterov"
             eq_refl eq_refl eq_refl eq_refl eq_refl eq_refl eq_refl).
  - exact (momentum_updates (opt_var "R") opt_count (opt_var "g") (TType [DInt 2] "float32")
             [opt_var "x"] [opt_var "g"] [opt_var "v"]
             [("alpha", AFloat 1); ("beta", AFloat 1); ("mode", ABytes "heavy");
              ("norm_coefficient", AFloat 0)] 1 1 0 "heavy"
             eq_refl eq_refl eq_refl eq_refl eq_refl eq_refl eq_refl).
Defined.

Lemma infer_ok_tensor (x : expr) (t : ttype) :
  infer_tensor x = Ok t -> infer x = Ok (TyTensor t).
Proof. unfold infer_tensor. destruct (infer x) as [[]|]; intros H; inversion H; reflexivity. Qed.

Lemma nll_calc_typed (x : expr) (tn : string) (n c : nat) (dt tdt : string) :
  infer x = Ok (TyTensor (TType [DInt n; DInt c] dt)) ->
  exists loss total,
    nll_calc (Some x) (Var tn (TType [DInt n] tdt)) None None = Ok (loss, total) /\
    infer loss = Ok (TyTensor (TType [DInt n] dt)) /\ infer total = Ok (TyTensor (TType [] dt)).
Proof.
  intros Hi. unfold nll_calc, normalize_gather_indices, ones_weight, infer_tensor.
  simpl. rewrite Hi. simpl. do 2 eexists. split; [reflexivity|].
  split; simpl; rewrite Hi; infer_steps.
Qed.

Lemma reduce_loss_typed (red : string) (loss total : expr) (n : nat) (dt : string) :
  valid_reduction red = true ->
  infer loss = Ok (TyTensor (TType [DInt n] dt)) -> infer total = Ok (TyTensor (TType [] dt)) ->
  infer_tensor (reduce_loss red loss total) =
    Ok (TType (if red =? "none" then [DInt n] else []) dt).
Proof.
  intros Hv Hl Ht. unfold infer_tensor.
  destruct (valid_reduction_cases red Hv) as [ -> | [ -> | -> ] ]; simpl; rewrite ?Hl, ?Ht;
    infer_steps; rewrite Hl; reflexivity.
Qed.

Lemma log_softmax_typed (x : expr) (n c : nat) (dt : string) :
  infer x = Ok (TyTensor (TType [DInt n; DInt c] dt)) ->
  infer (log_softmax_calc x [1%Z]) = Ok (TyTensor (TType [DInt n; DInt c] dt)).
Proof. intros Hi. simpl. rewrite Hi. infer_steps. Qed.

(** (C30) [NegativeLogLikelihoodLoss] and [SoftmaxCrossEntropyLoss] (one
    output) of scores of shape [[N, C]] and a target of shape [[N]] given
    as a graph input, without weights or [ignore_index], convert for each
    reduction ONNX defines, and the result is well typed: the loss per
    sample, of shape [[N]], with reduction [none], and a scalar with
    [mean] or [sum], in the scores' element type. *)
Theorem losses_typed (x : expr) (tn : string) (n c : nat) (dt tdt red : string)
        (attr : attr_table) :
  infer_tensor x = Ok (TType [DInt n; DInt c] dt) ->
  od_get "ignore_index" attr = None -> reduction_attr attr = Ok red -> valid_reduction red = true ->
  let t := TType (if red =? "none" then [DInt n] else []) dt in
  let ins := [Some x; Some (Var tn (TType [DInt n] tdt))] in
  (exists e, nll_loss_v13 ins attr = Ok e /\ infer_tensor e = Ok t) /\
  (forall name, exists e, sce_loss_v13 ins (od_set "tvm_custom" (ATvmCustom name 1) attr) =
                          Ok (Single e) /\ infer_tensor e = Ok t).
Proof.
  intros Hx Hig Hred Hv t ins. subst t ins. apply infer_ok_tensor in Hx. split; [|intros name].
  - destruct (nll_calc_typed x tn n c dt tdt Hx) as (loss & total & Hc & Hl & Ht).
    unfold nll_loss_v13, ignore_index_attr. rewrite Hig, Hred. cbn [bind]. rewrite Hv.
    unfold input_at, weight_input. simpl. rewrite Hc. simpl.
    eexists. split; [reflexivity|]. now apply reduce_loss_typed.
  - destruct (nll_calc_typed _ tn n c dt tdt (log_softmax_typed x n c dt Hx))
      as (loss & total & Hc & Hl & Ht).
    unfold sce_loss_v13, ignore_index_attr, reduction_attr.
    rewrite !od_get_set_ne by discriminate. rewrite od_get_set_eq.
    fold (reduction_attr attr). rewrite Hig, Hred. unfold expr_at, input_at, weight_input.
    simpl. rewrite Hc. simpl.
    eexists. split; [reflexivity|]. now apply reduce_loss_typed.
Qed.

Lemma nll_calc_ignore (input : option expr) (target : expr) (w : option expr) (ii : Z)
      (p : expr * expr) :
  nll_calc input target w None = Ok p -> (forall n t, target <> Var n t) ->
  nll_calc input target w (Some ii) = Err (AttributeError "type_annotation").
Proof.
  intros H Hv. unfold nll_calc in *. do 3 bind_ok H. replay_ok.
  destruct target; simpl; try reflexivity. exfalso; eapply Hv; reflexivity.
Qed.

Lemma reduction_attr_set_ignore (attr : attr_table) (v : attr_val) :
  reduction_attr (od_set "ignore_index" v attr) = reduction_attr attr.
Proof. unfold reduction_attr. now rewrite od_get_set_ne by discriminate. Qed.

(** A batch of three over five classes with the default reduction
    [mean]: both losses are float32 scalars. *)
Lemma losses_typed_witness :
  (exists e, nll_loss_v13 [Some scores; Some labels] [] = Ok e /\
             infer_tensor e = Ok (TType [] "float32")) /\
  (forall name, exists e, sce_loss_v13 [Some scores; Some labels]
                            (od_set "tvm_custom" (ATvmCustom name 1) []) = Ok (Single e) /\
                          infer_tensor e = Ok (TType [] "float32")).
Proof.
  exact (losses_typed scores "labels" 3 5 "float32" "int64" "mean" [] eq_refl eq_refl eq_refl
           eq_refl).
Defined.

(** (C24) [ignore_index] only works on a target that is a graph input:
    the rules read [target_tensor.type_annotation], which only a
    variable has.  A [NegativeLogLikelihoodLoss] or
    [SoftmaxCrossEntropyLoss] node that converts fails with
    [AttributeError] once [ignore_index] is added, when its target is
    computed or a constant. *)
Theorem ignore_index_needs_var (ins : list (option expr)) (attr : attr_table) (target : expr)
        (ii : Z) :
  input_at ins 1 = Some target -> (forall n t, target <> Var n t) ->
  od_get "ignore_index" attr = None ->
  (forall e, nll_loss_v13 ins attr = Ok e ->
     nll_loss_v13 ins (od_set "ignore_index" (AInt ii) attr) =
     Err (AttributeError "type_annotation")) /\
  (forall o, sce_loss_v13 ins attr = Ok o ->
     sce_loss_v13 ins (od_set "ignore_index" (AInt ii) attr) =
     Err (AttributeError "type_annotation")).
Proof.
  intros Ht Hv Hig.
  split; [intros e H; unfold nll_loss_v13 in *|intros o H; unfold sce_loss_v13 in *];
    unfold ignore_index_attr in *; rewrite Hig in H;
    rewrite od_get_set_eq, reduction_attr_set_ignore, ?od_get_set_ne by discriminate;
    simpl in H |- *; unfold expr_at in *; rewrite Ht in *; ok_steps H;
    repeat match goal with Hx : of_option _ (Some _) = Ok _ |- _ => inv Hx end;
    replay_ok; cbn [of_option bind]; erewrite nll_calc_ignore by eauto; reflexivity.
Qed.

(** (C31) [SoftmaxCrossEntropyLoss] does not check its reduction: a value
    ONNX does not define ([mean], [sum] and [none] are) converts as
    [none], returning the loss per sample, where
    [NegativeLogLikelihoodLoss] raises [ValueError]. *)
Theorem unknown_reduction (ins : list (option expr)) (attr : attr_table) (red : string)
        (ii : option Z) :
  ignore_index_attr attr = Ok ii -> reduction_attr attr = Ok red -> valid_reduction red = false ->
  nll_loss_v13 ins attr = Err (ValueError ("Unknown reduction type " ++ red)) /\
  sce_loss_v13 ins attr = sce_loss_v13 ins (od_set "reduction" (ABytes "none") attr).
Proof.
  intros Hi Hr Hv. split.
  - unfold nll_loss_v13. rewrite Hi, Hr. cbn [bind]. now rewrite Hv.
  - unfold valid_reduction in Hv. apply orb_false_iff in Hv as [Hv _].
    apply orb_false_iff in Hv as [Hm Hs].
    unfold sce_loss_v13, ignore_index_attr, reduction_attr in *.
    rewrite od_get_set_eq, !od_get_set_ne by discriminate.
    destruct (od_get "ignore_index" attr); rewrite Hr; simpl;
      unfold reduce_loss; rewrite Hm, Hs; reflexivity.
Qed.

(** Labels cast to [int64] before the loss: the node converts, and
    fails once [ignore_index = -100] is set. *)
Lemma ignore_index_needs_var_witness :
  let target := Call "cast" [Var "labels" (TType [DInt 3] "int32")] [("dtype", KStr "int64")] in
  (exists e, nll_loss_v13 [Some scores; Some target] [] = Ok e) /\
  nll_loss_v13 [Some scores; Some target] [("ignore_index", AInt (-100))] =
    Err (AttributeError "type_annotation").
Proof.
  intros target. assert (Hn : forall n t, target <> Var n t) by discriminate.
  destruct (ignore_index_needs_var [Some scores; Some target] [] target (-100) eq_refl Hn eq_refl)
    as [H _].
  assert (Hok : exists e, nll_loss_v13 [Some scores; Some target] [] = Ok e)
    by (eexists; reflexivity).
  split; [exact Hok|]. destruct Hok as [e He]. exact (H e He).
Defined.

(** Reduction [average]: the cross entropy returns the loss per sample. *)
Lemma unknown_reduction_witness :
  nll_loss_v13 [Some scores; Some labels] [("reduction", ABytes "average")] =
    Err (ValueError ("Unknown reduction type " ++ "average")) /\
  sce_loss_v13 [Some scores; Some labels] [("reduction", ABytes "average")] =
    sce_loss_v13 [Some scores; Some labels]
                 (od_set "reduction" (ABytes "none") [("reduction", ABytes "average")]).
Proof.
  exact (unknown_reduction [Some scores; Some labels] [("reduction", ABytes "average")] "average"
           None eq_refl eq_refl eq_refl).
Defined.

End Training.
