(* ===== verification/Vision.v ===== *)
(** * Vision: unpooling, region pooling and non-maximum suppression

    The rules of onnx.py that build Relay's vision and dynamic-shape
    operators: [MaxUnpool] (lines 902-955), [MaxRoiPool] (2882-2894),
    [RoiAlign] (2897-2922) and [NonMaxSuppression] (3201-3245).

    Relay's wrappers choose the static or the dynamic operator from their
    arguments: [_op.zeros] and [_op.reshape] of a shape given as a
    constant are [zeros] and [reshape] with the shape as an attribute,
    of a computed shape [dyn.zeros] and [dyn.reshape]
    ([static_or_dyn_zeros], [static_or_dyn_reshape]).

    Theorems: [MaxUnpool]'s output shape without [output_shape] is
    [in * stride + kernel - stride] per spatial axis minus a padding
    total that pairs the ONNX [pads] wrongly: [reshape(pads, [-1, 2])]
    groups the beginnings of two axes together, so the total of an axis
    is not [begin + end] (a bug); [NonMaxSuppression] needs its
    [max_output_boxes_per_class] input, which ONNX makes optional. *)

From Stdlib Require Import String List Bool Arith Lia ZArith.
From S2P Require Import Prelude Proto IR Attrs Ops Rules Conv Tensor Activations Index.
Import ListNotations.
Local Open Scope string_scope.
Local Open Scope list_scope.

Module Vision.
Import Proto IR Attrs Ops Rules Conv Tensor Activations Index.

(** ** Relay wrappers *)

(** [_expr.const(l, "int64")] of a list of Python ints. *)
Definition i64_const (l : list Z) : expr := Const (VTensor "int64" [length l] l).

(** [_op.zeros(shape, dtype)]: a constant shape is an attribute. *)
Definition static_or_dyn_zeros (shape : expr) (dt : string) : expr :=
  match shape with
  | Const (VTensor _ _ d) => Call "zeros" [] [("shape", KInts d); ("dtype", KStr dt)]
  | _ => Call "dyn.zeros" [shape] [("dtype", KStr dt)]
  end.

(** [_op.reshape(x, [-1])]. *)
Definition flatten (x : expr) : expr := Call "reshape" [x] [("newshape", KInts [(-1)%Z])].

(** ** MaxUnpool *)

(** [attr.get("kernel_shape")] and the default [[1] * len(kernel_shape)]
    of [strides], evaluated even when [strides] is given. *)
Definition unpool_kernel (attr : attr_table) : result (list Z) :=
  match od_get "kernel_shape" attr with
  | Some (AInts l) => Ok l
  | None => Err (TypeError "object of type 'NoneType' has no len()")
  | Some _ => Err (TypeError "kernel_shape")
  end.

(** The output shape before padding: [[1, 1] ++ strides] times the
    input's shape, plus [[0, 0] ++ kernel_shape] minus
    [[0, 0] ++ strides]. *)
Definition unpool_full_shape (data : expr) (ks strides : list Z) : expr :=
  let multiplier := Call "concatenate" [Tuple [i64_const [1; 1]%Z; i64_const strides]]
                         [("axis", KInt 0)] in
  let total := Call "multiply" [multiplier; Call "shape_of" [data] [("dtype", KStr "int64")]] [] in
  Call "add" [total;
              Call "subtract"
                   [Call "concatenate" [Tuple [i64_const [0; 0]%Z; i64_const ks]] [("axis", KInt 0)];
                    Call "concatenate" [Tuple [i64_const [0; 0]%Z; i64_const strides]]
                         [("axis", KInt 0)]] []] [].

(** The padding total per axis: [sum(reshape([0, 0, 0, 0] ++ pads,
    [-1, 2]), axis=-1)]. *)
Definition unpool_pad_total (pads : list Z) : expr :=
  let p := Call "concatenate" [Tuple [i64_const [0; 0; 0; 0]%Z; i64_const pads]] [("axis", KInt 0)] in
  Call "sum" [Call "reshape" [p] [("newshape", KInts [(-1)%Z; 2%Z])]] [("axis", KInts [(-1)%Z])].

(** [MaxUnpool._impl_v11]. *)
Definition max_unpool_v11 (ins : list (option expr)) (attr : attr_table) : result expr :=
  let* '(data, t) := typed_input ins 0 in
  let* ks := unpool_kernel attr in
  let* strides := ints_attr "strides" (repeat 1%Z (length ks)) attr in
  let total := unpool_full_shape data ks strides in
  let* total :=
    match input_at ins 2, od_get "pads" attr with
    | Some shape, _ => Ok shape
    | None, None => Ok total
    | None, Some (AInts pads) => Ok (Call "subtract" [total; unpool_pad_total pads] [])
    | None, Some _ => Err (TypeError "pads")
    end in
  let zeros := static_or_dyn_zeros total (tt_dtype t) in
  let* indices := of_option none_error (input_at ins 1) in
  let flat := Call "scatter" [flatten zeros; flatten indices; flatten data] [("axis", KInt 0)] in
  Ok (static_or_dyn_reshape flat total).

(** ** MaxRoiPool and RoiAlign *)

(** [MaxRoiPool._impl_v1]: [vision.roi_pool] with the attributes. *)
Definition max_roi_pool_v1 (ins : list (option expr)) (attr : attr_table) : result expr :=
  let* _ := py_assert (Nat.eqb (length ins) 2) "MMaxRoiPool op take 2 inputs" in
  let* pooled := match od_get "pooled_shape" attr with
                 | Some (AInts l) => Ok l
                 | _ => Err (TypeError "pooled_shape")
                 end in
  let* scale := float_attr "spatial_scale" 1 attr in
  relay_call "vision.roi_pool" [input_at ins 0; input_at ins 1]
             [("pooled_size", KInts pooled); ("spatial_scale", KFloat scale); ("layout", KStr "NCHW")].

(** [attr.get("mode", b"avg")]. *)
Definition roi_mode (attr : attr_table) : result string :=
  match od_get "mode" attr with
  | None => Ok "avg"
  | Some (ABytes m) => Ok m
  | Some _ => Err (TypeError "mode")
  end.

(** [RoiAlign._impl_v1]: the batch indices become the first column of
    the regions. *)
Definition roi_align_v1 (ins : list (option expr)) (attr : attr_table) : result expr :=
  let* _ := if Nat.eqb (length ins) 3 then Ok tt else Err (ValueError "Expect 3 inputs only") in
  let* mode := roi_mode attr in
  let* _ := if (mode =? "avg") || (mode =? "max") then Ok tt
            else Err (NotImplementedError "RoiAlign in Relay only uses avg and max modes") in
  let* oh := attr_int "output_height" 1 attr in
  let* ow := attr_int "output_width" 1 attr in
  let* ratio := attr_int "sampling_ratio" 0 attr in
  let* scale := float_attr "spatial_scale" 1 attr in
  let* bi := of_option none_error (input_at ins 2) in
  let bi := Call "expand_dims" [bi] [("axis", KInt 1); ("num_newaxis", KInt 1)] in
  let* '(rois, tr) := typed_input ins 1 in
  let bi := Call "cast" [bi] [("dtype", KStr (tt_dtype tr))] in
  let rois := Call "concatenate" [Tuple [bi; rois]] [("axis", KInt 1)] in
  relay_call "vision.roi_align" [input_at ins 0; Some rois]
             [("pooled_size", KInts [oh; ow]); ("spatial_scale", KFloat scale);
              ("sample_ratio", KInt ratio); ("mode", KStr mode)].

(** ** NonMaxSuppression *)

(** Boxes given by centre and size, [[xc, yc, w, h]], as corners
    [[y1, x1, y2, x2]]. *)
Definition center_to_corners (boxes : expr) (dt : string) : expr :=
  let part i := TupleGetItem (Call "split" [boxes] [("indices_or_sections", KInt 4); ("axis", KInt 2)]) i in
  let half e := Call "divide" [e; Const (scalar dt 2)] [] in
  let x1 := Call "subtract" [part 0; half (part 2)] [] in
  let x2 := Call "add" [part 0; half (part 2)] [] in
  let y1 := Call "subtract" [part 1; half (part 3)] [] in
  let y2 := Call "add" [part 1; half (part 3)] [] in
  Call "concatenate" [Tuple [y1; x1; y2; x2]] [("axis", KInt 2)].

(** [conditionally_squeeze_scalar]: a threshold of rank at most one as a
    scalar. *)
Definition squeeze_scalar (x : expr) : result expr :=
  let* t := infer_tensor x in
  let rank := length (tt_shape t) in
  let* _ := py_assert (Nat.leb rank 1) "nms thresholds must be scalars" in
  Ok (if Nat.eqb rank 1 then Call "squeeze" [x] [("axis", KInts [0%Z])] else x).

(** [NonMaxSuppression._impl_v10]: omitted thresholds are [0.0]. *)
Definition nms_v10 (ins : list (option expr)) (attr : attr_table) : result expr :=
  let* '(boxes, tb) := typed_input ins 0 in
  let* cpb := attr_int "center_point_box" 0 attr in
  let boxes := if (cpb =? 0)%Z then boxes else center_to_corners boxes (tt_dtype tb) in
  let zero := Const (scalar "float32" 0) in
  let iou := match input_at ins 3 with Some e => e | None => zero end in
  let st := match input_at ins 4 with Some e => e | None => zero end in
  let* m := of_option infer_error (input_at ins 2) in
  let* m := squeeze_scalar m in
  let* iou := squeeze_scalar iou in
  let* st := squeeze_scalar st in
  let* nms := relay_call "vision.all_class_non_max_suppression"
                         [Some boxes; input_at ins 1; Some m; Some iou; Some st]
                         [("output_format", KStr "onnx")] in
  Ok (dyn_strided_slice (TupleGetItem nms 0) (i64_const [0%Z]) (TupleGetItem nms 1)
                        (py_ints_const [1%Z])).

(** ** Dispatch *)

Definition convert_vision (cls : string) (ins : list (option expr)) (attr : attr_table)
  : option (result expr) :=
  if cls =? "MaxUnpool" then Some (max_unpool_v11 ins attr)
  else if cls =? "MaxRoiPool" then Some (max_roi_pool_v1 ins attr)
  else if cls =? "RoiAlign" then Some (roi_align_v1 ins attr)
  else if cls =? "NonMaxSuppression" then Some (nms_v10 ins attr)
  else None.

(** ** Sample inputs *)

(** A [1 x 1 x 2 x 2] input unpooled with a [2 x 2] kernel, stride 2 and
    the given pads. *)
Definition unpool_attr (pads : list Z) : attr_table :=
  [("kernel_shape", AInts [2; 2]%Z); ("strides", AInts [2; 2]%Z); ("pads", AInts pads)].

Definition unpool_env : odict value := [("x", VTensor "float32" [1; 1; 2; 2] [1; 2; 3; 4]%Z)].

(** ** Theorems *)

(** (C25) [MaxUnpool] without an [output_shape] input computes the output
    shape [in * s + k - s - total] per spatial axis, where the padding
    total of the first spatial axis is [b1 + b2] and of the second
    [e1 + e2] for the ONNX pads [[b1, b2, e1, e2]] (beginnings, then
    ends): [reshape([0, 0, 0, 0] ++ pads, [-1, 2])] pairs the two
    beginnings and the two ends, where ONNX removes [b1 + e1] and
    [b2 + e2]: the two agree only when [b2 = e1]. *)
Theorem max_unpool_pad_pairs (x dt : string) (n c h w : nat) (d : list Z) (idx : expr)
        (env : odict value) (k1 k2 s1 s2 b1 b2 e1 e2 : Z) :
  od_get x env = Some (VTensor dt [n; c; h; w] d) ->
  let attr := [("kernel_shape", AInts [k1; k2]); ("strides", AInts [s1; s2]);
               ("pads", AInts [b1; b2; e1; e2])] in
  exists flat sh,
    max_unpool_v11 [Some (Var x (TType [DInt n; DInt c; DInt h; DInt w] dt)); Some idx] attr =
      Ok (Call "dyn.reshape" [flat; sh] []) /\
    eval 20 env sh = Some (VTensor "int64" [4]
                             [Z.of_nat n; Z.of_nat c; Z.of_nat h * s1 + k1 - s1 - (b1 + b2);
                              Z.of_nat w * s2 + k2 - s2 - (e1 + e2)]%Z).
Proof.
  intros Hx attr. do 2 eexists. split; [reflexivity|].
  simpl. rewrite Hx. cbn -[Z.mul Z.add Z.sub]. do 2 f_equal.
  repeat (apply f_equal2; [lia|]); reflexivity.
Qed.

(** Pads [[1, 0, 1, 0]] (one row above and one below): the rule gives
    a [3 x 3] output, where ONNX's [(in - 1) * s + k - begin - end]
    gives [2 x 4]. *)
Lemma max_unpool_pad_pairs_witness :
  exists flat sh,
    max_unpool_v11 [Some (Var "x" (TType [DInt 1; DInt 1; DInt 2; DInt 2] "float32"));
                    Some (Var "i" (TType [DInt 1; DInt 1; DInt 2; DInt 2] "int64"))]
                   (unpool_attr [1; 0; 1; 0]%Z) =
      Ok (Call "dyn.reshape" [flat; sh] []) /\
    eval 20 unpool_env sh = Some (VTensor "int64" [4] [1; 1; 3; 3]%Z).
Proof.
  exact (max_unpool_pad_pairs "x" "float32" 1 1 2 2 [1; 2; 3; 4]%Z
           (Var "i" (TType [DInt 1; DInt 1; DInt 2; DInt 2] "int64")) unpool_env
           2 2 2 2 1 0 1 0 eq_refl).
Defined.

(** (C38) [NonMaxSuppression] requires [max_output_boxes_per_class], an
    optional input of ONNX (default 0, no box selected): without it the
    rule asks the type of [None] and fails. *)
Theorem nms_needs_max_output (ins : list (option expr)) (attr : attr_table) (b : expr)
        (tb : ttype) (cpb : Z) :
  typed_input ins 0 = Ok (b, tb) -> attr_int "center_point_box" 0 attr = Ok cpb ->
  input_at ins 2 = None -> nms_v10 ins attr = Err infer_error.
Proof. intros Hb Hc Hm. unfold nms_v10. rewrite Hb. simpl. rewrite Hc. simpl. now rewrite Hm. Qed.

Lemma nms_needs_max_output_witness :
  nms_v10 [Some (Var "boxes" (TType [DInt 1; DInt 3; DInt 4] "float32"));
           Some (Var "scores" (TType [DInt 1; DInt 1; DInt 3] "float32"))] [] = Err infer_error.
Proof.
  apply (nms_needs_max_output _ _ (Var "boxes" (TType [DInt 1; DInt 3; DInt 4] "float32"))
                              (TType [DInt 1; DInt 3; DInt 4] "float32") 0); reflexivity.
Defined.

End Vision.
