(* ===== verification/Aten.v ===== *)
(** * Aten: the PyTorch ATen fallback operator

    [ATen] (onnx.py lines 3248-3350) converts the nodes a PyTorch export
    leaves as [ATen] with the name of the PyTorch operator in the
    [operator] attribute: [size], [arange], [index_put], [reshape] and
    [embedding_bag].  [index_put] with several index vectors and values
    that are not a vector unfolds the indices into their cartesian
    product ([_check_index.unfolding_indices]): index [i] is flattened,
    tiled [tile_size[i]] times and each element repeated
    [repeat_size[i]] times, where [tile_size[i]] is the product of the
    lengths before [i] and [repeat_size[i]] that of the lengths after it.

    Theorems: the unfolded index vectors of constant indices enumerate the
    cartesian product of the index vectors in row-major order, the order
    of the flattened values; a node without [operator] raises
    [AttributeError] before the assertion meant to report it. *)

From Stdlib Require Import String List Bool Arith Lia ZArith.
From S2P Require Import Prelude Proto IR Attrs Ops Rules Conv Vision.
Import ListNotations.
Local Open Scope string_scope.
Local Open Scope list_scope.

Module Aten.
Import Proto IR Attrs Ops Rules Conv Vision.

(** [inputs[i]] used as an expression. *)
Definition arg (ins : list (option expr)) (i : nat) : result expr :=
  of_option none_error (input_at ins i).

(** [ATen._size]: the last extent, [take] in [wrap] mode. *)
Definition aten_size (ins : list (option expr)) : result expr :=
  let* x := arg ins 0 in
  Ok (Call "take" [Call "shape_of" [x] [("dtype", KStr "int64")]; Const (scalar "int64" (-1))]
           [("axis", KInt 0); ("mode", KStr "wrap")]).

(** [ATen._arange]. *)
Definition aten_arange (ins : list (option expr)) : result expr :=
  relay_call "arange" [input_at ins 0; input_at ins 1; input_at ins 2] [("dtype", KStr "int64")].

(** [repeat_size] (before its reversal) and [tile_size] of
    [unfolding_indices]: [for i in range(1, n)] appends
    [slices_size[-i] * repeat_size[-1]] and
    [slices_size[i - 1] * tile_size[-1]]. *)
Definition size_lists (ss : list Z) : list Z * list Z :=
  let n := length ss in
  fold_left (fun acc i =>
               let '(rs, ts) := acc in
               (rs ++ [nth (n - i) ss 0 * last rs 1], ts ++ [nth (i - 1) ss 0 * last ts 1])%Z)
            (seq 1 (n - 1)) ([1%Z], [1%Z]).

(** [infer_shape(flatten_indices[-1])[0]]. *)
Definition first_extent (e : expr) : result Z :=
  let* t := infer_tensor e in
  match tt_shape t with
  | DInt k :: _ => Ok (Z.of_nat k)
  | DAny :: _ => Err (TypeError "unsupported operand type(s) for *: Any")
  | [] => Err (IndexError "tuple index out of range")
  end.

(** [_check_index.unfolding_indices]. *)
Definition unfolding_indices (indices : list expr) (values : expr) : result (list expr * expr) :=
  let flatten_indices := map flatten indices in
  let* slices_size := mapM first_extent flatten_indices in
  let '(rs, tile_size) := size_lists slices_size in
  let repeat_size := rev rs in
  let unflod_slices :=
    map (fun i => fold_constant
                    (Call "repeat" [Call "tile" [nth i flatten_indices (Tuple [])]
                                         [("reps", KInts [nth i tile_size 0%Z])]]
                          [("repeats", KInt (nth i repeat_size 0%Z)); ("axis", KInt 0)]))
        (seq 0 (length indices)) in
  Ok (unflod_slices, flatten values).

(** [ATen._check_index]: values of rank other than 1 unfold the indices. *)
Definition check_index (indices : list expr) (values : expr) : result (list expr * expr) :=
  let* t := infer_tensor values in
  if Nat.eqb (length (tt_shape t)) 1 then Ok (indices, values) else unfolding_indices indices values.

(** [inputs[-1].data.asnumpy() != 0] as the condition of an [if]. *)
Definition accumulate_of (o : option expr) : result bool :=
  match o with
  | Some (Const (VTensor _ _ [z])) => Ok (negb (z =? 0)%Z)
  | Some (Const (VTensor _ _ _)) =>
      Err (ValueError "The truth value of an array with more than one element is ambiguous")
  | _ => Err (AttributeError "object has no attribute data")
  end.

(** [ATen._index_put]: [inputs[1 : len(inputs) - 2]] are the indices,
    then the values and the [accumulate] flag. *)
Definition index_put (ins : list (option expr)) : result expr :=
  let k := length ins in
  let* in_tensor := arg ins 0 in
  let* idx := mapM (of_option none_error) (firstn (k - 2 - 1) (skipn 1 ins)) in
  let* values := arg ins (k - 2) in
  let* '(indices, values) := check_index idx values in
  let* acc := accumulate_of (input_at ins (k - 1)) in
  let mode := if acc then "add" else "update" in
  let index_tensor := Call "stack" [Tuple indices] [("axis", KInt 0)] in
  Ok (Call "scatter_nd" [in_tensor; index_tensor; values] [("mode", KStr mode)]).

(** [ATen._reshape]. *)
Definition aten_reshape (ins : list (option expr)) : result expr :=
  let* x := arg ins 0 in
  let* sh := arg ins 1 in
  Ok (static_or_dyn_reshape x sh).

(** [ATen._embedding_bag]: [mode_map[mode]] of [0], [1], [2]; four
    outputs, the last three a [float32] zero. *)
Definition embedding_bag (ins : list (option expr)) (attr : attr_table) : result conv_out :=
  let* reduction_fn := match od_get "mode" attr with
                       | None => Ok "mean"
                       | Some (AInt 0) => Ok "sum"
                       | Some (AInt 1) => Ok "mean"
                       | Some (AInt 2) => Ok "max"
                       | Some _ => Err (KeyError "mode")
                       end in
  let* weights := arg ins 0 in
  let* indices := arg ins 1 in
  let* offsets := arg ins 2 in
  let offsets_shape := Call "shape_of" [offsets] [("dtype", KStr "int64")] in
  let indices_shape := Call "stack" [Tuple [Call "take" [offsets_shape; Const (scalar "int64" 0)] [];
                                            Const (scalar "int64" (-1))]] [("axis", KInt 0)] in
  let indices := static_or_dyn_reshape indices indices_shape in
  let embedding := Call "take" [weights; Call "cast" [indices] [("dtype", KStr "int64")]]
                        [("axis", KInt 0)] in
  let rembedding := Call reduction_fn [embedding] [("axis", KInt 1)] in
  let unused_output := Const (scalar "float32" 0) in
  Ok (Wrapper (Tuple [rembedding; unused_output; unused_output; unused_output]) 4).

(** [ATen._op_dispatch]. *)
Definition op_dispatch (operator : string) (ins : list (option expr)) (attr : attr_table)
  : result conv_out :=
  let single r := let* e := r in Ok (Single e) in
  if operator =? "size" then single (aten_size ins)
  else if operator =? "arange" then single (aten_arange ins)
  else if operator =? "index_put" then single (index_put ins)
  else if operator =? "reshape" then single (aten_reshape ins)
  else if operator =? "embedding_bag" then embedding_bag ins attr
  else Err (AssertionError ("Operator " ++ operator ++ " is not supported.")).

(** [ATen._impl_v1]: [attr.get("operator", None).decode("utf-8")]. *)
Definition aten_v1 (ins : list (option expr)) (attr : attr_table) : result conv_out :=
  let* operator := match od_get "operator" attr with
                   | None => Err (AttributeError "NoneType object has no attribute decode")
                   | Some v => decode v
                   end in
  let* _ := py_assert (negb (operator =? "")) "ATen Operator not found" in
  op_dispatch operator ins attr.

Definition convert_aten (cls : string) (ins : list (option expr)) (attr : attr_table)
  : option (result conv_out) :=
  if cls =? "ATen" then Some (aten_v1 ins attr) else None.

(** ** The cartesian product *)

(** The tuples of one element of each vector, the first varying
    slowest (row-major order). *)
Fixpoint cart (ls : list (list Z)) : list (list Z) :=
  match ls with
  | [] => [[]]
  | l :: ls' => flat_map (fun x => map (cons x) (cart ls')) l
  end.

Definition prodn (l : list nat) : nat := fold_right Nat.mul 1 l.
Definition zprod (l : list Z) : Z := fold_right Z.mul 1%Z l.

(** ** Lemmas *)

Lemma zprod_app (a b : list Z) : zprod (a ++ b) = (zprod a * zprod b)%Z.
Proof. unfold zprod. induction a as [|x a IH]; cbn [fold_right app]; [lia|]. now rewrite IH, Z.mul_assoc. Qed.

Lemma zprod_single (x : Z) : zprod [x] = x.
Proof. unfold zprod. cbn [fold_right]. apply Z.mul_1_r. Qed.

Lemma zprod_rev (l : list Z) : zprod (rev l) = zprod l.
Proof.
  induction l as [|x l IH]; simpl; [reflexivity|]. rewrite zprod_app, IH. unfold zprod. simpl. ring.
Qed.

Lemma zprod_of_nat (l : list nat) : zprod (map Z.of_nat l) = Z.of_nat (prodn l).
Proof.
  induction l as [|x l IH]; simpl; [reflexivity|]. unfold zprod, prodn in *. simpl. rewrite IH. lia.
Qed.

Lemma firstn_S_app {A : Type} (l : list A) (d : A) (k : nat) :
  k < length l -> firstn (S k) l = firstn k l ++ [nth k l d].
Proof.
  revert k. induction l as [|x l IH]; intros [|k] Hk; simpl in *; try lia; [reflexivity|].
  rewrite (IH k) by lia. reflexivity.
Qed.

Lemma last_map_seq (f : nat -> Z) (k : nat) (d : Z) : last (map f (seq 0 (S k))) d = f k.
Proof. rewrite seq_S, map_app. simpl. now rewrite last_last. Qed.

(** The loop of [size_lists] after [k] passes: the products of the
    last [j] and of the first [j] lengths, for [j <= k]. *)
Lemma size_lists_loop (ss : list Z) (k : nat) :
  k < length ss ->
  fold_left (fun acc i =>
               let '(rs, ts) := acc in
               (rs ++ [nth (length ss - i) ss 0 * last rs 1], ts ++ [nth (i - 1) ss 0 * last ts 1])%Z)
            (seq 1 k) ([1%Z], [1%Z])
  = (map (fun j => zprod (firstn j (rev ss))) (seq 0 (S k)),
     map (fun j => zprod (firstn j ss)) (seq 0 (S k))).
Proof.
  induction k as [|k IH]; intros Hk; [reflexivity|].
  rewrite seq_S, fold_left_app, IH by lia. cbn [fold_left]. rewrite !last_map_seq.
  rewrite (seq_S (S k)), !map_app, Nat.add_0_l. cbn [map].
  rewrite (firstn_S_app (rev ss) 0%Z k), (firstn_S_app ss 0%Z k) by (rewrite ?length_rev; lia).
  rewrite !zprod_app, rev_nth by lia.
  replace (1 + k - 1) with k by lia. replace (length ss - (1 + k)) with (length ss - S k) by lia.
  rewrite !zprod_single. f_equal; f_equal; f_equal; apply Z.mul_comm.
Qed.

(** [tile_size[i]] is the product of the lengths before [i] and
    [repeat_size[i]] (after the reversal) that of the lengths after it. *)
Lemma size_lists_spec (ss : list Z) (i : nat) :
  i < length ss ->
  nth i (snd (size_lists ss)) 0%Z = zprod (firstn i ss) /\
  nth i (rev (fst (size_lists ss))) 0%Z = zprod (skipn (S i) ss).
Proof.
  intros Hi. unfold size_lists. rewrite size_lists_loop by lia.
  replace (S (length ss - 1)) with (length ss) by lia. cbn [fst snd].
  rewrite rev_nth by (rewrite length_map, length_seq; lia). rewrite length_map, length_seq.
  rewrite !nth_map_seq by lia. split; [reflexivity|].
  rewrite firstn_rev, zprod_rev. do 2 f_equal. lia.
Qed.

Lemma cart_length (ds : list (list Z)) : length (cart ds) = prodn (map (@length Z) ds).
Proof.
  induction ds as [|d ds IH]; [reflexivity|]. simpl. unfold prodn in *. simpl.
  induction d as [|x d IHd]; [reflexivity|]. simpl. rewrite length_app, length_map, IHd, IH. lia.
Qed.

Lemma map_to_repeat {A B : Type} (x : B) (l : list A) : map (fun _ => x) l = repeat x (length l).
Proof. induction l as [|y l IH]; simpl; [reflexivity|]. now rewrite IH. Qed.

Lemma flat_map_const {A B : Type} (l : list A) (m : list B) :
  flat_map (fun _ => m) l = concat (repeat m (length l)).
Proof. induction l as [|x l IH]; simpl; [reflexivity|]. now rewrite IH. Qed.

Lemma concat_repeat_mul {A : Type} (d : list A) (a b : nat) :
  concat (repeat d (a * b)) = concat (repeat (concat (repeat d b)) a).
Proof.
  induction a as [|a IH]; [reflexivity|]. cbn [Nat.mul repeat concat].
  now rewrite repeat_app, concat_app, IH.
Qed.

Lemma flat_map_concat_repeat {A B : Type} (f : A -> list B) (d : list A) (a : nat) :
  flat_map f (concat (repeat d a)) = concat (repeat (flat_map f d) a).
Proof. induction a as [|a IH]; [reflexivity|]. simpl. now rewrite flat_map_app, IH. Qed.

(** The [i]-th components of the cartesian product, in its order: the
    [i]-th vector, every element repeated by the product of the lengths
    after it and the whole tiled by the product of those before it. *)
Lemma cart_nth (ds : list (list Z)) (i : nat) :
  i < length ds ->
  map (fun t => nth i t 0%Z) (cart ds)
  = flat_map (fun x => repeat x (prodn (map (@length Z) (skipn (S i) ds))))
             (concat (repeat (nth i ds []) (prodn (map (@length Z) (firstn i ds))))).
Proof.
  revert i. induction ds as [|d ds IH]; intros i Hi; [simpl in Hi; lia|].
  cbn [cart]. rewrite flat_map_concat_map, concat_map, map_map.
  destruct i as [|i].
  - cbn [skipn firstn map nth repeat concat prodn fold_right]. rewrite app_nil_r.
    rewrite flat_map_concat_map. f_equal. apply map_ext. intros x.
    rewrite map_map. cbn [nth]. rewrite <- cart_length. apply map_to_repeat.
  - change (skipn (S (S i)) (d :: ds)) with (skipn (S i) ds).
    change (nth (S i) (d :: ds) []) with (nth i ds []).
    change (prodn (map (@length Z) (firstn (S i) (d :: ds))))
      with (length d * prodn (map (@length Z) (firstn i ds))).
    rewrite concat_repeat_mul, flat_map_concat_repeat, <- IH by (simpl in Hi; lia).
    rewrite <- flat_map_const, flat_map_concat_map. f_equal. apply map_ext. intros x.
    now rewrite map_map.
Qed.

(** The flattened constant vector has its length as first extent. *)
Lemma first_extent_const (dt : string) (d : list Z) :
  first_extent (flatten (Const (VTensor dt [length d] d))) = Ok (Z.of_nat (length d)).
Proof.
  unfold first_extent, flatten, infer_tensor. cbn -[Nat.div Nat.mul].
  rewrite Nat.mul_1_r, Nat.div_1_r. reflexivity.
Qed.

(** [fold_constant(repeat(tile(flatten(c), (T,)), R, 0))] of a constant
    vector [c]: [c] tiled [T] times, every element repeated [R] times. *)
Lemma fold_unfold_slice (dt : string) (d : list Z) (T R : nat) :
  fold_constant (Call "repeat" [Call "tile" [flatten (Const (VTensor dt [length d] d))]
                                     [("reps", KInts [Z.of_nat T])]]
                      [("repeats", KInt (Z.of_nat R)); ("axis", KInt 0)])
  = Const (VTensor dt [length d * T * R] (flat_map (fun x => repeat x R) (concat (repeat d T)))).
Proof.
  unfold fold_constant, flatten. cbn -[Nat.div Nat.mul Z.of_nat]. change (2 * 7) with 14.
  cbn -[Nat.div Nat.mul Z.of_nat].
  rewrite Nat.mul_1_r, Nat.div_1_r, Nat.eqb_refl. cbn -[Nat.mul Z.of_nat].
  replace (0 <=? Z.of_nat T)%Z with true by (symmetry; apply Z.leb_le; lia).
  replace (0 <=? Z.of_nat R)%Z with true by (symmetry; apply Z.leb_le; lia).
  cbn. rewrite !Nat2Z.id. reflexivity.
Qed.

Lemma prodn_split (l : list nat) (i : nat) :
  i < length l -> prodn (firstn i l) * nth i l 0 * prodn (skipn (S i) l) = prodn l.
Proof.
  revert i. unfold prodn. induction l as [|x l IH]; intros [|i] Hi; simpl in *; try lia.
  rewrite <- (IH i) by lia. lia.
Qed.

(** (C11) [ATen] [index_put] with constant index vectors and values that
    are not a vector: the unfolded index vectors enumerate the cartesian
    product of the index vectors in row-major order, the [i]-th one
    holding the [i]-th component of every tuple, and the values are
    flattened, so the [k]-th value goes to the [k]-th tuple. *)
Theorem unfolding_enumerates (dt : string) (ds : list (list Z)) (values : expr) :
  unfolding_indices (map (fun d => Const (VTensor dt [length d] d)) ds) values
  = Ok (map (fun i => Const (VTensor dt [length (cart ds)] (map (fun t => nth i t 0%Z) (cart ds))))
            (seq 0 (length ds)),
        flatten values).
Proof.
  unfold unfolding_indices. rewrite map_map.
  rewrite (mapM_map_Ok _ _ (fun d => Z.of_nat (length d))) by (intros d _; apply first_extent_const).
  cbn [bind]. destruct (size_lists (map (fun d => Z.of_nat (length d)) ds)) as [rs ts] eqn:Hs.
  rewrite length_map. do 2 f_equal. apply map_ext_in. intros i Hi. apply in_seq in Hi.
  destruct (size_lists_spec (map (fun d => Z.of_nat (length d)) ds) i) as [Ht Hr];
    [rewrite length_map; lia|]. rewrite Hs in Ht, Hr. cbn [fst snd] in Ht, Hr. rewrite Ht, Hr.
  replace (map (fun d => Z.of_nat (length d)) ds) with (map Z.of_nat (map (@length Z) ds))
    by now rewrite map_map.
  rewrite firstn_map, skipn_map, !zprod_of_nat.
  rewrite (nth_indep _ (Tuple []) (flatten (Const (VTensor dt [length (@nil Z)] [])))) by
    (rewrite length_map; lia).
  rewrite (map_nth (fun d => flatten (Const (VTensor dt [length d] d)))), fold_unfold_slice.
  rewrite cart_nth by lia. rewrite ?firstn_map, ?skipn_map. do 3 f_equal.
  rewrite cart_length, <- (prodn_split (map (@length Z) ds) i) by (rewrite length_map; lia).
  rewrite (nth_indep _ 0 (length (@nil Z))) by (rewrite length_map; lia).
  rewrite map_nth, firstn_map, skipn_map. ring.
Qed.

Lemma unfolding_enumerates_witness :
  unfolding_indices [Const (VTensor "int64" [2] [0; 1]%Z); Const (VTensor "int64" [3] [4; 5; 6]%Z)]
                    (Var "v" (TType [DInt 2; DInt 3] "float32"))
  = Ok ([Const (VTensor "int64" [6] [0; 0; 0; 1; 1; 1]%Z);
         Const (VTensor "int64" [6] [4; 5; 6; 4; 5; 6]%Z)],
        flatten (Var "v" (TType [DInt 2; DInt 3] "float32"))).
Proof. exact (unfolding_enumerates "int64" [[0; 1]; [4; 5; 6]]%Z _). Defined.

(** (C35) An [ATen] node without the [operator] attribute raises
    [AttributeError] on [None.decode] before the assertion
    ["ATen Operator not found"] meant to report it, which fires only for
    an empty name; a name outside the five supported ones fails the
    dispatch's assertion. *)
Theorem aten_operator_required (ins : list (option expr)) (attr : attr_table) (name : string) :
  (od_get "operator" attr = None ->
   aten_v1 ins attr = Err (AttributeError "NoneType object has no attribute decode")) /\
  (od_get "operator" attr = Some (ABytes "") ->
   aten_v1 ins attr = Err (AssertionError "ATen Operator not found")) /\
  (od_get "operator" attr = Some (ABytes name) ->
   ~ In name [""; "size"; "arange"; "index_put"; "reshape"; "embedding_bag"] ->
   aten_v1 ins attr = Err (AssertionError ("Operator " ++ name ++ " is not supported."))).
Proof.
  unfold aten_v1. repeat split; intros H; rewrite H; [reflexivity|reflexivity|].
  intros Hn. cbn [decode bind].
  destruct (String.eqb_spec name "") as [->|_]; [simpl in Hn; tauto|]. cbn [negb py_assert bind].
  unfold op_dispatch.
  repeat match goal with
         | |- context [String.eqb name ?s] =>
             destruct (String.eqb_spec name s) as [->|_]; [simpl in Hn; tauto|]
         end.
  reflexivity.
Qed.

Lemma aten_operator_required_witness :
  aten_v1 [] [] = Err (AttributeError "NoneType object has no attribute decode") /\
  aten_v1 [] [("operator", ABytes "")] = Err (AssertionError "ATen Operator not found") /\
  aten_v1 [] [("operator", ABytes "gelu")] = Err (AssertionError "Operator gelu is not supported.").
Proof.
  destruct (aten_operator_required [] [] "gelu") as [H1 _].
  destruct (aten_operator_required [] [("operator", ABytes "")] "gelu") as [_ [H2 _]].
  destruct (aten_operator_required [] [("operator", ABytes "gelu")] "gelu") as [_ [_ H3]].
  split; [apply H1; reflexivity|]. split; [apply H2; reflexivity|].
  apply H3; [reflexivity | simpl; intuition discriminate].
Defined.

End Aten.
