(* ===== verification/CumSum.v ===== *)
(** * CumSum: running sums with an axis read at conversion time

    [CumSum._impl_v1] (onnx.py lines 1429-1448) reads its axis input with
    [infer_value] (frontend/common.py), which evaluates an expression whose
    free variables are all parameters, and builds Relay's [cumsum]; the
    ONNX [reverse] attribute is served by reversing the data before and
    after the sum.  [infer_value] is modelled by the evaluator of [IR] on
    the parameters, with the fuel [2 * expr_size e] of [IR.fold_constant].

    Theorem: on a vector, the converted graph computes ONNX's [CumSum] for
    each value of [exclusive] and [reverse]: the prefix sums, or with
    [reverse] the suffix sums, each with or without its own element. *)

From Stdlib Require Import String List Bool Arith Lia ZArith.
From S2P Require Import Prelude Proto IR Attrs Ops Rules.
Import ListNotations.
Local Open Scope string_scope.
Local Open Scope list_scope.

Module CumSum.
Import Proto IR Attrs Ops Rules.

(** [infer_value(e, params)]: every free variable must be a parameter;
    the value is [e] evaluated with the parameters bound. *)
Definition infer_value (e : expr) (params : odict value) : result value :=
  let* _ := py_assert (forallb (fun v => od_mem (fst v) params) (free_vars e))
                      "All inputs to infer must be available in params." in
  of_option (RuntimeError "evaluation failed") (eval (2 * expr_size e) params e).

(** [int(v.numpy())]: a one-element array, a float truncated. *)
Definition py_int_of (v : value) : result Z :=
  match v with
  | VTensor _ _ [z] => Ok z
  | VReal _ n d => Ok (Z.quot n d)
  | _ => Err (TypeError "only size-1 arrays can be converted to Python scalars")
  end.

(** [attr.get(k, 0) != 0]. *)
Definition nonzero (v : attr_val) : bool :=
  match v with AInt z | AFloat z => negb (z =? 0)%Z | _ => true end.

(** [CumSum._impl_v1]: no axis input is [axis=None]. *)
Definition cumsum_v1 (ins : list (option expr)) (attr : attr_table) (params : odict value)
  : result expr :=
  let* dim := match input_at ins 1 with
              | None => Ok KNone
              | Some d => let* v := infer_value d params in let* z := py_int_of v in Ok (KInt z)
              end in
  let exclusive := kwarg_of (attr_or "exclusive" (AInt 0) attr) in
  if nonzero (attr_or "reverse" (AInt 0) attr) then
    let* out := relay_call "reverse" [input_at ins 0] [("axis", dim)] in
    let out := Call "cumsum" [out] [("axis", dim); ("exclusive", exclusive)] in
    Ok (Call "reverse" [out] [("axis", dim)])
  else relay_call "cumsum" [input_at ins 0] [("axis", dim); ("exclusive", exclusive)].

Definition convert_cumsum (cls : string) (ins : list (option expr)) (attr : attr_table)
           (params : odict value) : option (result expr) :=
  if cls =? "CumSum" then Some (cumsum_v1 ins attr params) else None.

(** ** Reference semantics *)

Definition zsum (l : list Z) : Z := fold_right Z.add 0%Z l.

(** ONNX's [CumSum] of a vector: element [i] sums the elements before it
    (or, [reverse], after it), its own included unless [exclusive]. *)
Definition onnx_cumsum (exclusive reverse : bool) (d : list Z) : list Z :=
  map (fun i => zsum (if reverse then skipn (if exclusive then S i else i) d
                      else firstn (if exclusive then i else S i) d))
      (seq 0 (length d)).

(** ** Theorems *)

Lemma zsum_rev (l : list Z) : zsum (rev l) = zsum l.
Proof.
  unfold zsum. induction l as [|x l IH]; cbn [rev fold_right]; [reflexivity|].
  rewrite fold_right_app, <- IH. cbn [fold_right].
  generalize (rev l). induction l0 as [|y l0 IHl]; cbn [fold_right]; lia.
Qed.

Lemma length_cumsum_data (e : bool) (d : list Z) : length (cumsum_data e d) = length d.
Proof. unfold cumsum_data. now rewrite length_map, length_seq. Qed.

(** Running sums of the reversed vector, reversed: the suffix sums. *)
Lemma rev_cumsum_rev (e : bool) (d : list Z) :
  rev (cumsum_data e (rev d)) = onnx_cumsum e true d.
Proof.
  apply nth_ext with (d := 0%Z) (d' := 0%Z).
  { unfold onnx_cumsum. now rewrite length_rev, length_cumsum_data, length_rev, length_map, length_seq. }
  intros i Hi. rewrite length_rev, length_cumsum_data, length_rev in Hi.
  rewrite rev_nth by (rewrite length_cumsum_data, length_rev; lia).
  rewrite length_cumsum_data, length_rev. unfold cumsum_data, onnx_cumsum. rewrite length_rev.
  rewrite !nth_map_seq by lia.
  rewrite firstn_rev. change (fold_right Z.add 0%Z (rev ?l)) with (zsum (rev l)). rewrite zsum_rev.
  f_equal. f_equal. destruct e; lia.
Qed.

#[local] Arguments cumsum_data : simpl never.
#[local] Arguments onnx_cumsum : simpl never.

(** (C9) [CumSum] of a vector with the axis given by the constant [0]:
    for each [exclusive] and [reverse] attribute in [{0, 1}] the rule
    converts, and the converted graph evaluates to ONNX's running sums. *)
Theorem cumsum_reference (dt : string) (d : list Z) (ex rv : Z) :
  In ex [0; 1]%Z -> In rv [0; 1]%Z ->
  exists out, cumsum_v1 [Some (Var "x" (TType [DInt (length d)] dt)); Some (Const (scalar "int64" 0))]
                        [("exclusive", AInt ex); ("reverse", AInt rv)] [] = Ok out /\
    eval 10 [("x", VTensor dt [length d] d)] out
    = Some (VTensor dt [length d] (onnx_cumsum (negb (ex =? 0)%Z) (negb (rv =? 0)%Z) d)).
Proof.
  intros Hex Hrv. destruct Hrv as [<-|[<-|[]]]; (eexists; split; [reflexivity|]); cbn.
  - reflexivity.
  - do 2 f_equal. apply rev_cumsum_rev.
Qed.

Lemma cumsum_reference_witness :
  exists out, cumsum_v1 [Some (Var "x" (TType [DInt (length [1; 2; 3]%Z)] "int32"));
                         Some (Const (scalar "int64" 0))]
                        [("exclusive", AInt 1); ("reverse", AInt 1)] [] = Ok out /\
    eval 10 [("x", VTensor "int32" [length [1; 2; 3]%Z] [1; 2; 3]%Z)] out
    = Some (VTensor "int32" [length [1; 2; 3]%Z] (onnx_cumsum true true [1; 2; 3]%Z)).
Proof. apply (cumsum_reference "int32" [1; 2; 3]%Z 1 1); simpl; tauto. Defined.

End CumSum.
