(* ===== verification/Random.v ===== *)
(** * Random: the random-number operators

    [RandomUniform] (onnx.py lines 3913-3933), [RandomNormal] (3936-3966)
    and [RandomNormalLike] (3969-4003) draw from Relay's counter-based
    generator: a key made from the node's [seed], or from
    [np.random.randint(1e6)] when the node has none, and
    [random.uniform], which returns the next key and the samples.  The
    normal samples come from the Box-Muller transform of two uniform
    draws.  The seed numpy would draw is the Section variable
    [np_seed] of the rules; the importer takes it from the class
    [NpRandom].  The constant [2 * pi] is
    the exact value of the Python float [2.0 * np.pi].

    Theorem: [RandomNormal] and [RandomNormalLike] accept [float64]
    outputs but multiply them by [float32] constants, so their graph
    type-checks exactly for [float32]. *)

From Stdlib Require Import String List Bool Arith Lia ZArith.
From S2P Require Import Prelude Proto IR Attrs Ops Rules Conv Tensor Activations Scaled.
Import ListNotations.
Local Open Scope string_scope.
Local Open Scope list_scope.

Module Random.
Import Proto IR Attrs Ops Rules Conv Tensor Activations Scaled.

(** The value [np.random.randint(1e6)] returns, for the importer. *)
Class NpRandom : Type := np_randint : Z.

Section Rules.

(** The value of [np.random.randint(1e6)] for a node without [seed]. *)
Variable np_seed : Z.

(** [get_type(attr.get("dtype", 1))]. *)
Definition dtype_attr (attr : attr_table) : result string :=
  match od_get "dtype" attr with
  | None => get_type 1
  | Some (AInt z) => get_type (Z.to_nat z)
  | Some _ => Err (KeyError "dtype")
  end.

(** The float attribute [k] with the default [num / den]. *)
Definition float_attr_q (k : string) (dflt : Z * Z) (attr : attr_table) : Z * Z :=
  match od_get k attr with
  | Some (AFloat z) | Some (AInt z) => (z, 1%Z)
  | Some (ARatio n d) => (n, d)
  | _ => dflt
  end.

Definition float_kw (q : Z * Z) : kwarg :=
  if (snd q =? 1)%Z then KFloat (fst q) else KRatio (fst q) (snd q).

(** [_random.threefry_key(seed)] with numpy's seed when there is none. *)
Definition seed_key (attr : attr_table) : expr :=
  let seed := match od_get "seed" attr with
              | Some (AInt z) | Some (AFloat z) => z
              | _ => np_seed
              end in
  Call "random.threefry_key" [] [("seed", KInt seed)].

Definition float_only (dtype : string) : result unit :=
  py_assert ((dtype =? "float32") || (dtype =? "float64"))
            "Only float random value generation is currently supported.".

(** [_op.random.uniform(key, shape, dtype=dtype, low=low, high=high)]. *)
Definition uniform (key : expr) (shape : list Z) (dtype : string) (low high : Z * Z) : expr :=
  Call "random.uniform" [key] [("shape", KInts shape); ("dtype", KStr dtype);
                               ("low", float_kw low); ("high", float_kw high)].

(** [RandomUniform._impl_v1]: the samples of one draw. *)
Definition random_uniform_v1 (attr : attr_table) : result expr :=
  let* dtype := dtype_attr attr in
  let high := float_attr_q "high" (1, 1)%Z attr in
  let low := float_attr_q "low" (0, 1)%Z attr in
  let* shape := od_find "shape" attr in
  let* shape := match shape with AInts l => Ok l | _ => Err (TypeError "not a list") end in
  let* _ := float_only dtype in
  Ok (TupleGetItem (uniform (seed_key attr) shape dtype low high) 1).

(** The Box-Muller transform of [RandomNormal] and [RandomNormalLike]:
    two uniform draws on [[0, 1)], the second from the key the first
    returns, scaled and shifted by [float32] constants. *)
Definition box_muller (attr : attr_table) (shape : list Z) (dtype : string) : expr :=
  let mean := float_attr_q "mean" (0, 1)%Z attr in
  let scale := float_attr_q "scale" (1, 1)%Z attr in
  let output := uniform (seed_key attr) shape dtype (0, 1)%Z (1, 1)%Z in
  let key := TupleGetItem output 0 in
  let u1 := TupleGetItem output 1 in
  let u2 := TupleGetItem (uniform key shape dtype (0, 1)%Z (1, 1)%Z) 1 in
  let const1 := Const (scalar "float32" (-2)) in
  let const2 := qconst "float32" (884279719003555, 140737488355328)%Z in
  let vals := bin "multiply" (un "sqrt" (bin "multiply" const1 (un "log" u1)))
                             (un "cos" (bin "multiply" const2 u2)) in
  bin "add" (bin "multiply" vals (qconst "float32" scale)) (qconst "float32" mean).

(** [RandomNormal._impl_v1]. *)
Definition random_normal_v1 (attr : attr_table) : result expr :=
  let* dtype := dtype_attr attr in
  let* shape := od_find "shape" attr in
  let* shape := match shape with AInts l => Ok l | _ => Err (TypeError "not a list") end in
  let* _ := float_only dtype in
  Ok (box_muller attr shape dtype).

(** [RandomNormalLike._impl_v1]: the input's static shape, and its type
    unless [dtype] is given. *)
Definition random_normal_like_v1 (ins : list (option expr)) (attr : attr_table) : result expr :=
  let* '(_, t) := typed_input ins 0 in
  let* in_shape := static_dims t in
  let* dtype := match od_get "dtype" attr with
                | None => Ok (tt_dtype t)
                | Some _ => dtype_attr attr
                end in
  let* _ := float_only dtype in
  Ok (box_muller attr in_shape dtype).

Definition convert_random (cls : string) (ins : list (option expr)) (attr : attr_table)
  : option (result expr) :=
  if cls =? "RandomUniform" then Some (random_uniform_v1 attr)
  else if cls =? "RandomNormal" then Some (random_normal_v1 attr)
  else if cls =? "RandomNormalLike" then Some (random_normal_like_v1 ins attr)
  else None.

End Rules.

(** (C34) [RandomNormal] accepts [dtype] [float32] (ONNX code 1) and
    [float64] (code 11), but the Box-Muller transform multiplies the
    samples by [float32] constants: for every seed and shape the rule
    converts, and the graph type-checks exactly when the output type is
    [float32]. *)
Theorem random_normal_float32_only (seed c : Z) (shape : list Z) :
  In c [1; 11]%Z ->
  exists e, random_normal_v1 seed [("dtype", AInt c); ("shape", AInts shape)] = Ok e /\
    ((exists t, infer_tensor e = Ok t) <-> c = 1%Z).
Proof.
  intros Hc. simpl in Hc.
  destruct Hc as [<-|[<-|[]]]; (eexists; split; [reflexivity|]); unfold box_muller.
  - split; [reflexivity | intros _]. infer_steps (@eq_refl). eexists; reflexivity.
  - split; [|discriminate]. intros [t Ht]. revert Ht. unfold infer_tensor. cbn.
    discriminate.
Qed.

Lemma random_normal_float32_only_witness :
  exists e, random_normal_v1 7 [("dtype", AInt 11); ("shape", AInts [2; 3]%Z)] = Ok e /\
    ((exists t, infer_tensor e = Ok t) <-> 11%Z = 1%Z).
Proof. apply (random_normal_float32_only 7 11 [2; 3]%Z). simpl; tauto. Defined.

End Random.
