(* ===== verification/Rnn.v ===== *)
(** * Rnn: the recurrent operators LSTM and GRU

    The rules of onnx.py for [LSTM] ([RNN] helpers, lines 2316-2348, and
    [LSTM], 2351-2515) and [GRU] (2518-2661).  They unbind the sequence,
    split the weights, biases, peepholes and initial states per
    direction, reorder the gates from the ONNX layout to the one of the
    cell functions, parse the activations, and assemble the outputs of
    one cell per direction ([bidir_lstm_cell] and [bidir_gru_cell] for
    two directions).

    The cells [lstm_cell] and [gru_cell] and the helper [unbind] live in
    frontend/common.py, outside the sources and the spec: they are the
    class [RnnCells], and every theorem holds for any cells.  An
    activation is data ([rnn_act]): a Relay operator ([sigmoid], [tanh])
    or an ONNX operator with the [alpha] and [beta] given to its rule at
    opset 1, as [_activation_helper] builds it; the cells apply them.

    Theorems: the activations that need an [alpha] (a [beta]) receive the
    values of [activation_alpha] ([activation_beta]) in order; a
    one-direction LSTM gives its cell the gates in the order i, f, c, o
    and the expected outputs; the rules ignore the [direction], [clip],
    [input_forget] and [layout] attributes and the [sequence_lens] input,
    so a [reverse] LSTM or GRU runs forward (a bug); for cells that
    return one output per step, the bidirectional assembly pairs the
    forward output of step [i] with the backward output [n - 1 - i] and
    stacks the final states forward first ([bidir_lstm_cell_pairs],
    [bidir_gru_cell_pairs]). *)

From Stdlib Require Import String List Bool Arith Lia ZArith.
From S2P Require Import Prelude Proto IR Attrs Ops Rules Conv Tensor Activations Index.
Import ListNotations.
Local Open Scope string_scope.
Local Open Scope list_scope.

Module Rnn.
Import Proto IR Attrs Ops Rules Conv Tensor Activations Index.

(** ** Activations *)

(** An activation of a cell: [_op.sigmoid] or [_op.tanh], or
    [_activation_helper(name, alpha, beta)], the rule of [name] at
    opset 1 with the given attributes. *)
Inductive rnn_act : Type :=
| ActRelay (op : string)
| ActOnnx (name : string) (alpha beta : option Z).

Definition needs_alpha (a : string) : bool :=
  existsb (String.eqb a) ["Affine"; "LeakyRelu"; "ThresholdedRelu"; "ScaledTanh"; "HardSigmoid"; "Elu"].

Definition needs_beta (a : string) : bool :=
  existsb (String.eqb a) ["Affine"; "ScaledTanh"; "HardSigmoid"].

(** [alphas[alpha_loc]] when the activation needs one and
    [len(alphas) > alpha_loc]: the next unused value. *)
Definition take_param (needed : bool) (vals : list Z) : option Z * list Z :=
  if needed then match vals with v :: rest => (Some v, rest) | [] => (None, []) end
  else (None, vals).

(** The loop of [_impl_v7] over [activations]. *)
Fixpoint rnn_acts (names : list string) (alphas betas : list Z) : list rnn_act :=
  match names with
  | [] => []
  | a :: rest =>
      let '(alpha, alphas') := take_param (needs_alpha a) alphas in
      let '(beta, betas') := take_param (needs_beta a) betas in
      ActOnnx a alpha beta :: rnn_acts rest alphas' betas'
  end.

(** [attr.get(k, [])], a float becoming a list of one. *)
Definition float_list_attr (k : string) (attr : attr_table) : result (list Z) :=
  match od_get k attr with
  | None => Ok []
  | Some (AFloats l) => Ok l
  | Some (AFloat z) => Ok [z]
  | Some _ => Err (TypeError k)
  end.

(** The activations of a rule with [per_dir] activations per direction,
    [dflt] when the attribute is absent. *)
Definition parse_acts (msg : string) (per_dir nd : nat) (dflt : list rnn_act) (attr : attr_table)
  : result (list rnn_act) :=
  match od_get "activations" attr with
  | None => Ok dflt
  | Some (AStrings names) =>
      if negb (Nat.eqb (length names) (per_dir * nd)) then Err (NotImplementedError msg)
      else
        let* alphas := float_list_attr "activation_alpha" attr in
        let* betas := float_list_attr "activation_beta" attr in
        Ok (rnn_acts names alphas betas)
  | Some _ => Err (TypeError "activations")
  end.

(** ** The cells *)

(** The keyword arguments of [lstm_cell] and [gru_cell]. *)
Record lstm_weights : Type := LstmWeights {
  lw_hidden : expr; lw_cell : expr; lw_w_inp : expr; lw_w_hid : expr;
  lw_b_inp : option expr; lw_b_hid : option expr;
  lw_p_i : option expr; lw_p_f : option expr; lw_p_o : option expr
}.

Record gru_weights : Type := GruWeights {
  gw_hidden : expr; gw_linear_before_reset : Z; gw_w_inp : expr; gw_w_hid : expr;
  gw_b_inp : option expr; gw_b_hid : option expr
}.

(** frontend/common.py: [unbind(x, axis=0)], [lstm_cell(input_seqs,
    **weights, f_act, g_act, h_act, backwards)] (the outputs, the last
    hidden state and the last cell state) and [gru_cell(input_seqs,
    **weights, rz_act, n_act, backwards)]. *)
Class RnnCells : Type := {
  unbind : expr -> result (list expr);
  lstm_cell : list expr -> lstm_weights -> rnn_act -> rnn_act -> rnn_act -> bool ->
              result (list expr * expr * expr);
  gru_cell : list expr -> gru_weights -> rnn_act -> rnn_act -> bool -> result (list expr * expr)
}.

(** ** Relay helpers *)

(** [_op.split(e, n, axis)[i]]. *)
Definition split_part (e : expr) (n : nat) (axis : Z) (i : nat) : expr :=
  TupleGetItem (Call "split" [e] [("indices_or_sections", KInt (Z.of_nat n)); ("axis", KInt axis)]) i.

(** [_op.squeeze(e, axis=[0])]. *)
Definition squeeze0 (e : expr) : expr := Call "squeeze" [e] [("axis", KInts [0%Z])].

(** [_op.concatenate([parts[j] for j in order], axis=0)] of the [n]
    gates of [e]: the ONNX gate layout permuted into the cell's. *)
Definition regate (e : expr) (n : nat) (order : list nat) : expr :=
  Call "concatenate" [Tuple (map (split_part (squeeze0 e) n 0) order)] [("axis", KInt 0)].

(** [_op.stack(l, axis=0)] and [_op.expand_dims(e, axis)]. *)
Definition stack (l : list expr) : expr := Call "stack" [Tuple l] [("axis", KInt 0)].
Definition expand (e : expr) (axis : Z) : expr := Call "expand_dims" [e] [("axis", KInt axis)].

(** [_op.zeros((num_directions, batch_size, hidden_size), W_dtype)]. *)
Definition state_zeros (nd : nat) (batch hidden : dimv) (dt : string) : result expr :=
  match batch, hidden with
  | DInt b, DInt h =>
      Ok (Call "zeros" [] [("shape", KInts [Z.of_nat nd; Z.of_nat b; Z.of_nat h]); ("dtype", KStr dt)])
  | _, _ => Err (TypeError "Any is not an integer extent")
  end.

(** [infer_shape(Wp)[0]], which must be 1 or 2. *)
Definition num_directions (tw : ttype) : result nat :=
  let bad := ValueError "num_directions must be either 1 or 2!" in
  match tt_shape tw with
  | DInt k :: _ => if Nat.eqb k 1 || Nat.eqb k 2 then Ok k else Err bad
  | DAny :: _ => Err bad
  | [] => Err (IndexError "tuple index out of range")
  end.

(** [l[i]] of a Python list. *)
Definition list_at {A : Type} (l : list A) (i : nat) : result A :=
  of_option (IndexError "list index out of range") (nth_error l i).

(** The bidirectional outputs: at step [i], the forward output [i] and
    the reverse output [seq_len - 1 - i] stacked. *)
Definition bidir_outputs (n : nat) (fwd rev : list expr) : result expr :=
  let* finals := mapM (fun i => let* a := list_at fwd i in
                                let* b := list_at rev (n - 1 - i) in
                                Ok (stack [a; b])) (seq 0 n) in
  Ok (stack finals).

(** A sequence of two steps of a batch of one with three features, and
    the weights of one direction with a hidden size of four. *)
Definition rnn_x : expr := Var "X" (TType [DInt 2; DInt 1; DInt 3] "float32").
Definition lstm_w : expr := Var "W" (TType [DInt 1; DInt 16; DInt 3] "float32").
Definition lstm_r : expr := Var "R" (TType [DInt 1; DInt 16; DInt 4] "float32").

(** Cells that build one symbolic step per element of the sequence, for
    the examples. *)
Definition symbolic_cells : RnnCells := {|
  unbind x := Ok [TupleGetItem x 0; TupleGetItem x 1];
  lstm_cell xs w _ _ _ _ :=
    Ok (map (fun x => Call "lstm_step" [x; lw_w_inp w; lw_w_hid w] []) xs, lw_hidden w, lw_cell w);
  gru_cell xs w _ _ _ := Ok (map (fun x => Call "gru_step" [x; gw_w_inp w; gw_w_hid w] []) xs, gw_hidden w)
|}.

(** The attributes the rules read besides [linear_before_reset]. *)
Definition act_keys : list string := ["activations"; "activation_alpha"; "activation_beta"].

(** The number of names before position [i] that satisfy [f]. *)
Definition count_before (f : string -> bool) (names : list string) (i : nat) : nat :=
  length (filter f (firstn i names)).

Section Rules.
Context {C : RnnCells}.

(** ** LSTM *)

(** The keyword arguments of the cell of direction [i]: ONNX's gates
    i, o, f, c become i, f, c, o; [B] splits into the input and hidden
    biases; [P] into [p_i, p_o, p_f]. *)
Definition lstm_dir_weights (nd : nat) (h0 c0 w r : expr) (b p : option expr) (i : nat)
  : lstm_weights :=
  let part e := split_part e nd 0 i in
  let reorder e := regate e 4 [0; 2; 3; 1] in
  let bias j := option_map (fun b => reorder (split_part (part b) 2 (-1) j)) b in
  let peep j := option_map (fun p => squeeze0 (split_part (split_part p 3 1 j) nd 0 i)) p in
  LstmWeights (squeeze0 (part h0)) (squeeze0 (part c0)) (reorder (part w)) (reorder (part r))
              (bias 0) (bias 1) (peep 0) (peep 2) (peep 1).

(** [LSTM.bidir_lstm_cell]: the forward cell with [acts[0:3]], the
    backward cell with [acts[3:6]], their outputs paired step by step,
    their last states stacked. *)
Definition bidir_lstm_cell (steps : list expr) (wd : nat -> lstm_weights) (acts : list rnn_act)
  : result (expr * expr * expr) :=
  let* f := list_at acts 0 in let* g := list_at acts 1 in let* h := list_at acts 2 in
  let* '(fo, fh, fc) := lstm_cell steps (wd 0) f g h false in
  let* f' := list_at acts 3 in let* g' := list_at acts 4 in let* h' := list_at acts 5 in
  let* '(ro, rh, rc) := lstm_cell steps (wd 1) f' g' h' true in
  let* out := bidir_outputs (length steps) fo ro in
  Ok (out, stack [fh; rh], stack [fc; rc]).

(** [LSTM._impl_v7]. *)
Definition lstm_v7 (ins : list (option expr)) (attr : attr_table) : result conv_out :=
  let* '(w, tw) := typed_input ins 1 in
  let* nd := num_directions tw in
  let* '(x, tx) := typed_input ins 0 in
  let* '(r, tr) := typed_input ins 2 in
  let* hidden := py_getitem (tt_shape tr) (-1) in
  let* batch := py_getitem (tt_shape tx) 1 in
  let* h0 := match input_at ins 5 with Some e => Ok e | None => state_zeros nd batch hidden (tt_dtype tw) end in
  let* c0 := match input_at ins 6 with Some e => Ok e | None => state_zeros nd batch hidden (tt_dtype tw) end in
  let* acts := parse_acts "LSTM assumes 3 * num_directions activation functions are provided"
                          3 nd (concat (repeat [ActRelay "sigmoid"; ActRelay "tanh"; ActRelay "tanh"] nd))
                          attr in
  let* steps := unbind x in
  let wd := lstm_dir_weights nd h0 c0 w r (input_at ins 3) (input_at ins 7) in
  if Nat.eqb nd 2 then
    let* '(out, hs, cs) := bidir_lstm_cell steps wd acts in
    Ok (Wrapper (Tuple [out; hs; cs]) 3)
  else
    let* f := list_at acts 0 in let* g := list_at acts 1 in let* h := list_at acts 2 in
    let* '(outs, hl, cl) := lstm_cell steps (wd 0) f g h false in
    Ok (Wrapper (Tuple [expand (stack outs) 1; expand hl 0; expand cl 0]) 3).

(** ** GRU *)

(** The cell of direction [i]: ONNX's gates z, r, h become r, z, n. *)
Definition gru_dir_weights (nd : nat) (lbr : Z) (h0 w r : expr) (b : option expr) (i : nat)
  : gru_weights :=
  let part e := split_part e nd 0 i in
  let reorder e := regate e 3 [1; 0; 2] in
  let bias j := option_map (fun b => reorder (split_part (part b) 2 (-1) j)) b in
  GruWeights (squeeze0 (part h0)) lbr (reorder (part w)) (reorder (part r)) (bias 0) (bias 1).

(** [GRU.bidir_gru_cell]: the forward cell with [acts[0:2]], the
    backward cell with [acts[2:4]]. *)
Definition bidir_gru_cell (steps : list expr) (wd : nat -> gru_weights) (acts : list rnn_act)
  : result (expr * expr) :=
  let* rz := list_at acts 0 in let* n := list_at acts 1 in
  let* '(fo, fh) := gru_cell steps (wd 0) rz n false in
  let* rz' := list_at acts 2 in let* n' := list_at acts 3 in
  let* '(ro, rh) := gru_cell steps (wd 1) rz' n' true in
  let* out := bidir_outputs (length steps) fo ro in
  Ok (out, stack [fh; rh]).

(** [GRU._impl_v7]: the default activations are [[sigmoid, tanh] * 2]
    whatever the number of directions. *)
Definition gru_v7 (ins : list (option expr)) (attr : attr_table) : result conv_out :=
  let* lbr := attr_int "linear_before_reset" 0 attr in
  let* '(w, tw) := typed_input ins 1 in
  let* nd := num_directions tw in
  let* '(x, tx) := typed_input ins 0 in
  let* '(r, tr) := typed_input ins 2 in
  let* hidden := py_getitem (tt_shape tr) (-1) in
  let* batch := py_getitem (tt_shape tx) 1 in
  let* h0 := match input_at ins 5 with Some e => Ok e | None => state_zeros nd batch hidden (tt_dtype tw) end in
  let* acts := parse_acts "GRU assumes 2 * num_directions activation functions are provided"
                          2 nd (concat (repeat [ActRelay "sigmoid"; ActRelay "tanh"] 2)) attr in
  let* steps := unbind x in
  let wd := gru_dir_weights nd lbr h0 w r (input_at ins 3) in
  if Nat.eqb nd 2 then
    let* '(out, hs) := bidir_gru_cell steps wd acts in
    Ok (Wrapper (Tuple [out; hs]) 2)
  else
    let* rz := list_at acts 0 in let* n := list_at acts 1 in
    let* '(outs, hl) := gru_cell steps (wd 0) rz n false in
    Ok (Wrapper (Tuple [expand (stack outs) 1; expand hl 0]) 2).

(** ** Dispatch *)

Definition convert_rnn (cls : string) (ins : list (option expr)) (attr : attr_table)
  : option (result conv_out) :=
  if cls =? "LSTM" then Some (lstm_v7 ins attr)
  else if cls =? "GRU" then Some (gru_v7 ins attr)
  else None.

End Rules.

(** ** Theorems *)

Lemma take_param_spec (b : bool) (vals : list Z) :
  fst (take_param b vals) = (if b then nth_error vals 0 else None) /\
  forall k, nth_error (snd (take_param b vals)) k = nth_error vals (if b then S k else k).
Proof.
  destruct b, vals as [|v rest]; simpl; split; auto; intros [|k]; reflexivity.
Qed.

Lemma length_rnn_acts (names : list string) (alphas betas : list Z) :
  length (rnn_acts names alphas betas) = length names.
Proof.
  revert alphas betas. induction names as [|a names IH]; intros alphas betas; [reflexivity|].
  simpl. destruct (take_param _ alphas), (take_param _ betas). simpl. now rewrite IH.
Qed.

(** The activation parameters are consumed in order: the [i]-th
    activation [a] gets, when it needs an [alpha], the value of
    [activation_alpha] after those taken by the activations before it
    that need one ([None] when the list is exhausted), and likewise for
    [beta]. *)
Theorem rnn_acts_params (names : list string) (alphas betas : list Z) (i : nat) (a : string) :
  nth_error names i = Some a ->
  nth_error (rnn_acts names alphas betas) i =
    Some (ActOnnx a
            (if needs_alpha a then nth_error alphas (count_before needs_alpha names i) else None)
            (if needs_beta a then nth_error betas (count_before needs_beta names i) else None)).
Proof.
  unfold count_before. revert i alphas betas.
  induction names as [|b names IH]; intros [|i] alphas betas H; try discriminate; simpl in H |- *.
  - inv H. destruct (take_param_spec (needs_alpha a) alphas) as [Ha _].
    destruct (take_param_spec (needs_beta a) betas) as [Hb _].
    destruct (take_param (needs_alpha a) alphas), (take_param (needs_beta a) betas).
    simpl in *. now subst.
  - destruct (take_param_spec (needs_alpha b) alphas) as [_ Ha].
    destruct (take_param_spec (needs_beta b) betas) as [_ Hb].
    destruct (take_param (needs_alpha b) alphas) as [al als] eqn:E1,
             (take_param (needs_beta b) betas) as [be bes] eqn:E2.
    simpl in Ha, Hb. rewrite (IH i als bes H), Ha, Hb.
    destruct (needs_alpha b), (needs_beta b); reflexivity.
Qed.

(** [LeakyRelu] takes the first alpha; [ScaledTanh] the second alpha and
    the first beta. *)
Lemma rnn_acts_params_witness :
  nth_error (rnn_acts ["LeakyRelu"; "Tanh"; "ScaledTanh"] [1; 2]%Z [3]%Z) 2 =
    Some (ActOnnx "ScaledTanh" (Some 2%Z) (Some 3%Z)).
Proof. exact (rnn_acts_params ["LeakyRelu"; "Tanh"; "ScaledTanh"] _ _ 2 "ScaledTanh" eq_refl). Defined.

Lemma parse_acts_set (msg : string) (p nd : nat) (d : list rnn_act) (attr : attr_table)
      (k : string) (v : attr_val) :
  ~ In k act_keys -> parse_acts msg p nd d (od_set k v attr) = parse_acts msg p nd d attr.
Proof.
  intros Hk. unfold parse_acts, float_list_attr.
  rewrite !od_get_set_ne by (intros ->; apply Hk; simpl; tauto). reflexivity.
Qed.

(** Two computations that differ only in the attribute table read by
    [parse_acts] (and possibly by a first step [H0]) agree. *)
Ltac bind_congr H :=
  repeat first [ rewrite H; reflexivity
               | apply bind_ext; intros ? _;
                 repeat match goal with p : (_ * _)%type |- _ => destruct p end;
                 cbv beta iota zeta ].

Section Facts.
Context {C : RnnCells}.

Lemma lstm_v7_attr_ext (ins : list (option expr)) (attr attr' : attr_table) :
  (forall msg p nd d, parse_acts msg p nd d attr = parse_acts msg p nd d attr') ->
  lstm_v7 ins attr = lstm_v7 ins attr'.
Proof. intros H. unfold lstm_v7. bind_congr H. Qed.

Lemma gru_v7_attr_ext (ins : list (option expr)) (attr attr' : attr_table) :
  attr_int "linear_before_reset" 0 attr = attr_int "linear_before_reset" 0 attr' ->
  (forall msg p nd d, parse_acts msg p nd d attr = parse_acts msg p nd d attr') ->
  gru_v7 ins attr = gru_v7 ins attr'.
Proof. intros H0 H. unfold gru_v7. rewrite H0. bind_congr H. Qed.

Lemma lstm_v7_ins_ext (ins ins' : list (option expr)) (attr : attr_table) :
  (forall j, j <> 4 -> input_at ins' j = input_at ins j) -> lstm_v7 ins' attr = lstm_v7 ins attr.
Proof. intros H. unfold lstm_v7, typed_input. rewrite !H by discriminate. reflexivity. Qed.

Lemma gru_v7_ins_ext (ins ins' : list (option expr)) (attr : attr_table) :
  (forall j, j <> 4 -> input_at ins' j = input_at ins j) -> gru_v7 ins' attr = gru_v7 ins attr.
Proof. intros H. unfold gru_v7, typed_input. rewrite !H by discriminate. reflexivity. Qed.

(** (C26) The recurrent rules read no attribute but the activations (and,
    for GRU, [linear_before_reset]) and never read the [sequence_lens]
    input: [direction], [clip], [input_forget], [layout] and
    [hidden_size] change nothing, so a one-direction LSTM or GRU with
    [direction = reverse] is converted as a forward one, and sequences
    of different lengths in a batch are all run to the full length. *)
Theorem rnn_ignored_inputs (ins ins' : list (option expr)) (attr : attr_table) (k : string)
        (v : attr_val) :
  ~ In k act_keys -> (forall j, j <> 4 -> input_at ins' j = input_at ins j) ->
  lstm_v7 ins' (od_set k v attr) = lstm_v7 ins attr /\
  (k <> "linear_before_reset" -> gru_v7 ins' (od_set k v attr) = gru_v7 ins attr).
Proof.
  intros Hk Hins. split; [|intros Hl].
  - rewrite (lstm_v7_ins_ext ins ins') by exact Hins. apply lstm_v7_attr_ext.
    intros. now apply parse_acts_set.
  - rewrite (gru_v7_ins_ext ins ins') by exact Hins. apply gru_v7_attr_ext.
    + unfold attr_int. now rewrite od_get_set_ne by congruence.
    + intros. now apply parse_acts_set.
Qed.

End Facts.

(** *** The bidirectional assembly *)

Lemma list_at_nth {A : Type} (l : list A) (i : nat) (d : A) :
  i < length l -> list_at l i = Ok (nth i l d).
Proof. intros H. unfold list_at. now rewrite (nth_error_nth' l d H). Qed.

(** With at least [n] outputs per direction, the output at step [i]
    stacks the forward output [i] and the reverse output [n - 1 - i]. *)
Lemma bidir_outputs_spec (n : nat) (fwd rev : list expr) (d : expr) :
  n <= length fwd -> n <= length rev ->
  bidir_outputs n fwd rev = Ok (stack (map (fun i => stack [nth i fwd d; nth (n - 1 - i) rev d]) (seq 0 n))).
Proof.
  intros Hf Hr. unfold bidir_outputs.
  rewrite (mapM_In_Ok _ (fun i => stack [nth i fwd d; nth (n - 1 - i) rev d])); [reflexivity|].
  intros i Hi. apply in_seq in Hi. rewrite !(list_at_nth _ _ d) by lia. reflexivity.
Qed.

(** [lstm_cell] and [gru_cell] of frontend/common.py return one output
    per element of the input sequence. *)
Section Bidir.
Context {C : RnnCells}.
Hypothesis lstm_cell_len : forall xs w f g h b os hl cl,
  lstm_cell xs w f g h b = Ok (os, hl, cl) -> length os = length xs.
Hypothesis gru_cell_len : forall xs w rz n b os hl,
  gru_cell xs w rz n b = Ok (os, hl) -> length os = length xs.

Let act (acts : list rnn_act) (i : nat) : rnn_act := nth i acts (ActRelay "").

(** (C32) [LSTM.bidir_lstm_cell] on [n] steps, with six activations and
    cells that return one output per step: the output sequence stacks, at
    step [i], the forward cell's output [i] with the backward cell's
    output [n - 1 - i] (the backward cell runs from the last step), and
    the final hidden and cell states are the forward and backward ones
    stacked in that order; the forward cell gets [acts[0:3]], the
    backward one [acts[3:6]]. *)
Theorem bidir_lstm_cell_pairs (steps : list expr) (wd : nat -> lstm_weights)
        (acts : list rnn_act) (fo ro : list expr) (fh fc rh rc : expr) :
  6 <= length acts ->
  lstm_cell steps (wd 0) (act acts 0) (act acts 1) (act acts 2) false = Ok (fo, fh, fc) ->
  lstm_cell steps (wd 1) (act acts 3) (act acts 4) (act acts 5) true = Ok (ro, rh, rc) ->
  bidir_lstm_cell steps wd acts =
  Ok (stack (map (fun i => stack [nth i fo (Tuple []); nth (length steps - 1 - i) ro (Tuple [])])
                 (seq 0 (length steps))),
      stack [fh; rh], stack [fc; rc]).
Proof.
  intros Ha Hf Hr. unfold bidir_lstm_cell.
  rewrite !(list_at_nth acts _ (ActRelay "")) by lia. simpl. unfold act in Hf, Hr. rewrite Hf, Hr.
  simpl. rewrite (bidir_outputs_spec _ _ _ (Tuple [])); [reflexivity|..].
  - now rewrite (lstm_cell_len _ _ _ _ _ _ _ _ _ Hf).
  - now rewrite (lstm_cell_len _ _ _ _ _ _ _ _ _ Hr).
Qed.

(** The same assembly in [GRU.bidir_gru_cell], with [acts[0:2]] and
    [acts[2:4]]. *)
Lemma bidir_gru_cell_pairs (steps : list expr) (wd : nat -> gru_weights)
      (acts : list rnn_act) (fo ro : list expr) (fh rh : expr) :
  4 <= length acts ->
  gru_cell steps (wd 0) (act acts 0) (act acts 1) false = Ok (fo, fh) ->
  gru_cell steps (wd 1) (act acts 2) (act acts 3) true = Ok (ro, rh) ->
  bidir_gru_cell steps wd acts =
  Ok (stack (map (fun i => stack [nth i fo (Tuple []); nth (length steps - 1 - i) ro (Tuple [])])
                 (seq 0 (length steps))),
      stack [fh; rh]).
Proof.
  intros Ha Hf Hr. unfold bidir_gru_cell.
  rewrite !(list_at_nth acts _ (ActRelay "")) by lia. simpl. unfold act in Hf, Hr. rewrite Hf, Hr.
  simpl. rewrite (bidir_outputs_spec _ _ _ (Tuple [])); [reflexivity|..].
  - now rewrite (gru_cell_len _ _ _ _ _ _ _ Hf).
  - now rewrite (gru_cell_len _ _ _ _ _ _ _ Hr).
Qed.

End Bidir.

(** A [reverse] LSTM with a [sequence_lens] input converts, with the
    symbolic cells, exactly as the forward LSTM without it. *)
Lemma rnn_ignored_inputs_witness :
  (exists o, @lstm_v7 symbolic_cells [Some rnn_x; Some lstm_w; Some lstm_r] [] = Ok o) /\
  @lstm_v7 symbolic_cells [Some rnn_x; Some lstm_w; Some lstm_r; None;
                           Some (Var "sequence_lens" (TType [DInt 1] "int32"))]
           [("direction", ABytes "reverse")] =
  @lstm_v7 symbolic_cells [Some rnn_x; Some lstm_w; Some lstm_r] [].
Proof.
  split; [eexists; reflexivity|].
  apply (@rnn_ignored_inputs symbolic_cells _ _ [] "direction" (ABytes "reverse")).
  - simpl. intuition discriminate.
  - intros [|[|[|[|[|j]]]]] Hj; try reflexivity.
    + exfalso; apply Hj; reflexivity.
    + unfold input_at; simpl; destruct j; reflexivity.
Defined.

(** The symbolic cells on a sequence of two steps, six activations. *)
Lemma bidir_lstm_cell_pairs_witness :
  let acts := repeat (ActRelay "tanh") 6 in
  let steps := [Var "x0" (TType [] "float32"); Var "x1" (TType [] "float32")] in
  let wd := lstm_dir_weights 2 rnn_x rnn_x lstm_w lstm_r None None in
  exists fo ro fh fc rh rc,
    @lstm_cell symbolic_cells steps (wd 0) (ActRelay "tanh") (ActRelay "tanh") (ActRelay "tanh") false
      = Ok (fo, fh, fc) /\
    @bidir_lstm_cell symbolic_cells steps wd acts =
    Ok (stack (map (fun i => stack [nth i fo (Tuple []); nth (length steps - 1 - i) ro (Tuple [])])
                   (seq 0 (length steps))), stack [fh; rh], stack [fc; rc]).
Proof.
  intros acts steps wd. do 6 eexists. split; [reflexivity|].
  apply (@bidir_lstm_cell_pairs symbolic_cells).
  - intros xs w f g h b os hl cl H. inv H. apply length_map.
  - simpl. lia.
  - reflexivity.
  - reflexivity.
Defined.

End Rnn.
