(* ===== verification/Scope.v ===== *)
(** * Scope: the conversion scope ([GraphProto]) and the steps of [from_onnx]

    [class GraphProto] (onnx.py, lines 4500-4812) is the conversion scope:
    [_nodes] maps ONNX value names to Relay expressions, [_params] the
    non-frozen initializers to their tensors, [_inputs] the graph inputs
    to their Relay variables; [_shape], [_dtype] and [_freeze_params] are
    the user's configuration, copied into every nested scope.  The class
    attribute [GraphProto.current] and [_old_manager] record the scope
    stack; here the current scope is passed explicitly (spec, section 9)
    and [outermost] records whether [_old_manager] is [None].

    This file holds the state ([gstate]) and the steps of
    [GraphProto.from_onnx] that do not recurse into subgraphs:
    registering initializers and inputs, the check of the user's shapes,
    the aggregated check of unsupported operators, the conversion of one
    node given a rule dispatcher ([convert_node], which folds the rule's
    output with [IR.fold_constant] ([fold_op]), reconciles the output
    arity ([reconcile]) and binds the outputs in [_nodes] ([bind_nodes])),
    the graph outputs, and the assembly of
    the Relay function ([finish]).

    [scope_wf] is the invariant of the state: unique keys in the three
    dicts, parameters and inputs bound in [_nodes], each input entry the
    variable of its name, [_input_names] distinct and counted by
    [_num_input].  [new_scope_wf], [add_initializer_wf], [add_input_wf]
    and [bind_nodes_wf] show the steps keep it; [convert_node_pres] that
    [convert_node] keeps any property its binding and its rule dispatcher
    keep; [finish_keeps_inputs] that every input becomes a
    parameter of the function.

    Child scopes: [child_of] is the scope of an [If] or [Loop] body and
    [merge_child] merges it back.  [closed P] says a property [P] of the
    scope survives every change the importer makes to a [GraphProto]
    (setting the opset, registering an initializer or an input, binding
    node outputs, entering a child scope, merging a child back);
    [wf_closed] shows [scope_wf] does. *)

From Stdlib Require Import String Ascii List Bool Arith Lia ZArith.
From S2P Require Import Prelude Proto IR Attrs Ops.
Import ListNotations.
Local Open Scope string_scope.
Local Open Scope list_scope.

Module Scope.
Import Proto IR Attrs Ops.

(** [dtype]: one type name, or a dict from input names to type names. *)
Inductive dtype_cfg : Type :=
| DtypeStr (s : string)
| DtypeDict (d : odict string).

(** The configuration that a scope copies into its nested scopes. *)
Record config : Type := Config {
  c_shape : odict (list dimv);
  c_dtype : dtype_cfg;
  c_freeze : bool
}.

Record gstate : Type := GState {
  nodes : odict expr;
  params : odict value;
  inputs : odict expr;
  renames : odict string;
  num_input : nat;
  num_param : nat;
  input_names : list string;
  opset : nat;
  outermost : bool;
  warnings : list string;
  cfg : config
}.

(** [GraphProto.__init__] followed by [__enter__]: [outermost] is whether
    no scope was current. *)
Definition new_scope (c : config) (outer : bool) : gstate :=
  GState [] [] [] [] 0 0 [] 0 outer [] c.

Definition set_nodes (s : gstate) (n : odict expr) : gstate :=
  GState n (params s) (inputs s) (renames s) (num_input s) (num_param s)
         (input_names s) (opset s) (outermost s) (warnings s) (cfg s).
Definition set_params (s : gstate) (p : odict value) : gstate :=
  GState (nodes s) p (inputs s) (renames s) (num_input s) (num_param s)
         (input_names s) (opset s) (outermost s) (warnings s) (cfg s).
Definition set_inputs (s : gstate) (i : odict expr) : gstate :=
  GState (nodes s) (params s) i (renames s) (num_input s) (num_param s)
         (input_names s) (opset s) (outermost s) (warnings s) (cfg s).
Definition set_opset (s : gstate) (o : nat) : gstate :=
  GState (nodes s) (params s) (inputs s) (renames s) (num_input s) (num_param s)
         (input_names s) o (outermost s) (warnings s) (cfg s).

(** The type of the variable [new_var(name, shape=a.shape, dtype=a.dtype)]. *)
Definition value_ttype (v : value) : ttype :=
  match v with
  | VTensor dt sh _ => TType (map DInt sh) dt
  | VReal dt _ _ => TType [] dt
  | VTuple _ => TType [] ""
  end.

(** [not name.strip()]. *)
Fixpoint str_blank (s : string) : bool :=
  match s with
  | EmptyString => true
  | String c s' =>
      existsb (Ascii.eqb c) [" "%char; "009"%char; "010"%char; "011"%char;
                             "012"%char; "013"%char] && str_blank s'
  end.

(** ** Initializers and inputs (lines 4585-4628) *)

Definition add_initializer (s : gstate) (t : tensor_proto) : result gstate :=
  let name := t_name t in
  if str_blank name then Err (ValueError "Tensor's name is required.") else
  let* arr := parse_array t in
  if c_freeze (cfg s) then Ok (set_nodes s (od_set name (Const arr) (nodes s)))
  else
    let s := set_params s (od_set name arr (params s)) in
    Ok (set_nodes s (od_set name (Var name (value_ttype arr)) (nodes s))).

(** The dtype of a declared input: with a dict, its entry or the graph's
    own type; with a single type name, always the graph's own type. *)
Definition input_dtype (c : dtype_cfg) (name : string) (d_type : option string) : option string :=
  match c with
  | DtypeDict d => match od_get name d with Some t => Some t | None => d_type end
  | DtypeStr _ => d_type
  end.

Definition add_input (s : gstate) (vi : value_info) : result gstate :=
  let* inf := get_info vi in
  let name := info_name inf in
  match od_get name (params s) with
  | Some _ =>
      let* '(arr, ps) := od_pop name (params s) in
      let v := Var name (value_ttype arr) in
      Ok (GState (od_set name v (nodes s)) (od_set name arr ps) (od_set name v (inputs s))
                 (renames s) (num_input s) (S (num_param s)) (input_names s)
                 (opset s) (outermost s) (warnings s) (cfg s))
  | None =>
      if od_mem name (nodes s) then Ok s else
      let '(shape, warns) :=
        match od_get name (c_shape (cfg s)) with
        | Some sh => (sh, [])
        | None => (info_shape inf,
                   if has_unknown_dim (info_shape inf)
                   then ["Input has unknown dimension shapes"] else [])
        end in
      let dt := match input_dtype (c_dtype (cfg s)) name (info_dtype inf) with
                | Some t => t | None => "" end in
      let v := Var name (TType shape dt) in
      Ok (GState (od_set name v (nodes s)) (params s) (od_set name v (inputs s))
                 (renames s) (S (num_input s)) (num_param s) (input_names s ++ [name])
                 (opset s) (outermost s) (warnings s ++ warns) (cfg s))
  end.

(** [assert all(name in self._input_names for name in self._shape.keys())],
    in the outermost scope only. *)
Definition check_user_shapes (s : gstate) : result unit :=
  if outermost s then
    py_assert (forallb (fun k => existsb (String.eqb k) (input_names s)) (od_keys (c_shape (cfg s))))
              "User specified the shape for inputs that weren't found in the graph"
  else Ok tt.

(** ** The aggregated check of unsupported operators (lines 4636-4650) *)

Fixpoint dedup (l : list string) : list string :=
  match l with
  | [] => []
  | x :: l' => x :: filter (fun y => negb (String.eqb x y)) (dedup l')
  end.

Definition unsupported_ops {V : Type} (cmap : odict V) (g : graph_proto) : list string :=
  dedup (filter (fun op => negb (od_mem op cmap) && negb (String.eqb op "Constant")
                           && negb (existsb (String.eqb op) identity_list))
                (map n_op_type (g_node g))).

Definition check_supported (opset : nat) (g : graph_proto) : result unit :=
  let* cmap := get_convert_map opset in
  match unsupported_ops cmap g with
  | [] => Ok tt
  | ops => Err (OpNotImplemented ops)
  end.

(** ** Output arity reconciliation (lines 4676-4714) *)

(** [_fix_outputs]: a [Dropout] with two outputs loses its mask. *)
Definition fix_outputs (op_name : string) (outputs : list string) : list string :=
  if String.eqb op_name "Dropout" then
    match outputs with
    | [_] => outputs
    | _ => removelast outputs
    end
  else outputs.

Definition conv_expr (op : conv_out) : expr :=
  match op with Single e => e | Wrapper e _ => e end.

(** [op[i]] on a [TupleWrapper]. *)
Definition proj (op : conv_out) (i : nat) : result expr :=
  match op with
  | Wrapper e n => if Nat.ltb i n then Ok (TupleGetItem e i)
                   else Err (IndexError "TupleWrapper index out of range")
  | Single _ => Err (TypeError "not a TupleWrapper")
  end.

(** [tup.fields[i]] when [op.astuple()] is a [Tuple], [op[i]] otherwise. *)
Definition pick (op : conv_out) (i : nat) : result expr :=
  match conv_expr op with
  | Tuple fs => of_option (IndexError "tuple index out of range") (nth_error fs i)
  | _ => proj op i
  end.

Definition nonempty (s : string) : bool := negb (String.eqb s "").

(** [valid_outputs] after the loop over [node_output]: an output name at
    a position past the rule's arity that is not empty raises [IndexError]. *)
Definition valid_outputs (outputs_num : nat) (node_output : list string) : result (list bool) :=
  if existsb (fun i => nonempty (nth i node_output "")) (seq outputs_num (length node_output - outputs_num))
  then Err (IndexError "list assignment index out of range")
  else Ok (map (fun i => Nat.ltb i (length node_output) && nonempty (nth i node_output ""))
               (seq 0 outputs_num)).

(** [op = fold_constant(op)] for a single output, the tuple of a
    [TupleWrapper] folded otherwise; a [TupleWrapper] of one field is
    passed to [fold_constant] itself, which takes only expressions. *)
Definition fold_op (op : conv_out) : result conv_out :=
  match op with
  | Single e => Ok (Single (fold_constant e))
  | Wrapper e n =>
      if Nat.eqb n 1 then Err (TypeError "fold_constant expects a Relay expression")
      else Ok (Wrapper (fold_constant e) n)
  end.

(** The names the node binds and the expressions it binds them to. *)
Definition reconcile (op_name : string) (op : conv_out) (node_output : list string)
  : result (list (string * expr)) :=
  let outputs_num := match op with Single _ => 1 | Wrapper _ n => n end in
  let* '(op, outputs_num, node_output) :=
    if Nat.ltb 1 outputs_num then
      let* valid := valid_outputs outputs_num node_output in
      if forallb id valid then Ok (op, outputs_num, node_output) else
      let idx := filter (fun i => nth i valid false) (seq 0 outputs_num) in
      let* outs := mapM (pick op) idx in
      let op' := match outs with
                 | [o] => Single o
                 | _ => if Nat.eqb (length outs) outputs_num then op
                        else Wrapper (Tuple outs) (length outs)
                 end in
      Ok (op', length outs, filter nonempty node_output)
    else Ok (op, outputs_num, node_output) in
  let* _ := py_assert (Nat.eqb (length node_output) outputs_num)
                      ("Number of output mismatch in " ++ op_name) in
  if Nat.eqb outputs_num 1 then Ok [(hd "" node_output, conv_expr op)]
  else mapM (fun ki => let* e := proj op (snd ki) in Ok (fst ki, e))
            (combine node_output (seq 0 (length node_output))).

(** [self._nodes[k] = v] for each pair, in order. *)
Definition bind_nodes (s : gstate) (kvs : list (string * expr)) : gstate :=
  set_nodes s (fold_left (fun d kv => od_set (fst kv) (snd kv) d) kvs (nodes s)).

(** ** One node (lines 4652-4714) *)

(** The rule dispatcher: the scope, the operator, its inputs, its
    attributes; it returns the rule's output and the scope after it (a
    control-flow rule updates the scope). *)
Definition dispatcher := gstate -> string -> list (option expr) -> attr_table
                         -> result (conv_out * gstate).

(** [inputs.append(self._nodes[self._renames.get(i, i)])], [None] for "". *)
Definition node_input (s : gstate) (i : string) : result (option expr) :=
  if String.eqb i "" then Ok None else
  let i' := match od_get i (renames s) with Some r => r | None => i end in
  let* e := od_find i' (nodes s) in Ok (Some e).

Definition convert_node (cvt : dispatcher) (s : gstate) (n : node_proto) : result gstate :=
  let op_name := n_op_type n in
  let* attr := parse_attr (n_attribute n) in
  let* ins := mapM (node_input s) (n_input n) in
  let node_output := fix_outputs op_name (n_output n) in
  let attr := od_set "tvm_custom" (ATvmCustom (n_name n) (length node_output)) attr in
  let* '(op, s) := cvt s op_name ins attr in
  let* op := fold_op op in
  let* binds := reconcile op_name op node_output in
  Ok (bind_nodes s binds).

(** ** Outputs and the Relay function (lines 4716-4733) *)

(** [outputs = [self._nodes[o.name] for o in graph.output]], a single
    expression or a tuple. *)
Definition graph_outputs (s : gstate) (g : graph_proto) : result expr :=
  let* outs := mapM (fun vi => od_find (vi_name vi) (nodes s)) (g_output g) in
  match outs with
  | [o] => Ok o
  | _ => Ok (Tuple outs)
  end.

Definition ttype_eqb (a b : ttype) : bool :=
  String.eqb (tt_dtype a) (tt_dtype b) &&
  (Nat.eqb (length (tt_shape a)) (length (tt_shape b)) &&
   forallb (fun p => match p with
                     | (DAny, DAny) => true
                     | (DInt x, DInt y) => Nat.eqb x y
                     | _ => false
                     end) (combine (tt_shape a) (tt_shape b))).

Definition is_var (n : string) (t : ttype) (e : expr) : bool :=
  match e with Var n' t' => String.eqb n n' && ttype_eqb t t' | _ => false end.

(** [{v: k for k, v in self._nodes.items()}[var]]: the last name bound to
    the variable. *)
Definition node_name_of (nodes : odict expr) (n : string) (t : ttype) : result string :=
  match filter (fun kv => is_var n t (snd kv)) (rev nodes) with
  | (k, _) :: _ => Ok k
  | [] => Err (KeyError n)
  end.

(** A Relay function: its parameters and its body. *)
Record func : Type := Func {
  fn_params : list expr;
  fn_body : expr
}.

Definition finish (s : gstate) (outputs : expr) : result (func * odict value) :=
  let* fv := mapM (fun nt => node_name_of (nodes s) (fst nt) (snd nt)) (free_vars outputs) in
  let* ins := foldM (fun ins i_name =>
                       if existsb (String.eqb i_name) fv && negb (od_mem i_name ins)
                       then let* e := od_find i_name (nodes s) in Ok (od_set i_name e ins)
                       else Ok ins) (inputs s) (od_keys (params s)) in
  Ok (Func (map snd ins) outputs, params s).

(** ** Well-formed scopes *)

(** What every scope the importer builds satisfies: the three dicts
    have unique keys (they are Python dicts); every parameter and every
    input is bound in [_nodes]; every entry of [_inputs] is the variable
    named after its key ([new_var(i_name, ...)]); [_input_names] lists
    inputs of [_inputs], each once, and [_num_input] counts them. *)
Record scope_wf (s : gstate) : Prop := {
  wf_nodes_nodup : NoDup (od_keys (nodes s));
  wf_params_nodup : NoDup (od_keys (params s));
  wf_inputs_nodup : NoDup (od_keys (inputs s));
  wf_params_nodes : forall k, In k (od_keys (params s)) -> In k (od_keys (nodes s));
  wf_inputs_nodes : forall k, In k (od_keys (inputs s)) -> In k (od_keys (nodes s));
  wf_inputs_vars : forall k e, od_get k (inputs s) = Some e -> exists t, e = Var k t;
  wf_names_inputs : forall k, In k (input_names s) -> In k (od_keys (inputs s));
  wf_names_nodup : NoDup (input_names s);
  wf_num_input : num_input s = length (input_names s)
}.

(** ** Child scopes (If and Loop bodies) *)

(** [GraphProto(scope._shape, scope._dtype, scope._freeze_params)] whose
    [_nodes] is a copy of the enclosing scope's, entered under it. *)
Definition child_of (s : gstate) : gstate := set_nodes (new_scope (cfg s) false) (nodes s).

(** [scope._params.update(child._params)], [scope._nodes.update(child._nodes)]
    and [scope._nodes.update({var.name_hint: var})] for the free variables
    of [e]. *)
Definition merge_child (s child : gstate) (e : expr) : gstate :=
  let ps := od_update (params s) (params child) in
  let ns := od_update (nodes s) (nodes child) in
  let ns := fold_left (fun d nt => od_set (fst nt) (Var (fst nt) (snd nt)) d) (free_vars e) ns in
  set_nodes (set_params s ps) ns.

(** ** The changes of a scope

    The ways [GraphProto.from_onnx] and the control-flow rules change a
    scope: [_opset] set on entry, an initializer or an input registered,
    names of [_nodes] bound (node outputs, loop variables), a child scope
    entered for a subgraph, and a child merged back into its parent with
    the free variables of an expression. *)

(** A property of the scope that every change keeps. *)
Record closed (P : gstate -> Prop) : Prop := {
  closed_opset : forall s op, P s -> P (set_opset s op);
  closed_init : forall s t s', P s -> add_initializer s t = Ok s' -> P s';
  closed_input : forall s vi s', P s -> add_input s vi = Ok s' -> P s';
  closed_bind : forall s kvs, P s -> P (bind_nodes s kvs);
  closed_child : forall s, P s -> P (child_of s);
  closed_merge : forall s c e, P s -> P c -> P (merge_child s c e)
}.

(** ** Output arity reconciliation: theorems *)

Lemma ttype_eqb_refl (t : ttype) : ttype_eqb t t = true.
Proof.
  destruct t as [sh dt]. unfold ttype_eqb; simpl.
  rewrite String.eqb_refl, Nat.eqb_refl. simpl.
  induction sh as [|[|n] sh IH]; simpl; [reflexivity | exact IH | rewrite Nat.eqb_refl; exact IH].
Qed.

Lemma length_filter_le {A : Type} (f : A -> bool) (l : list A) :
  length (filter f l) <= length l.
Proof. induction l as [|x l IH]; simpl; [lia | destruct (f x); simpl; lia]. Qed.

Lemma length_filter_lt (l : list string) :
  In "" l -> length (filter nonempty l) < length l.
Proof.
  induction l as [|y l IH]; simpl; [tauto|]. intros [->|Hin].
  - simpl. pose proof (length_filter_le nonempty l). lia.
  - destruct (nonempty y); simpl; [specialize (IH Hin); lia|].
    pose proof (length_filter_le nonempty l). lia.
Qed.

(** The slots whose produced value survives: declared and named. *)
Definition survivors (k : nat) (outs : list string) : list nat :=
  filter (fun i => Nat.ltb i (length outs) && nonempty (nth i outs "")) (seq 0 k).

Lemma valid_outputs_fit (k : nat) (outs : list string) :
  length outs <= k ->
  valid_outputs k outs =
  Ok (map (fun i => Nat.ltb i (length outs) && nonempty (nth i outs "")) (seq 0 k)).
Proof.
  intros Hle. unfold valid_outputs.
  replace (length outs - k) with 0 by lia. reflexivity.
Qed.

Lemma filter_positions {A : Type} (p : A -> bool) (l : list A) (d : A) :
  length (filter (fun i => p (nth i l d)) (seq 0 (length l))) = length (filter p l).
Proof.
  induction l as [|x l IH]; [reflexivity|].
  simpl length. rewrite <- seq_shift. simpl.
  destruct (p x); simpl; rewrite filter_map_swap, length_map; [f_equal|]; exact IH.
Qed.

Lemma filter_all_false {A : Type} (f : A -> bool) (l : list A) :
  (forall x, In x l -> f x = false) -> filter f l = [].
Proof.
  induction l as [|x l IH]; simpl; intros H; [reflexivity|].
  rewrite (H x (or_introl eq_refl)). apply IH. intros; apply H; now right.
Qed.

Lemma survivors_fit (k : nat) (outs : list string) :
  length outs <= k ->
  survivors k outs = filter (fun i => nonempty (nth i outs "")) (seq 0 (length outs)).
Proof.
  intros Hle. unfold survivors.
  replace k with (length outs + (k - length outs)) by lia.
  rewrite seq_app, filter_app, (filter_all_false _ (seq (0 + length outs) _)), app_nil_r.
  - apply filter_ext_in. intros i Hi. apply in_seq in Hi.
    replace (Nat.ltb i (length outs)) with true by (symmetry; apply Nat.ltb_lt; lia).
    reflexivity.
  - intros i Hi. apply in_seq in Hi.
    replace (Nat.ltb i (length outs)) with false by (symmetry; apply Nat.ltb_ge; lia).
    reflexivity.
Qed.

Lemma length_survivors (k : nat) (outs : list string) :
  length outs <= k -> length (survivors k outs) = length (filter nonempty outs).
Proof. intros Hle. rewrite survivors_fit by exact Hle. apply filter_positions. Qed.

Lemma survivors_lt (k : nat) (outs : list string) (i : nat) :
  In i (survivors k outs) -> i < k.
Proof. unfold survivors. intros H. apply filter_In in H as [H _]. apply in_seq in H. lia. Qed.

Lemma proj_bind_all (t : expr) (c m : nat) (names : list string) :
  m + length names <= c ->
  mapM (fun ki => let* e := proj (Wrapper t c) (snd ki) in Ok (fst ki, e))
       (combine names (seq m (length names)))
  = Ok (combine names (map (TupleGetItem t) (seq m (length names)))).
Proof.
  revert m; induction names as [|n names IH]; intros m Hle; [reflexivity|].
  simpl length in *. simpl.
  replace (Nat.ltb m c) with true by (symmetry; apply Nat.ltb_lt; lia). simpl.
  rewrite IH by lia. reflexivity.
Qed.

(** (C3) Output arity reconciliation: when a rule produces [k > 1] values
    and the node leaves some of its [k] output slots empty or undeclared,
    the node binds exactly its non-empty output names, in their order, the
    j-th to the value its slot selected ([pick], a field of the tuple or a
    projection of the rule's output), repacked as a tuple when more than
    one survives. *)
Theorem reconcile_drops_empty (op_name : string) (e : expr) (k : nat)
        (outs : list string) (vs : list expr) :
  1 < k -> length outs <= k -> (In "" outs \/ length outs < k) ->
  mapM (pick (Wrapper e k)) (survivors k outs) = Ok vs ->
  reconcile op_name (Wrapper e k) outs =
  Ok (combine (filter nonempty outs)
              (match vs with
               | [v] => [v]
               | _ => map (TupleGetItem (Tuple vs)) (seq 0 (length vs))
               end)).
Proof.
  intros Hk Hle Hsome Hvs. unfold reconcile.
  replace (Nat.ltb 1 k) with true by (symmetry; apply Nat.ltb_lt; lia).
  rewrite valid_outputs_fit by exact Hle. simpl.
  assert (Hnotall : forallb id (map (fun i => Nat.ltb i (length outs) && nonempty (nth i outs ""))
                                     (seq 0 k)) = false).
  { apply not_true_is_false. intros Hall. rewrite forallb_forall in Hall.
    destruct Hsome as [Hin | Hlt].
    - apply In_nth with (d := "") in Hin as [i [Hi Hnth]].
      refine (diff_false_true (Hall false _)). apply in_map_iff. exists i.
      split; [unfold nonempty; rewrite Hnth; apply andb_false_r | apply in_seq; lia].
    - refine (diff_false_true (Hall false _)). apply in_map_iff. exists (length outs).
      split; [rewrite Nat.ltb_irrefl; reflexivity | apply in_seq; lia]. }
  rewrite Hnotall.
  assert (Hidx : filter (fun i => nth i (map (fun i => Nat.ltb i (length outs) && nonempty (nth i outs ""))
                                            (seq 0 k)) false) (seq 0 k) = survivors k outs).
  { apply filter_ext_in. intros i Hi. apply in_seq in Hi.
    rewrite nth_map_seq by lia. reflexivity. }
  rewrite Hidx, Hvs. simpl.
  assert (Hlen : length (filter nonempty outs) = length vs).
  { rewrite <- (length_survivors k outs Hle). symmetry. exact (mapM_length _ _ _ Hvs). }
  assert (Hlt : length vs < k).
  { rewrite <- Hlen. destruct Hsome as [Hin | Hlt]; [|pose proof (length_filter_le nonempty outs); lia].
    pose proof (length_filter_lt outs Hin). lia. }
  replace (Nat.eqb (length vs) k) with false by (symmetry; apply Nat.eqb_neq; lia).
  destruct vs as [|v [|v2 vs']]; simpl in Hlen.
  - apply length_zero_iff_nil in Hlen. rewrite Hlen. reflexivity.
  - destruct (filter nonempty outs) as [|n [|]]; simpl in Hlen; try discriminate. reflexivity.
  - rewrite Hlen, Nat.eqb_refl. cbn -[proj seq length].
    rewrite <- Hlen, (proj_bind_all _ _ 0) by (cbn; lia). rewrite Hlen. reflexivity.
Qed.

Lemma reconcile_drops_empty_witness :
  let e := Var "split_out" (TType [DInt 3] "float32") in
  reconcile "Split" (Wrapper e 3) ["a"; ""; "c"] =
  Ok [("a", TupleGetItem (Tuple [TupleGetItem e 0; TupleGetItem e 2]) 0);
      ("c", TupleGetItem (Tuple [TupleGetItem e 0; TupleGetItem e 2]) 1)].
Proof.
  intros e. apply (reconcile_drops_empty "Split" e 3 ["a"; ""; "c"]
                    [TupleGetItem e 0; TupleGetItem e 2]).
  - lia.
  - simpl; lia.
  - left; simpl; tauto.
  - reflexivity.
Defined.

(** ** The aggregated check of unsupported operators: theorems *)

Lemma dedup_In (x : string) (l : list string) : In x (dedup l) <-> In x l.
Proof.
  induction l as [|y l IH]; simpl; [tauto|]. rewrite filter_In, IH.
  destruct (String.eqb_spec y x) as [<-|Hne]; simpl; [tauto|].
  split; [intros [|[]]; auto | intros [|]; [auto | right; split; [auto | reflexivity]]].
Qed.

Lemma dedup_NoDup (l : list string) : NoDup (dedup l).
Proof.
  induction l as [|y l IH]; simpl; constructor.
  - rewrite filter_In, String.eqb_refl. intros [_ H]; discriminate H.
  - apply NoDup_filter, IH.
Qed.

Lemma check_supported_map (op : nat) (g : graph_proto) :
  check_supported op g = match unsupported_ops convert_table g with
                         | [] => Ok tt
                         | ops => Err (OpNotImplemented ops)
                         end.
Proof.
  unfold check_supported. destruct (get_convert_map_ok op) as [m Hm]. rewrite Hm. simpl.
  unfold unsupported_ops. erewrite filter_ext; [reflexivity|]. intros o.
  rewrite (od_mem_keys m convert_table); [reflexivity|].
  exact (proj1 (od_mapM_get _ _ _ Hm)).
Qed.

(** The unsupported-operator report: [check_supported] fails exactly
    when some node's operator is neither in the convert map, nor
    [Constant], nor in the identity list, and then it reports each such
    operator once, whatever the opset (the convert map has the same keys
    at every opset). *)
Theorem check_supported_reports (op : nat) (g : graph_proto) :
  NoDup (unsupported_ops convert_table g) /\
  (forall o, In o (unsupported_ops convert_table g) <->
             exists n, In n (g_node g) /\ n_op_type n = o /\ od_mem o convert_table = false
                       /\ o <> "Constant" /\ ~ In o identity_list) /\
  check_supported op g = match unsupported_ops convert_table g with
                         | [] => Ok tt
                         | ops => Err (OpNotImplemented ops)
                         end.
Proof.
  split; [apply dedup_NoDup|]. split; [|apply check_supported_map].
  intros o. unfold unsupported_ops. rewrite dedup_In, filter_In, in_map_iff.
  rewrite !andb_true_iff, !negb_true_iff, String.eqb_neq.
  rewrite <- not_true_iff_false with (b := existsb _ _), existsb_exists.
  split.
  - intros [[n [<- Hn]] [[Hm Hc] Hnot]]. exists n.
    do 4 (split; [assumption || reflexivity|]).
    intros Hin; apply Hnot; exists (n_op_type n); split; [exact Hin | apply String.eqb_refl].
  - intros [n [Hn [<- [Hm [Hc Hi]]]]]. repeat split; eauto.
    intros [x [Hx Heq]]. apply String.eqb_eq in Heq. subst x. contradiction.
Qed.

(** ** Well-formed scopes: the steps keep them *)

Lemma new_scope_wf (c : config) (outer : bool) : scope_wf (new_scope c outer).
Proof. constructor; simpl; (constructor || easy). Qed.

(** Rebinding names in [_nodes] only, without losing any. *)
Lemma scope_wf_set_nodes (s : gstate) (n : odict expr) :
  scope_wf s -> NoDup (od_keys n) ->
  (forall k, In k (od_keys (nodes s)) -> In k (od_keys n)) ->
  scope_wf (set_nodes s n).
Proof. intros [] Hn Hk; constructor; simpl; auto. Qed.

Lemma scope_wf_set_opset (s : gstate) (o : nat) : scope_wf s -> scope_wf (set_opset s o).
Proof. intros []; constructor; simpl; auto. Qed.

Lemma add_initializer_wf (s : gstate) (t : tensor_proto) (s' : gstate) :
  scope_wf s -> add_initializer s t = Ok s' -> scope_wf s'.
Proof.
  intros Hs H. unfold add_initializer in H.
  destruct (str_blank (t_name t)); [discriminate|]. bind_ok H.
  destruct (c_freeze (cfg s)); inv H.
  - apply scope_wf_set_nodes; auto using od_set_NoDup, wf_nodes_nodup.
    intros k Hk. apply od_keys_set. auto.
  - destruct Hs; constructor; simpl; auto using od_set_NoDup;
      intros k; rewrite ?od_keys_set; intuition.
Qed.

(** The key-inclusion goals of a scope after assignments. *)
Ltac keys_incl :=
  match goal with
  | |- forall k, In k _ -> In k _ =>
      let k := fresh k in intros k; rewrite ?od_keys_set, ?in_app_iff; simpl; firstorder
  end.

(** The goal [wf_inputs_vars] after binding an input variable. *)
Ltac input_vars := apply (od_get_set_forall (fun k e => exists t, e = Var k t)); eauto.

Lemma add_input_wf (s : gstate) (vi : value_info) (s' : gstate) :
  scope_wf s -> add_input s vi = Ok s' -> scope_wf s'.
Proof.
  intros [] H. unfold add_input in H. bind_ok H.
  destruct (od_get (info_name a) (params s)) eqn:Hp.
  - bind_ok H. destruct a0 as [arr ps]. apply od_pop_keys in Hc0 as [Hps Hnd].
    inv H. constructor; simpl; auto using od_set_NoDup; try keys_incl.
    input_vars.
  - destruct (od_mem (info_name a) (nodes s)) eqn:Hm; [now inv H; constructor|].
    assert (Hn : ~ In (info_name a) (input_names s)).
    { intros Hin. now apply (od_mem_notin _ _ Hm), wf_inputs_nodes0, wf_names_inputs0. }
    destruct (od_get (info_name a) (c_shape (cfg s))); inv H;
      (constructor; simpl; auto using od_set_NoDup; try keys_incl;
       [input_vars | apply NoDup_app; auto using NoDup_cons, NoDup_nil;
                     intros x Hx [<-|[]]; contradiction
        | rewrite length_app; simpl; lia]).
Qed.

(** [finish] starts its parameter dict from [_inputs] and only adds the
    names it lacks: every input stays a parameter of the function. *)
Lemma finish_keeps_inputs (s : gstate) (out : expr) (f : func) (tbl : odict value) :
  finish s out = Ok (f, tbl) ->
  forall k e, od_get k (inputs s) = Some e -> In e (fn_params f).
Proof.
  intros H k e Hk. unfold finish in H. do 2 bind_ok H. inv H. simpl.
  apply in_map_iff. exists (k, e). split; [reflexivity|]. apply (od_get_In k).
  revert Hc0. apply (foldM_invariant (fun ins => od_get k ins = Some e)); [|exact Hk].
  intros ins i ins' Hins E.
  destruct (existsb _ _ && negb (od_mem i ins)) eqn:Hb; [|now inv E].
  bind_ok E. inv E. apply andb_true_iff in Hb as [_ Hm]. apply negb_true_iff in Hm.
  rewrite od_get_set_ne; [exact Hins|]. intros ->. unfold od_mem in Hm. now rewrite Hins in Hm.
Qed.

Lemma bind_nodes_wf (s : gstate) (kvs : list (string * expr)) :
  scope_wf s -> scope_wf (bind_nodes s kvs).
Proof.
  intros Hs. apply scope_wf_set_nodes; [exact Hs | apply od_fold_set_NoDup, Hs |].
  intros k Hk. apply od_fold_set_keys. auto.
Qed.

(** A property of the scope that survives the bindings of [_nodes]
    survives a node whose rule keeps it. *)
Section ConvertNode.
Variable P : gstate -> Prop.
Hypothesis P_bind : forall s kvs, P s -> P (bind_nodes s kvs).
Variable cvt : dispatcher.
Hypothesis cvt_pres : forall s op ins attr o s', P s -> cvt s op ins attr = Ok (o, s') -> P s'.

Lemma convert_node_pres (s s' : gstate) (n : node_proto) :
  P s -> convert_node cvt s n = Ok s' -> P s'.
Proof.
  intros Hs H. unfold convert_node in H. do 3 bind_ok H. destruct a1 as [op s1].
  do 2 bind_ok H. inv H. apply P_bind. eapply cvt_pres; eassumption.
Qed.

End ConvertNode.

(** ** Child scopes and the changes of a scope: theorems *)

Lemma child_of_wf (s : gstate) : scope_wf s -> scope_wf (child_of s).
Proof. intros []; constructor; simpl; (constructor || easy). Qed.

Lemma merge_child_wf (s c : gstate) (e : expr) :
  scope_wf s -> scope_wf c -> scope_wf (merge_child s c e).
Proof.
  intros [] []. unfold merge_child.
  pose proof (od_fold_set_keys fst (fun nt => Var (fst nt) (snd nt)) (free_vars e)) as Hk.
  constructor; simpl; auto with onnx;
    intros k; rewrite ?Hk, ?od_update_keys; firstorder.
Qed.

(** The scope invariant is kept by every change. *)
Lemma wf_closed : closed scope_wf.
Proof.
  constructor.
  - apply scope_wf_set_opset.
  - apply add_initializer_wf.
  - apply add_input_wf.
  - apply bind_nodes_wf.
  - apply child_of_wf.
  - apply merge_child_wf.
Qed.

End Scope.
