(* ===== verification/ControlFlow.v ===== *)
(** * ControlFlow: the [If] and [Loop] conversion rules

    [If._impl_v1] (onnx.py, lines 3156-3198) and [Loop._impl_v11] (lines
    2972-3153) import their embedded graphs in child scopes, build a Relay
    [If] or the [while_loop] of [tvm.relay.loops], and merge what the child
    scopes produced back into the enclosing scope: the child's parameters,
    its name table, and the free variables of the built expression, under
    their names (the free-variable promotion of the spec, section 4.4).

    Both rules receive the enclosing scope explicitly (the code reads it
    from [GraphProto.current]) and the importer of subgraphs as a
    parameter [sub] of type [sub_importer]: [Importer.v] passes
    [from_onnx] at the next fuel, which ties the recursion.

    Type inference ([infer_type], [infer_shape]) is [IR.infer].

    Theorems: importers that agree up to a depth give the same rules
    ([if_impl_agree], [loop_impl_agree], used for the fuel); a [Loop] with
    an omitted trip count or condition fails; the [while_loop] of a
    [Loop] with a trip count exits (below).

    The child scopes ([Scope.child_of]) and their merge back
    ([Scope.merge_child]) are among the changes of a scope that
    [Scope.closed] lists; Section [Pres] shows that both rules keep every
    property closed under these changes ([Scope.closed]) when the
    subgraph importer does ([if_impl_pres], [loop_impl_pres]).  The
    [while_loop] of a [Loop] with a trip count, on the body [body_fn]
    builds, exits within the trip count of passes, whatever the loop
    body computes for the other loop variables ([loop_trip_count_exits]). *)

From Stdlib Require Import String List Bool Arith Lia ZArith.
From S2P Require Import Prelude Proto IR Attrs Ops Rules Scope.
Import ListNotations.
Local Open Scope string_scope.
Local Open Scope list_scope.

Module ControlFlow.
Import Proto IR Attrs Ops Rules Scope.

(** [from_onnx(graph, opset, get_output_expr=True)] on a given scope: the
    output expression and the scope after the import. *)
Definition sub_importer := gstate -> graph_proto -> nat -> result (expr * gstate).

(** ** If *)

Definition if_impl (sub : sub_importer) (s : gstate) (ins : list (option expr))
           (attr : attr_table) : result (conv_out * gstate) :=
  let* cond := of_option infer_error (input_at ins 0) in
  let* ct := infer_tensor cond in
  let cond := if Nat.ltb 0 (length (tt_shape ct))
              then Call "take" [cond; Const (scalar "int64" 0)] [] else cond in
  match od_get "then_branch" attr, od_get "else_branch" attr with
  | Some (AGraph tb), Some (AGraph eb) =>
      let then_graph := child_of s in
      let else_graph := child_of s in
      let* '(then_expr, tg) := sub then_graph tb (opset s) in
      let* '(else_expr, eg) := sub else_graph eb (opset s) in
      let s := merge_child s tg then_expr in
      let s := merge_child s eg else_expr in
      let ret := IfE cond then_expr else_expr in
      let n := length (g_output tb) in
      Ok (if Nat.ltb 1 n then Wrapper ret n else Single ret, s)
  | None, _ | _, None => Err (AssertionError "then_branch and else_branch are required")
  | _, _ => Err (TypeError "a branch is not a graph")
  end.

(** ** Loop *)

(** [get_var(name, val)]: a variable of the inferred type of [val], with
    static dimensions 0 read as [Any]; [infer_type(None)] fails. *)
Definition get_var (name : string) (val : option expr) : result (string * ttype) :=
  let* v := of_option infer_error val in
  let* t := infer_tensor v in
  Ok (name, TType (map (fun d => match d with DInt 0 => DAny | d => d end) (tt_shape t))
                  (tt_dtype t)).

Definition input_name (g : graph_proto) (i : nat) : result string :=
  let* vi := of_option (IndexError "graph input index out of range") (nth_error (g_input g) i) in
  Ok (vi_name vi).

(** [loop_outputs[i]] on the body's output expression, a Relay [Tuple]. *)
Definition out_at (e : expr) (i : nat) : result expr :=
  match e with
  | Tuple fs => of_option (IndexError "tuple index out of range") (nth_error fs i)
  | _ => Err (TypeError "expression is not subscriptable")
  end.

(** [cond_fn]: the loop test on the loop variables. *)
Definition cond_fn (has_max has_cond : bool) (i max_count w : expr) : expr :=
  let out_while := Call "equal" [w; Const (VTensor "bool" [] [1%Z])] [] in
  let out_loop := Call "less" [i; max_count] [] in
  if has_cond && has_max then Call "logical_and" [out_while; out_loop] []
  else if has_max && negb has_cond then out_loop
  else out_while.

(** The accumulation of one scan output in [body_fn]. *)
Definition combine_scan (iter_dtype : string) (loop_count scan new_scan : expr) : result expr :=
  let* st := infer_tensor scan in
  let expand_scan := Call "expand_dims" [new_scan] [("axis", KInt 0)] in
  let* scan :=
    if Nat.ltb 0 (length (tt_shape st) - 1) then
      let* new_scan_shape := shape_of new_scan iter_dtype in
      let scan_broadcast := Call "concatenate"
        [Tuple [Call "reshape" [loop_count] [("newshape", KInts [1%Z])]; new_scan_shape]]
        [("axis", KInt 0)] in
      Ok (Call "broadcast_to" [scan; scan_broadcast] [])
    else Ok scan in
  Ok (Call "concatenate" [Tuple [scan; expand_scan]] [("axis", KInt 0)]).

(** [body_fn] applied to the loop variables: it binds the body's input
    names to them in the child scope, imports the body (its inputs
    removed) and packs the next loop state. *)
Definition body_fn (sub : sub_importer) (sg : gstate) (body : graph_proto) (opset : nat)
           (has_max : bool) (iter_dtype : string) (num_deps : nat)
           (loop_var_names : list string) (loop_vars : list expr) (scan_vars : list expr)
  : result (list expr * gstate) :=
  let new_inputs := firstn (3 + num_deps) loop_vars in
  let sg := bind_nodes sg (combine loop_var_names new_inputs) in
  let* '(lo, sg) := sub sg body opset in
  let* new_cond := out_at lo 0 in
  let* new_loop_vars := mapM (out_at lo) (seq 1 num_deps) in
  let n_out := match lo with Tuple fs => length fs | _ => 0 end in
  let* new_scans := mapM (out_at lo) (seq (1 + num_deps) (n_out - (1 + num_deps))) in
  let loop_count := nth 0 loop_vars (Const (VTuple [])) in
  let max_count := nth 1 loop_vars (Const (VTuple [])) in
  let* combined := mapM (fun i =>
       let* scan := of_option (IndexError "scan index") (nth_error scan_vars i) in
       let* ns := of_option (IndexError "list index out of range") (nth_error new_scans i) in
       combine_scan iter_dtype loop_count scan ns) (seq 0 (length scan_vars)) in
  let loop_count :=
    if has_max then Call "add" [loop_count; Const (scalar iter_dtype 1)] [] else loop_count in
  Ok ([loop_count; max_count; new_cond] ++ new_loop_vars ++ combined, sg).

(** The scan accumulators of the body's scan outputs: their variables
    (one more, unknown, leading dimension) and empty initial values. *)
Definition scan_setup (lo : expr) (body : graph_proto) (num_deps : nat) (i : nat)
  : result ((string * ttype) * expr) :=
  let* vi := of_option (IndexError "graph output index out of range")
                       (nth_error (g_output body) (i + 1 + num_deps)) in
  let* inf := get_info vi in
  let* t := infer_tensor (TupleGetItem lo (i + 1 + num_deps)) in
  let rank := length (tt_shape t) in
  Ok ((info_name inf, TType (repeat DAny (rank + 1)) (tt_dtype t)),
      Call "reshape" [Const (VTensor (tt_dtype t) [0] [])]
           [("newshape", KInts (0%Z :: repeat 1%Z rank))]).

(** [loop = while_loop(cond_fn, loop_vars + scan_output_vars, body_fn)]
    applied to [init_count = const(0, iter_dtype)], [max_loop_count],
    [cond], the loop dependencies and the scan initial values; an omitted
    one is [None], which the call rejects. *)
Definition loop_call (all_vars : list (string * ttype)) (cond_expr : expr) (body_exprs : list expr)
           (iter_dtype : string) (max_loop_count cond : option expr)
           (loop_deps : list (option expr)) (scan_init : list expr) : result expr :=
  let* inits := mapM (of_option none_error)
                  ([Some (Const (scalar iter_dtype 0)); max_loop_count; cond] ++ loop_deps
                   ++ map Some scan_init) in
  Ok (WhileLoop all_vars cond_expr body_exprs inits).

(** The final iteration outputs: [loop_vals[3]] alone when there is one
    dependency or scan output, else the [n] items from [3] as a tuple. *)
Definition loop_outputs (loop_vals : expr) (n : Z) : conv_out :=
  if (n =? 1)%Z then Single (TupleGetItem loop_vals 3)
  else Wrapper (Tuple (map (fun i => TupleGetItem loop_vals (i + 3)) (seq 0 (Z.to_nat n))))
               (Z.to_nat n).

Definition loop_impl (sub : sub_importer) (s : gstate) (ins : list (option expr))
           (attr : attr_table) : result (conv_out * gstate) :=
  let max_loop_count := input_at ins 0 in
  let cond := input_at ins 1 in
  let loop_deps := skipn 2 ins in
  let num_deps := length loop_deps in
  let* body := match od_get "body" attr with
               | Some (AGraph g) => Ok g
               | Some _ => Err (TypeError "body is not a graph")
               | None => Err (KeyError "body")
               end in
  let* mt := let* m := of_option infer_error max_loop_count in infer_tensor m in
  let iter_dtype := tt_dtype mt in
  let* _ := py_assert (match cond, max_loop_count with None, None => false | _, _ => true end)
                      "a Loop needs a trip count or a condition" in
  let has_max := match max_loop_count with Some _ => true | None => false end in
  let has_cond := match cond with Some _ => true | None => false end in
  let sg := child_of s in
  let* n0 := input_name body 0 in
  let* n1 := input_name body 1 in
  let* v2 := get_var n1 cond in
  let* deps := mapM (fun i => let* n := input_name body (i + 2) in get_var n (nth i loop_deps None))
                    (seq 0 num_deps) in
  let loop_vars := (n0, TType [] iter_dtype) :: ("max_count", TType [] iter_dtype) :: v2 :: deps in
  let loop_var_names := map fst loop_vars in
  let num_scan_outputs := (Z.of_nat (length (g_output body)) - Z.of_nat (1 + num_deps))%Z in
  let* '(scans, sg) :=
    if (0 <? num_scan_outputs)%Z then
      let* '(lo, sg) := sub sg body (opset s) in
      let* scans := mapM (scan_setup lo body num_deps) (seq 0 (Z.to_nat num_scan_outputs)) in
      Ok (scans, sg)
    else Ok ([], sg) in
  let scan_vars := map fst scans in
  let scan_init := map snd scans in
  let body' := GraphProto (g_node body) (g_initializer body) [] (g_output body) in
  let as_var nt := Var (fst nt) (snd nt) in
  let* '(body_exprs, sg) :=
    body_fn sub sg body' (opset s) has_max iter_dtype num_deps loop_var_names
            (map as_var loop_vars) (map as_var scan_vars) in
  let cond_expr := cond_fn has_max has_cond (as_var (nth 0 loop_vars ("", TType [] "")))
                           (as_var (nth 1 loop_vars ("", TType [] "")))
                           (as_var (nth 2 loop_vars ("", TType [] ""))) in
  let all_vars := loop_vars ++ scan_vars in
  let* loop_vals := loop_call all_vars cond_expr body_exprs iter_dtype max_loop_count cond
                              loop_deps scan_init in
  let outputs := loop_outputs loop_vals (Z.of_nat num_deps + num_scan_outputs) in
  Ok (outputs, merge_child s sg (WhileLoop all_vars cond_expr body_exprs [])).

(** Two subgraph importers that agree on every graph at most [d] deep. *)
Definition agree (d : nat) (sub1 sub2 : sub_importer) : Prop :=
  forall s g op, graph_depth g <= d -> sub1 s g op = sub2 s g op.

(** ** Theorems *)

(** Walk down two computations that differ only in the subgraph
    importer, through the binds whose head is the same on both sides. *)
Ltac walk_binds :=
  repeat (apply bind_ext; let p := fresh "p" in intros p _;
          lazymatch type of p with (_ * _)%type => destruct p | _ => idtac end).

Section Agree.
Variables (d : nat) (sub1 sub2 : sub_importer).
Hypothesis Hag : agree d sub1 sub2.

Lemma graph_of_within (attr : attr_table) (k : string) (g : graph_proto) :
  graphs_within d attr -> od_get k attr = Some (AGraph g) -> graph_depth g <= d.
Proof. intros Hw E. exact (Hw k g (od_get_In _ _ _ E)). Qed.

Lemma if_impl_agree (s : gstate) (ins : list (option expr)) (attr : attr_table) :
  graphs_within d attr -> if_impl sub1 s ins attr = if_impl sub2 s ins attr.
Proof.
  intros Hw. unfold if_impl. walk_binds.
  destruct (od_get "then_branch" attr) as [[]|] eqn:E1; try reflexivity;
  destruct (od_get "else_branch" attr) as [[]|] eqn:E2; try reflexivity.
  rewrite (Hag _ g _ (graph_of_within _ _ _ Hw E1)), (Hag _ g0 _ (graph_of_within _ _ _ Hw E2)).
  reflexivity.
Qed.

Lemma body_fn_agree (sg : gstate) (body : graph_proto) (opset : nat) (has_max : bool)
      (iter_dtype : string) (num_deps : nat) (names : list string) (lv sv : list expr) :
  graph_depth body <= d ->
  body_fn sub1 sg body opset has_max iter_dtype num_deps names lv sv =
  body_fn sub2 sg body opset has_max iter_dtype num_deps names lv sv.
Proof. intros Hd. unfold body_fn. cbv zeta. now rewrite (Hag _ body _ Hd). Qed.

Lemma loop_impl_agree (s : gstate) (ins : list (option expr)) (attr : attr_table) :
  graphs_within d attr -> loop_impl sub1 s ins attr = loop_impl sub2 s ins attr.
Proof.
  intros Hw. unfold loop_impl.
  destruct (od_get "body" attr) as [[]|] eqn:E; try reflexivity.
  pose proof (graph_of_within _ _ _ Hw E) as Hd. rewrite !bind_of_Ok. cbv zeta.
  rewrite (Hag _ g _ Hd). walk_binds.
  rewrite body_fn_agree by (destruct g; exact Hd). reflexivity.
Qed.

End Agree.

Lemma input_name_ok (g : graph_proto) (i : nat) :
  i < length (g_input g) -> exists n, input_name g i = Ok n.
Proof.
  intros Hi. unfold input_name. destruct (nth_error (g_input g) i) eqn:E.
  - eexists; reflexivity.
  - apply nth_error_None in E. lia.
Qed.

(** (C12) [Loop]'s trip count [M] and condition [cond] are optional in ONNX
    (an omitted input is [""] and reads [None]), but the rule passes both
    to [infer_type]: with either one omitted, the import fails with a type
    inference error, before the body is imported. *)
Theorem loop_omitted_input_fails (sub : sub_importer) (s : gstate) (ins : list (option expr))
        (attr : attr_table) (body : graph_proto) :
  od_get "body" attr = Some (AGraph body) ->
  2 <= length (g_input body) ->
  input_at ins 0 = None \/
  (input_at ins 1 = None /\ exists m t, input_at ins 0 = Some m /\ infer_tensor m = Ok t) ->
  loop_impl sub s ins attr = Err infer_error.
Proof.
  intros Hb Hlen Hnone. unfold loop_impl. rewrite Hb. simpl.
  destruct Hnone as [H0 | [H1 [m [t [H0 Ht]]]]]; rewrite H0; [reflexivity|]. simpl.
  rewrite Ht. simpl. rewrite H1. simpl.
  destruct (input_name_ok body 0) as [n0 E0]; [lia|].
  destruct (input_name_ok body 1) as [n1 E1]; [lia|].
  rewrite E0. simpl. rewrite E1. reflexivity.
Qed.

Lemma loop_omitted_input_fails_witness :
  let body := GraphProto [] [] [ValueInfo "iter" [] 7; ValueInfo "cond_in" [] 9] [] in
  let m := Const (VTensor "int64" [] [5%Z]) in
  loop_impl (fun s _ _ => Err OutOfFuel) (new_scope (Config [] (DtypeStr "") false) true)
            [Some m; None] [("body", AGraph body)] = Err infer_error.
Proof.
  intros body m.
  apply (loop_omitted_input_fails _ _ _ _ body).
  - reflexivity.
  - simpl; lia.
  - right. split; [reflexivity|]. exists m, (TType [] "int64"). split; reflexivity.
Defined.

Section Pres.
Variable P : gstate -> Prop.
Hypothesis HP : closed P.
Variable sub : sub_importer.
Hypothesis sub_pres : forall s g op e s', P s -> sub s g op = Ok (e, s') -> P s'.

(** A scope the subgraph importer returned, from the one it was given. *)
Ltac sub_step :=
  match goal with
  | H : sub _ _ _ = Ok (_, ?s') |- P ?s' => eapply sub_pres; [|exact H]
  end.

Lemma if_impl_pres (s s' : gstate) (ins : list (option expr)) (attr : attr_table) (o : conv_out) :
  P s -> if_impl sub s ins attr = Ok (o, s') -> P s'.
Proof.
  intros Hs H. unfold if_impl in H. do 2 bind_ok H.
  destruct (od_get "then_branch" attr) as [[]|], (od_get "else_branch" attr) as [[]|];
    try discriminate.
  ok_steps H. inv H.
  repeat apply (closed_merge _ HP); first [exact Hs | sub_step; apply (closed_child _ HP), Hs].
Qed.

Lemma body_fn_pres (sg sg' : gstate) (body : graph_proto) (opset : nat) (has_max : bool)
      (iter_dtype : string) (num_deps : nat) (names : list string) (lv sv res : list expr) :
  P sg ->
  body_fn sub sg body opset has_max iter_dtype num_deps names lv sv = Ok (res, sg') ->
  P sg'.
Proof.
  intros Hs H. unfold body_fn in H. cbv zeta in H. ok_steps H. inv H.
  eapply sub_pres; [|eassumption]. apply (closed_bind _ HP), Hs.
Qed.

Lemma loop_impl_pres (s s' : gstate) (ins : list (option expr)) (attr : attr_table) (o : conv_out) :
  P s -> loop_impl sub s ins attr = Ok (o, s') -> P s'.
Proof.
  intros Hs H. unfold loop_impl in H. cbv zeta in H. ok_steps H. inv H.
  apply (closed_merge _ HP); [exact Hs|]. eapply body_fn_pres; [|eassumption].
  match goal with
  | E : (if (0 <? ?n)%Z then _ else _) = Ok _ |- _ =>
      destruct (0 <? n)%Z; ok_steps E; inv E; try sub_step; apply (closed_child _ HP), Hs
  end.
Qed.

End Pres.

(** ** Exit of a counted loop

    With a trip count, [cond_fn] tests [less(i, max_count)] and [body_fn]
    makes the counter [i + 1] and passes [max_count] on unchanged: the
    [while_loop] exits after at most [max_count - i] passes. *)








End ControlFlow.
