(* ===== verification/Importer.v ===== *)
(** * Importer: [GraphProto.from_onnx] and the top-level [from_onnx]

    [GraphProto.from_onnx] (onnx.py, lines 4553-4734) registers the
    initializers and the inputs of a graph in its scope, checks the user's
    shapes and, all at once, the operators the convert map lacks, converts
    the nodes in order through [_convert_operator] (lines 4773-4801), reads
    the graph outputs and, at the top level, builds the Relay function.

    [dispatch] is [_convert_operator]: it resolves the operator in the
    convert map and runs its rule, the control-flow rules with the
    importer itself as their subgraph importer.  [convert_graph] is the
    body of [from_onnx] up to the outputs ([get_output_expr=True]); it
    recurses through [If] and [Loop] bodies, with [fuel] bounding the
    nesting depth ([Proto.graph_depth] of the graph is enough).
    [from_onnx_graph] adds the function assembly, and [from_onnx] is the
    module-level entry point (lines 4815-4907): it picks the opset and
    runs the outermost scope.

    Everything here is parameterised by [OpOracle], the conversion rules
    of the operator classes the development does not model, and by
    [Rnn.RnnCells], the recurrent cells of frontend/common.py, and by
    [Random.NpRandom], the seed numpy draws for a random operator without
    one; the instances [unmodelled] and [no_cells] make the first two
    fail and [fixed_seed] fixes the third, for the examples.

    Theorems: unsupported operators are reported first; parameter
    freezing round-trips; fuel at least the depth is enough; Section
    [Pres] shows every import keeps each property closed under the
    scope's changes ([Scope.closed]), so it keeps the scope invariant
    ([convert_graph_wf]), and every registered input is a parameter of
    the function ([convert_graph_keeps_inputs]). *)

From Stdlib Require Import String List Bool Arith Lia ZArith.
From S2P Require Import Prelude Registry Proto IR Attrs Ops Rules Conv Tensor Activations Scaled Index Resize Quant Training Vision Aten CumSum Random Rnn Scope ControlFlow.
Import ListNotations.
Local Open Scope string_scope.
Local Open Scope list_scope.

Module Importer.
Import Proto IR Attrs Ops Rules Conv Tensor Activations Scaled Index Resize Quant Training Vision Aten CumSum Random Rnn Scope ControlFlow.

Section Importer.
Context {O : OpOracle} {RC : RnnCells} {NR : NpRandom}.

(** The rule of a class the development models, from the files that
    model them, or [None] for a class left to the oracle. *)
Definition modelled_rule (c : string) (v : nat) (ins : list (option expr)) (attr : attr_table)
           (params : odict value) : option (result conv_out) :=
  let single o := match o with Some r => Some (let* e := r in Ok (Single e)) | None => None end in
  match single (convert_class c v ins attr) with
  | Some r => Some r
  | None =>
  match convert_rule c v ins attr params with
  | Some r => Some r
  | None =>
  match single (convert_nn c v ins attr) with
  | Some r => Some r
  | None =>
  match single (convert_tensor c v ins attr) with
  | Some r => Some r
  | None =>
  match convert_index c v ins attr with
  | Some r => Some r
  | None =>
  match single (convert_resize c v ins attr params) with
  | Some r => Some r
  | None =>
  match convert_quant c v ins attr params with
  | Some r => Some r
  | None =>
  match convert_training c ins attr with
  | Some r => Some r
  | None =>
  match single (convert_vision c ins attr) with
  | Some r => Some r
  | None =>
  match convert_rnn c ins attr with
  | Some r => Some r
  | None =>
  match single (convert_scaled c ins attr) with
  | Some r => Some r
  | None =>
  match convert_aten c ins attr with
  | Some r => Some r
  | None =>
  match single (convert_cumsum c ins attr params) with
  | Some r => Some r
  | None =>
  match single (convert_random np_randint c ins attr) with
  | Some r => Some r
  | None => single (convert_act c ins attr)
  end end end end end end end end end end end end end end.

(** [_convert_operator(op_name, inputs, attrs, opset)]. *)
Definition dispatch (sub : sub_importer) : dispatcher :=
  fun s op_name ins attr =>
    let* cmap := get_convert_map (opset s) in
    if existsb (String.eqb op_name) identity_list then
      let* e := relay_call op_name ins (kwargs_of attr) in Ok (Single e, s)
    else match od_get op_name cmap with
    | Some (Ren n) => let* e := renamer n ins attr in Ok (Single e, s)
    | Some (Cvt c) => let* e := attr_cvt_apply c ins attr in Ok (Single e, s)
    | Some (Cls c v) =>
        if String.eqb c "If" then if_impl sub s ins attr
        else if String.eqb c "Loop" then loop_impl sub s ins attr
        else match modelled_rule c v ins attr (params s) with
             | Some r => let* o := r in Ok (o, s)
             | None => let* o := oracle c v ins attr (params s) in Ok (o, s)
             end
    | None => Err (NotImplementedError ("Operator " ++ op_name ++ " not implemented."))
    end.

(** Lines 4584-4650: everything before the first node is converted. *)
Definition register (s : gstate) (g : graph_proto) (op : nat) : result gstate :=
  let s := set_opset s op in
  let* s := foldM add_initializer s (g_initializer g) in
  let* s := foldM add_input s (g_input g) in
  let* _ := check_user_shapes s in
  let* _ := check_supported op g in
  Ok s.

(** The recursion of [GraphProto.from_onnx] through subgraphs, with
    [fuel] bounding the nesting depth; [exhausted] is what the model
    answers when the fuel runs out. *)
Fixpoint convert_graph_at (exhausted : py_error) (fuel : nat) (s : gstate) (g : graph_proto)
         (op : nat) : result (expr * gstate) :=
  match fuel with
  | 0 => Err exhausted
  | S f =>
      let* s := register s g op in
      let* s := foldM (convert_node (dispatch (convert_graph_at exhausted f))) s (g_node g) in
      let* out := graph_outputs s g in
      Ok (out, s)
  end.

Definition convert_graph : nat -> gstate -> graph_proto -> nat -> result (expr * gstate) :=
  convert_graph_at OutOfFuel.

(** [GraphProto.from_onnx(graph, opset)] with [get_output_expr=False]. *)
Definition from_onnx_graph (fuel : nat) (s : gstate) (g : graph_proto) (op : nat)
  : result (func * odict value) :=
  let* '(out, s) := convert_graph fuel s g op in
  finish s out.

(** [relay.frontend.from_onnx(model, shape, dtype, opset, freeze_params)]. *)
Definition from_onnx (fuel : nat) (model : model_proto) (shape : odict (list dimv))
           (dtype : dtype_cfg) (opset : option nat) (freeze_params : bool)
  : result (func * odict value) :=
  let opset_in_model := match m_opset_import model with Some v => v | None => 1 end in
  let op := match opset with Some o => o | None => opset_in_model end in
  let g := new_scope (Config shape dtype freeze_params) true in
  from_onnx_graph fuel g (m_graph model) op.

(** [opset < opset_in_model] only warns. *)
Definition opset_warning (model : model_proto) (opset : option nat) : bool :=
  let opset_in_model := match m_opset_import model with Some v => v | None => 1 end in
  match opset with Some o => Nat.ltb o opset_in_model | None => false end.

(** ** Theorems *)

(** *** Fuel *)

Lemma dispatch_agree (d : nat) (sub1 sub2 : sub_importer) (s : gstate) (op : string)
      (ins : list (option expr)) (attr : attr_table) :
  agree d sub1 sub2 -> graphs_within d attr ->
  dispatch sub1 s op ins attr = dispatch sub2 s op ins attr.
Proof.
  intros Hag Hw. unfold dispatch. apply bind_ext. intros cmap _.
  destruct (existsb _ _); [reflexivity|].
  destruct (od_get op cmap) as [[c v| |]|]; try reflexivity.
  destruct (String.eqb c "If"); [now apply (if_impl_agree d)|].
  destruct (String.eqb c "Loop"); [now apply (loop_impl_agree d) | reflexivity].
Qed.

Lemma convert_node_agree (d : nat) (sub1 sub2 : sub_importer) (s : gstate) (n : node_proto) :
  agree d sub1 sub2 -> node_depth n <= d ->
  convert_node (dispatch sub1) s n = convert_node (dispatch sub2) s n.
Proof.
  intros Hag Hd. unfold convert_node.
  destruct (parse_attr (n_attribute n)) as [attr|] eqn:Hp; [|reflexivity].
  rewrite !bind_of_Ok. apply bind_ext. intros ins _.
  rewrite (dispatch_agree d sub1 sub2); [reflexivity | exact Hag|].
  apply graphs_within_set; [|discriminate].
  apply (parse_attr_within d (n_attribute n)); [|exact Hp].
  intros a Ha. pose proof (attr_depth_le n a Ha). lia.
Qed.

(** Two fuels at least the depth of the graph, whatever the answer on
    exhaustion, give the same result. *)
Lemma convert_graph_at_agree (f : nat) :
  forall f' e e' s g op, graph_depth g <= f -> f <= f' ->
  convert_graph_at e f s g op = convert_graph_at e' f' s g op.
Proof.
  induction f as [|f IH]; intros f' e e' s g op Hd Hf.
  - pose proof (graph_depth_pos g). lia.
  - destruct f' as [|f']; [lia|]. simpl. apply bind_ext. intros s1 _.
    rewrite (foldM_ext _ (convert_node (dispatch (convert_graph_at e' f')))); [reflexivity|].
    intros s2 n Hn. apply (convert_node_agree f).
    + intros s3 g3 op3 Hd3. apply IH; lia.
    + pose proof (node_depth_lt g n Hn). lia.
Qed.

Lemma register_unsupported (s s1 s2 : gstate) (g : graph_proto) (op : nat) :
  foldM add_initializer (set_opset s op) (g_initializer g) = Ok s1 ->
  foldM add_input s1 (g_input g) = Ok s2 ->
  check_user_shapes s2 = Ok tt ->
  unsupported_ops convert_table g <> [] ->
  register s g op = Err (OpNotImplemented (unsupported_ops convert_table g)).
Proof.
  intros H1 H2 H3 Hne. unfold register. rewrite H1; simpl; rewrite H2; simpl; rewrite H3; simpl.
  rewrite check_supported_map. destruct (unsupported_ops convert_table g); [contradiction|].
  reflexivity.
Qed.

(** (C4) Unsupported operators are reported before any node is converted:
    when registering the initializers and inputs of the model's graph
    succeeds and some operators of its nodes have no rule, the import
    fails with [OpNotImplemented] listing exactly those operators (see
    [Scope.check_supported_reports]), whatever the nodes would do. *)
Theorem from_onnx_unsupported_first (fuel : nat) (model : model_proto)
        (shape : odict (list dimv)) (dtype : dtype_cfg) (opset : option nat) (freeze : bool)
        (s1 s2 : gstate) :
  let op := match opset with Some o => o | None =>
              match m_opset_import model with Some v => v | None => 1 end end in
  let s0 := set_opset (new_scope (Config shape dtype freeze) true) op in
  foldM add_initializer s0 (g_initializer (m_graph model)) = Ok s1 ->
  foldM add_input s1 (g_input (m_graph model)) = Ok s2 ->
  check_user_shapes s2 = Ok tt ->
  unsupported_ops convert_table (m_graph model) <> [] ->
  from_onnx (S fuel) model shape dtype opset freeze =
  Err (OpNotImplemented (unsupported_ops convert_table (m_graph model))).
Proof.
  intros op s0 H1 H2 H3 Hne. unfold from_onnx, from_onnx_graph, convert_graph. simpl.
  fold op. rewrite (register_unsupported _ s1 s2 _ _ H1 H2 H3 Hne). reflexivity.
Qed.

(** (C5) Parameter freezing, end to end: a model whose graph has one
    initializer and outputs it imports, with [freeze_params], to a function
    without parameters returning the constant, and no parameter table;
    without it, to the identity function of a variable of the tensor's
    type, with the tensor in the parameter table under its name. *)
Theorem from_onnx_freeze_roundtrip (fuel : nat) (t : tensor_proto) (arr : value)
        (vi : value_info) (dtype : dtype_cfg) (opset op_model : option nat) (freeze : bool) :
  str_blank (t_name t) = false -> parse_array t = Ok arr -> vi_name vi = t_name t ->
  from_onnx (S fuel) (ModelProto (GraphProto [] [t] [] [vi]) op_model) [] dtype opset freeze =
  Ok (if freeze then (Func [] (Const arr), [])
      else let v := Var (t_name t) (value_ttype arr) in (Func [v] v, [(t_name t, arr)])).
Proof.
  intros Hb Hp Hn. destruct vi as [vn vd ve]; simpl in Hn; subst vn.
  unfold from_onnx, from_onnx_graph, convert_graph. simpl.
  unfold register, add_initializer. simpl. rewrite Hb, Hp. simpl.
  rewrite check_supported_map.
  unfold graph_outputs, finish, node_name_of, is_var, od_find, od_mem, of_option.
  destruct freeze; repeat progress (simpl; rewrite ?String.eqb_refl, ?ttype_eqb_refl); reflexivity.
Qed.

(** Fuel is enough at the nesting depth: the import of a graph gives
    the same result, success or error, with any fuel at least the graph's
    depth ([Proto.graph_depth], one more than the deepest [If] or [Loop]
    body), so the fuelled importer computes the fuel-free recursion of
    the code on every graph. *)
Theorem convert_graph_fuel_enough (fuel : nat) (s : gstate) (g : graph_proto) (op : nat) :
  graph_depth g <= fuel ->
  convert_graph fuel s g op = convert_graph (graph_depth g) s g op.
Proof. intros Hd. symmetry. apply convert_graph_at_agree; lia. Qed.

(** *** The changes of the scope *)

(** The import keeps every property of the scope that its changes
    keep. *)
Section Pres.
Variable P : gstate -> Prop.
Hypothesis HP : closed P.

Lemma dispatch_pres (sub : sub_importer) (s s' : gstate) (op : string)
      (ins : list (option expr)) (attr : attr_table) (o : conv_out) :
  (forall s g op e s', P s -> sub s g op = Ok (e, s') -> P s') ->
  P s -> dispatch sub s op ins attr = Ok (o, s') -> P s'.
Proof.
  intros Hsub Hs H. unfold dispatch in H. bind_ok H.
  destruct (existsb _ _); [ok_steps H; now inv H|].
  destruct (od_get op a) as [[c v|n|c]|]; try discriminate; try (ok_steps H; now inv H).
  destruct (String.eqb c "If"); [eapply if_impl_pres; eassumption|].
  destruct (String.eqb c "Loop"); [eapply loop_impl_pres; eassumption|].
  destruct (modelled_rule _ _ _ _ _); ok_steps H; now inv H.
Qed.

Lemma register_pres (s s' : gstate) (g : graph_proto) (op : nat) :
  P s -> register s g op = Ok s' -> P s'.
Proof.
  intros Hs H. unfold register in H. ok_steps H. inv H.
  eapply (foldM_invariant _ _ (closed_input _ HP)); [|eassumption].
  eapply (foldM_invariant _ _ (closed_init _ HP)); [|eassumption].
  now apply (closed_opset _ HP).
Qed.

(** Every scope the recursion returns, nested ones included, has the
    property when the scope it started from has it. *)
Lemma convert_graph_at_pres (e : py_error) (fuel : nat) :
  forall s g op out s', P s -> convert_graph_at e fuel s g op = Ok (out, s') -> P s'.
Proof.
  induction fuel as [|f IH]; intros s g op out s' Hs H; simpl in H; [discriminate|].
  ok_steps H. inv H. eapply foldM_invariant; [|eapply register_pres|]; eauto.
  intros s1 n s2 Hs1. apply (convert_node_pres _ (closed_bind _ HP)); [|exact Hs1].
  intros s3 op3 ins attr o s4. apply dispatch_pres. exact IH.
Qed.

End Pres.

(** (C6) The scope invariant: importing a graph (its initializers, its
    inputs and every node, the [If] and [Loop] bodies in nested scopes
    merged back) from a well-formed scope leaves a well-formed scope:
    [_nodes], [_params] and [_inputs] keep unique keys, every parameter
    and input stays bound in [_nodes], every entry of [_inputs] is the
    variable of its name, and [_input_names] lists distinct inputs
    counted by [_num_input]. *)
Theorem convert_graph_wf (fuel : nat) (s : gstate) (g : graph_proto) (op : nat)
        (out : expr) (s' : gstate) :
  scope_wf s -> convert_graph fuel s g op = Ok (out, s') -> scope_wf s'.
Proof. apply (convert_graph_at_pres _ wf_closed). Qed.

(** (C7) Graph inputs are never pruned: after importing a graph from a
    well-formed scope, every input the import registered ([_input_names])
    is a parameter of the Relay function [finish] builds, as the variable
    of its name, whether or not the outputs use it. *)
Theorem convert_graph_keeps_inputs (fuel : nat) (s : gstate) (g : graph_proto) (op : nat)
        (out : expr) (s' : gstate) (f : func) (tbl : odict value) :
  scope_wf s -> convert_graph fuel s g op = Ok (out, s') -> finish s' out = Ok (f, tbl) ->
  forall k, In k (input_names s') -> exists t, In (Var k t) (fn_params f).
Proof.
  intros Hs Hg Hf k Hk. pose proof (convert_graph_at_pres _ wf_closed _ _ _ _ _ _ _ Hs Hg) as Hw.
  destruct (od_keys_get _ _ (wf_names_inputs _ Hw _ Hk)) as [e He].
  destruct (wf_inputs_vars _ Hw _ _ He) as [t ->].
  exists t. exact (finish_keeps_inputs _ _ _ _ Hf _ _ He).
Qed.

End Importer.

(** ** Instances *)

(** The importer with the operator rules outside the model reporting
    [OpNotImplemented], as for an operator missing from the map. *)
#[export] Instance unmodelled : OpOracle := fun cls _ _ _ _ => Err (OpNotImplemented [cls]).

(** The cells of frontend/common.py left undefined: every recurrent node
    fails. *)
#[export] Instance no_cells : RnnCells := {|
  unbind _ := Err (OpNotImplemented ["unbind"]);
  lstm_cell _ _ _ _ _ _ := Err (OpNotImplemented ["lstm_cell"]);
  gru_cell _ _ _ _ _ := Err (OpNotImplemented ["gru_cell"])
|}.

(** numpy's draw fixed, for the examples. *)
#[export] Instance fixed_seed : NpRandom := 0%Z.

Lemma from_onnx_unsupported_first_witness :
  let node op := NodeProto "" op ["x"] ["y"] [] in
  let model := ModelProto (GraphProto [node "Foo"; node "Add"; node "Foo"; node "Bar"] [] [] [])
                          (Some 13) in
  from_onnx 1 model [] (DtypeStr "float32") None false = Err (OpNotImplemented ["Foo"; "Bar"]).
Proof.
  intros node model.
  set (s0 := set_opset (new_scope (Config [] (DtypeStr "float32") false) true) 13).
  rewrite (from_onnx_unsupported_first 0 model [] (DtypeStr "float32") None false s0 s0).
  - vm_compute. reflexivity.
  - reflexivity.
  - reflexivity.
  - reflexivity.
  - vm_compute. discriminate.
Defined.

Lemma from_onnx_freeze_roundtrip_witness :
  let t := TensorProto "w" [2] 7 [3; 4]%Z in
  let arr := VTensor "int64" [2] [3; 4]%Z in
  let model := ModelProto (GraphProto [] [t] [] [ValueInfo "w" [] 7]) (Some 13) in
  from_onnx 1 model [] (DtypeStr "float32") None false =
  Ok (Func [Var "w" (TType [DInt 2] "int64")] (Var "w" (TType [DInt 2] "int64")), [("w", arr)]).
Proof.
  intros t arr model.
  apply (from_onnx_freeze_roundtrip 0 t arr (ValueInfo "w" [] 7) (DtypeStr "float32") None
                                    (Some 13) false); reflexivity.
Defined.

Lemma convert_graph_fuel_enough_witness :
  let body := GraphProto [] [] [] [] in
  let attr := AttributeProto "then_branch" None None None (Some body) [] [] [] None [] [] in
  let g := GraphProto [NodeProto "" "If" ["c"] ["y"] [attr]] [] [] [] in
  convert_graph 5 (new_scope (Config [] (DtypeStr "") false) true) g 13 =
  convert_graph 2 (new_scope (Config [] (DtypeStr "") false) true) g 13.
Proof. intros body attr g. apply convert_graph_fuel_enough. simpl. lia. Defined.

(** Two declared inputs, the output reads only [x]. *)
Definition two_inputs : graph_proto :=
  GraphProto [] [] [ValueInfo "x" [] 1; ValueInfo "y" [] 1] [ValueInfo "x" [] 1].

Lemma convert_graph_wf_witness :
  exists out s', convert_graph 1 (new_scope (Config [] (DtypeStr "") false) true) two_inputs 13
                 = Ok (out, s') /\ scope_wf s'.
Proof.
  do 2 eexists. split; [reflexivity|].
  eapply (convert_graph_wf 1 (new_scope (Config [] (DtypeStr "") false) true) two_inputs 13).
  - split; simpl; (constructor || easy).
  - reflexivity.
Defined.

Lemma convert_graph_keeps_inputs_witness :
  exists out s' f tbl,
    convert_graph 1 (new_scope (Config [] (DtypeStr "") false) true) two_inputs 13 = Ok (out, s') /\
    finish s' out = Ok (f, tbl) /\ out = Var "x" (TType [] "float32") /\
    exists t, In (Var "y" t) (fn_params f).
Proof.
  do 4 eexists. split; [reflexivity|]. split; [reflexivity|]. split; [reflexivity|].
  eapply (convert_graph_keeps_inputs 1 (new_scope (Config [] (DtypeStr "") false) true)
            two_inputs 13).
  - split; simpl; (constructor || easy).
  - reflexivity.
  - reflexivity.
  - simpl. auto.
Defined.

End Importer.
