(* ===== verification/Scenarios.v ===== *)
(** * Scenarios: whole imports of small models, evaluated

    The end-to-end behaviours of section 8 of the design, on the importer
    of [Importer.v] with the operator rules that this development does
    not model answering [OpNotImplemented] ([Importer.unmodelled]; the
    models here only use [Identity] and [Add], which are modelled):
    an [If] on a boolean initializer selects the constant of the branch
    the condition names; a [Loop] body that reads an
    initializer of the enclosing graph promotes it to a parameter of the
    top-level function.  The imported function is run by [IR.eval]. *)

From Stdlib Require Import String List Bool Arith Lia ZArith.
From S2P Require Import Prelude Proto IR Attrs Ops Scope ControlFlow Importer.
Import ListNotations.
Local Open Scope string_scope.
Local Open Scope list_scope.

Module Scenarios.
Import Proto IR Attrs Ops Scope ControlFlow Importer.

(** An attribute holding a graph. *)
Definition graph_attr (name : string) (g : graph_proto) : attribute_proto :=
  AttributeProto name None None None (Some g) [] [] [] None [] [].

(** A scalar [int64] or [bool] initializer. *)
Definition int_init (name : string) (z : Z) : tensor_proto := TensorProto name [] 7 [z].
Definition bool_init (name : string) (b : bool) : tensor_proto := TensorProto name [] 9 [b2z b].

Definition out (name : string) : value_info := ValueInfo name [] 0.

(** ** If on a constant condition *)

(** Each branch returns, through [Identity], a constant of its own. *)
Definition if_model (c : bool) (a b : Z) : model_proto :=
  let thn := GraphProto [NodeProto "ta" "Identity" ["a"] ["ra"] []] [int_init "a" a] [] [out "ra"] in
  let els := GraphProto [NodeProto "tb" "Identity" ["b"] ["rb"] []] [int_init "b" b] [] [out "rb"] in
  ModelProto (GraphProto [NodeProto "if" "If" ["c"] ["y"]
                                    [graph_attr "then_branch" thn; graph_attr "else_branch" els]]
                         [bool_init "c" c] [] [out "y"]) (Some 13).

(** ** Counted loop with a scan output *)

(** The body: [y = x + one], the condition passed through, and [y] as a
    scan output. *)
Definition loop_body (one_inside : bool) : graph_proto :=
  GraphProto [NodeProto "add" "Add" ["x"; "one"] ["y"] [];
              NodeProto "idc" "Identity" ["c_in"] ["c_out"] [];
              NodeProto "ids" "Identity" ["y"] ["s"] []]
             (if one_inside then [int_init "one" 1] else [])
             [ValueInfo "i" [] 7; ValueInfo "c_in" [] 9; ValueInfo "x" [] 7]
             [out "c_out"; out "y"; out "s"].

(** [Loop(M, cond, x0)] with [M = m], [cond = true], [x0 = 0]; with
    [one_inside = false] the constant [one] is an initializer of the
    enclosing graph that the body reads. *)
Definition loop_model (m : Z) (one_inside : bool) : model_proto :=
  ModelProto (GraphProto [NodeProto "loop" "Loop" ["M"; "cond"; "x0"] ["xf"; "scan"]
                                    [graph_attr "body" (loop_body one_inside)]]
                         ([int_init "M" m; bool_init "cond" true; int_init "x0" 0]
                          ++ if one_inside then [] else [int_init "one" 1])
                         [] [out "xf"; out "scan"]) (Some 13).

(** Import a model and run the function on its parameter table. *)
Definition run (model : model_proto) (freeze : bool) : option value :=
  match from_onnx 5 model [] (DtypeStr "float32") None freeze with
  | Ok (f, ps) => eval 100 ps (fn_body f)
  | Err _ => None
  end.

Definition param_names (model : model_proto) (freeze : bool) : result (list string) :=
  let* '(f, _) := from_onnx 5 model [] (DtypeStr "float32") None freeze in
  Ok (map (fun e => match e with Var n _ => n | _ => "" end) (fn_params f)).

(** ** Theorems *)

(** (C8) Conditional inlining: the imported [If] returns the then-branch's
    constant when the condition initializer is true and the
    else-branch's when it is false, for both values and any constants,
    frozen or not. *)
Theorem if_selects_branch (c freeze : bool) (a b : Z) :
  run (if_model c a b) freeze = Some (VTensor "int64" [] [if c then a else b]).
Proof. destruct c, freeze; vm_compute; reflexivity. Qed.

(** Free-variable promotion: without freezing, the initializer [one]
    of the enclosing graph that only the loop body reads is a parameter
    of the top-level function, after the loop's own inputs. *)
Theorem loop_promotes_free_variable :
  param_names (loop_model 5 false) false = Ok ["M"; "cond"; "x0"; "one"].
Proof. vm_compute. reflexivity. Qed.

End Scenarios.
